(* ===== verification/_CoqProject ===== *)
-Q . S2P
Prelude.v
Sorting.v
Text.v
Scalar.v
Float64.v
Pyfloat.v
Frame.v
Similarity.v
Collaborative.v
Content.v
Rating.v
Store.v
Io.v
Cli.v
Gui.v
Display.v
Console.v
Dataset.v
Exact.v
Scenarios.v
