(* ===== verification/Prelude.v ===== *)
(** * A verification development for the Movie Recommender System

    ** The program

    The repository is a small recommender written in Python on top of pandas,
    numpy and scikit-learn.  It has three source files:

    - [src/main.py]: the command-line program.  It builds the sample data
      (ten movies with their genres, five users with their ratings, the
      genre vocabulary and the movie-by-genre matrix), defines
      [recommend_collaborative] (user-based collaborative filtering) and
      [recommend_content_based] (genre-based filtering), both with an
      optional explanation, and a prompt sequence [main] that can also store one
      new rating.
    - [src/Movie_recommender_GUI.py]: a tkinter form [MovieRecommenderGUI]
      whose methods [recommend_collaborative] and [recommend_content_based]
      repeat the two algorithms without the explanation, and whose dialog
      [rate_new_movie]/[submit_rating] stores one new rating after a range
      check.
    - [src/movie_recommender.py]: the same sample data, handed to the form.

    Both recommenders rest on one computation, the cosine similarity of the
    rows of a matrix, which the sources call from scikit-learn.  The data is
    held in pandas frames: a table of cells with a list of row labels (the
    index) and a list of column labels.  A missing rating is the
    floating-point NaN.

    ** The files of the development, in dependency order

    - [Prelude] (this file): what every component shares.  The exceptions
      the sources can raise and the [result] monad that carries them; the
      Python built-ins the algorithms use, each as an executable function:
      label lookup ([get_loc]), slicing [l[:n]] with a possibly negative [n]
      ([py_slice_to]), the insertion-ordered dictionary ([dict_set]), and the
      stable sorts ([insertion_sort], [sorted_reverse]); the generic lemmas
      on them; the hint database [recsys] and the tactics [inv_result] and
      [case_if].
    - [Sorting]: what a stable sort promises, as a specification
      ([stable_sorted], [stable_sorted_desc]: a permutation, in order, with
      the items that compare equal in the order they had), the proof that
      the specification determines the result, and the proof that
      [insertion_sort] and [sorted_reverse] meet it on a strict weak order.
      The lemmas on sublists, filters and [StronglySorted] that the ranking
      theorems share.
    - [Text]: Python's string methods on ASCII text ([strip], [lower],
      [join]) and [int()] on decimal text ([py_int]), with the lemmas on
      texts of digits that the conversions share; [int(str(z))] is [z].
    - [Scalar]: the arithmetic the sources use on cells, as the operational
      class [Scalar] (zero, one, sum, product, quotient, square root, the
      comparisons [<] and [==], the NaN test, conversion from an integer) and
      the classes of laws that the theorems of the components assume:
      [ScalarComm] (sum and product commute), [ScalarOrder] ([<] is
      asymmetric and false on NaN), [ScalarWeakOrder] ([not <] is
      transitive through a number) and [ScalarNaN] ([nan] is NaN, zero is
      not).  The order of numpy, [np_lt], which puts NaN above every
      number, is a strict weak order on every such type.
    - [Float64]: the instance of [Scalar] on the kernel's binary64 floats,
      which is the arithmetic Python, numpy and pandas run on.  The laws are
      proved from the specification of the primitive operations
      ([FloatAxioms]).  Every definition of the development evaluates on it
      with [vm_compute].  Rounding an integer or a quotient never gives
      NaN, and away from NaN the order is total.
    - [Pyfloat]: the conversions between text and binary64, in exact
      integer arithmetic: [py_float] (the grammar of [float()] and the
      nearest float, ties to even), [format_2f] (the format [:.2f]) and
      [float_str] ([str] and [repr]: the shortest decimal that reads
      back).  Theorems: [float()] raises nothing but [ValueError], returns
      NaN for the spellings of [nan] only, reads the text of an integer as
      the float of the integer, and reads the text [:.2f] shows as the
      decimal of two places nearest to the float.
    - [Frame]: the pandas frame ([DataFrame]) and series ([Series]) with the
      operations the sources call: [df_loc_row], [df_col], [df_loc],
      [df_loc_set] (with pandas' enlargement when a label is new), [fillna],
      [df_T], [drop], [sort_values_desc], [head], [isna_index].  The
      well-formedness invariant [df_wf] (a rectangle of cells, labels without
      repetition) and its preservation by each operation; a cell read by
      its labels is the cell at their positions ([df_loc_cell]).  What the two
      library sorts guarantee: [sort_values_desc] puts no value before a
      greater one and NaN last, and of two positions of a reversed
      [argsort] the first holds the greater value or, on equal values, the
      later position.
    - [Similarity]: [cosine_similarity] and [cosine_similarity2] as
      scikit-learn computes them (rows divided by their norm, a zero norm
      replaced by one, then dot products).  Shape, symmetry, agreement of the
      two-argument form with a row of the table.
    - [Collaborative]: [Main.recommend_collaborative] of [src/main.py] and
      [GUI.recommend_collaborative] of [src/Movie_recommender_GUI.py], each
      with all its steps: the similarity table of the users, the two nearest
      neighbours, the unrated movies, the weighted average of each, the sort
      and the slice.  Theorems: the error on an unknown user, totality on a
      well-formed frame, the result holds only movies the user has not
      rated, has no repetition, has the length the slice gives, is ordered by
      decreasing score; the two implementations agree.  The ranking
      theorems (section [ranking]): the function implements its
      specification [recommends], the head of a stable descending sort of
      the scores, which has one solution only; no movie left out has a
      score above a movie returned; movies of equal score keep the order
      of the rows; the two neighbours are the two nearest users.  The
      explanation (section [explanation]) has one line for every unrated
      movie a neighbour has rated, whatever the count, and each line cites
      the neighbours that rated the movie.
    - [Content]: [Main.recommend_content_based] and
      [GUI.recommend_content_based] with the loop over [argsort] and its
      [break].  Theorems: the empty result on an unknown title and totality
      on a well-formed matrix, the reference movie is never returned, the
      length bound for a positive count, what the loop does for a count
      that is not positive ([recommend_content_based_nonpositive]: every
      movie but the reference for a negative count; for zero, nothing when
      the reference is ranked first, every other movie when it is not); for
      a positive count the loop
      returns the first [top_n] of the ranked movies other than the
      reference ([recommend_content_based_take]); the explanation has one
      line per movie returned, with the genres it shares with the
      reference; the two implementations agree.  The ranking theorems (section [content_ranking]): no movie
      left out is more similar to the reference than a movie returned, and
      among equal similarities the later row comes first.
    - [Rating]: the rating dialog of the form as pure functions,
      [GUI.rate_new_movie] (the movies the selected user has not rated) and
      [GUI.submit_rating] (parse, range check, assignment), with the
      [outcome] the operator is told.  Theorems: rejection outside
      [[1,5]] and on text that is not a number, the cell read back after a
      success, the other cells unchanged, a failure leaves the frame as it
      was, the invariant is preserved, and a movie rated by a user is never
      recommended to that user afterwards.
    - [Store]: the one way both programs change the ratings, as an abstract
      machine: [rate guard accept] sets a cell whose value passes [guard]
      to a rating that passes [accept].  [form_store] is the machine of
      the form (any cell, a rating that passes the range check
      [in_range]), [cli_store] the machine of the command line (a cell
      that holds NaN, any number).  What a run of the machine keeps: the
      labels, [df_wf], and for each cell its first value or an accepted
      rating.
    - [Io]: the monad [io S] of programs with a state and exceptions (the
      state reached before an exception is kept), its operations ([lift],
      [get], [modify], [try_except], [for_each], [when]), the [world] of a
      terminal program ([stdin], [stdout], [ratings]), and a
      weakest-precondition calculus [wp] with one rule per operation and
      the tactic [wp_step]; [wp_result] turns a postcondition that fixes
      the final state into the equation of a run, and [wp_for_each_emit]
      is the rule of a loop that only prints.  A second calculus relates
      two runs: [io_rel R P] holds of two programs that take states related
      by [R] to states related by [R] with results related by [P]; it has
      one rule per operation and the tactic [rel_go].
    - [Cli]: [main] of [src/main.py] as a program of [io] over the world:
      every [input], every [print], the two branches
      ([collaborative_branch], [content_branch]), the rating step
      ([rate_step]) and the [try]/[except ValueError] around [int(...)]
      ([read_top_n]); the string methods it calls ([strip], [lower],
      [join]) and [int()] on decimal text ([py_int]).  Theorems: a
      specification of each part in [wp]; [main] raises nothing but
      [EOFError], returns when seven lines can be read, and refines
      [cli_store]: a run leaves the ratings as they were or fills one cell
      that held NaN; the rating step has no range check; a count that is
      not a number becomes 3.  The session theorems give a whole run as an
      equation: the lines read, the ratings at the end, and the output,
      which is the menu and the questions ([questions]) followed by
      [collaborative_output] or [content_output], the lines the branch
      prints for what the recommender returns.  [main_collaborative_session]
      and [main_content_session] are the runs of the two branches that
      leave the ratings as they were; [main_rating_session] is the run that
      ends with a rating, stored with no check of its range
      ([rating_output]); [main_refuses] gives the three runs that end before
      any recommendation (a choice other than 1 and 2, an unknown user, an
      unknown movie), and [rate_step_refused] the two ways the rating step
      refuses.
    - [Gui]: [MovieRecommenderGUI] as a state machine.  The state [gui] is
      the fields of the object and the content of its widgets; [Form.init]
      is [__init__]; each callback ([Form.recommend_click],
      [Form.user_user_matrix_click], [Form.genre_matrix_click],
      [Form.user_rating_dist_click], [Form.rate_new_movie],
      [Form.submit_rating]) is a program of [io] over [gui]; [Form.handle]
      dispatches an [action], [Form.enabled] says which actions the widgets
      allow, [Form.step] is the transition relation, [Form.reachable] its
      closure and [Form.run] its executable form.  Theorems: the invariant
      [gui_inv] holds when the form opens and in every reachable state, the
      movies and the genre matrix never change, a callback raises nothing
      but the [TclError] of [IntVar.get], and what "Recommend" writes to
      the result box with either filter.  The button of a dialog sets the
      cell of the dialog's user and movie whatever it holds by then: a
      dialog left open replaces a rating stored since it was opened.  The
      form refines [form_store] with stuttering: each
      step is a step of the machine or leaves the ratings as they were, so
      a cell of a reachable state holds its first value or a rating that
      passed the range check.  Liveness: from every state of the invariant
      the five actions [Form.rate_actions] are allowed one after the other
      and store a rating in range in a cell that held NaN.  The dialog and
      the recommender composed: with the collaborative filter the click
      lists only movies the selected user has not rated
      ([recommend_click_only_unrated]), and after a movie was rated through
      the dialog the next click does not list it
      ([rated_movie_not_listed]); a text the dialog refuses leaves the
      ratings and the dialog as they were ([submit_rating_refused]).
    - [Display]: what was written is never read back.  With the relational
      calculus of [Io], [main] run after some output was written is [main]
      run from an empty output with that output in front
      ([main_output_frame]); every callback of the form and every run of
      actions take two states that differ in the result box and in what
      was shown before to two states that differ in the same way
      ([handle_shown], [run_shown]).  [same_form], equality up to the
      result box, is an equivalence for which [Form.run] is [Proper]; a
      click on "Get Recommendations" can be taken out of any sequence of
      actions without changing the form reached
      ([recommend_click_transparent]).
    - [Console]: the two ends closed with the conversions of [Pyfloat]: the
      text of every line [main] writes ([render_event], [transcript]), of
      every explanation line ([render_explain]) and of every message box
      of the form ([render_display]); the handler of the form with
      [float()] as its parser stores a number from 1 to 5, or NaN when the
      operator typed [nan].
    - [Dataset]: the sample data of [src/main.py] ([Main]) and of
      [src/movie_recommender.py] ([Launcher]), the genre vocabulary
      [all_genres] and [genre_matrix] computed as the sources compute them,
      and [Launcher.run_gui], the form as the launcher opens it.
    - [Exact]: the arithmetic without rounding.  [ScalarExact] is the
      interface of a [Scalar] whose numbers stand for reals and whose
      operations are the operations of the reals; [ideal], the reals with
      NaN, is its instance, and has every law of [Scalar].  On such
      scalars a cell of the similarity table stands for the cosine of the
      two rows, the similarity of two users is between 0 and 1 and that
      of a user with themself is 1, the score of a movie is zero or
      within the range of the ratings, hence a number, so that
      [Main.recommend_collaborative] meets its specification [recommends]
      with no condition on the scores; the similarities of the content
      filter are between 0 and 1, with 1 for the reference movie itself.
      Binary64 is not an instance.
    - [Scenarios]: the recommenders, [main] and the form evaluated on the
      sample data on binary64, with [float()] as the parser and the
      transcript as text (closed statements proved by evaluation), and the
      general theorems of the other files applied to that data.

    ** Modelling decisions

    - _Numbers._  A cell is a value of a type [T] with a [Scalar] instance.
      On [float] each operation is the IEEE 754 binary64 operation of the
      kernel, rounding included, so a run of the model is a run of the
      arithmetic of the sources.  A missing rating is a NaN cell, as in
      pandas, and not a separate constructor: [isnan] finds it and
      [fillna] replaces it.  What holds of the algorithm but not of its
      rounded run (a diagonal of ones, scores within the range of the
      ratings) is proved in [Exact] for the scalars that compute on the
      reals, and is stated of them only.
    - _Labels._  Row and column labels are strings.  A label is looked up at
      its first position ([get_loc]); a label that is absent raises
      [KeyError].  pandas returns a sub-frame when a label is repeated: the
      theorems that depend on it assume [df_wf], which forbids repetition,
      and the sample data satisfies it.
    - _Errors._  A Python exception is the value [Raise e] of [result]; a
      function that can raise returns a [result].  Nothing is caught in the
      algorithms.  The two handlers that catch [ValueError]
      ([submit_rating] of the form, [read_top_n] of [main]) are modelled
      with [try_except] or with the branch they take; an exception that
      nothing catches ends the program ([main]) or the callback (the
      form), with the state as it was when it was raised.
    - _Input and output._  The terminal is the list of lines still to be
      read and the list of events written so far.  An event is the text of
      a [print] or of a prompt, or, for a line that shows floats or for a
      plot, a constructor that carries the data shown.  The form records
      its message boxes and plots in the field [displayed] in the same
      way.
    - _Parsing and printing._  [int()] is modelled on optionally signed
      ASCII decimal text between white space ([py_int]), [float()] on the
      ASCII grammar of Python ([py_float]).  The value of a decimal is the
      nearest binary64, computed with the division of [SpecFloat] on
      integers of any size, so no precision is lost before the one
      rounding.  [str] of a float searches, from 1 to 17 digits, the
      shortest decimal that [py_float] reads back as the float; 17 digits
      always suffice for binary64, which is not proved here, and the
      function falls back on the nearest decimal of 17 digits.  The
      sections that model the callers of [float()] and of [IntVar.get]
      take the conversion as a parameter ([parse_float], [getint]): their
      theorems hold for every parser, and [Console] and [Scenarios]
      instantiate [parse_float] with [py_float], [getint] with [py_int]
      (raising [TclError]).
    - _The operator._  Selecting a value in a list, typing in an entry and
      clicking a button are the constructors of [action].  A read-only
      list offers only its values: this is [Form.enabled], written from the
      [state="readonly"] of the widgets.  Closing a dialog is not an
      action: an open dialog stays in the list [dialogs], which is the
      case the theorems have to cover.
    - _Library code._  pandas, numpy and scikit-learn are not part of the
      repository.  Each call is modelled by a definition named after it,
      written from the documented behaviour of the library:
      [cosine_similarity] normalises rows and multiplies, a dot product is
      summed from left to right starting at zero; [np.argsort] and
      [Series.sort_values] are stable on the sizes the program has (numpy
      sorts an array of at most sixteen cells by insertion); [sorted] is
      CPython's stable sort, with [reverse=True] as a reversal before and
      after.  The stable sort is the insertion sort [insertion_sort].
      This choice loses nothing: [Sorting] proves that on a strict weak
      order every algorithm that meets the specification of a stable sort
      returns the list [insertion_sort] returns, and the scores and
      similarities are compared with such an order as long as the scores
      are numbers (the comparison [<] of floats is not a weak order on
      NaN, which is why the ranking theorems of [Collaborative] ask for
      scores that are numbers; the order [np_lt] of numpy is one
      unconditionally).
    - _No fuel._  Every loop of the sources runs over a finite list, so each
      definition is a structural [Fixpoint] or a fold, and is total.

    ** What is not modelled, and what is not proved

    - The rendering of the plots ([plot_similarity_matrix],
      [plot_user_ratings] and the three plot callbacks of the form): the
      drawing is done by matplotlib and seaborn and returns nothing to the
      program.  The model records that a plot was asked for, with the
      table, the title and the labels it was given ([PlotSimilarity],
      [PlotUserRatings], [Heatmap], [BarChart]).
    - The geometry of the widgets built by [__init__] (fonts, colours,
      packing): it has no effect on the state.  What the widgets allow the
      operator to do is modelled ([Form.enabled]).
    - [IntVar.get] is the parameter [getint].  Tcl converts the text of
      the entry with its own syntax of integers (decimal, hexadecimal,
      octal and binary literals, white space) and tkinter falls back to a
      conversion through a float; this code is in the interpreter and in
      Tcl, not in the repository, and differs between their versions.  The
      theorems of [Gui] and [Display] hold for every [getint].
    - Digits outside ASCII in [int()] and [float()].
    - The summation order of the BLAS routine behind [cosine_similarity]:
      the model sums from the left.
    - Rounding error.  No theorem bounds the distance between a binary64
      result and the exact one: the theorems of [Exact] are about scalars
      that compute without rounding, and those of the other files hold for
      binary64 with the rounding it has.  Such a bound needs an analysis of
      the rounding of each operation, which the kernel's specification of
      the floats supports but for which no library is loaded here.
    - [float(str(x)) = x].  [float_str] searches the shortest digits that
      [py_float] reads back as the float, so the round trip holds whenever
      the search succeeds; that it always does within 17 digits is a
      theorem about binary64 that is not proved here. *)

From Stdlib Require Import ZArith.
From stdpp Require Import list strings sorting.

Create HintDb recsys discriminated.

(** ** Exceptions and the [result] monad *)

(** The exceptions the modelled code can raise: a label that is not in an
    index, a position that is out of range, [int()] or [float()] applied to
    text that is not a number, [input()] at the end of the input, and a
    Tk variable whose text is not of its type. *)
Inductive exn : Type :=
| KeyError (label : string)
| IndexError
| ValueError
| EOFError
| TclError.

Inductive result (A : Type) : Type :=
| Ok (a : A)
| Raise (e : exn).
Arguments Ok {A} a.
Arguments Raise {A} e.

#[export] Instance exn_eq_dec : EqDecision exn.
Proof. solve_decision. Defined.

#[export] Instance result_eq_dec {A} `{EqDecision A} : EqDecision (result A).
Proof. solve_decision. Defined.

#[export] Instance result_ret : MRet result := @Ok.

#[export] Instance result_bind : MBind result :=
  λ A B f m, match m with Ok a => f a | Raise e => Raise e end.

#[export] Instance result_fmap : FMap result :=
  λ A B f m, match m with Ok a => Ok (f a) | Raise e => Raise e end.

Definition is_Ok {A} (m : result A) : Prop := ∃ a, m = Ok a.

(** ** Python built-ins *)

(** [Index.get_loc]: the position of a label, [KeyError] when it is absent. *)
Fixpoint index_of (x : string) (l : list string) : option nat :=
  match l with
  | [] => None
  | y :: l' => if decide (x = y) then Some 0 else S <$> index_of x l'
  end.

Definition get_loc (x : string) (l : list string) : result nat :=
  match index_of x l with
  | Some i => Ok i
  | None => Raise (KeyError x)
  end.

(** [l[:n]]: the first [n] items, or all but the last [-n] when [n] is
    negative. *)
Definition py_slice_to {A} (n : Z) (l : list A) : list A :=
  if (0 <=? n)%Z then take (Z.to_nat n) l
  else take (length l - Z.to_nat (- n)) l.

(** A [dict]: keys in the order of their first insertion. *)
Fixpoint dict_set {V} (k : string) (v : V) (d : list (string * V))
  : list (string * V) :=
  match d with
  | [] => [(k, v)]
  | (k', v') :: d' =>
      if decide (k = k') then (k, v) :: d' else (k', v') :: dict_set k v d'
  end.

(** Stable sorting by insertion, for a comparison [lt] standing for [<]. *)
Section sorting.
Context {A : Type} (lt : A → A → bool).

Fixpoint insert_sorted (x : A) (l : list A) : list A :=
  match l with
  | [] => [x]
  | y :: l' => if lt x y then x :: y :: l' else y :: insert_sorted x l'
  end.

Definition insertion_sort (l : list A) : list A :=
  foldl (λ acc x, insert_sorted x acc) [] l.

(** [sorted(l, reverse=True)]: reverse, sort, reverse again. *)
Definition sorted_reverse (l : list A) : list A :=
  reverse (insertion_sort (reverse l)).

End sorting.

(** The line feed. *)
Definition nl : string := String (Ascii.ascii_of_nat 10) EmptyString.

(** A loop whose body can raise: the fold stops at the first exception. *)
Fixpoint foldlM {A B} (f : A → B → result A) (a : A) (l : list B) : result A :=
  match l with
  | [] => Ok a
  | x :: l' => a' ← f a x; foldlM f a' l'
  end.

(** ** Tactics *)

(** Case analysis on the first [if] or [decide] of the goal. *)
Ltac case_if :=
  match goal with
  | |- context [if ?b then _ else _] => destruct b eqn:?
  end.

(** Turns a hypothesis [m ≫= f = Ok b] into the two facts it holds. *)
Ltac inv_result :=
  repeat match goal with
  | H : Raise _ = Ok _ |- _ => discriminate H
  | H : Ok _ = Raise _ |- _ => discriminate H
  | H : Ok _ = Ok _ |- _ => injection H as H; try subst
  | H : Raise _ = Raise _ |- _ => injection H as H; try subst
  | H : context [mbind _ ?m] |- _ =>
      let E := fresh "E" in destruct m eqn:E; simpl in H
  | H : context [fmap (M:=result) _ ?m] |- _ =>
      let E := fresh "E" in destruct m eqn:E; simpl in H
  end.

(** Proves a closed decidable proposition by evaluating its decision
    procedure. *)
Ltac by_compute := apply (bool_decide_unpack _); vm_compute; exact I.

(** Proves a closed equation between a term and its value, which may leave
    parts of the value to be filled in, by evaluation. *)
Ltac by_eval := vm_compute; reflexivity.

(** ** Lemmas on the result monad *)

Lemma bind_Ok {A B} (f : A → result B) (m : result A) (b : B) :
  m ≫= f = Ok b ↔ ∃ a, m = Ok a ∧ f a = Ok b.
Proof. destruct m; simpl; split; [eauto| |done|]; intros (?&?&?); congruence. Qed.

Lemma fmap_Ok {A B} (f : A → B) (m : result A) (b : B) :
  f <$> m = Ok b ↔ ∃ a, m = Ok a ∧ b = f a.
Proof.
  destruct m; simpl; split; try done.
  - intros [= <-]; eauto.
  - intros (?&[= <-]&->); done.
  - intros (?&?&?); done.
Qed.

Lemma bind_Raise {A B} (f : A → result B) (m : result A) (e : exn) :
  m = Raise e → m ≫= f = Raise e.
Proof. by intros ->. Qed.

(** ** Lemmas on label lookup *)

Lemma index_of_Some x l i : index_of x l = Some i → l !! i = Some x.
Proof.
  revert i; induction l as [|y l IH]; intros i; simpl; [done|].
  case_decide as Hxy; [by intros [= <-]; simplify_eq|].
  destruct (index_of x l) as [j|]; simpl; [|done].
  intros [= <-]. by apply IH.
Qed.

Lemma index_of_None x l : index_of x l = None ↔ x ∉ l.
Proof.
  induction l as [|y l IH]; simpl; [by split; [intros _; apply not_elem_of_nil|]|].
  rewrite elem_of_cons. case_decide as Hxy; [naive_solver|].
  destruct (index_of x l); simpl; naive_solver.
Qed.

Lemma index_of_is_Some x l : is_Some (index_of x l) ↔ x ∈ l.
Proof.
  rewrite <- not_eq_None_Some, index_of_None.
  destruct (decide (x ∈ l)); naive_solver.
Qed.

Lemma index_of_lt x l i : index_of x l = Some i → i < length l.
Proof. intros H%index_of_Some. by eapply lookup_lt_Some. Qed.

Lemma index_of_first x l i j :
  index_of x l = Some i → l !! j = Some x → i ≤ j.
Proof.
  revert i j; induction l as [|y l IH]; intros i j; simpl; [done|].
  case_decide as Hxy; [intros [= <-]; lia|].
  destruct (index_of x l) as [k|] eqn:E; simpl; [|done].
  intros [= <-]. destruct j as [|j]; simpl; [congruence|].
  intros Hj. specialize (IH k j eq_refl Hj). lia.
Qed.

Lemma index_of_NoDup l i x : NoDup l → l !! i = Some x → index_of x l = Some i.
Proof.
  intros Hnd Hi.
  destruct (index_of x l) as [j|] eqn:E.
  - f_equal. eapply NoDup_lookup; eauto using index_of_Some.
  - apply index_of_None in E. by apply list_elem_of_lookup_2 in Hi.
Qed.

Lemma get_loc_Ok x l i : get_loc x l = Ok i ↔ index_of x l = Some i.
Proof. unfold get_loc. destruct (index_of x l); naive_solver. Qed.

Lemma get_loc_Raise x l e : get_loc x l = Raise e ↔ (x ∉ l) ∧ e = KeyError x.
Proof.
  unfold get_loc. rewrite <- index_of_None.
  destruct (index_of x l); naive_solver.
Qed.

Lemma get_loc_is_Ok x l : is_Ok (get_loc x l) ↔ x ∈ l.
Proof.
  rewrite <- index_of_is_Some. unfold is_Ok, get_loc, is_Some.
  destruct (index_of x l); naive_solver.
Qed.

(** ** Lemmas on slicing *)

Section slicing.
Context {A : Type}.
Implicit Types (l : list A) (n : Z).

Lemma py_slice_to_nonneg n l :
  (0 ≤ n)%Z → py_slice_to n l = take (Z.to_nat n) l.
Proof. intros Hn. unfold py_slice_to. by rewrite (proj2 (Z.leb_le 0 n) Hn). Qed.

Lemma py_slice_to_neg n l :
  (n < 0)%Z → py_slice_to n l = take (length l - Z.to_nat (- n)) l.
Proof. intros Hn. unfold py_slice_to. by rewrite (proj2 (Z.leb_gt 0 n) Hn). Qed.

Lemma py_slice_to_take n l : ∃ k, py_slice_to n l = take k l.
Proof. unfold py_slice_to. case_if; eauto. Qed.

Lemma py_slice_to_prefix n l : py_slice_to n l `prefix_of` l.
Proof. destruct (py_slice_to_take n l) as [k ->]. apply prefix_take. Qed.

Lemma py_slice_to_sublist n l : py_slice_to n l `sublist_of` l.
Proof. destruct (py_slice_to_take n l) as [k ->]. apply sublist_take. Qed.

Lemma elem_of_py_slice_to n l x : x ∈ py_slice_to n l → x ∈ l.
Proof. intros Hx. eapply elem_of_sublist; [done|apply py_slice_to_sublist]. Qed.

Lemma length_py_slice_to n l :
  length (py_slice_to n l) =
    if (0 <=? n)%Z then Z.to_nat n `min` length l
    else length l - Z.to_nat (- n).
Proof. unfold py_slice_to. case_if; rewrite length_take; lia. Qed.

Lemma py_slice_to_all n l : (Z.of_nat (length l) ≤ n)%Z → py_slice_to n l = l.
Proof. intros Hn. rewrite py_slice_to_nonneg by lia. apply take_ge. lia. Qed.

Lemma py_slice_to_fmap {B} (f : A → B) n l :
  f <$> py_slice_to n l = py_slice_to n (f <$> l).
Proof. unfold py_slice_to. rewrite length_fmap. case_if; apply fmap_take. Qed.

Lemma NoDup_py_slice_to n l : NoDup l → NoDup (py_slice_to n l).
Proof. intros Hl. eapply sublist_NoDup; [done|apply py_slice_to_sublist]. Qed.

End slicing.

(** ** Lemmas on the stable sort *)

Section sorting_lemmas.
Context {A : Type} (lt : A → A → bool).
Implicit Types (x y : A) (l : list A).

(** [ascending x y]: [y] may follow [x] in an ascending list. *)
Definition ascending x y : Prop := lt y x = false.
Definition descending x y : Prop := lt x y = false.

Lemma insert_sorted_Permutation x l : insert_sorted lt x l ≡ₚ x :: l.
Proof.
  induction l as [|y l IH]; simpl; [done|].
  case_if; [done|]. by rewrite IH, Permutation_swap.
Qed.

Lemma foldl_insert_sorted_Permutation acc l :
  foldl (λ acc x, insert_sorted lt x acc) acc l ≡ₚ acc ++ l.
Proof.
  revert acc; induction l as [|x l IH]; intros acc; simpl.
  - by rewrite app_nil_r.
  - rewrite IH, insert_sorted_Permutation. apply Permutation_middle.
Qed.

Lemma insertion_sort_Permutation l : insertion_sort lt l ≡ₚ l.
Proof. apply (foldl_insert_sorted_Permutation []). Qed.

Lemma sorted_reverse_Permutation l : sorted_reverse lt l ≡ₚ l.
Proof.
  unfold sorted_reverse.
  by rewrite reverse_Permutation, insertion_sort_Permutation, reverse_Permutation.
Qed.

Lemma elem_of_sorted_reverse x l : x ∈ sorted_reverse lt l ↔ x ∈ l.
Proof. by rewrite sorted_reverse_Permutation. Qed.

Lemma length_sorted_reverse l : length (sorted_reverse lt l) = length l.
Proof. by rewrite sorted_reverse_Permutation. Qed.

Lemma length_insertion_sort l : length (insertion_sort lt l) = length l.
Proof. by rewrite insertion_sort_Permutation. Qed.

Section sortedness.
Hypothesis lt_asym : ∀ x y, lt x y = true → lt y x = false.

Lemma insert_sorted_HdRel a x l :
  HdRel ascending a l → ascending a x → HdRel ascending a (insert_sorted lt x l).
Proof. intros [|y l' Hy] Hx; simpl; [|case_if]; by constructor. Qed.

Lemma insert_sorted_Sorted x l :
  Sorted ascending l → Sorted ascending (insert_sorted lt x l).
Proof.
  induction 1 as [|y l Hl IH Hy]; simpl; [by repeat constructor|].
  case_if.
  - repeat constructor; [done..|]. by apply lt_asym.
  - constructor; [done|]. by apply insert_sorted_HdRel.
Qed.

Lemma foldl_insert_sorted_Sorted acc l :
  Sorted ascending acc →
  Sorted ascending (foldl (λ acc x, insert_sorted lt x acc) acc l).
Proof.
  revert acc; induction l as [|x l IH]; intros acc Hacc; simpl; [done|].
  by apply IH, insert_sorted_Sorted.
Qed.

Lemma insertion_sort_Sorted l : Sorted ascending (insertion_sort lt l).
Proof. apply foldl_insert_sorted_Sorted. constructor. Qed.

Lemma sorted_reverse_Sorted l : Sorted descending (sorted_reverse lt l).
Proof. apply (Sorted_reverse ascending), insertion_sort_Sorted. Qed.

End sortedness.
End sorting_lemmas.

(** ** Lemmas on loops that can raise *)

Section foldlM_lemmas.
Context {A B : Type}.
Implicit Types (f : A → B → result A) (l : list B).

Lemma foldlM_app f l1 l2 a :
  foldlM f a (l1 ++ l2) = a' ← foldlM f a l1; foldlM f a' l2.
Proof.
  revert a; induction l1 as [|x l1 IH]; intros a; simpl; [done|].
  destruct (f a x); simpl; [apply IH|done].
Qed.

(** The rule of the loop invariant: [P pre a] relates the items already
    processed to the accumulator. *)
Lemma foldlM_invariant (P : list B → A → Prop) f l a0 a' :
  P [] a0 →
  (∀ pre x a b, pre ++ [x] `prefix_of` l → P pre a → f a x = Ok b →
     P (pre ++ [x]) b) →
  foldlM f a0 l = Ok a' → P l a'.
Proof.
  intros H0 Hstep. cut (∀ l2 l1 a, l1 ++ l2 = l → P l1 a →
    foldlM f a l2 = Ok a' → P l a').
  { intros Hcut. by apply (Hcut l [] a0). }
  induction l2 as [|x l2 IH]; intros l1 a Hl Hp; simpl.
  - intros [= <-]. by rewrite app_nil_r in Hl; subst.
  - intros (b & Hb & Hrest)%bind_Ok.
    apply (IH (l1 ++ [x]) b); [by rewrite <- app_assoc| |done].
    apply (Hstep l1 x a b); [|done..]. exists l2. by rewrite <- app_assoc.
Qed.

(** A loop whose body succeeds whenever the invariant holds succeeds. *)
Lemma foldlM_is_Ok (P : list B → A → Prop) f l a0 :
  P [] a0 →
  (∀ pre x a, pre ++ [x] `prefix_of` l → P pre a →
     ∃ b, f a x = Ok b ∧ P (pre ++ [x]) b) →
  is_Ok (foldlM f a0 l).
Proof.
  intros H0 Hstep. cut (∀ l2 l1 a, l1 ++ l2 = l → P l1 a →
    is_Ok (foldlM f a l2)).
  { intros Hcut. by apply (Hcut l [] a0). }
  induction l2 as [|x l2 IH]; intros l1 a Hl Hp; simpl; [by eexists|].
  destruct (Hstep l1 x a) as (b & -> & Hb); [|done|].
  { exists l2. by rewrite <- app_assoc. }
  simpl. apply (IH (l1 ++ [x]) b); [by rewrite <- app_assoc|done].
Qed.

(** Two loops whose bodies agree through a projection agree. *)
Lemma foldlM_simulation {A'} (π : A → A') f (f' : A' → B → result A') l a :
  (∀ a x, f' (π a) x = π <$> f a x) →
  foldlM f' (π a) l = π <$> foldlM f a l.
Proof.
  intros Hsim. revert a; induction l as [|x l IH]; intros a; simpl; [done|].
  rewrite Hsim. destruct (f a x); simpl; [apply IH|done].
Qed.

End foldlM_lemmas.

(** ** Lemmas on the dictionary *)

Section dict_lemmas.
Context {V : Type}.
Implicit Types (d : list (string * V)) (k : string) (v : V).

Lemma dict_set_fresh k v d : k ∉ d.*1 → dict_set k v d = d ++ [(k, v)].
Proof.
  induction d as [|[k' v'] d IH]; simpl; [done|].
  intros [Hk Hd]%not_elem_of_cons. rewrite decide_False by done.
  by rewrite IH.
Qed.

Lemma dict_set_keys k v d :
  (dict_set k v d).*1 = if decide (k ∈ d.*1) then d.*1 else d.*1 ++ [k].
Proof.
  induction d as [|[k' v'] d IH]; [done|]. cbn [dict_set].
  destruct (decide (k = k')) as [->|Hne]; rewrite !fmap_cons; cbn [fst].
  - rewrite decide_True; [done|left].
  - rewrite IH. destruct (decide (k ∈ d.*1)) as [Hin|Hin].
    + rewrite decide_True; [done|by right].
    + rewrite decide_False; [done|]. by intros [?|?]%elem_of_cons.
Qed.

Lemma dict_set_NoDup k v d : NoDup d.*1 → NoDup (dict_set k v d).*1.
Proof.
  intros Hd. rewrite dict_set_keys. case_decide as Hin; [done|].
  apply NoDup_app. split_and!; [done| |apply NoDup_singleton].
  by intros x Hx ->%list_elem_of_singleton.
Qed.

End dict_lemmas.

(** ** Lemmas on prefixes, for loop invariants *)

Lemma prefix_snoc_elem_of {A} (pre l : list A) x : pre ++ [x] `prefix_of` l → x ∈ l.
Proof. intros [k ->]. rewrite <- app_assoc. apply elem_of_app. right. left. Qed.

Lemma prefix_snoc_not_elem_of {A} (pre l : list A) x :
  NoDup l → pre ++ [x] `prefix_of` l → x ∉ pre.
Proof.
  intros Hl [k ->]. rewrite <- app_assoc in Hl.
  apply NoDup_app in Hl as (_ & Hx & _). intros Hin.
  apply (Hx x Hin). left.
Qed.

Lemma Sorted_take {A} (R : relation A) (l : list A) k :
  Sorted R l → Sorted R (take k l).
Proof.
  intros Hl. revert k. induction Hl as [|x l Hl IH Hx]; intros [|k]; simpl;
    try constructor; [apply IH|].
  destruct Hx as [|y l' Hy]; destruct k; simpl; by constructor.
Qed.

Lemma Sorted_py_slice_to {A} (R : relation A) (l : list A) n :
  Sorted R l → Sorted R (py_slice_to n l).
Proof.
  intros Hl. destruct (py_slice_to_take n l) as [k ->]. by apply Sorted_take.
Qed.

(** Reading a list at each of its positions gives the list back. *)
Lemma omap_lookup_seq {A} (l : list A) j n :
  j + n ≤ length l → omap (λ i, l !! i) (seq j n) = take n (drop j l).
Proof.
  revert j. induction n as [|n IH]; intros j Hj; simpl; [done|].
  destruct (lookup_lt_is_Some_2 l j) as [x Hx]; [lia|].
  rewrite Hx, (drop_S _ _ _ Hx); simpl. f_equal. apply IH. lia.
Qed.

Lemma omap_lookup_seq_all {A} (l : list A) :
  omap (λ i, l !! i) (seq 0 (length l)) = l.
Proof. rewrite omap_lookup_seq by lia. by rewrite drop_0, firstn_all. Qed.
