(* ===== verification/Sorting.v ===== *)
(** * Sorting: what a stable sort computes

    Python's [sorted], numpy's [argsort] and pandas' [sort_values] are
    library sorts, and the sources rely on one promise of theirs: the sort
    is stable.  The model sorts by insertion ([insertion_sort] and
    [sorted_reverse] of [Prelude]).  This file states the promise as a
    relation between a list and its sorted form ([stable_sorted],
    [stable_sorted_desc]) and proves that the promise determines the
    result: the insertion sort meets it, and two lists that meet it are
    equal.  Whatever algorithm the library runs, it returns the list the
    model computes.

    A comparison of floats is a strict weak order only away from NaN, so
    the theorems take a predicate [Q] that the sorted items satisfy and ask
    for the laws of the order on [Q] alone. *)

From Stdlib Require Import Lia.
From stdpp Require Import list sorting.
From S2P Require Import Prelude.

(** ** Filters and sublists *)

Section filter_lemmas.
Context {A : Type} (P : A → Prop) `{∀ x, Decision (P x)}.
Implicit Types (l : list A).

Lemma filter_nil_Forall l : Forall (λ x, ¬ P x) l → filter P l = [].
Proof.
  induction 1 as [|x l Hx _ IH]; [done|]. by rewrite filter_cons_False.
Qed.

Lemma sublist_filter_mono l1 l2 :
  l1 `sublist_of` l2 → filter P l1 `sublist_of` filter P l2.
Proof.
  induction 1 as [|x l1 l2 _ IH|x l1 l2 _ IH]; [done|..];
    rewrite !filter_cons; case_decide; try done; by constructor.
Qed.

End filter_lemmas.

Section sublist_lemmas.
Context {A : Type}.
Implicit Types (x : A) (l : list A).

Lemma elem_of_take_1 x k l : x ∈ take k l → x ∈ l.
Proof. intros Hx. eapply elem_of_sublist; [done|apply sublist_take]. Qed.

Lemma elem_of_drop_1 x k l : x ∈ drop k l → x ∈ l.
Proof. intros Hx. eapply elem_of_sublist; [done|apply sublist_drop]. Qed.

(** An item of a list is among its first [k] items or among the rest. *)
Lemma elem_of_take_drop x k l : x ∈ l → x ∈ take k l ∨ x ∈ drop k l.
Proof. rewrite <- (take_drop k l) at 1. apply elem_of_app. Qed.

Lemma sublist_reverse l1 l2 :
  l1 `sublist_of` l2 → reverse l1 `sublist_of` reverse l2.
Proof.
  induction 1 as [|x l1 l2 _ IH|x l1 l2 _ IH]; [done|..]; rewrite ?reverse_cons.
  - by apply sublist_app.
  - by apply sublist_inserts_r.
Qed.

(** A sublist of the image of a list is the image of a sublist. *)
Lemma sublist_fmap_inv {B} (f : A → B) (k : list B) l :
  k `sublist_of` f <$> l → ∃ l', k = f <$> l' ∧ l' `sublist_of` l.
Proof.
  revert k. induction l as [|a l IH]; intros k; simpl.
  - intros ->%sublist_nil_r. by exists [].
  - intros [Hk|(k' & -> & Hk)]%sublist_cons_r.
    + destruct (IH k Hk) as (l' & -> & Hl'). exists l'. split; [done|].
      by apply sublist_cons.
    + destruct (IH k' Hk) as (l' & -> & Hl'). exists (a :: l'). split; [done|].
      by apply sublist_skip.
Qed.

Lemma sublist2_fmap_inv {B} (f : A → B) (b1 b2 : B) l :
  [b1; b2] `sublist_of` f <$> l →
  ∃ a1 a2, [a1; a2] `sublist_of` l ∧ f a1 = b1 ∧ f a2 = b2.
Proof.
  intros (l' & Heq & Hl')%sublist_fmap_inv.
  destruct l' as [|a1 [|a2 [|]]]; simplify_eq/=. by exists a1, a2.
Qed.

Lemma sublist2_omap_inv {B} (f : A → option B) (b1 b2 : B) l :
  [b1; b2] `sublist_of` omap f l →
  ∃ a1 a2, [a1; a2] `sublist_of` l ∧ f a1 = Some b1 ∧ f a2 = Some b2.
Proof.
  induction l as [|a l IH]; simpl; [by intros ?%sublist_nil_r|].
  destruct (f a) as [b|] eqn:Hb.
  - intros [Hs|(l' & [= <- <-] & Hs)]%sublist_cons_r.
    + destruct (IH Hs) as (a1 & a2 & ? & ? & ?).
      exists a1, a2. split_and!; [by apply sublist_cons|done..].
    + apply singleton_sublist_l, list_elem_of_omap in Hs as (a2 & Ha2 & Hb2).
      exists a, a2. split_and!; [|done..].
      by apply sublist_skip, singleton_sublist_l.
  - intros Hs. destruct (IH Hs) as (a1 & a2 & ? & ? & ?).
    exists a1, a2. split_and!; [by apply sublist_cons|done..].
Qed.

(** Two positions of [seq] in the order of the list are increasing. *)
Lemma sublist2_seq (j n i1 i2 : nat) : [i1; i2] `sublist_of` seq j n → i1 < i2.
Proof.
  revert j. induction n as [|n IH]; intros j; simpl.
  - by intros ?%sublist_nil_r.
  - intros [Hs|(l' & [= <- <-] & Hi2)]%sublist_cons_r; [by eapply IH|].
    apply singleton_sublist_l, elem_of_seq in Hi2. lia.
Qed.

End sublist_lemmas.

(** Whether a list is a sublist of another is decided by matching its
    items greedily. *)
Section sublist_dec.
Context {A : Type} `{EqDecision A}.
Implicit Types (l : list A).

Fixpoint sublistb l1 l2 : bool :=
  match l1, l2 with
  | [], _ => true
  | _ :: _, [] => false
  | x :: l1', y :: l2' =>
      if decide (x = y) then sublistb l1' l2' else sublistb l1 l2'
  end.

Lemma sublistb_spec l1 l2 : sublistb l1 l2 = true ↔ l1 `sublist_of` l2.
Proof.
  revert l1. induction l2 as [|y l2 IH]; intros [|x l1]; simpl.
  - done.
  - split; [done|]. by intros ?%sublist_nil_r.
  - split; [intros _; apply sublist_nil_l|done].
  - rewrite sublist_cons_r. case_decide as Hxy; rewrite IH.
    + subst. split; [right; eauto|].
      intros [Hs|(l' & [= ->] & Hs)]; [|done].
      etrans; [|done]. by apply sublist_cons.
    + split; [by left|]. by intros [Hs|(l' & [= -> ->] & Hs)].
Qed.

#[export] Instance sublist_dec l1 l2 : Decision (l1 `sublist_of` l2).
Proof.
  refine (cast_if (decide (sublistb l1 l2 = true))); by rewrite <- sublistb_spec.
Defined.

End sublist_dec.

Section strongly_sorted.
Context {A : Type}.
Implicit Types (R : relation A) (l : list A).

(** A list whose items are related whatever their order is sorted. *)
Lemma StronglySorted_all R l :
  (∀ x y, x ∈ l → y ∈ l → R x y) → StronglySorted R l.
Proof.
  induction l as [|a l IH]; intros HR; constructor.
  - apply IH. intros x y Hx Hy. apply HR; by right.
  - apply Forall_forall. intros y Hy. apply HR; [left|by right].
Qed.

(** A sorted list is sorted for every relation that holds of its items
    when the first does. *)
Lemma StronglySorted_impl R R' l :
  (∀ x y, x ∈ l → y ∈ l → R x y → R' x y) →
  StronglySorted R l → StronglySorted R' l.
Proof.
  intros HR Hl. induction Hl as [|a l Hl IH Ha]; constructor.
  - apply IH. intros x y Hx Hy. apply HR; by right.
  - apply Forall_forall. intros y Hy. apply HR; [left|by right|].
    by eapply Forall_forall in Ha.
Qed.

(** The first [k] items of a sorted list are the best: each is related to
    every item that is left out. *)
Lemma StronglySorted_take_drop R l k x y :
  StronglySorted R l → x ∈ take k l → y ∈ drop k l → R x y.
Proof.
  intros Hl Hx Hy. rewrite <- (take_drop k l) in Hl.
  by apply (StronglySorted_app_1_elem_of _ _ _ _ _ Hl).
Qed.

(** Two items of a sorted list in the order of the list are related. *)
Lemma StronglySorted_sublist2 R l x y :
  StronglySorted R l → [x; y] `sublist_of` l → R x y.
Proof.
  induction 1 as [|a l Hl IH Ha]; intros Hxy; [by apply sublist_nil_r in Hxy|].
  apply sublist_cons_r in Hxy as [Hxy|(l' & [= <- <-] & Hy)]; [by apply IH|].
  eapply Forall_forall in Ha; [done|].
  eapply elem_of_sublist; [|done]. left.
Qed.

End strongly_sorted.

Section stable.
Context {A : Type} (lt : A → A → bool).
Implicit Types (x y : A) (l : list A).

(** [x] and [y] are tied: neither is below the other. *)
Definition tied x y : bool := negb (lt x y) && negb (lt y x).

(** [l'] is [l] sorted in increasing order by a stable sort: the same
    items, none below an item before it, and the items tied with an item
    of [l] in the order they have in [l]. *)
Definition stable_sorted l l' : Prop :=
  l' ≡ₚ l ∧ StronglySorted (ascending lt) l' ∧
  ∀ x, x ∈ l → filter (λ y, tied x y = true) l' = filter (λ y, tied x y = true) l.

(** The same in decreasing order, which is what [reverse=True] and
    [ascending=False] promise: ties still in the order of [l]. *)
Definition stable_sorted_desc l l' : Prop :=
  l' ≡ₚ l ∧ StronglySorted (descending lt) l' ∧
  ∀ x, x ∈ l → filter (λ y, tied x y = true) l' = filter (λ y, tied x y = true) l.

Lemma tied_sym x y : tied x y = tied y x.
Proof. unfold tied. apply andb_comm. Qed.

Lemma tied_true x y : tied x y = true ↔ lt x y = false ∧ lt y x = false.
Proof. unfold tied. rewrite andb_true_iff, !negb_true_iff. done. Qed.

Lemma StronglySorted_reverse (R : relation A) l :
  StronglySorted R l → StronglySorted (flip R) (reverse l).
Proof.
  induction 1 as [|x l Hl IH Hx]; [constructor|].
  rewrite reverse_cons. apply StronglySorted_app_2; [|done|by repeat constructor].
  intros y z Hy ->%list_elem_of_singleton. rewrite elem_of_reverse in Hy.
  unfold flip. by eapply Forall_forall in Hx.
Qed.

(** A descending stable sort is an ascending one read backwards. *)
Lemma stable_sorted_desc_reverse l l' :
  stable_sorted_desc l l' ↔ stable_sorted (reverse l) (reverse l').
Proof.
  unfold stable_sorted_desc, stable_sorted. split; intros (Hp & Hs & Hf).
  - split_and!.
    + by rewrite !reverse_Permutation.
    + by apply (StronglySorted_reverse (descending lt)).
    + intros x Hx. rewrite elem_of_reverse in Hx.
      by rewrite !filter_reverse, (Hf x Hx).
  - split_and!.
    + by rewrite !reverse_Permutation in Hp.
    + rewrite <- (reverse_involutive l').
      by apply (StronglySorted_reverse (ascending lt)).
    + intros x Hx. apply (inj reverse). rewrite <- !filter_reverse.
      apply Hf. by rewrite elem_of_reverse.
Qed.

(** ** The promise determines the result *)

Section unique.
Hypothesis lt_irrefl : ∀ x, lt x x = false.

Lemma stable_sorted_unique_aux l1 l2 :
  StronglySorted (ascending lt) l1 → StronglySorted (ascending lt) l2 →
  l1 ≡ₚ l2 →
  (∀ x, x ∈ l1 → filter (λ y, tied x y = true) l1 = filter (λ y, tied x y = true) l2) →
  l1 = l2.
Proof.
  intros H1. revert l2.
  induction H1 as [|a t1 Ht1 IH Ha]; intros l2 H2 Hp Hf.
  { by apply Permutation_nil_l in Hp. }
  destruct H2 as [|b t2 Ht2 Hb]; [by apply Permutation_nil_r in Hp|].
  assert (lt b a = false) as Hba.
  { assert (b ∈ a :: t1) as [->|Hin]%elem_of_cons by (rewrite Hp; left); [done|].
    by eapply Forall_forall in Ha. }
  assert (lt a b = false) as Hab.
  { assert (a ∈ b :: t2) as [->|Hin]%elem_of_cons by (rewrite <- Hp; left); [done|].
    by eapply Forall_forall in Hb. }
  pose proof (Hf a ltac:(left)) as Hfa.
  rewrite !filter_cons, !decide_True in Hfa
    by (apply tied_true; auto using lt_irrefl).
  injection Hfa as <- _. f_equal. apply IH; [done|by eapply Permutation_cons_inv|].
  intros x Hx. specialize (Hf x ltac:(by right)).
  rewrite !filter_cons in Hf. by case_decide; simplify_eq.
Qed.

(** Two stable sorts of a list return the same list. *)
Lemma stable_sorted_unique l l1 l2 :
  stable_sorted l l1 → stable_sorted l l2 → l1 = l2.
Proof.
  intros (Hp1 & Hs1 & Hf1) (Hp2 & Hs2 & Hf2).
  apply stable_sorted_unique_aux; [done..|by rewrite Hp1, Hp2|].
  intros x Hx. rewrite Hp1 in Hx. by rewrite Hf1, Hf2.
Qed.

Lemma stable_sorted_desc_unique l l1 l2 :
  stable_sorted_desc l l1 → stable_sorted_desc l l2 → l1 = l2.
Proof.
  rewrite !stable_sorted_desc_reverse. intros H1 H2.
  apply (inj reverse). by eapply stable_sorted_unique.
Qed.

(** Two tied items come out in the order they went in. *)
Lemma stable_ties l l' x y :
  l' ≡ₚ l →
  (∀ x, x ∈ l → filter (λ y, tied x y = true) l' = filter (λ y, tied x y = true) l) →
  [x; y] `sublist_of` l' → tied x y = true → [x; y] `sublist_of` l.
Proof.
  intros Hp Hf Hxy Ht.
  assert (x ∈ l) as Hx.
  { rewrite <- Hp. eapply elem_of_sublist; [|done]. left. }
  etrans; [|apply (sublist_filter (λ z, tied x z = true))].
  rewrite <- (Hf x Hx).
  assert (filter (λ z, tied x z = true) [x; y] = [x; y]) as <-.
  { rewrite !filter_cons, filter_nil, !decide_True;
      [done..|apply tied_true; auto using lt_irrefl]. }
  by apply sublist_filter_mono.
Qed.

Lemma stable_sorted_ties l l' x y :
  stable_sorted l l' → [x; y] `sublist_of` l' → tied x y = true →
  [x; y] `sublist_of` l.
Proof. intros (Hp & _ & Hf). by apply stable_ties. Qed.

Lemma stable_sorted_desc_ties l l' x y :
  stable_sorted_desc l l' → [x; y] `sublist_of` l' → tied x y = true →
  [x; y] `sublist_of` l.
Proof. intros (Hp & _ & Hf). by apply stable_ties. Qed.

End unique.

(** ** The insertion sort keeps the promise *)

Section weak_order.
Context (Q : A → Prop).
Hypothesis lt_asym : ∀ x y, lt x y = true → lt y x = false.
Hypothesis lt_neg_trans :
  ∀ x y z, Q y → lt x y = false → lt y z = false → lt x z = false.

(** A sorted list of items of [Q] is sorted from each item to every later
    one. *)
Lemma Sorted_StronglySorted_on (R : relation A) l :
  (∀ x y z, Q y → R x y → R y z → R x z) → Forall Q l →
  Sorted R l → StronglySorted R l.
Proof.
  intros HR HQ Hl. induction Hl as [|a l Hl IH Ha]; [constructor|].
  apply Forall_cons in HQ as [_ HQ]. specialize (IH HQ).
  constructor; [done|]. destruct Ha as [|b l Hab]; [constructor|].
  apply Forall_cons in HQ as [Hb _]. apply StronglySorted_inv in IH as [_ IH].
  constructor; [done|]. eapply Forall_impl; [done|]. intros c Hbc. by eapply HR.
Qed.

Lemma ascending_trans x y z :
  Q y → ascending lt x y → ascending lt y z → ascending lt x z.
Proof. unfold ascending. eauto. Qed.

Lemma insertion_sort_StronglySorted l :
  Forall Q l → StronglySorted (ascending lt) (insertion_sort lt l).
Proof.
  intros HQ. apply Sorted_StronglySorted_on; [apply ascending_trans| |].
  - by rewrite insertion_sort_Permutation.
  - by apply insertion_sort_Sorted.
Qed.

(** Inserting an item leaves the others in their order. *)
Lemma filter_insert_sorted_other (P : A → Prop) `{∀ x, Decision (P x)} x l :
  ¬ P x → filter P (insert_sorted lt x l) = filter P l.
Proof.
  intros Hx. induction l as [|y l IH]; simpl.
  - by rewrite filter_cons_False.
  - case_if; [by rewrite filter_cons_False|]. by rewrite !filter_cons, IH.
Qed.

(** An item goes after the items tied with it. *)
Lemma filter_insert_sorted_tied q x l :
  Q q → Forall Q l → StronglySorted (ascending lt) l → tied q x = true →
  filter (λ y, tied q y = true) (insert_sorted lt x l)
    = filter (λ y, tied q y = true) l ++ [x].
Proof.
  intros Hq HQ Hl [Hqx Hxq]%tied_true.
  induction Hl as [|y l Hl IH Hy]; simpl.
  { by rewrite filter_cons_True by (by apply tied_true). }
  apply Forall_cons in HQ as [HQy HQ]. case_if.
  - rewrite (filter_cons_True _ x) by (by apply tied_true).
    assert (filter (λ y, tied q y = true) (y :: l) = []) as ->; [|done].
    apply filter_nil_Forall, Forall_forall. intros p Hp [Hqp Hpq]%tied_true.
    assert (lt x p = false) as Hxp by eauto.
    assert (lt p y = false) as Hpy.
    { apply elem_of_cons in Hp as [->|Hp]; [|by eapply Forall_forall in Hy].
      destruct (lt y y) eqn:E; [|done]. by rewrite (lt_asym _ _ E) in E. }
    assert (Q p) as HQp.
    { apply elem_of_cons in Hp as [->|Hp]; [done|by eapply Forall_forall in HQ]. }
    by rewrite (lt_neg_trans x p y HQp Hxp Hpy) in *.
  - rewrite !filter_cons, IH by done. by case_decide.
Qed.

Lemma filter_insert_sorted q x l :
  Q q → Forall Q l → StronglySorted (ascending lt) l →
  filter (λ y, tied q y = true) (insert_sorted lt x l)
    = filter (λ y, tied q y = true) (l ++ [x]).
Proof.
  intros Hq HQ Hl. rewrite filter_app. destruct (tied q x) eqn:E.
  - rewrite filter_cons_True by done. by apply filter_insert_sorted_tied.
  - rewrite filter_cons_False, app_nil_r by congruence.
    apply filter_insert_sorted_other. congruence.
Qed.

Lemma insert_sorted_StronglySorted x l :
  Q x → Forall Q l → StronglySorted (ascending lt) l →
  StronglySorted (ascending lt) (insert_sorted lt x l).
Proof.
  intros Hx HQ Hl. apply Sorted_StronglySorted_on; [apply ascending_trans| |].
  - rewrite insert_sorted_Permutation. by constructor.
  - by apply insert_sorted_Sorted, StronglySorted_Sorted.
Qed.

Lemma foldl_insert_sorted_filter q acc l :
  Q q → Forall Q acc → Forall Q l → StronglySorted (ascending lt) acc →
  filter (λ y, tied q y = true) (foldl (λ acc x, insert_sorted lt x acc) acc l)
    = filter (λ y, tied q y = true) (acc ++ l).
Proof.
  intros Hq Hacc Hl. revert acc Hacc.
  induction Hl as [|x l Hx Hl IH]; intros acc Hacc Hs; simpl.
  - by rewrite app_nil_r.
  - rewrite IH.
    + rewrite !filter_app, filter_insert_sorted by done.
      change (x :: l) with ([x] ++ l). by rewrite !filter_app, app_assoc.
    + rewrite insert_sorted_Permutation. by constructor.
    + by apply insert_sorted_StronglySorted.
Qed.

(** The insertion sort is a stable sort. *)
Lemma insertion_sort_stable_sorted l :
  Forall Q l → stable_sorted l (insertion_sort lt l).
Proof.
  intros HQ. split_and!.
  - apply insertion_sort_Permutation.
  - by apply insertion_sort_StronglySorted.
  - intros q Hq. apply (foldl_insert_sorted_filter q []); [|done..|constructor].
    by eapply Forall_forall in HQ.
Qed.

(** [sorted(l, reverse=True)] is a stable sort in decreasing order. *)
Lemma sorted_reverse_stable_sorted_desc l :
  Forall Q l → stable_sorted_desc l (sorted_reverse lt l).
Proof.
  intros HQ. apply stable_sorted_desc_reverse. unfold sorted_reverse.
  rewrite reverse_involutive. apply insertion_sort_stable_sorted.
  by apply Forall_reverse.
Qed.

End weak_order.

End stable.
