(* ===== verification/Text.v ===== *)
(** * Text: Python's string methods and [int()]

    The command-line program cleans what it reads with [str.strip] and
    [str.lower], joins labels with [str.join] and converts the count of
    recommendations with [int()].  This file models them on ASCII text: a
    string is a [string] of Rocq, one character per byte.

    [py_int] accepts what [int()] accepts of ASCII decimal text: white
    space around the number, one sign, digits with single underscores
    between them.  It is the inverse of printing: [py_int (pretty z)] is
    [z]. *)

From Stdlib Require Import ZArith Lia Ascii String.
From stdpp Require Import list strings pretty.
From S2P Require Import Prelude.

Local Open Scope string_scope.
Local Open Scope list_scope.

(** ** Python's string methods, on ASCII text *)

(** The characters [str.strip] removes: space, tab, line feed, vertical
    tab, form feed, carriage return and the four separators 28 to 31. *)
Definition is_whitespace (c : ascii) : bool :=
  let n := nat_of_ascii c in
  ((n =? 32) || ((9 <=? n) && (n <=? 13)) || ((28 <=? n) && (n <=? 31)))%nat.

Fixpoint lstrip (s : string) : string :=
  match s with
  | String c s' => if is_whitespace c then lstrip s' else s
  | EmptyString => EmptyString
  end.

Fixpoint rstrip (s : string) : string :=
  match s with
  | String c s' =>
      match rstrip s' with
      | EmptyString => if is_whitespace c then EmptyString else String c EmptyString
      | t => String c t
      end
  | EmptyString => EmptyString
  end.

(** [s.strip()] *)
Definition strip (s : string) : string := rstrip (lstrip s).

Definition lower_char (c : ascii) : ascii :=
  let n := nat_of_ascii c in
  if ((65 <=? n) && (n <=? 90))%nat then ascii_of_nat (n + 32) else c.

(** [s.lower()] *)
Fixpoint lower (s : string) : string :=
  match s with
  | String c s' => String (lower_char c) (lower s')
  | EmptyString => EmptyString
  end.

(** [sep.join(l)] *)
Fixpoint join (sep : string) (l : list string) : string :=
  match l with
  | [] => ""
  | [x] => x
  | x :: l' => x +:+ sep +:+ join sep l'
  end.

Definition digit_of (c : ascii) : option Z :=
  let n := nat_of_ascii c in
  if ((48 <=? n) && (n <=? 57))%nat then Some (Z.of_nat (n - 48)) else None.

(** The digits of an integer literal, with single underscores allowed
    between digits. *)
Fixpoint digits (s : string) (acc : Z) (after_digit : bool) : option Z :=
  match s with
  | EmptyString => if after_digit then Some acc else None
  | String c s' =>
      if decide (c = "_"%char) then
        if after_digit then digits s' acc false else None
      else
        d ← digit_of c; digits s' (10 * acc + d)%Z true
  end.

(** The optional sign of a number: whether it is [-], and the rest. *)
Definition sign (s : string) : bool * string :=
  match s with
  | String "-" r => (true, r)
  | String "+" r => (false, r)
  | _ => (false, s)
  end.

(** [int(s)] for decimal text. *)
Definition py_int (s : string) : result Z :=
  let '(negative, body) := sign (strip s) in
  match digits body 0 false with
  | Some n => Ok (if negative : bool then (- n)%Z else n)
  | None => Raise ValueError
  end.

(** Whether a character is a decimal digit. *)
Definition is_digit (c : ascii) : bool := bool_decide (is_Some (digit_of c)).

(** Every character of [s] passes [P]. *)
Fixpoint all_chars (P : ascii → bool) (s : string) : bool :=
  match s with
  | String c s' => P c && all_chars P s'
  | EmptyString => true
  end.

(** The value of a text of digits, read after [acc]. *)
Fixpoint read_digits (s : string) (acc : Z) : Z :=
  match s with
  | String c s' => read_digits s' (10 * acc + default 0 (digit_of c))%Z
  | EmptyString => acc
  end.

(** ** Lemmas *)

Lemma py_int_Raise s e : py_int s = Raise e → e = ValueError.
Proof.
  unfold py_int. destruct (sign (strip s)).
  by destruct (digits _ _ _); intros [=].
Qed.

(** *** Concatenation *)

Lemma string_app_cons c s t : String c s +:+ t = String c (s +:+ t).
Proof. done. Qed.

Lemma string_app_nil_r s : s +:+ "" = s.
Proof. induction s as [|c s IH]; [done|]. by rewrite string_app_cons, IH. Qed.

Lemma string_app_assoc s t u : (s +:+ t) +:+ u = s +:+ t +:+ u.
Proof. induction s as [|c s IH]; [done|]. by rewrite !string_app_cons, IH. Qed.

Lemma string_app_length s t :
  String.length (s +:+ t) = (String.length s + String.length t)%nat.
Proof. induction s as [|c s IH]; [done|]. rewrite string_app_cons. simpl. by rewrite IH. Qed.

(** *** Text without white space *)

Lemma all_chars_impl (P Q : ascii → bool) s :
  (∀ c, P c = true → Q c = true) → all_chars P s = true → all_chars Q s = true.
Proof.
  intros HPQ. induction s as [|c s IH]; simpl; [done|].
  intros [Hc Hs]%andb_prop. by rewrite (HPQ c Hc), IH.
Qed.

Lemma all_chars_app P s t :
  all_chars P (s +:+ t) = all_chars P s && all_chars P t.
Proof.
  induction s as [|c s IH]; [done|]. rewrite string_app_cons. simpl.
  by rewrite IH, andb_assoc.
Qed.

Lemma strip_all_chars s :
  all_chars (λ c, negb (is_whitespace c)) s = true → strip s = s.
Proof.
  intros Hs. unfold strip.
  assert (lstrip s = s) as ->.
  { destruct s as [|c s]; simpl in *; [done|]. by destruct (is_whitespace c). }
  induction s as [|c s IH]; simpl in *; [done|].
  apply andb_prop in Hs as [Hc Hs]. rewrite (IH Hs).
  destruct s; [|done]. by destruct (is_whitespace c).
Qed.

Lemma digit_of_Some c d :
  digit_of c = Some d → (0 ≤ d < 10)%Z ∧ nat_of_ascii c = (48 + Z.to_nat d)%nat.
Proof.
  unfold digit_of. destruct (_ && _) eqn:E; [|done]. intros [= <-].
  apply andb_prop in E as [?%Nat.leb_le ?%Nat.leb_le]. lia.
Qed.

Lemma is_digit_not_whitespace c : is_digit c = true → negb (is_whitespace c) = true.
Proof.
  unfold is_digit. intros [d Hd%digit_of_Some]%bool_decide_eq_true_1.
  unfold is_whitespace. destruct Hd as [? ->].
  repeat match goal with |- context [(?a =? ?b)%nat] => destruct (Nat.eqb_spec a b) end;
  repeat match goal with |- context [(?a <=? ?b)%nat] => destruct (Nat.leb_spec a b) end;
    simpl; (done || lia).
Qed.

Lemma is_digit_not_underscore c : is_digit c = true → c ≠ "_"%char.
Proof. by intros Hc ->. Qed.

Lemma sign_digit c s : is_digit c = true → sign (String c s) = (false, String c s).
Proof.
  intros Hc. unfold sign.
  destruct (decide (c = "-"%char)) as [->|]; [done|].
  destruct (decide (c = "+"%char)) as [->|]; [done|].
  destruct c as [[] [] [] [] [] [] [] []]; done.
Qed.

(** *** Reading a text of digits *)

Lemma read_digits_app s t acc :
  read_digits (s +:+ t) acc = read_digits t (read_digits s acc).
Proof.
  revert acc. induction s as [|c s IH]; intros acc; [done|].
  rewrite string_app_cons. apply IH.
Qed.

Lemma read_digits_acc s acc :
  read_digits s acc = (acc * 10 ^ Z.of_nat (String.length s) + read_digits s 0)%Z.
Proof.
  revert acc. induction s as [|c s IH]; intros acc; simpl String.length; simpl read_digits.
  - lia.
  - rewrite IH, (IH (10 * 0 + _)%Z), Nat2Z.inj_succ, Z.pow_succ_r by lia. lia.
Qed.

(** [int()] on a text of digits followed by [t]. *)
Lemma digits_app s t acc after_digit :
  all_chars is_digit s = true → s ≠ "" →
  digits (s +:+ t) acc after_digit = digits t (read_digits s acc) true.
Proof.
  revert acc after_digit. induction s as [|c s IH]; intros acc b Hs Hne; [done|].
  simpl in Hs. apply andb_prop in Hs as [Hc Hs]. rewrite string_app_cons. simpl.
  rewrite decide_False by by apply is_digit_not_underscore.
  apply bool_decide_eq_true_1 in Hc as [d Hd]. rewrite Hd. simpl.
  destruct s as [|c' s]; [done|]. by apply IH.
Qed.

(** *** The text of an integer *)

Lemma pretty_N_go_app x s : pretty_N_go x s = pretty_N_go x "" +:+ s.
Proof.
  revert s. induction (N.lt_wf_0 x) as [x _ IH]; intros s.
  destruct (decide (x = 0)%N) as [->|]; [by rewrite !pretty_N_go_0|].
  assert (x `div` 10 < x)%N as Hlt by (apply N.div_lt; lia).
  rewrite !(pretty_N_go_step x) by lia.
  rewrite (IH _ Hlt (String _ s)), (IH _ Hlt (String _ "")).
  by rewrite string_app_assoc.
Qed.

(** The text of a positive integer is the text of its tenth, followed by its
    last digit. *)
Lemma pretty_N_go_snoc x :
  (0 < x)%N →
  pretty_N_go x "" =
    pretty_N_go (x `div` 10) "" +:+ String (pretty_N_char (x `mod` 10)) "".
Proof. intros. by rewrite pretty_N_go_step, pretty_N_go_app. Qed.

Lemma digit_of_pretty_N_char d :
  (d < 10)%N → digit_of (pretty_N_char d) = Some (Z.of_N d).
Proof.
  intros. assert (d ∈ [0; 1; 2; 3; 4; 5; 6; 7; 8; 9]%N) as Hd.
  { rewrite !elem_of_cons. lia. }
  repeat (apply elem_of_cons in Hd as [->|Hd]; [done|]). by apply elem_of_nil in Hd.
Qed.

Lemma pretty_N_go_digits x : all_chars is_digit (pretty_N_go x "") = true.
Proof.
  induction (N.lt_wf_0 x) as [x _ IH].
  destruct (decide (x = 0)%N) as [->|]; [by rewrite pretty_N_go_0|].
  rewrite pretty_N_go_snoc, all_chars_app, IH by (try apply N.div_lt; lia). simpl.
  unfold is_digit. rewrite digit_of_pretty_N_char; [done|]. apply N.mod_lt. lia.
Qed.

Lemma pretty_N_go_nonempty x : (0 < x)%N → pretty_N_go x "" ≠ "".
Proof. intros. rewrite pretty_N_go_snoc by done. by destruct (pretty_N_go _ ""). Qed.

Lemma read_digits_pretty_N_go x : read_digits (pretty_N_go x "") 0 = Z.of_N x.
Proof.
  induction (N.lt_wf_0 x) as [x _ IH].
  destruct (decide (x = 0)%N) as [->|]; [by rewrite pretty_N_go_0|].
  rewrite pretty_N_go_snoc, read_digits_app, IH by (try apply N.div_lt; lia). simpl.
  rewrite digit_of_pretty_N_char by (apply N.mod_lt; lia). simpl.
  rewrite (N.div_mod x 10) at 3 by lia. lia.
Qed.

(** The text of a positive integer: digits, at least one, that read as the
    integer. *)
Lemma pretty_pos_text (p : positive) :
  ∃ c s, pretty p = String c s ∧ all_chars is_digit (String c s) = true ∧
         read_digits (String c s) 0 = Z.pos p.
Proof.
  unfold pretty, pretty_positive, pretty, pretty_N. rewrite decide_False by done.
  pose proof (pretty_N_go_nonempty (N.pos p) eq_refl) as Hne.
  pose proof (pretty_N_go_digits (N.pos p)) as Hd.
  pose proof (read_digits_pretty_N_go (N.pos p)) as Hr.
  destruct (pretty_N_go (N.pos p) "") as [|c s]; [done|]. by exists c, s.
Qed.

(** The text of an integer that is not negative, and of a digit. *)
Lemma pretty_nonneg_text (z : Z) :
  (0 ≤ z)%Z →
  ∃ c s, pretty z = String c s ∧ all_chars is_digit (String c s) = true ∧
         read_digits (String c s) 0 = z.
Proof.
  destruct z as [|p|p]; [by exists "0"%char, ""|intros _; apply pretty_pos_text|lia].
Qed.

Lemma pretty_digit_text (d : Z) :
  (0 ≤ d < 10)%Z → ∃ c, pretty d = String c "" ∧ digit_of c = Some d.
Proof.
  intros. assert (d ∈ [0; 1; 2; 3; 4; 5; 6; 7; 8; 9]%Z) as Hd.
  { rewrite !elem_of_cons. lia. }
  repeat (apply elem_of_cons in Hd as [->|Hd]; [by eexists|]). by apply elem_of_nil in Hd.
Qed.

Lemma digits_text s :
  all_chars is_digit s = true → s ≠ "" → digits s 0 false = Some (read_digits s 0).
Proof.
  intros Hs Hne. rewrite <- (string_app_nil_r s) at 1.
  by rewrite (digits_app s "" 0 false Hs Hne).
Qed.

Lemma py_int_text negative c s :
  all_chars is_digit (String c s) = true →
  py_int ((if negative : bool then "-" else "") +:+ String c s) =
    Ok (if negative then - read_digits (String c s) 0 else read_digits (String c s) 0)%Z.
Proof.
  intros Hs. unfold py_int. rewrite strip_all_chars.
  - assert (sign ((if negative then "-" else "") +:+ String c s) = (negative, String c s))
      as -> by (destruct negative; [done|]; apply sign_digit; by apply andb_prop in Hs as []).
    by rewrite digits_text.
  - rewrite all_chars_app.
    rewrite (all_chars_impl _ _ _ is_digit_not_whitespace Hs). by destruct negative.
Qed.

(** [int(str(z))] is [z]. *)
Theorem py_int_pretty (z : Z) : py_int (pretty z) = Ok z.
Proof.
  destruct z as [|p|p]; [done|..]; unfold pretty, pretty_Z;
    destruct (pretty_pos_text p) as (c & s & -> & Hs & Hp).
  - etrans; [apply (py_int_text false c s Hs)|by rewrite Hp].
  - etrans; [apply (py_int_text true c s Hs)|by rewrite Hp].
Qed.
