(* ===== verification/Scalar.v ===== *)
(** * Scalar: the arithmetic of a cell

    The sources compute on the cells of pandas frames and numpy arrays:
    sums, products, quotients and square roots (the cosine similarity and
    the weighted average), the comparisons [<] and [==], and the NaN test
    ([np.isnan], [isna], [fillna]).  This file states that arithmetic as an
    interface, the operational class [Scalar], so that the components are
    written once and run on any instance; [Float64] gives the instance the
    program runs on.

    The theorems of the components never unfold an instance.  The few that
    depend on a property of the arithmetic name it as a class of laws:
    [ScalarComm] for the symmetry of the similarity table, [ScalarOrder] for
    the order of a sorted result, [ScalarWeakOrder] for what a sort
    guarantees beyond neighbours (the best items first, ties in their
    order), [ScalarNaN] for what a rating that is not NaN does to the list
    of unrated movies. *)

From Stdlib Require Import ZArith.
From stdpp Require Import list.
From S2P Require Import Prelude.

Declare Scope scalar_scope.
Delimit Scope scalar_scope with sc.

Class Scalar (T : Type) : Type := {
  zero : T;
  one : T;
  nan : T;
  add : T → T → T;
  mul : T → T → T;
  div : T → T → T;
  sqrt : T → T;
  ltb : T → T → bool;
  eqb : T → T → bool;
  isnan : T → bool;
  of_Z : Z → T;
}.

Infix "+" := add : scalar_scope.
Infix "*" := mul : scalar_scope.
Infix "/" := div : scalar_scope.
Infix "<?" := ltb : scalar_scope.
Infix "=?" := eqb : scalar_scope.

(** [x > y] in Python is [y < x]. *)
Definition gtb {T} `{Scalar T} (x y : T) : bool := ltb y x.
Infix ">?" := gtb : scalar_scope.

(** numpy's order on floats when it sorts: NaN is larger than every number
    ([a < b || (b != b && a == a)] in its sorting kernels). *)
Definition np_lt {T} `{Scalar T} (x y : T) : bool :=
  ltb x y || (isnan y && negb (isnan x)).

(** Sum and product commute. *)
Class ScalarComm (T : Type) `{Scalar T} : Prop := {
  add_comm : ∀ x y : T, add x y = add y x;
  mul_comm : ∀ x y : T, mul x y = mul y x;
}.

(** [<] is asymmetric, and false on NaN. *)
Class ScalarOrder (T : Type) `{Scalar T} : Prop := {
  ltb_asym : ∀ x y : T, ltb x y = true → ltb y x = false;
  ltb_nan_l : ∀ x y : T, isnan x = true → ltb x y = false;
  ltb_nan_r : ∀ x y : T, isnan y = true → ltb x y = false;
}.

(** Away from NaN [<] is a strict weak order: "not below" is transitive
    through a value that is not NaN. *)
Class ScalarWeakOrder (T : Type) `{Scalar T} : Prop := {
  ltb_neg_trans : ∀ x y z : T,
    isnan y = false → ltb x y = false → ltb y z = false → ltb x z = false;
}.

(** [nan] is NaN and zero is not. *)
Class ScalarNaN (T : Type) `{Scalar T} : Prop := {
  isnan_nan : isnan (nan : T) = true;
  isnan_zero : isnan (zero : T) = false;
}.

Section order.
Context {T : Type} `{Scalar T} `{!ScalarOrder T}.
Implicit Types x y : T.

Lemma ltb_irrefl x : ltb x x = false.
Proof. destruct (ltb x x) eqn:E; [|done]. by rewrite (ltb_asym x x E) in E. Qed.

Lemma ltb_not_nan x y : ltb x y = true → isnan x = false ∧ isnan y = false.
Proof.
  intros Hlt. split.
  - destruct (isnan x) eqn:E; [|done]. by rewrite (ltb_nan_l x y E) in Hlt.
  - destruct (isnan y) eqn:E; [|done]. by rewrite (ltb_nan_r x y E) in Hlt.
Qed.

Lemma np_lt_asym x y : np_lt x y = true → np_lt y x = false.
Proof.
  unfold np_lt. intros [Hlt|[Hy Hx%negb_true_iff]%andb_prop]%orb_prop.
  - destruct (ltb_not_nan _ _ Hlt) as [-> ->].
    by rewrite (ltb_asym _ _ Hlt).
  - by rewrite Hx, Hy, (ltb_nan_l y x Hy).
Qed.

Lemma gtb_asym x y : gtb x y = true → gtb y x = false.
Proof. apply ltb_asym. Qed.

Lemma np_lt_irrefl x : np_lt x x = false.
Proof. destruct (np_lt x x) eqn:E; [|done]. by rewrite (np_lt_asym x x E) in E. Qed.

(** With NaN above every number the order of numpy is a strict weak order
    on all values, NaN included. *)
Lemma np_lt_neg_trans `{!ScalarWeakOrder T} x y z :
  np_lt x y = false → np_lt y z = false → np_lt x z = false.
Proof.
  unfold np_lt. intros [Hxy Hx]%orb_false_elim [Hyz Hy]%orb_false_elim.
  destruct (isnan y) eqn:Ey; simpl in *.
  - apply negb_false_iff in Hx. by rewrite (ltb_nan_l x z Hx), Hx, andb_false_r.
  - rewrite andb_true_r in Hy. by rewrite (ltb_neg_trans x y z Ey Hxy Hyz), Hy.
Qed.

End order.

#[export] Hint Resolve ltb_asym np_lt_asym ltb_irrefl : recsys.
