(* ===== verification/Float64.v ===== *)
(** * Float64: the arithmetic the program runs on

    Python's [float], numpy's [float64] and the cells of a pandas frame are
    IEEE 754 binary64 numbers.  This file gives the [Scalar] instance on the
    kernel's primitive binary64 floats: every operation is the hardware
    operation, with its rounding, its infinities and its NaN, and the model
    of each component evaluates on it by [vm_compute].

    The laws the components assume are proved here from the specification
    of the primitive operations ([FloatAxioms] relates each of them to the
    executable reference of [SpecFloat]): the sum and the product of two
    floats commute, [<] is asymmetric, false as soon as one side is NaN,
    and a strict weak order on the other values.  Two laws of exact
    arithmetic are deliberately absent, because binary64 does not have
    them: sums are not associative, and a quotient times its divisor need
    not give back the dividend.

    The last two sections are about the conversions of [Pyfloat]: rounding
    a mantissa that is not negative never gives NaN, and between two
    numbers "not below" is "at least". *)

From Stdlib Require Import ZArith Floats Lia.
From stdpp Require Import list.
From S2P Require Import Prelude Scalar.

(** [float(z)] for an integer [z]: the nearest binary64, ties to even. *)
Definition float_of_Z (z : Z) : float := SF2Prim (binary_normalize prec emax z 0 false).

#[export] Instance float_scalar : Scalar float := {|
  zero := 0%float;
  one := 1%float;
  nan := PrimFloat.nan;
  add := PrimFloat.add;
  mul := PrimFloat.mul;
  div := PrimFloat.div;
  sqrt := PrimFloat.sqrt;
  ltb := PrimFloat.ltb;
  eqb := PrimFloat.eqb;
  isnan := PrimFloat.is_nan;
  of_Z := float_of_Z;
|}.

Lemma SFcompare_antisym x y :
  SFcompare y x = CompOpp <$> SFcompare x y.
Proof.
  destruct x as [sx|sx| |sx mx ex], y as [sy|sy| |sy my ey]; simpl; try done;
    try (by destruct sx); try (by destruct sy); try (by destruct sx, sy).
  f_equal. destruct sx, sy; try done.
  all: rewrite (Z.compare_antisym ex ey); destruct (ex ?= ey)%Z eqn:E; simpl; try done.
  all: try f_equal; symmetry; apply (Pos.compare_cont_antisym mx my Eq).
Qed.

Lemma SFltb_asym x y : SFltb x y = true → SFltb y x = false.
Proof.
  unfold SFltb. rewrite (SFcompare_antisym x y).
  by destruct (SFcompare x y) as [[]|].
Qed.

(** The order of two finite floats of the same sign: by exponent, then by
    mantissa. *)
Definition fin_lt (m1 : positive) (e1 : Z) (m2 : positive) (e2 : Z) : Prop :=
  (e1 < e2)%Z ∨ (e1 = e2 ∧ (m1 < m2)%positive).

(** [SFltb] as a proposition of linear arithmetic. *)
Definition SFlt (x y : spec_float) : Prop :=
  match x, y with
  | S754_nan, _ | _, S754_nan => False
  | S754_infinity sx, S754_infinity sy => sx = true ∧ sy = false
  | S754_infinity sx, _ => sx = true
  | _, S754_infinity sy => sy = false
  | S754_zero _, S754_zero _ => False
  | S754_zero _, S754_finite sy _ _ => sy = false
  | S754_finite sx _ _, S754_zero _ => sx = true
  | S754_finite sx mx ex, S754_finite sy my ey =>
      match sx, sy with
      | true, false => True
      | false, true => False
      | false, false => fin_lt mx ex my ey
      | true, true => fin_lt my ey mx ex
      end
  end.

(** Case analysis on up to three floats and their signs. *)
Ltac SF_cases :=
  repeat match goal with
  | x : spec_float |- _ => destruct x as [[]|[]| |[] ? ?]
  end; simpl; unfold fin_lt.

Lemma SFltb_SFlt x y : SFltb x y = true ↔ SFlt x y.
Proof.
  unfold SFltb. SF_cases;
    try change (PosDef.Pos.compare_cont Eq ?a ?b) with (Pos.compare a b);
    repeat match goal with
    | |- context [(?a ?= ?b)%Z] => destruct (Z.compare_spec a b)
    | |- context [(?a ?= ?b)%positive] => destruct (Pos.compare_spec a b)
    end; simpl; split; try done; try tauto; try lia; by intros [].
Qed.

Lemma SFltb_false x y : SFltb x y = false ↔ ¬ SFlt x y.
Proof. rewrite <- SFltb_SFlt. by destruct (SFltb x y). Qed.

Lemma SFlt_neg_trans x y z :
  y ≠ S754_nan → ¬ SFlt x y → ¬ SFlt y z → ¬ SFlt x z.
Proof. SF_cases; try done; try tauto; try lia; intuition (congruence || lia). Qed.

Lemma SFcompare_refl x : x ≠ S754_nan → SFcompare x x = Some Eq.
Proof.
  destruct x as [s|s| |s m e]; simpl; try done; intros _; [by destruct s|].
  destruct s; rewrite Z.compare_refl;
    by rewrite (Pos.compare_cont_refl m Eq : PosDef.Pos.compare_cont Eq m m = Eq).
Qed.

Lemma is_nan_spec x : is_nan x = true ↔ Prim2SF x = S754_nan.
Proof.
  unfold is_nan. rewrite FloatAxioms.eqb_spec. unfold SFeqb. split.
  - intros Hx. destruct (Prim2SF x) eqn:E; try done;
      by rewrite SFcompare_refl in Hx.
  - by intros ->.
Qed.

Lemma float_add_comm (x y : float) : (x + y = y + x)%float.
Proof.
  apply Prim2SF_inj. rewrite !add_spec. unfold SF64add.
  destruct (Prim2SF x) as [sx|sx| |sx mx ex], (Prim2SF y) as [sy|sy| |sy my ey];
    simpl; try done; try (by destruct sx, sy).
  by rewrite (Z.min_comm ey ex), Z.add_comm.
Qed.

Lemma float_mul_comm (x y : float) : (x * y = y * x)%float.
Proof.
  apply Prim2SF_inj. rewrite !mul_spec. unfold SF64mul.
  destruct (Prim2SF x) as [sx|sx| |sx mx ex], (Prim2SF y) as [sy|sy| |sy my ey];
    simpl; try done; rewrite ?(xorb_comm sy sx); try done.
  by rewrite (Pos.mul_comm my mx), (Z.add_comm ey ex).
Qed.

#[export] Instance float_comm : ScalarComm float.
Proof. split; [apply float_add_comm|apply float_mul_comm]. Qed.

#[export] Instance float_order : ScalarOrder float.
Proof.
  split; simpl; intros x y.
  - rewrite !FloatAxioms.ltb_spec. apply SFltb_asym.
  - intros Hx%is_nan_spec. rewrite FloatAxioms.ltb_spec, Hx. done.
  - intros Hy%is_nan_spec. rewrite FloatAxioms.ltb_spec, Hy. unfold SFltb. by destruct (Prim2SF x).
Qed.

Lemma is_nan_false x : is_nan x = false ↔ Prim2SF x ≠ S754_nan.
Proof. rewrite <- is_nan_spec. by destruct (is_nan x). Qed.

#[export] Instance float_weak_order : ScalarWeakOrder float.
Proof.
  split; simpl; intros x y z. rewrite !FloatAxioms.ltb_spec, !SFltb_false.
  intros Hy%is_nan_false. by apply SFlt_neg_trans.
Qed.

#[export] Instance float_nan : ScalarNaN float.
Proof. split; reflexivity. Qed.

(** ** Rounding never makes a NaN

    The conversions of an integer and of a decimal to a float round a
    mantissa that is not negative.  The result is a zero, a finite float or
    an infinity. *)

Lemma shr_1_nonneg mrs : (0 ≤ shr_m mrs)%Z → (0 ≤ shr_m (shr_1 mrs))%Z.
Proof. destruct mrs as [[|[p|p|]|p] r s]; simpl; lia. Qed.

Lemma iter_pos_shr_1_nonneg p mrs :
  (0 ≤ shr_m mrs)%Z → (0 ≤ shr_m (SpecFloat.iter_pos shr_1 p mrs))%Z.
Proof.
  revert mrs. induction p as [p IH|p IH|]; intros mrs Hm; simpl;
    auto using shr_1_nonneg.
Qed.

Lemma shr_fexp_nonneg m e l :
  (0 ≤ m)%Z → (0 ≤ shr_m (shr_fexp prec emax m e l).1)%Z.
Proof.
  intros Hm. unfold shr_fexp, shr.
  assert (0 ≤ shr_m (shr_record_of_loc m l))%Z by by destruct l as [|[]].
  destruct (_ - e)%Z; simpl; auto using iter_pos_shr_1_nonneg.
Qed.

Lemma round_nearest_even_nonneg m l : (0 ≤ m)%Z → (0 ≤ round_nearest_even m l)%Z.
Proof. destruct l as [|[]]; simpl; [done| |done|lia]. destruct (Z.even m); lia. Qed.

Lemma binary_round_aux_not_nan s m e l :
  (0 ≤ m)%Z → binary_round_aux prec emax s m e l ≠ S754_nan.
Proof.
  intros Hm. unfold binary_round_aux.
  pose proof (shr_fexp_nonneg m e l Hm) as H1.
  destruct (shr_fexp prec emax m e l) as [mrs e']. simpl in H1.
  pose proof (shr_fexp_nonneg _ e' loc_Exact
    (round_nearest_even_nonneg _ (loc_of_shr_record mrs) H1)) as H2.
  destruct (shr_fexp prec emax _ e' loc_Exact) as [mrs' e'']. simpl in H2.
  destruct (shr_m mrs'); [done| |lia]. by destruct (_ <=? _)%Z.
Qed.

Lemma binary_round_not_nan s m e : binary_round prec emax s m e ≠ S754_nan.
Proof.
  unfold binary_round. destruct (shl_align _ _ _). by apply binary_round_aux_not_nan.
Qed.

Lemma binary_normalize_not_nan m e s : binary_normalize prec emax m e s ≠ S754_nan.
Proof. destruct m; simpl; [done|apply binary_round_not_nan..]. Qed.

Lemma SFdiv_finite_not_nan sx mx ex sy my ey :
  SFdiv prec emax (S754_finite sx mx ex) (S754_finite sy my ey) ≠ S754_nan.
Proof.
  unfold SFdiv, SFdiv_core_binary.
  set (m' := match _ with Z.pos _ => _ | _ => _ end).
  assert (0 ≤ m')%Z by (subst m'; destruct (_ - _)%Z; [lia| |lia]; by apply Z.shiftl_nonneg).
  pose proof (Z.div_eucl_eq m' (Z.pos my) ltac:(done)) as Hq.
  pose proof (Z.mod_pos_bound m' (Z.pos my) ltac:(done)) as Hr.
  unfold Z.modulo in Hr. destruct (Z.div_eucl m' (Z.pos my)) as [q r].
  apply binary_round_aux_not_nan. nia.
Qed.

(** A float made from a description that is not NaN is not NaN, whether or
    not the description is in range: [SF2Prim] rounds it. *)
Lemma SF2Prim_not_nan y : y ≠ S754_nan → is_nan (SF2Prim y) = false.
Proof.
  destruct y as [[]|[]| |s m e]; [done..|]. intros _. apply is_nan_false.
  assert (Prim2SF (Z.ldexp (of_uint63 (Uint63.of_Z (Z.pos m))) e) ≠ S754_nan) as Hf.
  { rewrite Z_ldexp_spec, of_uint63_spec.
    pose proof (binary_normalize_not_nan (Uint63.to_Z (Uint63.of_Z (Z.pos m))) 0 false).
    destruct (binary_normalize _ _ _ _ _); simpl; [done..|apply binary_round_not_nan]. }
  unfold SF2Prim. destruct s; [|done].
  rewrite opp_spec. by destruct (Prim2SF _).
Qed.

Lemma float_of_Z_not_nan z : is_nan (float_of_Z z) = false.
Proof. apply SF2Prim_not_nan, binary_normalize_not_nan. Qed.

(** ** The order is total away from NaN *)

Lemma SFcompare_None x y : SFcompare x y = None ↔ x = S754_nan ∨ y = S754_nan.
Proof.
  destruct x as [[]|[]| |[] mx ex], y as [[]|[]| |[] my ey]; simpl;
    try destruct (_ ?= _)%Z; naive_solver.
Qed.

(** Between two numbers, "not below" is "at least". *)
Lemma float_ltb_false x y :
  is_nan x = false → is_nan y = false →
  (x <? y)%float = false ↔ (y <=? x)%float = true.
Proof.
  intros Hx%is_nan_false Hy%is_nan_false.
  rewrite FloatAxioms.ltb_spec, FloatAxioms.leb_spec. unfold SFltb, SFleb.
  rewrite (SFcompare_antisym (Prim2SF x) (Prim2SF y)).
  destruct (SFcompare (Prim2SF x) (Prim2SF y)) as [[]|] eqn:E; simpl; try done.
  apply SFcompare_None in E. naive_solver.
Qed.

Lemma float_leb_not_nan x y : (x <=? y)%float = true → is_nan x = false ∧ is_nan y = false.
Proof.
  rewrite FloatAxioms.leb_spec, !is_nan_false. unfold SFleb.
  destruct (SFcompare _ _) eqn:E; [|done]. intros _.
  split; intros Hn; rewrite Hn in E; [done|]. by destruct (Prim2SF x) as [[]|[]| |[]].
Qed.
