(* ===== verification/Pyfloat.v ===== *)
(** * Pyfloat: text to float and back

    The programs read a rating with [float()]
    ([src/main.py], [src/Movie_recommender_GUI.py]) and show floats in two
    ways: with the format [:.2f] (the similarity in an explanation line)
    and with [str] (the rating in an explanation line and in the messages
    "Rated ... with ...").  This file models the three conversions on
    binary64, in exact integer arithmetic:

    - [py_float]: the grammar of [float()] on ASCII text (white space, a
      sign, [inf], [infinity] or [nan] in any case, or a decimal number
      with an optional fraction and exponent and single underscores
      between digits), and the value: the binary64 nearest to the decimal,
      ties to even ([decimal]);
    - [format_2f]: the decimal with two digits after the point nearest to
      the exact value of the float, ties to even;
    - [float_str]: the shortest decimal that [float()] reads back as the
      same float and, among those, the nearest to it, written the way
      [repr] writes it (an exponent when it is below [-4] or above [16]).

    The search of [float_str] tries 1 to 17 digits; 17 digits always
    suffice for binary64, so the last resort, the nearest decimal of 17
    digits, is what the search returns at 17 in any case. *)

From Stdlib Require Import ZArith Lia Ascii String Floats.
From stdpp Require Import list strings pretty.
From S2P Require Import Prelude Text Scalar Float64.

Local Open Scope string_scope.
Local Open Scope list_scope.
Local Open Scope Z_scope.

(** ** Decimals *)

(** The number of times ten divides [m], at most [fuel] times, taken out
    of [m] and added to the exponent: [m * 10^e] does not change. *)
Fixpoint strip_zeros (fuel : nat) (m e : Z) : Z * Z :=
  match fuel with
  | O => (m, e)
  | S fuel => if m mod 10 =? 0 then strip_zeros fuel (m / 10) (e + 1) else (m, e)
  end.

(** The decimal [m * 10^e] with a mantissa that ten does not divide.  Ten
    divides a positive [m] fewer than [log2 m] times. *)
Definition normal (m e : Z) : Z * Z := strip_zeros (Z.to_nat (Z.log2 m)) m e.

(** The binary64 nearest to a quotient of two positive integers, ties to
    even, with overflow to infinity and gradual underflow. *)
Definition nearest (negative : bool) (num den : Z) : float :=
  SF2Prim (SFdiv prec emax (S754_finite negative (Z.to_pos num) 0)
                           (S754_finite false (Z.to_pos den) 0)).

(** The binary64 nearest to the decimal [m * 10^e], for [0 <= m]. *)
Definition decimal (negative : bool) (m e : Z) : float :=
  if m =? 0 then (if negative then (-0)%float else 0%float)
  else
    let '(m, e) := normal m e in
    if 0 <=? e then float_of_Z ((if negative then - m else m) * 10 ^ e)
    else nearest negative m (10 ^ (- e)).

(** ** [float(s)] *)

Definition starts_with_digit (s : string) : bool :=
  match s with
  | String c _ => is_digit c
  | EmptyString => false
  end.

(** The longest run of digits at the head of [s], with single underscores
    between digits: its value after [acc], the number of digits read after
    [count], and the rest of [s]. *)
Fixpoint scan_digits (s : string) (acc count : Z) (after_digit : bool) : Z * Z * string :=
  match s with
  | String c s' =>
      match digit_of c with
      | Some d => scan_digits s' (10 * acc + d) (count + 1) true
      | None =>
          if bool_decide (c = "_"%char) && after_digit && starts_with_digit s'
          then scan_digits s' acc count false
          else (acc, count, s)
      end
  | EmptyString => (acc, count, s)
  end.

(** [digits . digits], [digits .], [. digits] or [digits]: the digits as
    one integer, the number of digits after the point, and the rest. *)
Definition number (s : string) : option (Z * Z * string) :=
  let '(i, ni, r) := scan_digits s 0 0 false in
  match r with
  | String "." r' =>
      let '(m, nf, r'') := scan_digits r' i 0 false in
      if (ni =? 0) && (nf =? 0) then None else Some (m, nf, r'')
  | _ => if ni =? 0 then None else Some (i, 0, r)
  end.

(** Nothing, or [e] or [E], an optional sign and digits up to the end. *)
Definition exponent (s : string) : option Z :=
  match s with
  | EmptyString => Some 0
  | String c r =>
      if bool_decide (lower_char c = "e"%char) then
        let '(negative, body) := sign r in
        let '(e, n, rest) := scan_digits body 0 0 false in
        if (0 <? n) && bool_decide (rest = "") then Some (if negative : bool then - e else e)
        else None
      else None
  end.

(** [inf], [infinity] and [nan], in any case. *)
Definition special (s : string) : option float :=
  let s := lower s in
  if bool_decide (s = "inf" ∨ s = "infinity") then Some infinity
  else if bool_decide (s = "nan") then Some PrimFloat.nan
  else None.

(** [float(s)] for ASCII text. *)
Definition py_float (s : string) : result float :=
  let '(negative, body) := sign (strip s) in
  match special body with
  | Some x => Ok (if negative then (- x)%float else x)
  | None =>
      match number body with
      | Some (m, nf, rest) =>
          match exponent rest with
          | Some e => Ok (decimal negative m (e - nf))
          | None => Raise ValueError
          end
      | None => Raise ValueError
      end
  end.

(** ** [format(x, ".2f")] *)

(** The integer nearest to [n / d], ties to even, for [0 < d]. *)
Definition round_half_even (n d : Z) : Z :=
  let q := n / d in
  match 2 * (n mod d) ?= d with
  | Lt => q
  | Gt => q + 1
  | Eq => if Z.even q then q else q + 1
  end.

Definition with_sign (negative : bool) (s : string) : string :=
  if negative then "-" +:+ s else s.

(** [n / 100] with two digits after the point, for [0 <= n]. *)
Definition hundredths (n : Z) : string :=
  pretty (n / 100) +:+ "." +:+ pretty (n mod 100 / 10) +:+ pretty (n mod 10).

(** [m * 2^e * 100] rounded to the nearest integer, ties to even. *)
Definition to_hundredths (m : positive) (e : Z) : Z :=
  if 0 <=? e then Z.pos m * 2 ^ e * 100
  else round_half_even (Z.pos m * 100) (2 ^ (- e)).

Definition format_2f (x : float) : string :=
  match Prim2SF x with
  | S754_nan => "nan"
  | S754_infinity s => with_sign s "inf"
  | S754_zero s => with_sign s "0.00"
  | S754_finite s m e => with_sign s (hundredths (to_hundredths m e))
  end.

(** ** [str(x)] *)

(** The number of decimal digits of a positive integer. *)
Definition dec_digits (n : Z) : Z := Z.of_nat (String.length (pretty n)).

(** [num / den * 10^j] as a quotient of integers. *)
Definition scale (num den j : Z) : Z * Z :=
  if 0 <=? j then (num * 10 ^ j, den) else (num, den * 10 ^ (- j)).

(** The position of the decimal point of [num / den]: the least [k] with
    [num / den < 10^k].  Below one it is read off the quotient the other
    way round, which is exact because a float below one is not a power of
    ten. *)
Definition decpt (num den : Z) : Z :=
  if den <=? num then dec_digits (num / den) else 1 - dec_digits (den / num).

(** The decimals of [p] digits on either side of [x = num / den] that
    [float()] reads back as [x]: none, the one that does, or the nearer of
    the two, the even one on a tie.  The result is the digits as an
    integer and the exponent of the last digit. *)
Definition digits_at (x : float) (num den k p : Z) : option (Z * Z) :=
  let '(n, d) := scale num den (p - k) in
  let lo := n / d in
  let hi := if n mod d =? 0 then lo else lo + 1 in
  let reads_back c := ((0 <? c) && (decimal false c (k - p) =? x)%float)%bool in
  match reads_back lo, reads_back hi with
  | true, true =>
      match 2 * (n mod d) ?= d with
      | Lt => Some (lo, k - p)
      | Gt => Some (hi, k - p)
      | Eq => Some (if Z.even lo then lo else hi, k - p)
      end
  | true, false => Some (lo, k - p)
  | false, true => Some (hi, k - p)
  | false, false => None
  end.

(** The first precision at which [digits_at] finds a decimal. *)
Fixpoint shortest (x : float) (num den k : Z) (precisions : list Z) : option (Z * Z) :=
  match precisions with
  | [] => None
  | p :: precisions =>
      match digits_at x num den k p with
      | Some c => Some c
      | None => shortest x num den k precisions
      end
  end.

(** The shortest decimal of a positive finite float [m * 2^e]. *)
Definition float_digits (x : float) (m : positive) (e : Z) : Z * Z :=
  let '(num, den) := if 0 <=? e then (Z.pos m * 2 ^ e, 1) else (Z.pos m, 2 ^ (- e)) in
  let k := decpt num den in
  match shortest x num den k (Z.of_nat <$> seq 1 17) with
  | Some c => c
  | None => let '(n, d) := scale num den (17 - k) in (round_half_even n d, k - 17)
  end.

Definition zeros (n : Z) : string := String.concat "" (replicate (Z.to_nat n) "0").

(** The exponent of [repr]: a sign and at least two digits. *)
Definition exponent_text (e : Z) : string :=
  (if e <? 0 then "-" else "+") +:+ (if Z.abs e <? 10 then "0" else "") +:+ pretty (Z.abs e).

(** The text of the decimal [m * 10^e] as [repr] writes it: with an
    exponent when the decimal point is at [-4] or before, or after 16
    digits; with [.0] when there is no fraction. *)
Definition repr_text (m e : Z) : string :=
  let '(m, e) := normal m e in
  let ds := pretty m in
  let nd := Z.of_nat (String.length ds) in
  let point := nd + e in
  if (point <=? -4) || (16 <? point) then
    String.substring 0 1 ds +:+
    (if 1 <? nd then "." +:+ String.substring 1 (Z.to_nat (nd - 1)) ds else "") +:+
    "e" +:+ exponent_text (point - 1)
  else if point <=? 0 then "0." +:+ zeros (- point) +:+ ds
  else if nd <=? point then ds +:+ zeros (point - nd) +:+ ".0"
  else String.substring 0 (Z.to_nat point) ds +:+ "." +:+
       String.substring (Z.to_nat point) (Z.to_nat (nd - point)) ds.

(** [str(x)] and [repr(x)]. *)
Definition float_str (x : float) : string :=
  match Prim2SF x with
  | S754_nan => "nan"
  | S754_infinity s => with_sign s "inf"
  | S754_zero s => with_sign s "0.0"
  | S754_finite s m e =>
      let '(digits, exp) := float_digits (abs x) m e in
      with_sign s (repr_text digits exp)
  end.

(** ** What [float()] returns *)

Lemma strip_zeros_spec fuel m e m' e' :
  strip_zeros fuel m e = (m', e') → ∃ k, 0 ≤ k ∧ e' = e + k ∧ m = m' * 10 ^ k.
Proof.
  revert m e. induction fuel as [|fuel IH]; intros m e; simpl.
  - intros [= <- <-]. exists 0. lia.
  - destruct (Z.eqb_spec (m mod 10) 0) as [Hm|]; [|intros [= <- <-]; exists 0; lia].
    intros (k & ? & -> & Hk)%IH. exists (k + 1). split; [lia|]. split; [lia|].
    pose proof (Z.div_mod m 10 ltac:(lia)) as Hdiv. rewrite Hk, Hm in Hdiv.
    rewrite Z.pow_add_r by lia. change (10 ^ 1) with 10. lia.
Qed.

Lemma decimal_not_nan negative m e : is_nan (decimal negative m e) = false.
Proof.
  unfold decimal. destruct (m =? 0); [by destruct negative|].
  destruct (normal m e) as [m' e']. destruct (0 <=? e').
  - apply float_of_Z_not_nan.
  - apply SF2Prim_not_nan, SFdiv_finite_not_nan.
Qed.

(** [float()] raises nothing but [ValueError]. *)
Lemma py_float_Raise s e : py_float s = Raise e → e = ValueError.
Proof.
  unfold py_float. destruct (sign (strip s)) as [negative body].
  destruct (special body); [done|].
  destruct (number body) as [[[m nf] rest]|]; [|by intros [=]].
  destruct (exponent rest); by intros [=].
Qed.

(** [float()] returns NaN for the text [nan], with or without a sign, in
    any case, between white space, and for no other text. *)
Lemma py_float_nan s x :
  py_float s = Ok x → is_nan x = true ↔ lower (sign (strip s)).2 = "nan".
Proof.
  unfold py_float. destruct (sign (strip s)) as [negative body]; simpl.
  unfold special. case_bool_decide as Hinf; [|case_bool_decide as Hnan].
  - intros [= <-]. split; [by destruct negative|].
    intros Hn. rewrite Hn in Hinf. by destruct Hinf.
  - intros [= <-]. by destruct negative.
  - destruct (number body) as [[[m nf] rest]|]; [|done].
    destruct (exponent rest); [|done]. intros [= <-]. by rewrite decimal_not_nan.
Qed.

(** *** The text of an integer *)

Lemma scan_digits_app s t acc n after_digit :
  all_chars is_digit s = true → s ≠ "" →
  scan_digits (s +:+ t) acc n after_digit =
    scan_digits t (read_digits s acc) (n + Z.of_nat (String.length s)) true.
Proof.
  revert acc n after_digit. induction s as [|c s IH]; intros acc n b Hs Hne; [done|].
  simpl in Hs. apply andb_prop in Hs as [Hc Hs]. rewrite string_app_cons.
  apply bool_decide_eq_true_1 in Hc as [d Hd]. simpl. rewrite Hd. simpl.
  destruct s as [|c' s]; [f_equal; lia|].
  rewrite IH by done. f_equal. simpl String.length. lia.
Qed.

Lemma scan_digits_stop c t acc n after_digit :
  digit_of c = None → c ≠ "_"%char →
  scan_digits (String c t) acc n after_digit = (acc, n, String c t).
Proof. intros Hc ?. simpl. rewrite Hc. by rewrite bool_decide_eq_false_2. Qed.

Lemma scan_digits_two c1 c2 d1 d2 acc :
  digit_of c1 = Some d1 → digit_of c2 = Some d2 →
  scan_digits (String c1 (String c2 "")) acc 0 false =
    (10 * (10 * acc + d1) + d2, 0 + 1 + 1, "").
Proof. intros H1 H2. simpl. by rewrite H1, H2. Qed.

Lemma lower_char_digit c : is_digit c = true → lower_char c = c.
Proof.
  intros [d [Hd Hc]%digit_of_Some]%bool_decide_eq_true_1. unfold lower_char.
  rewrite Hc. destruct (Nat.leb_spec 65 (48 + Z.to_nat d)); [lia|done].
Qed.

Lemma special_digit c s : is_digit c = true → special (String c s) = None.
Proof.
  intros Hc. unfold special. simpl. rewrite (lower_char_digit c Hc).
  rewrite !bool_decide_eq_false_2; [done|..].
  - intros [= -> _]. done.
  - intros [[= -> _]|[= -> _]]; done.
Qed.

Lemma decimal_integer negative m :
  0 < m → decimal negative m 0 = float_of_Z (if negative then - m else m).
Proof.
  intros Hm. unfold decimal. rewrite (proj2 (Z.eqb_neq m 0)) by lia.
  destruct (normal m 0) as [m' e'] eqn:E.
  apply strip_zeros_spec in E as (k & ? & -> & ->).
  rewrite (proj2 (Z.leb_le 0 (0 + k))), Z.add_0_l by lia.
  f_equal. destruct negative; [apply Z.mul_opp_l|done].
Qed.

Lemma py_float_text negative c s :
  all_chars is_digit (String c s) = true →
  py_float ((if negative : bool then "-" else "") +:+ String c s) =
    Ok (decimal negative (read_digits (String c s) 0) 0).
Proof.
  intros Hs. pose proof Hs as [Hc _]%andb_prop. unfold py_float.
  rewrite strip_all_chars.
  - assert (sign ((if negative then "-" else "") +:+ String c s) = (negative, String c s))
      as -> by (destruct negative; [done|]; by apply sign_digit).
    rewrite special_digit by done. unfold number.
    rewrite <- (string_app_nil_r (String c s)) at 1.
    by rewrite (scan_digits_app (String c s) "" 0 0 false Hs).
  - rewrite all_chars_app.
    rewrite (all_chars_impl _ _ _ is_digit_not_whitespace Hs). by destruct negative.
Qed.

(** [float(str(z))] is [float(z)]: the text of an integer is read as the
    float nearest to the integer. *)
Theorem py_float_pretty (z : Z) : py_float (pretty z) = Ok (float_of_Z z).
Proof.
  destruct z as [|p|p]; [done|..]; unfold pretty, pretty_Z;
    destruct (pretty_pos_text p) as (c & s & -> & Hs & Hp).
  - etrans; [apply (py_float_text false c s Hs)|]. by rewrite Hp, decimal_integer.
  - etrans; [apply (py_float_text true c s Hs)|]. by rewrite Hp, decimal_integer.
Qed.

(** ** What [:.2f] shows *)

Lemma round_half_even_nearest n d :
  0 < d → Z.abs (2 * n - 2 * d * round_half_even n d) ≤ d.
Proof.
  intros Hd. unfold round_half_even.
  pose proof (Z.div_mod n d ltac:(lia)). pose proof (Z.mod_pos_bound n d Hd).
  destruct (Z.compare_spec (2 * (n mod d)) d); [destruct (Z.even _)|..]; nia.
Qed.

Lemma round_half_even_nonneg n d : 0 ≤ n → 0 < d → 0 ≤ round_half_even n d.
Proof.
  intros Hn Hd. unfold round_half_even. pose proof (Z.div_pos n d Hn Hd).
  destruct (_ ?= _); [destruct (Z.even _)|..]; lia.
Qed.

Lemma to_hundredths_nonneg m e : 0 ≤ to_hundredths m e.
Proof.
  unfold to_hundredths. destruct (Z.leb_spec 0 e).
  - pose proof (Z.pow_pos_nonneg 2 e). nia.
  - apply round_half_even_nonneg; [lia|]. apply Z.pow_pos_nonneg; lia.
Qed.

(** The integer [:.2f] shows, read as hundredths, is the nearest to the
    float: exact when the float is an integer, and otherwise within half a
    hundredth of [m / 2^(-e)]. *)
Lemma to_hundredths_nearest m e :
  if 0 <=? e then to_hundredths m e = Z.pos m * 2 ^ e * 100
  else Z.abs (2 * (Z.pos m * 100) - 2 * 2 ^ (- e) * to_hundredths m e) ≤ 2 ^ (- e).
Proof.
  unfold to_hundredths. destruct (Z.leb_spec 0 e); [done|].
  apply round_half_even_nearest, Z.pow_pos_nonneg; lia.
Qed.

(** [float()] reads the text of [n] hundredths as the decimal [n * 10^-2]. *)
Lemma py_float_hundredths negative n :
  0 ≤ n → py_float (with_sign negative (hundredths n)) = Ok (decimal negative n (-2)).
Proof.
  intros Hn. unfold hundredths.
  destruct (pretty_nonneg_text (n / 100)) as (c & s & -> & Hs & Hv);
    [apply Z.div_pos; lia|].
  destruct (pretty_digit_text (n mod 100 / 10)) as (c1 & -> & H1);
    [Z.div_mod_to_equations; lia|].
  destruct (pretty_digit_text (n mod 10)) as (c2 & -> & H2);
    [Z.div_mod_to_equations; lia|].
  change ("." +:+ String c1 "" +:+ String c2 "") with (String "." (String c1 (String c2 ""))).
  pose proof Hs as [Hc _]%andb_prop. unfold py_float. rewrite strip_all_chars.
  - assert (∀ t, sign (with_sign negative (String c s +:+ t)) = (negative, String c s +:+ t))
      as -> by (intros t; destruct negative; [done|]; by apply sign_digit).
    rewrite string_app_cons, special_digit, <- string_app_cons by done. unfold number.
    rewrite (scan_digits_app (String c s) _ 0 0 false Hs), Hv by done.
    rewrite (scan_digits_stop "."), (scan_digits_two c1 c2 _ _ _ H1 H2) by done.
    change (0 =? 0) with true. change (0 + 1 + 1 =? 0) with false. rewrite andb_false_r.
    cbn [exponent]. do 2 f_equal. Z.div_mod_to_equations. lia.
  - assert (all_chars (λ c, negb (is_whitespace c))
              (String c s +:+ String "." (String c1 (String c2 ""))) = true) as Hw.
    { rewrite all_chars_app, (all_chars_impl _ _ _ is_digit_not_whitespace Hs). simpl.
      rewrite !is_digit_not_whitespace; [done|unfold is_digit; by rewrite ?H1, ?H2..]. }
    destruct negative; [|done]. unfold with_sign. by rewrite string_app_cons.
Qed.

(** C37: the text [:.2f] shows of a finite float reads back as the decimal of
    two places nearest to the float. *)
Theorem format_2f_reads_back x s m e :
  Prim2SF x = S754_finite s m e →
  py_float (format_2f x) = Ok (decimal s (to_hundredths m e) (-2)).
Proof.
  intros Hx. unfold format_2f. rewrite Hx.
  apply py_float_hundredths, to_hundredths_nonneg.
Qed.
