(* ===== verification/Frame.v ===== *)
(** * Frame: pandas frames and series

    The sources keep the ratings and the genre matrix in pandas frames and
    read them through a handful of pandas operations.  This file models the
    two containers and each operation the sources call, by its name:

    - a [Series] is a list of labelled values, in order;
    - a [DataFrame] is a list of row labels ([index]), a list of column
      labels ([columns]) and the rows of cells ([values]).

    pandas keeps a frame rectangular and the program never repeats a label;
    [df_wf] states both, each operation is proved to preserve it, and it is
    decidable, so a concrete frame is checked by evaluation.  The
    operations are total on every frame: where pandas raises [KeyError] the
    model returns [Raise (KeyError _)].

    [df_loc_set] is [df.loc[r, c] = v].  pandas enlarges the frame when [r]
    or [c] is a new label (the other new cells become NaN); the model does
    the same, and the theorems on the rating handlers show that they only
    ever write to a cell that exists. *)

From Stdlib Require Import ZArith.
From stdpp Require Import list strings sorting.
From S2P Require Import Prelude Sorting Scalar.

(** A [Series] is a notation and not a definition, so that the lemmas of
    lists apply to a series as they are. *)
Abbreviation Series A := (list (string * A)).

Record DataFrame (A : Type) : Type := mkDataFrame {
  index : list string;
  columns : list string;
  values : list (list A);
}.
Arguments mkDataFrame {A} index columns values.
Arguments index {A} _.
Arguments columns {A} _.
Arguments values {A} _.

Section frame.
Context {A : Type}.
Implicit Types (df : DataFrame A) (s : Series A) (r c : string).

(** The cells of column [j], top to bottom. *)
Definition column (j : nat) (rows : list (list A)) : list A :=
  omap (λ row, row !! j) rows.

(** [M.T] for a matrix with [k] columns. *)
Definition transpose (k : nat) (rows : list (list A)) : list (list A) :=
  (λ j, column j rows) <$> seq 0 k.

(** [df.T] *)
Definition df_T df : DataFrame A :=
  mkDataFrame (columns df) (index df) (transpose (length (columns df)) (values df)).

(** [df.loc[r]]: the row labelled [r], as a series over the columns. *)
Definition df_loc_row df r : result (Series A) :=
  i ← get_loc r (index df);
  Ok (zip (columns df) (default [] (values df !! i))).

(** [df[c]]: the column labelled [c], as a series over the index. *)
Definition df_col df c : result (Series A) :=
  j ← get_loc c (columns df);
  Ok (zip (index df) (column j (values df))).

(** [df.loc[r, c]] *)
Definition df_loc df r c : result A :=
  i ← get_loc r (index df);
  j ← get_loc c (columns df);
  match values df !! i ≫= (.!! j) with
  | Some x => Ok x
  | None => Raise (KeyError c)
  end.

(** [s[label]] *)
Fixpoint series_get s (label : string) : result A :=
  match s with
  | [] => Raise (KeyError label)
  | (k, v) :: s' => if decide (label = k) then Ok v else series_get s' label
  end.

(** [s.index] *)
Definition series_index s : list string := s.*1.

(** [s.head(n)] *)
Definition series_head (n : nat) s : Series A := take n s.

(** [s.drop(label)]: without the entries labelled [label]; [KeyError] when
    there is none. *)
Definition series_drop s (label : string) : result (Series A) :=
  if decide (label ∈ series_index s)
  then Ok (filter (λ p, p.1 ≠ label) s)
  else Raise (KeyError label).

(** Setting a cell with a new column label appends the column, filled with
    [na]. *)
Definition ensure_column (na : A) df c : DataFrame A :=
  if decide (c ∈ columns df) then df
  else mkDataFrame (index df) (columns df ++ [c]) ((.++ [na]) <$> values df).

(** Setting a cell with a new row label appends the row, filled with [na]. *)
Definition ensure_row (na : A) df r : DataFrame A :=
  if decide (r ∈ index df) then df
  else mkDataFrame (index df ++ [r]) (columns df)
         (values df ++ [replicate (length (columns df)) na]).

(** [df.loc[r, c] = v], where [na] fills the other cells of a new row or
    column. *)
Definition df_loc_set (na : A) df r c (v : A) : DataFrame A :=
  let df' := ensure_row na (ensure_column na df c) r in
  match index_of r (index df'), index_of c (columns df') with
  | Some i, Some j =>
      mkDataFrame (index df') (columns df') (alter (<[j:=v]>) i (values df'))
  | _, _ => df'
  end.

(** A frame is well formed when it is a rectangle and no label repeats. *)
Definition df_wf df : Prop :=
  NoDup (index df) ∧ NoDup (columns df) ∧
  length (values df) = length (index df) ∧
  Forall (λ row, length row = length (columns df)) (values df).

#[export] Instance df_wf_dec df : Decision (df_wf df).
Proof. unfold df_wf. apply _. Defined.

End frame.

Section scalar_frame.
Context {T : Type} `{Scalar T}.
Implicit Types (df : DataFrame T) (s : Series T).

(** [df.fillna(v)] *)
Definition fillna (v : T) df : DataFrame T :=
  mkDataFrame (index df) (columns df)
    ((λ row : list T, (λ x, if isnan x then v else x) <$> row) <$> values df).

(** [df[df[c].isna()].index]: the labels of the rows whose cell in column
    [c] is NaN. *)
Definition isna_index df (c : string) : result (list string) :=
  col ← df_col df c;
  Ok (filter (λ p, isnan p.2 = true) col).*1.

(** [s.sort_values(ascending=False)]: the values that are not NaN in
    decreasing order, ties in the order of the series, then the NaN ones. *)
Definition sort_values_desc s : Series T :=
  sorted_reverse (λ p q, np_lt p.2 q.2) (filter (λ p, isnan p.2 = false) s)
  ++ filter (λ p, isnan p.2 = true) s.

(** [np.argsort(a)]: the positions of [a] in increasing order of their
    values, ties in increasing position, NaN last. *)
Definition argsort (a : list T) : list nat :=
  (insertion_sort (λ p q, np_lt p.2 q.2) (zip (seq 0 (length a)) a)).*1.

End scalar_frame.

(** ** Lemmas on columns and transposition *)

Section frame_lemmas.
Context {A : Type}.
Implicit Types (df : DataFrame A) (s : Series A) (r c label : string).
Implicit Types (rows : list (list A)).

Lemma column_Forall2 j rows :
  Forall (λ row, j < length row) rows →
  Forall2 (λ row x, row !! j = Some x) rows (column j rows).
Proof.
  unfold column. induction 1 as [|row rows Hj _ IH]; simpl; [constructor|].
  destruct (lookup_lt_is_Some_2 row j Hj) as [x Hx]. rewrite Hx. by constructor.
Qed.

Lemma length_column j rows :
  Forall (λ row, j < length row) rows → length (column j rows) = length rows.
Proof. intros Hj. symmetry. by eapply Forall2_length, column_Forall2. Qed.

Lemma column_lookup j rows i :
  Forall (λ row, j < length row) rows →
  column j rows !! i = rows !! i ≫= (.!! j).
Proof.
  intros Hj%column_Forall2. destruct (rows !! i) as [row|] eqn:Hi; simpl.
  - destruct (Forall2_lookup_l _ _ _ _ _ Hj Hi) as (x & -> & Hx). by rewrite Hx.
  - apply lookup_ge_None. rewrite <- (Forall2_length _ _ _ Hj).
    by apply lookup_ge_None.
Qed.

Lemma length_transpose k rows : length (transpose k rows) = k.
Proof. unfold transpose. by rewrite length_fmap, length_seq. Qed.

Lemma transpose_lookup k rows j :
  j < k → transpose k rows !! j = Some (column j rows).
Proof.
  intros Hj. unfold transpose. by rewrite list_lookup_fmap, lookup_seq_lt.
Qed.

Lemma transpose_rows k rows :
  Forall (λ row, length row = k) rows →
  Forall (λ col, length col = length rows) (transpose k rows).
Proof.
  intros Hrows. apply Forall_lookup. intros j col Hcol.
  assert (j < k) as Hj.
  { apply lookup_lt_Some in Hcol. by rewrite length_transpose in Hcol. }
  rewrite transpose_lookup in Hcol by done. injection Hcol as <-.
  apply length_column. eapply Forall_impl; [done|]. simpl. lia.
Qed.

Lemma transpose_cell k rows i j :
  Forall (λ row, length row = k) rows → j < k →
  transpose k rows !! j ≫= (.!! i) = rows !! i ≫= (.!! j).
Proof.
  intros Hrows Hj. rewrite transpose_lookup by done. simpl.
  apply column_lookup. eapply Forall_impl; [done|]. simpl. lia.
Qed.

(** What holds of every cell holds of every cell of the transpose. *)
Lemma Forall_column (P : A → Prop) j rows :
  Forall (Forall P) rows → Forall P (column j rows).
Proof.
  intros Hrows. apply Forall_forall. intros x (row & Hrow & Hx)%list_elem_of_omap.
  eapply Forall_lookup_1; [|exact Hx]. by eapply Forall_forall in Hrows.
Qed.

Lemma Forall_transpose (P : A → Prop) k rows :
  Forall (Forall P) rows → Forall (Forall P) (transpose k rows).
Proof.
  intros Hrows. unfold transpose. apply Forall_fmap, Forall_true.
  intros j. by apply Forall_column.
Qed.

Lemma transpose_involutive k rows :
  Forall (λ row, length row = k) rows →
  transpose (length rows) (transpose k rows) = rows.
Proof.
  intros Hrows. apply list_eq. intros i.
  destruct (decide (i < length rows)) as [Hi|Hi].
  - rewrite transpose_lookup by done.
    destruct (lookup_lt_is_Some_2 rows i Hi) as [row Hrow]. rewrite Hrow.
    f_equal. apply list_eq. intros j.
    pose proof (transpose_rows k rows Hrows) as Hcols.
    rewrite column_lookup
      by (eapply Forall_impl; [done|]; simpl; lia).
    destruct (decide (j < k)) as [Hj|Hj].
    + rewrite (transpose_cell k rows i j Hrows Hj), Hrow. done.
    + rewrite (lookup_ge_None_2 (transpose k rows)) by (rewrite length_transpose; lia).
      symmetry. apply lookup_ge_None.
      rewrite (Forall_lookup_1 _ _ _ _ Hrows Hrow). lia.
  - rewrite !lookup_ge_None_2; [done|lia|rewrite length_transpose; lia].
Qed.

(** ** Lemmas on frames *)

Lemma df_T_wf df : df_wf df → df_wf (df_T df).
Proof.
  intros (Hi & Hc & Hlen & Hrows). unfold df_wf, df_T; simpl.
  split_and!; [done..|by rewrite length_transpose|].
  rewrite <- Hlen. by apply transpose_rows.
Qed.

(** Transposing a well-formed frame twice gives the frame back. *)
Theorem df_T_involutive df : df_wf df → df_T (df_T df) = df.
Proof.
  intros (Hi & Hc & Hlen & Hrows). destruct df as [idx cols vals].
  unfold df_T; simpl in *. f_equal. rewrite <- Hlen.
  by apply transpose_involutive.
Qed.


Lemma df_loc_row_Raise df r e :
  df_loc_row df r = Raise e ↔ (r ∉ index df) ∧ e = KeyError r.
Proof.
  unfold df_loc_row. rewrite <- get_loc_Raise.
  destruct (get_loc r (index df)); simpl; naive_solver.
Qed.

Lemma df_loc_row_is_Ok df r : is_Ok (df_loc_row df r) ↔ r ∈ index df.
Proof.
  rewrite <- get_loc_is_Ok. unfold df_loc_row, is_Ok.
  destruct (get_loc r (index df)); simpl; naive_solver.
Qed.

Lemma df_loc_row_index df r s :
  df_wf df → df_loc_row df r = Ok s → series_index s = columns df.
Proof.
  intros (_ & _ & Hlen & Hrows). unfold df_loc_row. intros Hs. inv_result.
  apply get_loc_Ok in E. pose proof (index_of_lt _ _ _ E) as Hlt.
  rewrite <- Hlen in Hlt.
  destruct (lookup_lt_is_Some_2 _ _ Hlt) as [row Hrow]. rewrite Hrow; simpl.
  apply fst_zip. by rewrite (Forall_lookup_1 _ _ _ _ Hrows Hrow).
Qed.

Lemma df_col_Raise df c e :
  df_col df c = Raise e ↔ (c ∉ columns df) ∧ e = KeyError c.
Proof.
  unfold df_col. rewrite <- get_loc_Raise.
  destruct (get_loc c (columns df)); simpl; naive_solver.
Qed.

Lemma df_col_is_Ok df c : is_Ok (df_col df c) ↔ c ∈ columns df.
Proof.
  rewrite <- get_loc_is_Ok. unfold df_col, is_Ok.
  destruct (get_loc c (columns df)); simpl; naive_solver.
Qed.

Lemma df_wf_column_lt df c j :
  df_wf df → index_of c (columns df) = Some j →
  Forall (λ row, j < length row) (values df).
Proof.
  intros (_ & _ & _ & Hrows) Hj%index_of_lt.
  eapply Forall_impl; [done|]. simpl. lia.
Qed.

Lemma df_col_index df c s :
  df_wf df → df_col df c = Ok s → series_index s = index df.
Proof.
  intros Hwf. unfold df_col. intros Hs. inv_result. apply get_loc_Ok in E.
  apply fst_zip. rewrite length_column by eauto using df_wf_column_lt.
  destruct Hwf as (_ & _ & -> & _). done.
Qed.

Lemma df_loc_Raise_row df r c : r ∉ index df → df_loc df r c = Raise (KeyError r).
Proof.
  intros Hr. unfold df_loc. apply bind_Raise. by apply get_loc_Raise.
Qed.

Lemma df_loc_is_Ok df r c :
  df_wf df → r ∈ index df → c ∈ columns df → is_Ok (df_loc df r c).
Proof.
  intros (_ & _ & Hlen & Hrows) [i Hi]%index_of_is_Some [j Hj]%index_of_is_Some.
  unfold df_loc, get_loc. rewrite Hi, Hj; simpl.
  apply index_of_lt in Hi, Hj. rewrite <- Hlen in Hi.
  destruct (lookup_lt_is_Some_2 _ _ Hi) as [row Hrow]. rewrite Hrow; simpl.
  rewrite <- (Forall_lookup_1 _ _ _ _ Hrows Hrow) in Hj.
  destruct (lookup_lt_is_Some_2 _ _ Hj) as [x ->]. by exists x.
Qed.

(** The cell of the transposed frame at a column and a row of the
    frame is the cell of the frame at that row and that column. *)
Theorem df_T_loc df r c :
  df_wf df → r ∈ index df → c ∈ columns df →
  df_loc (df_T df) c r = df_loc df r c.
Proof.
  intros Hwf Hr Hc. destruct (df_loc_is_Ok df r c Hwf Hr Hc) as [x Hx].
  rewrite Hx. revert Hx. destruct Hwf as (_ & _ & Hlen & Hrows).
  apply index_of_is_Some in Hr as [i Hi]. apply index_of_is_Some in Hc as [j Hj].
  unfold df_loc, df_T, get_loc; simpl. rewrite Hi, Hj; simpl.
  rewrite transpose_cell; [|done|by eapply index_of_lt].
  by destruct (values df !! i ≫= _).
Qed.

Lemma df_loc_Ok_inv df r c x :
  df_loc df r c = Ok x → r ∈ index df ∧ c ∈ columns df.
Proof.
  unfold df_loc. intros Hx. inv_result.
  split; apply get_loc_is_Ok; by eexists.
Qed.

(** A cell read by its labels is the cell at the positions of the labels. *)
Lemma df_loc_cell df r c x :
  df_loc df r c = Ok x ↔
  ∃ i j, index_of r (index df) = Some i ∧ index_of c (columns df) = Some j ∧
         values df !! i ≫= (.!! j) = Some x.
Proof.
  unfold df_loc, get_loc. split.
  - destruct (index_of r (index df)) as [i|]; simpl; [|done].
    destruct (index_of c (columns df)) as [j|]; simpl; [|done].
    intros Hx. exists i, j. by destruct (values df !! i ≫= _); simplify_eq.
  - intros (i & j & -> & -> & Hx); simpl. by rewrite Hx.
Qed.

(** ** Lemmas on series *)

Lemma series_get_is_Ok s label : is_Ok (series_get s label) ↔ label ∈ series_index s.
Proof.
  unfold series_index, is_Ok. induction s as [|[k v] s IH]; simpl.
  - rewrite elem_of_nil. naive_solver.
  - rewrite elem_of_cons. case_decide; naive_solver.
Qed.

Lemma series_get_elem_of s label x : series_get s label = Ok x → (label, x) ∈ s.
Proof.
  induction s as [|[k v] s IH]; simpl; [done|].
  case_decide; [intros [= ->]; subst; left|right; auto].
Qed.

Lemma series_get_NoDup s label x :
  NoDup (series_index s) → (label, x) ∈ s → series_get s label = Ok x.
Proof.
  unfold series_index. induction s as [|[k v] s IH]; simpl.
  - by intros _ ?%elem_of_nil.
  - intros [Hk Hs]%NoDup_cons [[= -> ->]|Hin]%elem_of_cons.
    + by rewrite decide_True.
    + rewrite decide_False; [by apply IH|].
      intros ->. apply Hk. by apply (list_elem_of_fmap_2 fst) in Hin.
Qed.

Lemma series_drop_Ok s label s' :
  series_drop s label = Ok s' ↔
    label ∈ series_index s ∧ s' = filter (λ p, p.1 ≠ label) s.
Proof. unfold series_drop. case_decide; naive_solver. Qed.

Lemma series_drop_Raise s label e :
  series_drop s label = Raise e ↔ (label ∉ series_index s) ∧ e = KeyError label.
Proof. unfold series_drop. case_decide; naive_solver. Qed.

Lemma series_index_filter_ne s label :
  series_index (filter (λ p, p.1 ≠ label) s)
  = filter (λ k, k ≠ label) (series_index s).
Proof.
  unfold series_index. induction s as [|[k v] s IH]; [done|].
  rewrite fmap_cons, !filter_cons. simpl (_.1).
  destruct (decide (k ≠ label)); [rewrite fmap_cons|]; by rewrite IH.
Qed.

Lemma series_drop_index s label s' :
  series_drop s label = Ok s' →
  series_index s' = filter (λ k, k ≠ label) (series_index s).
Proof. intros [_ ->]%series_drop_Ok. apply series_index_filter_ne. Qed.

Lemma series_drop_not_elem_of s label s' :
  series_drop s label = Ok s' → label ∉ series_index s'.
Proof.
  intros ->%series_drop_index [Hne _]%list_elem_of_filter. done.
Qed.

Lemma series_head_sublist n s : series_index (series_head n s) `sublist_of` series_index s.
Proof. unfold series_index, series_head. rewrite fmap_take. apply sublist_take. Qed.

Lemma length_series_head n s : length (series_head n s) ≤ n.
Proof. unfold series_head. rewrite length_take. lia. Qed.

(** ** Lemmas on setting a cell *)

Lemma ensure_column_wf na df c : df_wf df → df_wf (ensure_column na df c).
Proof.
  intros (Hi & Hc & Hlen & Hrows). unfold ensure_column.
  case_decide as Hin; [done|]. unfold df_wf; simpl.
  split_and!; [done| |by rewrite length_fmap|].
  - apply NoDup_app. split_and!; [done| |apply NoDup_singleton].
    intros x Hx ->%list_elem_of_singleton. done.
  - apply Forall_fmap. eapply Forall_impl; [done|]. simpl.
    intros row Hrow. rewrite !length_app, Hrow. done.
Qed.

Lemma ensure_row_wf na df r : df_wf df → df_wf (ensure_row na df r).
Proof.
  intros (Hi & Hc & Hlen & Hrows). unfold ensure_row.
  case_decide as Hin; [done|]. unfold df_wf; simpl.
  split_and!; [|done|by rewrite !length_app, Hlen|].
  - apply NoDup_app. split_and!; [done| |apply NoDup_singleton].
    intros x Hx ->%list_elem_of_singleton. done.
  - apply Forall_app. split; [done|].
    apply Forall_singleton. by rewrite length_replicate.
Qed.

Lemma ensure_column_elem_of na df c : c ∈ columns (ensure_column na df c).
Proof.
  unfold ensure_column. case_decide; [done|]. simpl.
  apply elem_of_app. right. by apply list_elem_of_singleton.
Qed.

Lemma ensure_row_elem_of na df r : r ∈ index (ensure_row na df r).
Proof.
  unfold ensure_row. case_decide; [done|]. simpl.
  apply elem_of_app. right. by apply list_elem_of_singleton.
Qed.

Lemma ensure_row_columns na df r : columns (ensure_row na df r) = columns df.
Proof. unfold ensure_row. by case_decide. Qed.

Lemma ensure_existing na df r c :
  r ∈ index df → c ∈ columns df → ensure_row na (ensure_column na df c) r = df.
Proof.
  intros Hr Hc. unfold ensure_column. rewrite decide_True by done.
  unfold ensure_row. by rewrite decide_True.
Qed.

(** The frame after [df.loc[r, c] = v] when both labels exist: the same
    labels, and the one cell replaced. *)
Lemma df_loc_set_existing na df r c v :
  r ∈ index df → c ∈ columns df →
  ∃ i j, index_of r (index df) = Some i ∧ index_of c (columns df) = Some j ∧
    df_loc_set na df r c v =
      mkDataFrame (index df) (columns df) (alter (<[j:=v]>) i (values df)).
Proof.
  intros Hr Hc. unfold df_loc_set. rewrite ensure_existing by done.
  destruct (proj2 (index_of_is_Some r _) Hr) as [i Hi].
  destruct (proj2 (index_of_is_Some c _) Hc) as [j Hj].
  exists i, j. by rewrite Hi, Hj.
Qed.

Lemma alter_insert_wf (rows : list (list A)) k i j v :
  Forall (λ row, length row = k) rows →
  Forall (λ row, length row = k) (alter (<[j:=v]>) i rows).
Proof.
  intros Hrows. apply Forall_alter; [done|].
  intros row _ Hrow. by rewrite length_insert.
Qed.

Lemma df_loc_set_wf na df r c v : df_wf df → df_wf (df_loc_set na df r c v).
Proof.
  intros Hwf. unfold df_loc_set.
  pose proof (ensure_row_wf na _ r (ensure_column_wf na df c Hwf)) as Hwf'.
  destruct (index_of r _) as [i|]; [|done].
  destruct (index_of c _) as [j|]; [|done].
  destruct Hwf' as (Hi & Hc & Hlen & Hrows). unfold df_wf; simpl.
  split_and!; [done..|by rewrite length_alter|by apply alter_insert_wf].
Qed.

Lemma df_loc_set_index na df r c v :
  r ∈ index df → c ∈ columns df → index (df_loc_set na df r c v) = index df.
Proof.
  intros Hr Hc.
  by destruct (df_loc_set_existing na df r c v Hr Hc) as (i & j & _ & _ & ->).
Qed.

Lemma df_loc_set_columns na df r c v :
  r ∈ index df → c ∈ columns df → columns (df_loc_set na df r c v) = columns df.
Proof.
  intros Hr Hc.
  by destruct (df_loc_set_existing na df r c v Hr Hc) as (i & j & _ & _ & ->).
Qed.

(** Reading the cell that was set gives the value that was set, also when
    the frame was enlarged. *)
Lemma df_loc_set_loc_eq na df r c v :
  df_wf df → df_loc (df_loc_set na df r c v) r c = Ok v.
Proof.
  intros Hwf. unfold df_loc_set.
  pose proof (ensure_row_wf na _ r (ensure_column_wf na df c Hwf)) as Hwf'.
  pose proof (ensure_row_elem_of na (ensure_column na df c) r) as Hr.
  pose proof (ensure_column_elem_of na df c) as Hc.
  rewrite <- (ensure_row_columns na _ r) in Hc.
  set (df' := ensure_row na (ensure_column na df c) r) in *.
  destruct (proj2 (index_of_is_Some r _) Hr) as [i Hi].
  destruct (proj2 (index_of_is_Some c _) Hc) as [j Hj].
  rewrite Hi, Hj. unfold df_loc, get_loc; simpl. rewrite Hi, Hj; simpl.
  destruct Hwf' as (_ & _ & Hlen & Hrows).
  apply index_of_lt in Hi, Hj. rewrite <- Hlen in Hi.
  destruct (lookup_lt_is_Some_2 _ _ Hi) as [row Hrow].
  rewrite list_lookup_alter_eq, Hrow; simpl.
  rewrite list_lookup_insert_eq; [done|].
  by rewrite (Forall_lookup_1 _ _ _ _ Hrows Hrow).
Qed.

(** Every other cell reads as before. *)
Lemma df_loc_set_loc_ne na df r c v r' c' :
  r ∈ index df → c ∈ columns df → (r', c') ≠ (r, c) →
  df_loc (df_loc_set na df r c v) r' c' = df_loc df r' c'.
Proof.
  intros Hr Hc Hne.
  destruct (df_loc_set_existing na df r c v Hr Hc) as (i & j & Hi & Hj & ->).
  unfold df_loc, get_loc; simpl.
  destruct (index_of r' (index df)) as [i'|] eqn:Hi'; simpl; [|done].
  destruct (index_of c' (columns df)) as [j'|] eqn:Hj'; simpl; [|done].
  rewrite list_lookup_alter. case_decide as Hii; [subst i'|done].
  destruct (values df !! i) as [row|]; simpl; [|done].
  rewrite list_lookup_insert. case_decide as Hjj; [|done].
  destruct Hjj as [<- _]. destruct Hne.
  apply index_of_Some in Hi, Hi', Hj, Hj'. congruence.
Qed.

End frame_lemmas.

(** ** Lemmas on the operations that look at NaN *)

Section scalar_frame_lemmas.
Context {T : Type} `{Scalar T}.
Implicit Types (df : DataFrame T) (s : Series T) (r c : string).

Lemma fillna_wf v df : df_wf df → df_wf (fillna v df).
Proof.
  intros (Hi & Hc & Hlen & Hrows). unfold df_wf, fillna; simpl.
  split_and!; [done..|by rewrite length_fmap|].
  apply Forall_fmap. eapply Forall_impl; [done|]. simpl.
  intros row Hrow. by rewrite length_fmap.
Qed.

(** After [fillna] with a value that is not NaN no cell of the frame
    is NaN. *)
Theorem fillna_no_nan v df :
  isnan v = false →
  Forall (Forall (λ x, isnan x = false)) (values (fillna v df)).
Proof.
  intros Hv. unfold fillna; simpl. apply Forall_fmap, Forall_true.
  intros row. apply Forall_fmap, Forall_true. intros x; simpl.
  by destruct (isnan x) eqn:E.
Qed.

(** [fillna] leaves a cell that is not NaN as it is. *)
Lemma fillna_loc_number v df (r c : string) x :
  df_loc df r c = Ok x → isnan x = false → df_loc (fillna v df) r c = Ok x.
Proof.
  intros (i & j & Hi & Hj & Hx)%df_loc_cell Hnan. apply df_loc_cell.
  exists i, j. split_and!; [done..|]. unfold fillna; simpl.
  rewrite list_lookup_fmap. destruct (values df !! i) as [row|]; simpl in *; [|done].
  by rewrite list_lookup_fmap, Hx; simpl; rewrite Hnan.
Qed.

Lemma df_col_elem_of df c s m x :
  df_wf df → df_col df c = Ok s → (m, x) ∈ s ↔ df_loc df m c = Ok x.
Proof.
  intros Hwf Hs. unfold df_col in Hs. inv_result. apply get_loc_Ok in E.
  pose proof (df_wf_column_lt df c a Hwf E) as Hlt.
  destruct Hwf as (Hnd & _ & Hlen & _).
  unfold df_loc, get_loc. rewrite E. rewrite list_elem_of_lookup. split.
  - intros [i [Hm Hx]%lookup_zip_Some].
    rewrite (index_of_NoDup _ _ _ Hnd Hm); simpl.
    rewrite column_lookup in Hx by done. by rewrite Hx.
  - destruct (index_of m (index df)) as [i|] eqn:Hi; simpl; [|done].
    destruct (values df !! i ≫= (.!! a)) as [y|] eqn:Hy; [|done].
    intros [= ->]. exists i. apply lookup_zip_Some.
    split; [by apply index_of_Some|]. by rewrite column_lookup.
Qed.

Lemma isna_index_Raise df c e :
  isna_index df c = Raise e ↔ (c ∉ columns df) ∧ e = KeyError c.
Proof.
  unfold isna_index. rewrite <- df_col_Raise.
  destruct (df_col df c); simpl; naive_solver.
Qed.

Lemma isna_index_is_Ok df c : is_Ok (isna_index df c) ↔ c ∈ columns df.
Proof.
  rewrite <- df_col_is_Ok. unfold isna_index, is_Ok.
  destruct (df_col df c); simpl; naive_solver.
Qed.

Lemma isna_index_sublist df c l :
  df_wf df → isna_index df c = Ok l → l `sublist_of` index df.
Proof.
  intros Hwf Hl. unfold isna_index in Hl. inv_result.
  rewrite <- (df_col_index df c a Hwf E).
  apply fmap_sublist, sublist_filter.
Qed.

Lemma isna_index_NoDup df c l :
  df_wf df → isna_index df c = Ok l → NoDup l.
Proof.
  intros Hwf Hl. eapply sublist_NoDup; [|by eapply isna_index_sublist].
  apply Hwf.
Qed.

(** The labels returned are those of the rows whose cell is NaN. *)
Lemma isna_index_elem_of df c l m :
  df_wf df → isna_index df c = Ok l →
  m ∈ l ↔ ∃ x, df_loc df m c = Ok x ∧ isnan x = true.
Proof.
  intros Hwf Hl. unfold isna_index in Hl. inv_result.
  rewrite list_elem_of_fmap. split.
  - intros ([m' x] & -> & [Hx Hin]%list_elem_of_filter).
    exists x. split; [|done]. by apply (df_col_elem_of df c a).
  - intros (x & Hloc & Hx). exists (m, x). split; [done|].
    apply list_elem_of_filter. split; [done|].
    by apply (df_col_elem_of df c a).
Qed.

Lemma filter_isnan_complement s :
  filter (λ p, isnan p.2 = false) s ++ filter (λ p, isnan p.2 = true) s ≡ₚ s.
Proof.
  rewrite <- (filter_app_complement (λ p, isnan p.2 = false) s) at 3.
  f_equiv. erewrite list_filter_iff; [done|].
  intros [k x]; simpl. by destruct (isnan x).
Qed.

Lemma sort_values_desc_Permutation s : sort_values_desc s ≡ₚ s.
Proof.
  unfold sort_values_desc.
  by rewrite sorted_reverse_Permutation, filter_isnan_complement.
Qed.

Lemma sort_values_desc_index s :
  series_index (sort_values_desc s) ≡ₚ series_index s.
Proof. unfold series_index. by rewrite sort_values_desc_Permutation. Qed.

Lemma argsort_Permutation (a : list T) : argsort a ≡ₚ seq 0 (length a).
Proof.
  unfold argsort. rewrite insertion_sort_Permutation.
  by rewrite fst_zip by (rewrite length_seq; lia).
Qed.

Lemma length_argsort (a : list T) : length (argsort a) = length a.
Proof. by rewrite argsort_Permutation, length_seq. Qed.

Lemma argsort_lt (a : list T) i : i ∈ argsort a → i < length a.
Proof. rewrite argsort_Permutation, elem_of_seq. lia. Qed.

Lemma argsort_NoDup (a : list T) : NoDup (argsort a).
Proof. rewrite argsort_Permutation. apply NoDup_seq. Qed.

End scalar_frame_lemmas.

(** ** The order of the sorts *)

Section order_lemmas.
Context {T : Type} `{Scalar T} `{!ScalarOrder T} `{!ScalarWeakOrder T}.
Implicit Types (s : Series T) (a : list T).

(** Sorting labelled values by value, in the order of numpy, is a stable
    sort whatever the values: NaN is tied with NaN and above the rest. *)
Lemma by_value_stable_sorted {K} (l : list (K * T)) :
  stable_sorted (λ p q, np_lt p.2 q.2) l
    (insertion_sort (λ p q, np_lt p.2 q.2) l).
Proof.
  apply (insertion_sort_stable_sorted _ (λ _, True)).
  - intros p q. apply np_lt_asym.
  - intros p q r _. apply np_lt_neg_trans.
  - by apply Forall_true.
Qed.

Lemma by_value_stable_sorted_desc {K} (l : list (K * T)) :
  stable_sorted_desc (λ p q, np_lt p.2 q.2) l
    (sorted_reverse (λ p q, np_lt p.2 q.2) l).
Proof.
  apply (sorted_reverse_stable_sorted_desc _ (λ _, True)).
  - intros p q. apply np_lt_asym.
  - intros p q r _. apply np_lt_neg_trans.
  - by apply Forall_true.
Qed.

(** [desc_nan_last x y]: [y] may follow [x] in a series sorted in
    decreasing order with NaN last. *)
Definition desc_nan_last (x y : T) : Prop :=
  (x <? y)%sc = false ∧ (isnan x = true → isnan y = true).

(** [sort_values(ascending=False)] puts every value before the values that
    are not above it, and NaN last. *)
Lemma sort_values_desc_StronglySorted s :
  StronglySorted (λ p q, desc_nan_last p.2 q.2) (sort_values_desc s).
Proof.
  unfold sort_values_desc. apply StronglySorted_app_2.
  - intros p q Hp [Hq _]%list_elem_of_filter.
    rewrite elem_of_sorted_reverse in Hp. apply list_elem_of_filter in Hp as [Hp _].
    split; [by apply ltb_nan_r|congruence].
  - eapply StronglySorted_impl; [|apply by_value_stable_sorted_desc].
    intros p q Hp _ [Hpq _]%orb_false_elim.
    rewrite elem_of_sorted_reverse in Hp. apply list_elem_of_filter in Hp as [Hp _].
    split; [done|congruence].
  - apply StronglySorted_all. intros p q _ [Hq _]%list_elem_of_filter.
    split; [by apply ltb_nan_r|done].
Qed.

(** The positions of [a] with their values, in the order of [argsort]. *)
Definition argsort_items a : list (nat * T) :=
  insertion_sort (λ p q, np_lt p.2 q.2) (zip (seq 0 (length a)) a).

Lemma elem_of_zip_seq a i x : (i, x) ∈ zip (seq 0 (length a)) a ↔ a !! i = Some x.
Proof.
  rewrite list_elem_of_lookup. setoid_rewrite lookup_zip_Some.
  setoid_rewrite lookup_seq. split; [by intros (j & [-> _] & Hx)|].
  intros Hx. exists i. split_and!; [done| |done]. by eapply lookup_lt_Some.
Qed.

Lemma elem_of_argsort_items a p : p ∈ argsort_items a ↔ a !! p.1 = Some p.2.
Proof.
  unfold argsort_items. rewrite insertion_sort_Permutation.
  destruct p. apply elem_of_zip_seq.
Qed.

(** [np.argsort(a)[::-1]]: a position in the first [k] has a value that is
    not below the value of a position left out. *)
Lemma argsort_reverse_take_drop a k i j x y :
  i ∈ take k (reverse (argsort a)) → j ∈ drop k (reverse (argsort a)) →
  a !! i = Some x → a !! j = Some y → np_lt x y = false.
Proof.
  unfold argsort. fold (argsort_items a).
  rewrite <- fmap_reverse, <- fmap_take, <- fmap_drop.
  intros (p & -> & Hp)%list_elem_of_fmap (q & -> & Hq)%list_elem_of_fmap Hx Hy.
  assert (StronglySorted (descending (λ p q : nat * T, np_lt p.2 q.2))
            (reverse (argsort_items a))) as Hs.
  { apply (StronglySorted_reverse (ascending _)), by_value_stable_sorted. }
  pose proof (StronglySorted_take_drop _ _ _ _ _ Hs Hp Hq) as Hpq.
  apply elem_of_take_1, elem_of_reverse, elem_of_argsort_items in Hp.
  apply elem_of_drop_1, elem_of_reverse, elem_of_argsort_items in Hq.
  unfold descending in Hpq. by simplify_eq.
Qed.

(** Of two positions in the order of [np.argsort(a)[::-1]] the first has
    a value that is not below the value of the second, and when the values
    are tied it is the later position. *)
Lemma argsort_reverse_sublist a i j x y :
  [i; j] `sublist_of` reverse (argsort a) →
  a !! i = Some x → a !! j = Some y →
  np_lt x y = false ∧ (np_lt y x = false → j < i).
Proof.
  unfold argsort. fold (argsort_items a). rewrite <- fmap_reverse.
  intros (p & q & Hpq & <- & <-)%sublist2_fmap_inv Hx Hy.
  assert (p ∈ reverse (argsort_items a) ∧ q ∈ reverse (argsort_items a))
    as [Hp Hq].
  { split; (eapply elem_of_sublist; [|done]); [left|right; left]. }
  rewrite elem_of_reverse, elem_of_argsort_items in Hp, Hq. simplify_eq.
  assert (np_lt p.2 q.2 = false) as Hxy.
  { apply (StronglySorted_sublist2
             (descending (λ p q : nat * T, np_lt p.2 q.2)) _ _ _) in Hpq; [done|].
    apply (StronglySorted_reverse (ascending _)), by_value_stable_sorted. }
  split; [done|]. intros Hyx.
  apply sublist_reverse in Hpq. rewrite reverse_involutive in Hpq.
  assert (tied (λ p q : nat * T, np_lt p.2 q.2) q p = true) as Ht
    by (by apply tied_true).
  apply (stable_sorted_ties _ (λ r, np_lt_irrefl r.2) _ _ _ _
           (by_value_stable_sorted _)) in Hpq; [|done].
  apply (fmap_sublist fst) in Hpq. rewrite fst_zip in Hpq by (by rewrite length_seq).
  by apply sublist2_seq in Hpq.
Qed.

End order_lemmas.
