(* ===== verification/Similarity.v ===== *)
(** * Similarity: the cosine similarity table

    Both recommenders call scikit-learn's [cosine_similarity]: with one
    matrix it returns the table of the cosines between every two rows, with
    two matrices the cosines between the rows of the first and the rows of
    the second.  The library is not part of the repository; the model
    follows what it computes: each row is divided by its Euclidean norm (a
    norm of zero is replaced by one, so a zero row stays zero and its
    cosine with anything is zero), and the table is the matrix of the dot
    products of the normalised rows.  A dot product is accumulated from the
    left, starting at zero.

    The theorems are what the recommenders rely on: the shape of the table,
    its symmetry (from the commutativity of the product alone, so it holds
    on binary64), and the agreement of the two-argument form, which ranks
    the movies, with the rows of the table, which is what the program
    displays.  That a cell is the cosine of two rows is a statement about
    real numbers: [Exact] proves it for arithmetic that does not round. *)

From Stdlib Require Import ZArith.
From stdpp Require Import list strings.
From S2P Require Import Prelude Scalar Frame.

Section similarity.
Context {T : Type} `{Scalar T}.
Implicit Types (a b : list T) (X Y : list (list T)).

Definition dot a b : T :=
  foldl (λ acc p, (acc + p.1 * p.2)%sc) zero (zip a b).

Definition row_norm a : T := sqrt (dot a a).

(** [normalize(X)], one row: the row divided by its norm, or left as it is
    when the norm is zero. *)
Definition normalize_row a : list T :=
  let n := row_norm a in
  let n' := if (n =? zero)%sc then one else n in
  (λ x, (x / n')%sc) <$> a.

Definition normalize X : list (list T) := normalize_row <$> X.

(** [cosine_similarity(X, Y)] *)
Definition cosine_similarity2 X Y : list (list T) :=
  let Xn := normalize X in
  let Yn := normalize Y in
  (λ x, dot x <$> Yn) <$> Xn.

(** [cosine_similarity(X)] *)
Definition cosine_similarity X : list (list T) := cosine_similarity2 X X.

(** [pd.DataFrame(cosine_similarity(df), index=df.index, columns=df.index)]:
    the similarity table of the rows of [df], labelled by its index. *)
Definition similarity_frame (df : DataFrame T) : DataFrame T :=
  mkDataFrame (index df) (index df) (cosine_similarity (values df)).

End similarity.

Section similarity_lemmas.
Context {T : Type} `{Scalar T}.
Implicit Types (a b : list T) (X Y : list (list T)).

Lemma length_normalize_row a : length (normalize_row a) = length a.
Proof. unfold normalize_row. by rewrite length_fmap. Qed.

Lemma length_normalize X : length (normalize X) = length X.
Proof. unfold normalize. by rewrite length_fmap. Qed.

Lemma length_cosine_similarity2 X Y : length (cosine_similarity2 X Y) = length X.
Proof. unfold cosine_similarity2. by rewrite length_fmap, length_normalize. Qed.

Lemma cosine_similarity2_rows X Y :
  Forall (λ row, length row = length Y) (cosine_similarity2 X Y).
Proof.
  unfold cosine_similarity2. apply Forall_fmap, Forall_true. intros x; simpl.
  by rewrite length_fmap, length_normalize.
Qed.

(** The cell of the table at row [i] and column [j] is the dot product of
    the two normalised rows. *)
Lemma cosine_similarity2_cell X Y i j :
  cosine_similarity2 X Y !! i ≫= (.!! j) =
    x ← X !! i; y ← Y !! j; Some (dot (normalize_row x) (normalize_row y)).
Proof.
  unfold cosine_similarity2, normalize. rewrite !list_lookup_fmap.
  destruct (X !! i) as [x|]; simpl; [|done].
  rewrite !list_lookup_fmap. by destruct (Y !! j).
Qed.

Lemma cosine_similarity2_row X Y i x :
  X !! i = Some x →
  cosine_similarity2 X Y !! i = cosine_similarity2 [x] Y !! 0.
Proof.
  intros Hx. unfold cosine_similarity2, normalize.
  rewrite !list_lookup_fmap, Hx. done.
Qed.

Lemma similarity_frame_wf (df : DataFrame T) :
  df_wf df → df_wf (similarity_frame df).
Proof.
  intros (Hi & _ & Hlen & _). unfold df_wf, similarity_frame, cosine_similarity.
  simpl. split_and!; [done..| |].
  - by rewrite length_cosine_similarity2.
  - rewrite <- Hlen. apply cosine_similarity2_rows.
Qed.

Section symmetry.
Context `{!ScalarComm T}.

Lemma foldl_dot_comm a b acc :
  foldl (λ acc p, (acc + p.1 * p.2)%sc) acc (zip a b) =
  foldl (λ acc p, (acc + p.1 * p.2)%sc) acc (zip b a).
Proof.
  revert b acc. induction a as [|x a IH]; intros [|y b] acc; simpl; try done.
  by rewrite (mul_comm x y), IH.
Qed.

Lemma dot_comm a b : dot a b = dot b a.
Proof. apply foldl_dot_comm. Qed.

Lemma cosine_similarity_cell_sym X i j :
  cosine_similarity X !! i ≫= (.!! j) = cosine_similarity X !! j ≫= (.!! i).
Proof.
  unfold cosine_similarity. rewrite !cosine_similarity2_cell.
  destruct (X !! i) as [x|], (X !! j) as [y|]; simpl; try done.
  by rewrite dot_comm.
Qed.

(** The similarity table is symmetric.  The cell at two labels is
    the cell at the same labels in the other order, on any scalars whose
    product commutes, binary64 included. *)
Theorem similarity_frame_symmetric (df : DataFrame T) (u v : string) x :
  df_loc (similarity_frame df) u v = Ok x →
  df_loc (similarity_frame df) v u = Ok x.
Proof.
  unfold df_loc, similarity_frame; simpl.
  intros (i & Hi & (j & Hj & Hx)%bind_Ok)%bind_Ok.
  rewrite Hj; simpl. rewrite Hi; simpl.
  rewrite cosine_similarity_cell_sym. revert Hx.
  by destruct (cosine_similarity (values df) !! i ≫= _).
Qed.

End symmetry.
End similarity_lemmas.
