(* ===== verification/Collaborative.v ===== *)
(** * Collaborative: user-based collaborative filtering

    [Main] models [recommend_collaborative] of [src/main.py] and [GUI] the
    method of the same name of [src/Movie_recommender_GUI.py].  Each is the
    whole function: the similarity table of the users (the ratings with
    NaN replaced by zero, transposed), the row of the target user without
    the user itself, the two most similar users, the movies the target has
    not rated, for each of them the average of the neighbours' ratings
    weighted by similarity (zero when no neighbour rated it), the sort by
    decreasing score and the slice [[:top_n]].

    The explanation of [src/main.py] is modelled as data: a line is the
    movie with, for each neighbour that rated it, the neighbour, the rating
    and the similarity.  [Console] renders it as the text the program
    prints.

    The section [ranking] states what the function promises, the head of a
    stable descending sort of the scores of the unrated movies
    ([recommends]), and proves that the function implements it, that the
    best movies come first and that ties keep the order of the rows. *)

From Stdlib Require Import ZArith.
From stdpp Require Import list strings sorting.
From S2P Require Import Prelude Sorting Scalar Frame Similarity.

(** The neighbours that rated a movie, each with its rating and its
    similarity to the target: the content of one explanation line. *)
Definition user_detail (T : Type) : Type := string * T * T.
Definition explain_line (T : Type) : Type := string * list (user_detail T).

Module Main.
Section main.
Context {T : Type} `{Scalar T}.

(** The similarity table of the users: the ratings with NaN replaced by
    zero, one row per user. *)
Definition user_sim_matrix (ratings : DataFrame T) : DataFrame T :=
  similarity_frame (df_T (fillna zero ratings)).

(** [user_sim_matrix.loc[target_user].drop(target_user)] *)
Definition sim_scores_for (target_user : string) (ratings : DataFrame T)
  : result (Series T) :=
  row ← df_loc_row (user_sim_matrix ratings) target_user;
  series_drop row target_user.

(** The two nearest neighbours:
    [sim_scores.sort_values(ascending=False).head(2).index]. *)
Definition similar_users (sim_scores : Series T) : list string :=
  series_index (series_head 2 (sort_values_desc sim_scores)).

(** The body of the inner loop, [for sim_user in similar_users]. *)
Definition score_step (ratings : DataFrame T) (sim_scores : Series T)
    (movie : string) (acc : T * T * list (user_detail T)) (sim_user : string)
  : result (T * T * list (user_detail T)) :=
  let '(rating_sum, sim_sum, user_details) := acc in
  rating ← df_loc ratings movie sim_user;
  if negb (isnan rating) then
    sim ← series_get sim_scores sim_user;
    Ok ((rating_sum + rating * sim)%sc, (sim_sum + sim)%sc,
        user_details ++ [(sim_user, rating, sim)])
  else Ok (rating_sum, sim_sum, user_details).

(** The score of one movie, with the neighbours that rated it: the
    weighted average of their ratings, or zero when none rated it. *)
Definition score_movie (ratings : DataFrame T) (sim_scores : Series T)
    (similar_users : list string) (movie : string)
  : result (T * list (user_detail T)) :=
  '(rating_sum, sim_sum, user_details) ←
    foldlM (score_step ratings sim_scores movie) (zero, zero, []) similar_users;
  Ok (if (sim_sum >? zero)%sc then (rating_sum / sim_sum)%sc else zero,
      user_details).

(** The body of the outer loop, [for movie in unrated_movies]. *)
Definition movie_step (ratings : DataFrame T) (sim_scores : Series T)
    (similar_users : list string) (explain : bool)
    (acc : list (string * T) * list (explain_line T)) (movie : string)
  : result (list (string * T) * list (explain_line T)) :=
  let '(scores, explain_text) := acc in
  '(score, user_details) ← score_movie ratings sim_scores similar_users movie;
  Ok (dict_set movie score scores,
      if explain && negb (bool_decide (length user_details = 0))
      then explain_text ++ [(movie, user_details)] else explain_text).

(** [sorted(scores.items(), key=lambda x: x[1], reverse=True)[:top_n]] *)
Definition recommended (scores : list (string * T)) (top_n : Z)
  : list (string * T) :=
  py_slice_to top_n (sorted_reverse (λ p q, (p.2 <? q.2)%sc) scores).

Definition recommend_collaborative (target_user : string)
    (ratings : DataFrame T) (top_n : Z) (explain : bool)
  : result (list string * option (list (explain_line T)) * DataFrame T) :=
  sim_scores ← sim_scores_for target_user ratings;
  let similar_users := similar_users sim_scores in
  unrated_movies ← isna_index ratings target_user;
  '(scores, explain_text) ←
    foldlM (movie_step ratings sim_scores similar_users explain) ([], [])
      unrated_movies;
  let recommended := recommended scores top_n in
  if explain then
    Ok (recommended.*1, Some explain_text, user_sim_matrix ratings)
  else Ok (recommended.*1, None, user_sim_matrix ratings).

End main.
End Main.

Module GUI.
Section gui.
Context {T : Type} `{Scalar T}.

(** The body of the inner loop, [for sim_user in similar_users]. *)
Definition score_step (ratings_df : DataFrame T) (sim_scores : Series T)
    (movie : string) (acc : T * T) (sim_user : string) : result (T * T) :=
  let '(rating_sum, sim_sum) := acc in
  rating ← df_loc ratings_df movie sim_user;
  if negb (isnan rating) then
    sim ← series_get sim_scores sim_user;
    Ok ((rating_sum + rating * sim)%sc, (sim_sum + sim)%sc)
  else Ok (rating_sum, sim_sum).

(** The body of the outer loop, [for movie in unrated_movies]. *)
Definition movie_step (ratings_df : DataFrame T) (sim_scores : Series T)
    (similar_users : list string) (scores : list (string * T)) (movie : string)
  : result (list (string * T)) :=
  '(rating_sum, sim_sum) ←
    foldlM (score_step ratings_df sim_scores movie) (zero, zero) similar_users;
  Ok (dict_set movie
        (if (sim_sum >? zero)%sc then (rating_sum / sim_sum)%sc else zero) scores).

(** [self.recommend_collaborative(target_user, top_n)], where [ratings_df]
    is the frame the form holds. *)
Definition recommend_collaborative (ratings_df : DataFrame T)
    (target_user : string) (top_n : Z) : result (list string) :=
  sim_scores ← Main.sim_scores_for target_user ratings_df;
  let similar_users := Main.similar_users sim_scores in
  unrated_movies ← isna_index ratings_df target_user;
  scores ←
    foldlM (movie_step ratings_df sim_scores similar_users) [] unrated_movies;
  Ok (Main.recommended scores top_n).*1.

End gui.
End GUI.

(** ** The neighbours *)

Section main_lemmas.
Context {T : Type} `{Scalar T}.
Implicit Types (ratings : DataFrame T) (s : Series T) (u m : string).

Lemma user_sim_matrix_wf ratings :
  df_wf ratings → df_wf (Main.user_sim_matrix ratings).
Proof. intros Hwf. by apply similarity_frame_wf, df_T_wf, fillna_wf. Qed.

Lemma sim_scores_for_Raise u ratings :
  u ∉ columns ratings → Main.sim_scores_for u ratings = Raise (KeyError u).
Proof. intros Hu. apply bind_Raise. by apply df_loc_row_Raise. Qed.

Lemma sim_scores_for_index u ratings s :
  df_wf ratings → Main.sim_scores_for u ratings = Ok s →
  series_index s = filter (λ k, k ≠ u) (columns ratings).
Proof.
  intros Hwf (row & Hrow & Hs)%bind_Ok.
  rewrite (series_drop_index _ _ _ Hs).
  by rewrite (df_loc_row_index _ _ _ (user_sim_matrix_wf _ Hwf) Hrow).
Qed.

Lemma sim_scores_for_is_Ok u ratings :
  df_wf ratings → u ∈ columns ratings → is_Ok (Main.sim_scores_for u ratings).
Proof.
  intros Hwf Hu. unfold Main.sim_scores_for.
  destruct (proj2 (df_loc_row_is_Ok (Main.user_sim_matrix ratings) u) Hu)
    as [row Hrow].
  rewrite Hrow; simpl. unfold series_drop. rewrite decide_True; [by eexists|].
  by rewrite (df_loc_row_index _ _ _ (user_sim_matrix_wf _ Hwf) Hrow).
Qed.

Lemma similar_users_elem_of s u : u ∈ Main.similar_users s → u ∈ series_index s.
Proof.
  unfold Main.similar_users. intros Hu.
  rewrite <- sort_values_desc_index.
  eapply elem_of_sublist; [done|apply series_head_sublist].
Qed.

Lemma length_similar_users s : length (Main.similar_users s) ≤ 2.
Proof.
  unfold Main.similar_users, series_index. rewrite length_fmap.
  apply length_series_head.
Qed.

Lemma similar_users_NoDup s :
  NoDup (series_index s) → NoDup (Main.similar_users s).
Proof.
  intros Hs. eapply sublist_NoDup; [|apply series_head_sublist].
  by rewrite sort_values_desc_index.
Qed.

(** The neighbours are users of the frame, and never the target. *)
Lemma similar_users_columns u ratings s v :
  df_wf ratings → Main.sim_scores_for u ratings = Ok s →
  v ∈ Main.similar_users s → v ∈ columns ratings ∧ v ≠ u.
Proof.
  intros Hwf Hs Hv%similar_users_elem_of.
  rewrite (sim_scores_for_index _ _ _ Hwf Hs) in Hv.
  apply list_elem_of_filter in Hv. naive_solver.
Qed.

(** ** The score of a movie *)

Lemma score_step_is_Ok ratings s m acc u :
  df_wf ratings → m ∈ index ratings → u ∈ columns ratings →
  u ∈ series_index s → is_Ok (Main.score_step ratings s m acc u).
Proof.
  intros Hwf Hm Hu Hs. destruct acc as [[rs ss] ud]. unfold Main.score_step.
  destruct (df_loc_is_Ok ratings m u Hwf Hm Hu) as [x ->]; simpl.
  destruct (negb (isnan x)); [|by eexists].
  destruct (proj2 (series_get_is_Ok s u) Hs) as [y ->]. by eexists.
Qed.

Lemma score_movie_is_Ok ratings s users m :
  df_wf ratings → m ∈ index ratings →
  (∀ u, u ∈ users → u ∈ columns ratings ∧ u ∈ series_index s) →
  is_Ok (Main.score_movie ratings s users m).
Proof.
  intros Hwf Hm Husers. unfold Main.score_movie.
  destruct (foldlM_is_Ok (λ _ _, True) (Main.score_step ratings s m) users
              (zero, zero, [])) as [[[rs ss] ud] ->]; [done| |by eexists].
  intros pre u acc Hu%prefix_snoc_elem_of _.
  destruct (Husers u Hu) as [Hc Hs].
  destruct (score_step_is_Ok ratings s m acc u Hwf Hm Hc Hs) as [b ->].
  by exists b.
Qed.

(** ** The loop over the unrated movies *)

(** What the loop has built when it ends: one score per movie, in the
    order of the movies, each the score [score_movie] gives; and one
    explanation line per movie that some neighbour rated, when asked for. *)
Definition scored (ratings : DataFrame T) s (users : list string)
    (p : string * T) : Prop :=
  ∃ d, Main.score_movie ratings s users p.1 = Ok (p.2, d).

Definition explained (ratings : DataFrame T) s (users : list string)
    (movies : list string) (line : explain_line T) : Prop :=
  line.1 ∈ movies ∧ line.2 ≠ [] ∧
  ∃ x, Main.score_movie ratings s users line.1 = Ok (x, line.2).

Lemma movie_loop_spec ratings s users explain unrated scores expl :
  NoDup unrated →
  foldlM (Main.movie_step ratings s users explain) ([], []) unrated
    = Ok (scores, expl) →
  scores.*1 = unrated ∧ Forall (scored ratings s users) scores ∧
  Forall (explained ratings s users unrated) expl ∧
  (explain = false → expl = []).
Proof.
  intros Hnd.
  apply (foldlM_invariant
    (λ pre acc, acc.1.*1 = pre ∧ Forall (scored ratings s users) acc.1 ∧
       Forall (explained ratings s users pre) acc.2 ∧
       (explain = false → acc.2 = []))); [by repeat split|].
  clear scores expl.
  intros pre m [scores expl] [scores' expl'] Hpre (Hk & Hsc & Hex & Hno) Hstep.
  simpl in *. apply bind_Ok in Hstep as ([x d] & Hx & [= <- <-]).
  pose proof (prefix_snoc_not_elem_of _ _ _ Hnd Hpre) as Hfresh.
  rewrite dict_set_fresh by (by rewrite Hk). rewrite fmap_app, Hk.
  split_and!; [done| | |].
  - apply Forall_app. split; [done|]. apply Forall_singleton. by exists d.
  - assert (Forall (explained ratings s users (pre ++ [m])) expl) as Hex'.
    { eapply Forall_impl; [done|]. intros line (? & ? & ?).
      split; [|done]. apply elem_of_app. by left. }
    destruct explain; simpl; [|done]. case_bool_decide as Hd; simpl; [done|].
    apply Forall_app. split; [done|]. apply Forall_singleton.
    split_and!; simpl; [|by destruct d|by exists x].
    apply elem_of_app. right. left.
  - intros ->. simpl. by apply Hno.
Qed.

(** The loop ends without an exception on a well-formed frame. *)
Lemma movie_loop_is_Ok ratings s users explain unrated :
  df_wf ratings → (∀ m, m ∈ unrated → m ∈ index ratings) →
  (∀ u, u ∈ users → u ∈ columns ratings ∧ u ∈ series_index s) →
  is_Ok (foldlM (Main.movie_step ratings s users explain) ([], []) unrated).
Proof.
  intros Hwf Hun Husers.
  apply (foldlM_is_Ok (λ _ _, True)); [done|].
  intros pre m [scores expl] Hm%prefix_snoc_elem_of _.
  destruct (score_movie_is_Ok ratings s users m Hwf (Hun m Hm) Husers)
    as [[x d] Hx].
  unfold Main.movie_step. rewrite Hx; simpl. by eexists.
Qed.

End main_lemmas.

(** ** The recommender of [src/main.py] *)

Section main_theorems.
Context {T : Type} `{Scalar T}.
Implicit Types (ratings : DataFrame T) (s : Series T) (u m : string).
Implicit Types (n : Z) (e : bool) (recs : list string).

Lemma recommended_keys scores n :
  (Main.recommended scores n).*1 =
    py_slice_to n (sorted_reverse (λ p q, (p.2 <? q.2)%sc) scores).*1.
Proof. apply py_slice_to_fmap. Qed.

Lemma recommended_elem_of scores n (p : string * T) :
  p ∈ Main.recommended scores n → p ∈ scores.
Proof.
  intros Hp%elem_of_py_slice_to. by apply elem_of_sorted_reverse in Hp.
Qed.

Lemma recommended_NoDup (scores : list (string * T)) n :
  NoDup scores.*1 → NoDup (Main.recommended scores n).*1.
Proof.
  intros Hs. rewrite recommended_keys. apply NoDup_py_slice_to.
  by rewrite sorted_reverse_Permutation.
Qed.

(** What a successful call has computed. *)
Lemma recommend_collaborative_Ok u ratings n e recs expl sim :
  df_wf ratings →
  Main.recommend_collaborative u ratings n e = Ok (recs, expl, sim) →
  ∃ s unrated scores,
    Main.sim_scores_for u ratings = Ok s ∧
    isna_index ratings u = Ok unrated ∧
    scores.*1 = unrated ∧
    Forall (scored ratings s (Main.similar_users s)) scores ∧
    recs = (Main.recommended scores n).*1.
Proof.
  intros Hwf (s & Hs & (unrated & Hun & ([scores ex] & Hloop & Hret)%bind_Ok
    )%bind_Ok)%bind_Ok.
  exists s, unrated, scores.
  destruct (movie_loop_spec _ _ _ _ _ _ _ (isna_index_NoDup _ _ _ Hwf Hun) Hloop)
    as (Hk & Hsc & _).
  split_and!; [done..|]. by destruct e; injection Hret as <- _ _.
Qed.

(** On a well-formed frame and a user of the frame the call returns: none
    of the label lookups of the two loops raises. *)
Lemma recommend_collaborative_is_Ok u ratings n e :
  df_wf ratings → u ∈ columns ratings →
  is_Ok (Main.recommend_collaborative u ratings n e).
Proof.
  intros Hwf Hu. unfold Main.recommend_collaborative.
  destruct (sim_scores_for_is_Ok u ratings Hwf Hu) as [s Hs]. rewrite Hs; simpl.
  destruct (proj2 (isna_index_is_Ok ratings u) Hu) as [unrated Hun].
  rewrite Hun; simpl.
  destruct (movie_loop_is_Ok ratings s (Main.similar_users s) e unrated Hwf)
    as [[scores ex] ->]; simpl; [| |destruct e; by eexists].
  - intros m Hm. eapply elem_of_sublist; [done|by eapply isna_index_sublist].
  - intros v Hv. split; [|by apply similar_users_elem_of].
    by destruct (similar_users_columns u ratings s v Hwf Hs Hv).
Qed.

(** C9: an unknown user is the one error.  When [target_user] is not a column
    of the ratings, [recommend_collaborative] raises [KeyError] with that
    name, whatever the count and the explanation flag; on a well-formed
    frame it returns for every user of the frame. *)
Theorem recommend_collaborative_unknown_user u ratings n e :
  (u ∉ columns ratings →
     Main.recommend_collaborative u ratings n e = Raise (KeyError u)) ∧
  (df_wf ratings → u ∈ columns ratings →
     is_Ok (Main.recommend_collaborative u ratings n e)).
Proof.
  split; [|apply recommend_collaborative_is_Ok].
  intros Hu. by apply bind_Raise, sim_scores_for_Raise.
Qed.

(** The movies returned are among the movies [isna_index] lists. *)
Lemma recommended_unrated u ratings n e recs expl sim unrated m :
  df_wf ratings →
  Main.recommend_collaborative u ratings n e = Ok (recs, expl, sim) →
  isna_index ratings u = Ok unrated →
  m ∈ recs → m ∈ unrated.
Proof.
  intros Hwf Hrec Hun Hm.
  destruct (recommend_collaborative_Ok _ _ _ _ _ _ _ Hwf Hrec)
    as (s & unrated' & scores & _ & Hun' & Hk & _ & ->).
  rewrite Hun in Hun'. injection Hun' as <-. rewrite <- Hk.
  apply list_elem_of_fmap in Hm as (p & -> & Hp%recommended_elem_of).
  by apply list_elem_of_fmap_2.
Qed.

(** C1: a recommended movie is one the user has not rated.  Every movie
    of the result has a NaN cell in the column of the target user. *)
Theorem recommend_collaborative_only_unrated u ratings n e recs expl sim m :
  df_wf ratings →
  Main.recommend_collaborative u ratings n e = Ok (recs, expl, sim) →
  m ∈ recs →
  ∃ x, df_loc ratings m u = Ok x ∧ isnan x = true.
Proof.
  intros Hwf Hrec Hm.
  destruct (recommend_collaborative_Ok _ _ _ _ _ _ _ Hwf Hrec)
    as (s & unrated & scores & _ & Hun & _).
  apply (isna_index_elem_of ratings u unrated m Hwf Hun).
  by eapply recommended_unrated.
Qed.

(** No movie is recommended twice. *)
Theorem recommend_collaborative_NoDup u ratings n e recs expl sim :
  df_wf ratings →
  Main.recommend_collaborative u ratings n e = Ok (recs, expl, sim) →
  NoDup recs.
Proof.
  intros Hwf Hrec.
  destruct (recommend_collaborative_Ok _ _ _ _ _ _ _ Hwf Hrec)
    as (s & unrated & scores & _ & Hun & Hk & _ & ->).
  apply recommended_NoDup. rewrite Hk. by eapply isna_index_NoDup.
Qed.

(** C36: the length of the result is the length of the slice [[:top_n]] of
    the unrated movies: [top_n] when it is between zero and their number,
    all of them when it is larger, and all but the last [-top_n] when it is
    negative. *)
Theorem recommend_collaborative_length u ratings n e recs expl sim unrated :
  df_wf ratings →
  Main.recommend_collaborative u ratings n e = Ok (recs, expl, sim) →
  isna_index ratings u = Ok unrated →
  length recs =
    if (0 <=? n)%Z then Z.to_nat n `min` length unrated
    else length unrated - Z.to_nat (- n).
Proof.
  intros Hwf Hrec Hun.
  destruct (recommend_collaborative_Ok _ _ _ _ _ _ _ Hwf Hrec)
    as (s & unrated' & scores & _ & Hun' & Hk & _ & ->).
  rewrite Hun in Hun'. injection Hun' as <-.
  rewrite length_fmap. unfold Main.recommended.
  by rewrite length_py_slice_to, length_sorted_reverse, <- Hk, length_fmap.
Qed.

(** A count at least the number of unrated movies returns all of
    them, each once. *)
Theorem recommend_collaborative_all u ratings n e recs expl sim unrated :
  df_wf ratings →
  Main.recommend_collaborative u ratings n e = Ok (recs, expl, sim) →
  isna_index ratings u = Ok unrated →
  (Z.of_nat (length unrated) ≤ n)%Z →
  recs ≡ₚ unrated.
Proof.
  intros Hwf Hrec Hun Hn.
  destruct (recommend_collaborative_Ok _ _ _ _ _ _ _ Hwf Hrec)
    as (s & unrated' & scores & _ & Hun' & Hk & _ & ->).
  rewrite Hun in Hun'. injection Hun' as <-.
  unfold Main.recommended. rewrite py_slice_to_all.
  - by rewrite sorted_reverse_Permutation, Hk.
  - by rewrite length_sorted_reverse, <- (length_fmap fst), Hk.
Qed.

(** C3: the result is in the order of decreasing score.  The movies come
    with the scores [score_movie] gives them, and no movie has a score
    smaller than the score of the movie after it. *)
Theorem recommend_collaborative_sorted `{!ScalarOrder T}
    u ratings n e recs expl sim :
  df_wf ratings →
  Main.recommend_collaborative u ratings n e = Ok (recs, expl, sim) →
  ∃ s ranked,
    Main.sim_scores_for u ratings = Ok s ∧ ranked.*1 = recs ∧
    Forall (scored ratings s (Main.similar_users s)) ranked ∧
    Sorted (λ p q, (p.2 <? q.2)%sc = false) ranked.
Proof.
  intros Hwf Hrec.
  destruct (recommend_collaborative_Ok _ _ _ _ _ _ _ Hwf Hrec)
    as (s & unrated & scores & Hs & _ & _ & Hsc & ->).
  exists s, (Main.recommended scores n). split_and!; [done..| |].
  - apply Forall_forall. intros p Hp%recommended_elem_of.
    by eapply Forall_forall in Hsc.
  - apply Sorted_py_slice_to, (sorted_reverse_Sorted (λ p q, (p.2 <? q.2)%sc)).
    intros p q. apply ltb_asym.
Qed.

End main_theorems.

(** ** The explanation *)

(** The explanation is built in the loop over the unrated movies, before
    the ranking is cut: it has a line for every unrated movie that one of
    the two neighbours rated, in the order of the rows, whatever the
    count. *)

Section explanation.
Context {T : Type} `{Scalar T}.
Implicit Types (ratings : DataFrame T) (s : Series T) (m u : string).

(** Whether [user] has rated [movie]: the cell is there and is not NaN. *)
Definition is_rated ratings (movie user : string) : bool :=
  match df_loc ratings movie user with
  | Ok rating => negb (isnan rating)
  | Raise _ => false
  end.

(** A movie that one of [users] has rated. *)
Definition explainable ratings (users : list string) (movie : string) : Prop :=
  Exists (λ u, is_rated ratings movie u = true) users.

#[export] Instance explainable_dec ratings users movie :
  Decision (explainable ratings users movie).
Proof. unfold explainable. apply _. Defined.

Lemma score_step_details ratings s m acc u acc' :
  Main.score_step ratings s m acc u = Ok acc' →
  acc'.2.*1.*1 = acc.2.*1.*1 ++ filter (λ u, is_rated ratings m u = true) [u].
Proof.
  destruct acc as [[rs ss] d]. unfold Main.score_step.
  rewrite filter_cons, filter_nil.
  intros (x & Hx & Hstep)%bind_Ok.
  assert (is_rated ratings m u = negb (isnan x)) as Hr by (unfold is_rated; by rewrite Hx).
  destruct (isnan x); simpl in Hstep, Hr.
  - injection Hstep as <-. by rewrite decide_False, app_nil_r by (by rewrite Hr).
  - apply bind_Ok in Hstep as (y & _ & [= <-]).
    rewrite decide_True by done. simpl. by rewrite !fmap_app.
Qed.

(** The neighbours an explanation line cites are the neighbours that rated
    the movie, in their order. *)
Lemma score_movie_details ratings s users m x d :
  Main.score_movie ratings s users m = Ok (x, d) →
  d.*1.*1 = filter (λ u, is_rated ratings m u = true) users.
Proof.
  intros ([[rs ss] d'] & Hloop & [= _ <-])%bind_Ok. revert Hloop.
  apply (foldlM_invariant
    (λ pre acc, acc.2.*1.*1 = filter (λ u, is_rated ratings m u = true) pre));
    [done|].
  intros pre u acc acc' _ Hacc Hstep%score_step_details. cbv beta in *.
  rewrite filter_app. etrans; [apply Hstep|]. f_equal. apply Hacc.
Qed.

Lemma score_movie_explainable ratings s users m x d :
  Main.score_movie ratings s users m = Ok (x, d) →
  length d = 0 ↔ ¬ explainable ratings users m.
Proof.
  intros Hd%score_movie_details. unfold explainable.
  rewrite <- Forall_Exists_neg.
  assert (length d = length (filter (λ u, is_rated ratings m u = true) users)) as ->
    by (by rewrite <- Hd, !length_fmap).
  split.
  - intros Hnil%nil_length_inv. apply Forall_forall. intros u Hu Hr.
    assert (u ∈ filter (λ u, is_rated ratings m u = true) users) as Hin
      by by apply list_elem_of_filter.
    rewrite Hnil in Hin. by apply elem_of_nil in Hin.
  - intros Hall. by rewrite filter_nil_Forall.
Qed.

Lemma movie_loop_explanation ratings s users unrated scores expl :
  foldlM (Main.movie_step ratings s users true) ([], []) unrated
    = Ok (scores, expl) →
  expl.*1 = filter (explainable ratings users) unrated ∧
  Forall (λ line : explain_line T,
            line.2.*1.*1 = filter (λ u, is_rated ratings line.1 u = true) users) expl.
Proof.
  apply (foldlM_invariant
    (λ pre acc, acc.2.*1 = filter (explainable ratings users) pre ∧
       Forall (λ line : explain_line T,
                 line.2.*1.*1 = filter (λ u, is_rated ratings line.1 u = true) users)
              acc.2)); [done|].
  intros pre m [sc ex] [sc' ex'] _ [Hex Hall] Hstep. simpl in *.
  apply bind_Ok in Hstep as ([x d] & Hx & [= _ <-]).
  rewrite filter_app, filter_cons, filter_nil, <- Hex.
  pose proof (score_movie_explainable _ _ _ _ _ _ Hx) as Hd.
  case_bool_decide as Hlen; simpl.
  - rewrite decide_False, app_nil_r by by apply Hd. done.
  - rewrite decide_True by (destruct (decide (explainable ratings users m)); tauto).
    rewrite fmap_app. split; [done|]. apply Forall_app. split; [done|].
    apply Forall_singleton. by eapply score_movie_details.
Qed.

(** C28: the explanation is not limited to the movies returned.  Whatever the
    count, [recommend_collaborative] gives a line for every movie that the
    user has not rated and that one of the two neighbours has, in the order
    of the rows of the ratings, and each line cites the neighbours that
    rated the movie. *)
Theorem recommend_collaborative_explanation u ratings n recs expl sim s unrated :
  Main.recommend_collaborative u ratings n true = Ok (recs, Some expl, sim) →
  Main.sim_scores_for u ratings = Ok s →
  isna_index ratings u = Ok unrated →
  expl.*1 = filter (explainable ratings (Main.similar_users s)) unrated ∧
  Forall (λ line : explain_line T,
            line.2.*1.*1 =
              filter (λ v, is_rated ratings line.1 v = true) (Main.similar_users s)) expl.
Proof.
  intros (s' & Hs' & (un' & Hun' & ([scores ex] & Hloop & [= _ <- _])%bind_Ok
    )%bind_Ok)%bind_Ok Hs Hun.
  rewrite Hs in Hs'. rewrite Hun in Hun'. simplify_eq.
  by apply movie_loop_explanation in Hloop.
Qed.

End explanation.

(** ** The ranking *)

(** The sort of [src/main.py] is a library sort.  What the result owes to
    it is stated here against the promise of a stable sort ([Sorting]):
    the best movies first, ties in the order of the rows, and the same
    result whatever algorithm sorts.  A score that is NaN compares false
    with every score and would let the sort leave a larger score behind
    it, so the theorems ask that the scores are numbers. *)

Section ranking.
Context {T : Type} `{Scalar T} `{!ScalarOrder T} `{!ScalarWeakOrder T}.
Implicit Types (ratings : DataFrame T) (s : Series T) (u m : string).
Implicit Types (n : Z) (e : bool) (recs unrated : list string).
Implicit Types (scores ranked : list (string * T)).

(** The comparison of the sort: [key=lambda x: x[1]]. *)
Definition by_score (p q : string * T) : bool := (p.2 <? q.2)%sc.

(** The score of a movie is a number. *)
Definition score_is_number ratings s (m : string) : bool :=
  match Main.score_movie ratings s (Main.similar_users s) m with
  | Ok (x, _) => negb (isnan x)
  | Raise _ => false
  end.

(** The specification of the recommender: the scores of the unrated movies
    in the order of the rows, sorted by a stable sort in decreasing order,
    cut at the count. *)
Definition recommends u ratings n recs : Prop :=
  ∃ s unrated scores ranked,
    Main.sim_scores_for u ratings = Ok s ∧
    isna_index ratings u = Ok unrated ∧
    scores.*1 = unrated ∧
    Forall (scored ratings s (Main.similar_users s)) scores ∧
    stable_sorted_desc by_score scores ranked ∧
    recs = (py_slice_to n ranked).*1.

Lemma by_score_stable_sorted_desc scores :
  Forall (λ p, isnan p.2 = false) scores →
  stable_sorted_desc by_score scores (sorted_reverse by_score scores).
Proof.
  apply (sorted_reverse_stable_sorted_desc _ (λ p, isnan p.2 = false)).
  - intros p q. apply ltb_asym.
  - intros p q r. apply ltb_neg_trans.
Qed.

Lemma scored_score ratings s (p : string * T) x d :
  scored ratings s (Main.similar_users s) p →
  Main.score_movie ratings s (Main.similar_users s) p.1 = Ok (x, d) → p.2 = x.
Proof. intros [d' Hp] Hx. congruence. Qed.

(** The scores of a list of movies are determined by the movies. *)
Lemma scored_unique ratings s scores1 scores2 :
  scores1.*1 = scores2.*1 →
  Forall (scored ratings s (Main.similar_users s)) scores1 →
  Forall (scored ratings s (Main.similar_users s)) scores2 →
  scores1 = scores2.
Proof.
  intros Hk H1. revert scores2 Hk.
  induction H1 as [|[m x] l1 [d Hx] _ IH]; intros [|[m' x'] l2]; try done.
  intros [= <- Hk] [Hx'%(scored_score _ _ _ x d) H2]%Forall_cons; [|done].
  simpl in *. subst. f_equal. by apply IH.
Qed.

Lemma scored_is_number ratings s unrated scores :
  Forall (λ m, score_is_number ratings s m = true) unrated →
  scores.*1 = unrated → Forall (scored ratings s (Main.similar_users s)) scores →
  Forall (λ p, isnan p.2 = false) scores.
Proof.
  intros Hnum <- Hsc. rewrite Forall_fmap in Hnum.
  apply Forall_forall. intros p Hin.
  eapply Forall_forall in Hnum, Hsc; [|done..]. destruct Hsc as [d Hd].
  unfold score_is_number, compose in Hnum. rewrite Hd in Hnum.
  by apply negb_true_iff.
Qed.

(** What a successful call has ranked: the scores of the unrated movies,
    sorted, and the first [k] of them returned. *)
Lemma recommend_collaborative_ranked u ratings n e recs expl sim s unrated :
  df_wf ratings →
  Main.recommend_collaborative u ratings n e = Ok (recs, expl, sim) →
  Main.sim_scores_for u ratings = Ok s →
  isna_index ratings u = Ok unrated →
  Forall (λ m, score_is_number ratings s m = true) unrated →
  ∃ scores,
    scores.*1 = unrated ∧
    Forall (scored ratings s (Main.similar_users s)) scores ∧
    stable_sorted_desc by_score scores (sorted_reverse by_score scores) ∧
    recs = (py_slice_to n (sorted_reverse by_score scores)).*1.
Proof.
  intros Hwf Hrec Hs Hun Hnum.
  destruct (recommend_collaborative_Ok _ _ _ _ _ _ _ Hwf Hrec)
    as (s' & unrated' & scores & Hs' & Hun' & Hk & Hsc & ->).
  rewrite Hs in Hs'. rewrite Hun in Hun'. simplify_eq.
  exists scores. split_and!; [done..| |done].
  by eapply by_score_stable_sorted_desc, scored_is_number.
Qed.

(** An item of the ranking is a movie with its score. *)
Lemma ranked_elem_of ratings s scores p x d :
  Forall (scored ratings s (Main.similar_users s)) scores →
  p ∈ sorted_reverse by_score scores →
  Main.score_movie ratings s (Main.similar_users s) p.1 = Ok (x, d) →
  p = (p.1, x).
Proof.
  intros Hsc Hp%elem_of_sorted_reverse Hx.
  eapply Forall_forall in Hsc; [|done].
  rewrite <- (scored_score _ _ _ _ _ Hsc Hx). by destruct p.
Qed.

(** The specification has one solution: the head of the ranking the
    model computes. *)
Lemma recommends_unique u ratings n s unrated scores recs' :
  Main.sim_scores_for u ratings = Ok s → isna_index ratings u = Ok unrated →
  scores.*1 = unrated →
  Forall (scored ratings s (Main.similar_users s)) scores →
  stable_sorted_desc by_score scores (sorted_reverse by_score scores) →
  recommends u ratings n recs' →
  recs' = (py_slice_to n (sorted_reverse by_score scores)).*1.
Proof.
  intros Hs Hun Hk Hsc Hst.
  intros (s' & unrated' & scores' & ranked & Hs' & Hun' & Hk' & Hsc' & Hst' & ->).
  rewrite Hs in Hs'. rewrite Hun in Hun'. simplify_eq.
  rewrite (scored_unique _ _ scores' scores) in Hst' by done.
  f_equal. f_equal. eapply stable_sorted_desc_unique; [|done..].
  intros p. apply ltb_irrefl.
Qed.

(** C14: the recommender implements its specification.  Whatever stable
    sort ranks the scores of the unrated movies in decreasing order, the
    movies returned are the first [top_n] of its result. *)
Theorem recommend_collaborative_refines u ratings n e recs expl sim s unrated :
  df_wf ratings →
  Main.recommend_collaborative u ratings n e = Ok (recs, expl, sim) →
  Main.sim_scores_for u ratings = Ok s →
  isna_index ratings u = Ok unrated →
  Forall (λ m, score_is_number ratings s m = true) unrated →
  recommends u ratings n recs ∧
  ∀ recs', recommends u ratings n recs' → recs' = recs.
Proof.
  intros Hwf Hrec Hs Hun Hnum.
  destruct (recommend_collaborative_ranked _ _ _ _ _ _ _ _ _ Hwf Hrec Hs Hun Hnum)
    as (scores & Hk & Hsc & Hst & ->).
  split; [by exists s, unrated, scores, (sorted_reverse by_score scores)|].
  intros recs' Hrecs'. by eapply recommends_unique.
Qed.

(** C11: the best movies are returned.  The score of a movie of the result
    is not below the score of an unrated movie that is left out. *)
Theorem recommend_collaborative_best_first
    u ratings n e recs expl sim s unrated m m' x x' d d' :
  df_wf ratings →
  Main.recommend_collaborative u ratings n e = Ok (recs, expl, sim) →
  Main.sim_scores_for u ratings = Ok s →
  isna_index ratings u = Ok unrated →
  Forall (λ m, score_is_number ratings s m = true) unrated →
  m ∈ recs → m' ∈ unrated → m' ∉ recs →
  Main.score_movie ratings s (Main.similar_users s) m = Ok (x, d) →
  Main.score_movie ratings s (Main.similar_users s) m' = Ok (x', d') →
  (x <? x')%sc = false.
Proof.
  intros Hwf Hrec Hs Hun Hnum Hm Hm' Hout Hx Hx'.
  destruct (recommend_collaborative_ranked _ _ _ _ _ _ _ _ _ Hwf Hrec Hs Hun Hnum)
    as (scores & <- & Hsc & (Hp & Hsorted & _) & ->).
  destruct (py_slice_to_take n (sorted_reverse by_score scores)) as [k Hk].
  rewrite Hk in Hm, Hout.
  apply list_elem_of_fmap in Hm as (p & -> & Hp1), Hm' as (q & -> & Hq).
  rewrite <- Hp in Hq. apply (elem_of_take_drop _ k) in Hq as [Hq|Hq].
  { destruct Hout. by apply list_elem_of_fmap_2. }
  pose proof (StronglySorted_take_drop _ _ _ _ _ Hsorted Hp1 Hq) as Hpq.
  rewrite (ranked_elem_of _ _ _ p x d Hsc), (ranked_elem_of _ _ _ q x' d' Hsc)
    in Hpq; eauto using elem_of_take_1, elem_of_drop_1.
Qed.

(** Ties are listed in the order of the rows.  Of two movies of the
    result with scores of which neither is below the other, the first is
    the one whose row comes first in the ratings. *)
Theorem recommend_collaborative_ties
    u ratings n e recs expl sim s unrated m m' x x' d d' :
  df_wf ratings →
  Main.recommend_collaborative u ratings n e = Ok (recs, expl, sim) →
  Main.sim_scores_for u ratings = Ok s →
  isna_index ratings u = Ok unrated →
  Forall (λ m, score_is_number ratings s m = true) unrated →
  [m; m'] `sublist_of` recs →
  Main.score_movie ratings s (Main.similar_users s) m = Ok (x, d) →
  Main.score_movie ratings s (Main.similar_users s) m' = Ok (x', d') →
  (x' <? x)%sc = false →
  [m; m'] `sublist_of` index ratings.
Proof.
  intros Hwf Hrec Hs Hun Hnum Hmm Hx Hx' Hle.
  destruct (recommend_collaborative_ranked _ _ _ _ _ _ _ _ _ Hwf Hrec Hs Hun Hnum)
    as (scores & <- & Hsc & Hst & ->).
  apply sublist2_fmap_inv in Hmm as (p & q & Hpq & <- & <-).
  assert ([p; q] `sublist_of` sorted_reverse by_score scores) as Hpq'.
  { etrans; [done|]. apply py_slice_to_sublist. }
  assert (p = (p.1, x) ∧ q = (q.1, x')) as [Hp Hq].
  { split; eapply ranked_elem_of; try done;
      (eapply elem_of_sublist; [|done]); [left|right; left]. }
  assert (tied by_score p q = true) as Ht.
  { apply tied_true. rewrite Hp, Hq. split; [|done].
    rewrite <- Hp, <- Hq.
    apply (StronglySorted_sublist2 _ _ _ _ (proj1 (proj2 Hst)) Hpq'). }
  etrans; [|by eapply isna_index_sublist].
  apply (fmap_sublist fst [p; q]).
  eapply stable_sorted_desc_ties; [|done..]. intros r. apply ltb_irrefl.
Qed.

(** C26: the neighbours are the nearest users.  A user that is not chosen
    has a similarity that is not above the similarity of a chosen one, and
    a similarity that is NaN is chosen only when every user left out has
    one too. *)
Theorem similar_users_nearest u ratings s v w x y :
  df_wf ratings → Main.sim_scores_for u ratings = Ok s →
  v ∈ Main.similar_users s → w ∉ Main.similar_users s →
  series_get s v = Ok x → series_get s w = Ok y →
  (x <? y)%sc = false ∧ (isnan x = true → isnan y = true).
Proof.
  intros Hwf Hs Hv Hout Hx Hy.
  assert (NoDup (series_index s)) as Hnd.
  { rewrite (sim_scores_for_index _ _ _ Hwf Hs). apply NoDup_filter, Hwf. }
  unfold Main.similar_users, series_index, series_head in Hv, Hout.
  apply list_elem_of_fmap in Hv as ([v' x1] & -> & Hp).
  apply series_get_elem_of in Hy. rewrite <- sort_values_desc_Permutation in Hy.
  apply (elem_of_take_drop _ 2) in Hy as [Hy|Hy].
  { destruct Hout. by apply (list_elem_of_fmap_2 fst) in Hy. }
  pose proof (StronglySorted_take_drop _ _ _ _ _
                (sort_values_desc_StronglySorted s) Hp Hy) as Hpq.
  apply elem_of_take_1 in Hp. rewrite sort_values_desc_Permutation in Hp.
  apply (series_get_NoDup _ _ _ Hnd) in Hp. simpl in *.
  rewrite Hx in Hp. by injection Hp as ->.
Qed.

End ranking.

(** ** The recommender of the form *)

Section gui_theorems.
Context {T : Type} `{Scalar T}.
Implicit Types (ratings : DataFrame T) (s : Series T) (u m : string).

Lemma gui_score_step_sim ratings s m (acc : T * T * list (user_detail T)) u :
  GUI.score_step ratings s m (acc.1) u = fst <$> Main.score_step ratings s m acc u.
Proof.
  destruct acc as [[rs ss] ud]. unfold GUI.score_step, Main.score_step; simpl.
  destruct (df_loc ratings m u) as [x|]; simpl; [|done].
  destruct (negb (isnan x)); [|done].
  by destruct (series_get s u).
Qed.

Lemma gui_movie_step_sim ratings s users e
    (acc : list (string * T) * list (explain_line T)) m :
  GUI.movie_step ratings s users (acc.1) m =
    fst <$> Main.movie_step ratings s users e acc m.
Proof.
  destruct acc as [scores ex]. unfold GUI.movie_step, Main.movie_step.
  unfold Main.score_movie; simpl.
  pose proof (foldlM_simulation fst (Main.score_step ratings s m)
                (GUI.score_step ratings s m) users (zero, zero, [])
                (gui_score_step_sim ratings s m)) as Hsim.
  simpl in Hsim. rewrite Hsim.
  by destruct (foldlM (Main.score_step ratings s m) _ users) as [[[rs ss] ud]|].
Qed.

(** The method of the form computes the first component of the result of
    the function of the command-line program. *)
Lemma gui_recommend_collaborative_fmap ratings u n e :
  GUI.recommend_collaborative ratings u n =
    (λ r, r.1.1) <$> Main.recommend_collaborative u ratings n e.
Proof.
  unfold GUI.recommend_collaborative, Main.recommend_collaborative.
  destruct (Main.sim_scores_for u ratings) as [s|]; simpl; [|done].
  destruct (isna_index ratings u) as [unrated|]; simpl; [|done].
  pose proof (foldlM_simulation fst
                (Main.movie_step ratings s (Main.similar_users s) e)
                (GUI.movie_step ratings s (Main.similar_users s)) unrated
                ([], []) (gui_movie_step_sim ratings s _ e)) as Hsim.
  simpl in Hsim. rewrite Hsim.
  destruct (foldlM (Main.movie_step ratings s _ e) _ unrated) as [[scores ex]|];
    simpl; [|done].
  by destruct e.
Qed.

(** On a well-formed frame and a user of the frame the method returns. *)
Lemma gui_recommend_collaborative_is_Ok ratings u n :
  df_wf ratings → u ∈ columns ratings →
  is_Ok (GUI.recommend_collaborative ratings u n).
Proof.
  intros Hwf Hu. rewrite (gui_recommend_collaborative_fmap ratings u n false).
  by destruct (recommend_collaborative_is_Ok u ratings n false Hwf Hu) as [r ->];
    eexists.
Qed.

(** The movies the method of the form returns have a NaN cell in the
    column of the user. *)
Lemma gui_recommend_collaborative_unrated ratings u n recs m :
  df_wf ratings → GUI.recommend_collaborative ratings u n = Ok recs → m ∈ recs →
  ∃ x, df_loc ratings m u = Ok x ∧ isnan x = true.
Proof.
  intros Hwf. rewrite (gui_recommend_collaborative_fmap ratings u n false).
  destruct (Main.recommend_collaborative u ratings n false)
    as [[[recs' ex] sim]|] eqn:Hrec; [intros [= <-] Hm|done].
  destruct (recommend_collaborative_Ok _ _ _ _ _ _ _ Hwf Hrec)
    as (s & unrated & scores & _ & Hun & _).
  apply (isna_index_elem_of ratings u unrated m Hwf Hun).
  by eapply recommended_unrated.
Qed.

(** C33: the method of the form and the function of the command-line
    program return the same list of movies, or raise the same exception,
    on every frame, user and count. *)
Theorem gui_recommend_collaborative_equiv ratings u n e :
  (∀ recs, GUI.recommend_collaborative ratings u n = Ok recs ↔
     ∃ ex sim, Main.recommend_collaborative u ratings n e = Ok (recs, ex, sim)) ∧
  (∀ err, GUI.recommend_collaborative ratings u n = Raise err ↔
     Main.recommend_collaborative u ratings n e = Raise err).
Proof.
  rewrite (gui_recommend_collaborative_fmap ratings u n e).
  destruct (Main.recommend_collaborative u ratings n e) as [[[recs' ex] sim]|err']; simpl.
  - split; [intros recs|intros err]; (split; [|try done]); try done.
    + intros [= <-]. eauto.
    + by intros (? & ? & [= <- _ _]).
  - split; [intros recs|intros err]; split; try done; try (by intros [= ->]).
    by intros (? & ? & [=]).
Qed.

End gui_theorems.
