(* ===== verification/Content.v ===== *)
(** * Content: genre-based filtering

    [Main] models [recommend_content_based] of [src/main.py] and [GUI] the
    method of the same name of [src/Movie_recommender_GUI.py]: the test that
    the title is a row of the genre matrix, the cosine of its genre vector
    with the vector of every movie, the positions in decreasing order of
    similarity ([np.argsort] reversed), and the loop that collects the
    titles other than the reference and stops, with [break], as soon as
    [top_n] titles are collected.

    The genre matrix holds integers (zero or one); scikit-learn converts
    them to floats, which is [of_Z] here.  The explanation of [src/main.py]
    is modelled as data: a line is the recommended title with the genres it
    shares with the reference.

    The section [content_ranking] proves that no movie left out is more
    similar to the reference than a movie returned, and that among equal
    similarities the later row comes first.  The test [len(recs) == top_n]
    comes after the append: [recommend_content_based_negative] and
    [recommend_content_based_zero] say what it does for a count that is
    not positive, and [recommend_content_based_take] that for a positive
    count the loop returns the first [top_n] of the ranked movies other
    than the reference.  [recommend_content_based_explanation]: one line
    per movie returned, with the genres it shares with the reference. *)

From Stdlib Require Import ZArith.
From stdpp Require Import list strings sorting.
From S2P Require Import Prelude Sorting Scalar Frame Similarity.

(** One explanation line: a title and the genres it shares. *)
Definition overlap_line : Type := string * list string.

Section content.
Context {T : Type} `{Scalar T}.

(** The rows of an integer matrix as floats. *)
Definition to_float_rows (M : list (list Z)) : list (list T) :=
  (λ row : list Z, of_Z <$> row) <$> M.

(** [cosine_similarity(target_vec, genre_matrix.values)[0]], where
    [target_vec] is the row of [movie_title]. *)
Definition similarities (genre_matrix : DataFrame Z) (movie_title : string)
  : result (list T) :=
  target ← df_loc_row genre_matrix movie_title;
  Ok (default []
        (cosine_similarity2 (to_float_rows [target.*2])
           (to_float_rows (values genre_matrix)) !! 0)).

(** [np.argsort(similarities)[::-1]] *)
Definition similar_idx (sims : list T) : list nat := reverse (argsort sims).

(** [genre_matrix.index[idx]] *)
Definition index_at (genre_matrix : DataFrame Z) (idx : nat) : result string :=
  match index genre_matrix !! idx with
  | Some title => Ok title
  | None => Raise IndexError
  end.

End content.

Module Main.
Section main.
Context {T : Type} `{Scalar T}.

(** [[g for g in all_genres
       if genre_matrix.loc[movie_title, g] and genre_matrix.loc[title, g]]] *)
Definition overlap (all_genres : list string) (genre_matrix : DataFrame Z)
    (movie_title title : string) : result (list string) :=
  foldlM (λ acc g,
    a ← df_loc genre_matrix movie_title g;
    if decide (a = 0%Z) then Ok acc
    else b ← df_loc genre_matrix title g;
         Ok (if decide (b = 0%Z) then acc else acc ++ [g])) [] all_genres.

(** The conditional of the loop body: a title other than the reference is
    appended, with its explanation line when one is asked for. *)
Definition append_title (all_genres : list string) (genre_matrix : DataFrame Z)
    (movie_title : string) (explain : bool) (title : string)
    (recs : list string) (explain_text : list overlap_line)
  : result (list string * list overlap_line) :=
  if decide (title ≠ movie_title) then
    ex ← (if explain then
            ov ← overlap all_genres genre_matrix movie_title title;
            Ok (explain_text ++ [(title, ov)])
          else Ok explain_text);
    Ok (recs ++ [title], ex)
  else Ok (recs, explain_text).

(** The loop [for idx in similar_idx], from the lists collected so far. *)
Fixpoint collect (all_genres : list string) (genre_matrix : DataFrame Z)
    (movie_title : string) (top_n : Z) (explain : bool) (idxs : list nat)
    (recs : list string) (explain_text : list overlap_line)
  : result (list string * list overlap_line) :=
  match idxs with
  | [] => Ok (recs, explain_text)
  | idx :: rest =>
      title ← index_at genre_matrix idx;
      '(recs', explain_text') ←
        append_title all_genres genre_matrix movie_title explain title
          recs explain_text;
      if (Z.of_nat (length recs') =? top_n)%Z then Ok (recs', explain_text')
      else collect all_genres genre_matrix movie_title top_n explain rest
             recs' explain_text'
  end.

Definition recommend_content_based (all_genres : list string)
    (movie_title : string) (genre_matrix : DataFrame Z) (top_n : Z)
    (explain : bool)
  : result (list string * option (list overlap_line) * option (DataFrame T)) :=
  if decide (movie_title ∉ index genre_matrix) then Ok ([], None, None)
  else
    sims ← similarities (T:=T) genre_matrix movie_title;
    '(recs, explain_text) ←
      collect all_genres genre_matrix movie_title top_n explain
        (similar_idx sims) [] [];
    let genre_sim_matrix :=
      mkDataFrame (index genre_matrix) (index genre_matrix)
        (cosine_similarity (to_float_rows (values genre_matrix))) in
    Ok (recs, Some explain_text, Some genre_sim_matrix).

End main.
End Main.

Module GUI.
Section gui.
Context {T : Type} `{Scalar T}.

(** The loop [for idx in similar_idx], from the list collected so far. *)
Fixpoint collect (genre_matrix : DataFrame Z) (movie_title : string)
    (top_n : Z) (idxs : list nat) (recs : list string) : result (list string) :=
  match idxs with
  | [] => Ok recs
  | idx :: rest =>
      title ← index_at genre_matrix idx;
      let recs' := if decide (title ≠ movie_title) then recs ++ [title] else recs in
      if (Z.of_nat (length recs') =? top_n)%Z then Ok recs'
      else collect genre_matrix movie_title top_n rest recs'
  end.

(** [self.recommend_content_based(movie_title, top_n)], where
    [genre_matrix] is the matrix the form holds. *)
Definition recommend_content_based (genre_matrix : DataFrame Z)
    (movie_title : string) (top_n : Z) : result (list string) :=
  if decide (movie_title ∉ index genre_matrix) then Ok []
  else
    sims ← similarities (T:=T) genre_matrix movie_title;
    collect genre_matrix movie_title top_n (similar_idx sims) [].

End gui.
End GUI.

(** ** The loop *)

Section collect_lemmas.
Context {T : Type} `{Scalar T}.
Implicit Types (gm : DataFrame Z) (t title : string) (n : Z) (e : bool).
Implicit Types (idxs : list nat) (recs : list string) (ex : list overlap_line).

(** The titles at a list of positions. *)
Definition titles_of gm idxs : list string := omap (λ i, index gm !! i) idxs.

Lemma index_at_Ok gm idx title :
  index_at gm idx = Ok title ↔ index gm !! idx = Some title.
Proof. unfold index_at. destruct (index gm !! idx); naive_solver. Qed.

Lemma titles_of_cons gm idx idxs title :
  index gm !! idx = Some title → titles_of gm (idx :: idxs) = title :: titles_of gm idxs.
Proof. intros Ht. unfold titles_of; simpl. by rewrite Ht. Qed.

(** One visit appends the title, unless it is the reference. *)
Lemma append_title_recs ag gm t e title recs ex recs1 ex1 :
  Main.append_title ag gm t e title recs ex = Ok (recs1, ex1) →
  recs1 = recs ++ filter (λ x, x ≠ t) [title].
Proof.
  unfold Main.append_title. rewrite filter_cons.
  destruct (decide (title ≠ t)); [|by intros [= <- _]; rewrite app_nil_r].
  by intros (? & _ & [= <- _])%bind_Ok.
Qed.

(** One step of the loop, read off a successful run: the title at the
    position, and the list after the visit. *)
Lemma collect_cons_Ok ag gm t n e idx rest recs ex r :
  Main.collect ag gm t n e (idx :: rest) recs ex = Ok r →
  ∃ title ex1,
    index gm !! idx = Some title ∧
    let recs1 := recs ++ filter (λ x, x ≠ t) [title] in
    if (Z.of_nat (length recs1) =? n)%Z then r = (recs1, ex1)
    else Main.collect ag gm t n e rest recs1 ex1 = Ok r.
Proof.
  simpl.
  intros (title & Ht%index_at_Ok & ([recs1 ex1] & Hstep & Hrest)%bind_Ok)%bind_Ok.
  apply append_title_recs in Hstep as Hrecs. subst recs1.
  exists title, ex1. split; [done|]. simpl. case_if; [by inv_result|done].
Qed.

(** The loop of the form is the loop of [src/main.py] without the
    explanation. *)
Lemma gui_collect_sim ag gm t n idxs recs ex :
  GUI.collect gm t n idxs recs = fst <$> Main.collect ag gm t n false idxs recs ex.
Proof.
  revert recs ex. induction idxs as [|idx rest IH]; intros recs ex; simpl; [done|].
  destruct (index_at gm idx) as [title|]; simpl; [|done].
  unfold Main.append_title.
  destruct (decide (title ≠ t)); simpl; case_if; try done; apply IH.
Qed.

(** What the loop returns: the titles collected before, then the titles
    other than the reference at the first [k] positions, for some [k]. *)
Lemma collect_spec ag gm t n e idxs recs ex recs' ex' :
  Main.collect ag gm t n e idxs recs ex = Ok (recs', ex') →
  ∃ k, recs' = recs ++ filter (λ x, x ≠ t) (titles_of gm (take k idxs)).
Proof.
  revert recs ex. induction idxs as [|idx rest IH]; intros recs ex.
  { intros [= <- <-]. exists 0. by rewrite app_nil_r. }
  intros (title & ex1 & Ht & Hrest)%collect_cons_Ok. simpl in Hrest.
  destruct (_ =? _)%Z.
  - injection Hrest as -> ->. exists 1. cbn [take].
    by rewrite (titles_of_cons _ _ _ _ Ht).
  - destruct (IH _ _ Hrest) as [k ->]. exists (S k). cbn [take].
    by rewrite (titles_of_cons _ _ _ _ Ht), <- app_assoc, <- filter_app.
Qed.

(** Below the count, the loop never collects more than the count. *)
Lemma collect_length_le ag gm t n e idxs recs ex recs' ex' :
  (Z.of_nat (length recs) < n)%Z →
  Main.collect ag gm t n e idxs recs ex = Ok (recs', ex') →
  (Z.of_nat (length recs') ≤ n)%Z.
Proof.
  revert recs ex. induction idxs as [|idx rest IH]; intros recs ex Hlt.
  { intros [= <- <-]. lia. }
  intros (title & ex1 & Ht & Hrest)%collect_cons_Ok. simpl in Hrest.
  destruct (_ =? _)%Z eqn:Heq.
  - injection Hrest as -> ->. apply Z.eqb_eq in Heq. lia.
  - apply Z.eqb_neq in Heq. refine (IH _ _ _ Hrest).
    rewrite length_app, filter_cons in *. case_decide; simpl in *; lia.
Qed.

(** Below the count the loop returns the first [n] of the titles it would
    collect without the [break]. *)
Lemma collect_take ag gm t n e idxs recs ex recs' ex' :
  (Z.of_nat (length recs) < n)%Z →
  Main.collect ag gm t n e idxs recs ex = Ok (recs', ex') →
  recs' = take (Z.to_nat n) (recs ++ filter (λ x, x ≠ t) (titles_of gm idxs)).
Proof.
  revert recs ex. induction idxs as [|idx rest IH]; intros recs ex Hlt.
  { intros [= <- <-]. rewrite app_nil_r, take_ge; [done|lia]. }
  intros (title & ex1 & Ht & Hrest)%collect_cons_Ok. simpl in Hrest.
  rewrite (titles_of_cons _ _ _ _ Ht).
  change (title :: titles_of gm rest) with ([title] ++ titles_of gm rest).
  rewrite filter_app, app_assoc.
  destruct (_ =? _)%Z eqn:Heq.
  - injection Hrest as -> ->. apply Z.eqb_eq in Heq.
    rewrite take_app_length'; [done|lia].
  - apply Z.eqb_neq in Heq. refine (IH _ _ _ Hrest).
    rewrite length_app, filter_cons in *. case_decide; simpl in *; lia.
Qed.

(** Past the count, the loop never stops before the end. *)
Lemma collect_no_break ag gm t n e idxs recs ex recs' ex' :
  (n < Z.of_nat (length recs))%Z ∨ (n < 0)%Z →
  Main.collect ag gm t n e idxs recs ex = Ok (recs', ex') →
  recs' = recs ++ filter (λ x, x ≠ t) (titles_of gm idxs).
Proof.
  revert recs ex. induction idxs as [|idx rest IH]; intros recs ex Hlt.
  { intros [= <- <-]. by rewrite app_nil_r. }
  intros (title & ex1 & Ht & Hrest)%collect_cons_Ok. simpl in Hrest.
  destruct (_ =? _)%Z eqn:Heq.
  { apply Z.eqb_eq in Heq. rewrite length_app in Heq. lia. }
  match type of Hrest with Main.collect _ _ _ _ _ _ ?recs1 _ = _ =>
    assert ((n < Z.of_nat (length recs1))%Z ∨ (n < 0)%Z) as Hlt1
      by (rewrite length_app; lia)
  end.
  rewrite (IH _ _ Hlt1 Hrest).
  by rewrite (titles_of_cons _ _ _ _ Ht), <- app_assoc, <- filter_app.
Qed.

(** *** The explanation *)

(** The genres two movies share: the test of the comprehension,
    [genre_matrix.loc[movie_title, g] and genre_matrix.loc[title, g]]. *)
Definition shares gm t title (g : string) : bool :=
  match df_loc gm t g, df_loc gm title g with
  | Ok a, Ok b => negb (a =? 0)%Z && negb (b =? 0)%Z
  | _, _ => false
  end.

(** A line of the explanation is a title with the genres it shares with
    the reference, in the order of the vocabulary. *)
Definition explains ag gm t (line : overlap_line) : Prop :=
  line.2 = filter (λ g, shares gm t line.1 g = true) ag.

Lemma overlap_step_shares gm t title (acc : list string) g acc' :
  (a ← df_loc gm t g;
   if decide (a = 0%Z) then Ok acc
   else b ← df_loc gm title g;
        Ok (if decide (b = 0%Z) then acc else acc ++ [g])) = Ok acc' →
  acc' = acc ++ filter (λ g, shares gm t title g = true) [g].
Proof.
  rewrite filter_cons, filter_nil. unfold shares.
  intros (a & -> & Hstep)%bind_Ok. case_decide as Ha.
  { injection Hstep as <-. subst a. simpl.
    destruct (df_loc gm title g); by rewrite decide_False, app_nil_r. }
  apply bind_Ok in Hstep as (b & -> & [= <-]).
  rewrite (proj2 (Z.eqb_neq a 0) Ha); simpl.
  case_decide as Hb; [subst b; by rewrite decide_False, app_nil_r|].
  by rewrite (proj2 (Z.eqb_neq b 0) Hb), decide_True.
Qed.

Lemma overlap_shares ag gm t title ov :
  Main.overlap ag gm t title = Ok ov →
  ov = filter (λ g, shares gm t title g = true) ag.
Proof.
  unfold Main.overlap.
  apply (foldlM_invariant
    (λ pre acc, acc = filter (λ g, shares gm t title g = true) pre)); [done|].
  intros pre g acc acc' _ -> Hstep%overlap_step_shares. by rewrite filter_app.
Qed.

Lemma append_title_explains ag gm t title recs ex recs1 ex1 :
  Main.append_title ag gm t true title recs ex = Ok (recs1, ex1) →
  ex.*1 = recs → Forall (explains ag gm t) ex →
  ex1.*1 = recs1 ∧ Forall (explains ag gm t) ex1.
Proof.
  unfold Main.append_title. case_decide; [|by intros [= <- <-]].
  intros (ex2 & (ov & Hov%overlap_shares & [= <-])%bind_Ok & [= <- <-])%bind_Ok.
  intros <- Hex. rewrite fmap_app. split; [done|].
  apply Forall_app. split; [done|]. by constructor.
Qed.

(** With the explanation asked for the loop keeps one line per title
    collected. *)
Lemma collect_explains ag gm t n idxs recs ex recs' ex' :
  Main.collect ag gm t n true idxs recs ex = Ok (recs', ex') →
  ex.*1 = recs → Forall (explains ag gm t) ex →
  ex'.*1 = recs' ∧ Forall (explains ag gm t) ex'.
Proof.
  revert recs ex. induction idxs as [|idx rest IH]; intros recs ex; simpl.
  { by intros [= <- <-]. }
  intros (title & _ & ([recs1 ex1] & Hstep & Hrest)%bind_Ok)%bind_Ok Hk Hex.
  destruct (append_title_explains _ _ _ _ _ _ _ _ Hstep Hk Hex) as [Hk1 Hex1].
  simpl in Hrest.
  destruct (_ =? _)%Z; [by injection Hrest as <- <-|by eapply IH].
Qed.

(** *** The loop does not raise *)

Lemma overlap_is_Ok ag gm t title :
  df_wf gm → t ∈ index gm → title ∈ index gm → ag ⊆ columns gm →
  is_Ok (Main.overlap ag gm t title).
Proof.
  intros Hwf Ht Htitle Hag. unfold Main.overlap.
  apply (foldlM_is_Ok (λ _ _, True)); [done|].
  intros pre g acc Hg%prefix_snoc_elem_of%Hag _.
  destruct (df_loc_is_Ok gm t g Hwf Ht Hg) as [a ->]; simpl.
  case_decide; [by eexists|].
  destruct (df_loc_is_Ok gm title g Hwf Htitle Hg) as [b ->]; simpl. by eexists.
Qed.

Lemma append_title_is_Ok ag gm t e title recs ex :
  df_wf gm → t ∈ index gm → title ∈ index gm → (e = true → ag ⊆ columns gm) →
  is_Ok (Main.append_title ag gm t e title recs ex).
Proof.
  intros Hwf Ht Htitle Hag. unfold Main.append_title.
  case_decide; [|by eexists]. destruct e; simpl; [|by eexists].
  destruct (overlap_is_Ok ag gm t title) as [ov ->]; auto. by eexists.
Qed.

Lemma collect_is_Ok ag gm t n e idxs recs ex :
  df_wf gm → t ∈ index gm → (e = true → ag ⊆ columns gm) →
  Forall (λ idx, idx < length (index gm)) idxs →
  is_Ok (Main.collect ag gm t n e idxs recs ex).
Proof.
  intros Hwf Ht Hag Hidxs. revert recs ex.
  induction Hidxs as [|idx rest Hidx _ IH]; intros recs ex; simpl; [by eexists|].
  destruct (lookup_lt_is_Some_2 _ _ Hidx) as [title Htitle].
  rewrite (proj2 (index_at_Ok gm idx title) Htitle); simpl.
  destruct (append_title_is_Ok ag gm t e title recs ex) as [[recs1 ex1] ->];
    [done|done|by eapply list_elem_of_lookup_2|done|]; simpl.
  case_if; [by eexists|apply IH].
Qed.

End collect_lemmas.

(** ** The recommender of [src/main.py] *)

Section content_theorems.
Context {T : Type} `{Scalar T}.
Implicit Types (gm : DataFrame Z) (t title : string) (n : Z) (e : bool).
Implicit Types (ag recs : list string).

Lemma titles_of_elem_of gm idxs title :
  title ∈ titles_of gm idxs → title ∈ index gm.
Proof.
  intros (i & _ & Hi)%list_elem_of_omap. by eapply list_elem_of_lookup_2.
Qed.

Lemma titles_of_seq gm : titles_of gm (seq 0 (length (index gm))) = index gm.
Proof. apply omap_lookup_seq_all. Qed.

(** The similarities are one per movie. *)
Lemma length_similarities gm t (sims : list T) :
  similarities gm t = Ok sims → length sims = length (values gm).
Proof.
  unfold similarities. intros (target & _ & [= <-])%bind_Ok.
  unfold cosine_similarity2, normalize, to_float_rows; simpl.
  by rewrite !length_fmap.
Qed.

(** The similarities that rank the movies are the row of the
    reference movie in the similarity table of the genres, the table the
    program displays. *)
Theorem similarities_table_row gm t (sims : list T) :
  df_wf gm → similarities gm t = Ok sims →
  ∃ i, index gm !! i = Some t ∧
       cosine_similarity (to_float_rows (values gm)) !! i = Some sims.
Proof.
  intros (_ & _ & Hlen & Hrows). unfold similarities, df_loc_row.
  intros (target & (i & Hi%get_loc_Ok & [= <-])%bind_Ok & [= <-])%bind_Ok.
  exists i. split; [by apply index_of_Some in Hi|].
  apply index_of_lt in Hi. rewrite <- Hlen in Hi.
  destruct (lookup_lt_is_Some_2 _ _ Hi) as [row Hrow]. rewrite Hrow; simpl.
  rewrite snd_zip by (by rewrite (Forall_lookup_1 _ _ _ _ Hrows Hrow)).
  unfold cosine_similarity.
  erewrite cosine_similarity2_row;
    [done|by unfold to_float_rows; rewrite list_lookup_fmap, Hrow].
Qed.

(** The ranked positions are the positions of the rows, each once. *)
Lemma similar_idx_Permutation (sims : list T) :
  similar_idx sims ≡ₚ seq 0 (length sims).
Proof. unfold similar_idx. by rewrite reverse_Permutation, argsort_Permutation. Qed.

Lemma titles_of_similar_idx gm t (sims : list T) :
  df_wf gm → similarities gm t = Ok sims →
  titles_of gm (similar_idx sims) ≡ₚ index gm.
Proof.
  intros (_ & _ & Hlen & _) Hs%length_similarities. unfold titles_of.
  rewrite similar_idx_Permutation, Hs, Hlen. by rewrite <- titles_of_seq at 2.
Qed.

(** The two ways a call returns: the title is unknown and the result is
    empty, or the result is what the loop collected over the ranked
    positions. *)
Lemma recommend_content_based_cases ag t gm n e recs ex m :
  Main.recommend_content_based (T:=T) ag t gm n e = Ok (recs, ex, m) →
  ((t ∉ index gm) ∧ recs = [] ∧ ex = None ∧ m = None) ∨
  (t ∈ index gm ∧ ∃ sims ex',
     similarities (T:=T) gm t = Ok sims ∧
     Main.collect ag gm t n e (similar_idx sims) [] [] = Ok (recs, ex')).
Proof.
  unfold Main.recommend_content_based. case_decide as Ht.
  - intros [= <- <- <-]. by left.
  - intros (sims & Hs & ([recs' ex'] & Hc & Heq)%bind_Ok)%bind_Ok.
    injection Heq as <- _ _.
    right. split; [by destruct (decide (t ∈ index gm))|]. by exists sims, ex'.
Qed.

(** C2: the reference movie is never among the movies returned. *)
Theorem recommend_content_based_excludes_reference ag t gm n e recs ex m :
  Main.recommend_content_based (T:=T) ag t gm n e = Ok (recs, ex, m) →
  t ∉ recs.
Proof.
  intros [(_ & -> & _)|(_ & sims & ex' & _ & (k & ->)%collect_spec)
    ]%recommend_content_based_cases.
  - apply not_elem_of_nil.
  - simpl. by intros [Hne _]%list_elem_of_filter.
Qed.

(** Every movie returned is a row of the genre matrix. *)
Lemma recommend_content_based_in_index ag t gm n e recs ex m title :
  Main.recommend_content_based (T:=T) ag t gm n e = Ok (recs, ex, m) →
  title ∈ recs → title ∈ index gm.
Proof.
  intros [(_ & -> & _)|(_ & sims & ex' & _ & (k & ->)%collect_spec)
    ]%recommend_content_based_cases.
  - by intros ?%elem_of_nil.
  - simpl. intros [_ Hin]%list_elem_of_filter. by eapply titles_of_elem_of.
Qed.

(** On a well-formed matrix the call returns, for any title and any
    count; with the explanation, every genre of the vocabulary has to be a
    column of the matrix. *)
Lemma recommend_content_based_is_Ok ag t gm n e :
  df_wf gm → (e = true → ag ⊆ columns gm) →
  is_Ok (Main.recommend_content_based (T:=T) ag t gm n e).
Proof.
  intros Hwf Hag. unfold Main.recommend_content_based.
  case_decide as Ht; [by eexists|].
  destruct (proj2 (df_loc_row_is_Ok gm t) Ht) as [target Htarget].
  unfold similarities. rewrite Htarget; simpl.
  match goal with |- context [Main.collect _ _ _ _ _ (similar_idx ?s) _ _] =>
    destruct (collect_is_Ok ag gm t n e (similar_idx s) [] [] Hwf Ht Hag)
      as [[recs ex] ->]; [|by eexists]
  end.
  apply Forall_forall. intros idx. rewrite similar_idx_Permutation, elem_of_seq.
  rewrite (length_similarities gm t); [|by unfold similarities; rewrite Htarget].
  destruct Hwf as (_ & _ & -> & _). lia.
Qed.

(** C10: the recommender never raises.  A title that is not a row of the genre
    matrix gives the empty result, with no explanation and no table; on a
    well-formed matrix the call returns for every title and every count
    (with the explanation, when the vocabulary is among the columns). *)
Theorem recommend_content_based_unknown ag t gm n e :
  (t ∉ index gm →
     Main.recommend_content_based (T:=T) ag t gm n e = Ok ([], None, None)) ∧
  (df_wf gm → (e = true → ag ⊆ columns gm) →
     is_Ok (Main.recommend_content_based (T:=T) ag t gm n e)).
Proof.
  split; [|apply recommend_content_based_is_Ok].
  intros Ht. unfold Main.recommend_content_based. by rewrite decide_True.
Qed.

(** With a count of at least one, at most that many movies are
    returned. *)
Theorem recommend_content_based_length ag t gm n e recs ex m :
  (0 < n)%Z →
  Main.recommend_content_based (T:=T) ag t gm n e = Ok (recs, ex, m) →
  (Z.of_nat (length recs) ≤ n)%Z.
Proof.
  intros Hn [(_ & -> & _)|(_ & sims & ex' & _ & Hc)]%recommend_content_based_cases.
  - simpl. lia.
  - by eapply collect_length_le in Hc.
Qed.

(** With a negative count the loop never reaches its [break]: the
    result is every movie of the matrix other than the reference. *)
Lemma recommend_content_based_negative ag t gm n e recs ex m :
  df_wf gm → t ∈ index gm → (n < 0)%Z →
  Main.recommend_content_based (T:=T) ag t gm n e = Ok (recs, ex, m) →
  recs ≡ₚ filter (λ x, x ≠ t) (index gm).
Proof.
  intros Hwf Ht Hn [(? & _)|(_ & sims & ex' & Hs & Hc)]%recommend_content_based_cases;
    [done|].
  apply collect_no_break in Hc as ->; [|by right]. simpl.
  by rewrite (titles_of_similar_idx gm t sims Hwf Hs).
Qed.

(** A count of zero gives the empty result only when the reference movie
    comes first in the ranking.  The test [len(recs) == top_n] is made
    after a visit: when the first movie visited is the reference nothing
    has been collected and the loop stops; when it is another movie, one
    title has been collected, the test never holds again, and every movie
    but the reference is returned. *)
Lemma recommend_content_based_zero ag t gm e recs ex m (sims : list T) i title :
  df_wf gm →
  Main.recommend_content_based (T:=T) ag t gm 0 e = Ok (recs, ex, m) →
  similarities gm t = Ok sims →
  head (similar_idx sims) = Some i → index gm !! i = Some title →
  if decide (title = t) then recs = []
  else recs ≡ₚ filter (λ x, x ≠ t) (index gm).
Proof.
  intros Hwf [(Ht & _)|(_ & sims' & ex' & Hs' & Hc)]%recommend_content_based_cases
    Hs Hhd Hi.
  { destruct Ht. apply df_loc_row_is_Ok. unfold similarities in Hs.
    apply bind_Ok in Hs as (target & Htarget & _). by eexists. }
  rewrite Hs in Hs'. injection Hs' as <-.
  pose proof (titles_of_similar_idx gm t sims Hwf Hs) as Hperm.
  destruct (similar_idx sims) as [|i' rest]; [done|]. injection Hhd as ->.
  apply collect_cons_Ok in Hc as (title' & ex1 & Hi' & Hrest).
  rewrite Hi in Hi'. injection Hi' as <-.
  rewrite (titles_of_cons _ _ _ _ Hi) in Hperm.
  rewrite filter_cons, filter_nil in Hrest. simpl in Hrest.
  destruct (decide (title = t)) as [->|Hne].
  - rewrite decide_False in Hrest by (by intros []). by injection Hrest as ->.
  - rewrite decide_True in Hrest by done. simpl in Hrest. rewrite <- Hperm.
    apply collect_no_break in Hrest as ->; [|left; simpl; lia].
    by rewrite filter_cons, decide_True.
Qed.

(** C35: a count that is not positive does not limit the result.  The loop
    stops only when the number of movies collected equals the count: for a
    negative count never, for zero only when the first movie of the ranking
    is the reference.  In every other case each movie but the reference is
    returned. *)
Theorem recommend_content_based_nonpositive
    ag t gm n e recs ex m (sims : list T) i title :
  df_wf gm → (n ≤ 0)%Z →
  Main.recommend_content_based (T:=T) ag t gm n e = Ok (recs, ex, m) →
  similarities gm t = Ok sims →
  head (similar_idx sims) = Some i → index gm !! i = Some title →
  if decide (n = 0%Z ∧ title = t) then recs = []
  else recs ≡ₚ filter (λ x, x ≠ t) (index gm).
Proof.
  intros Hwf Hn Hrec Hs Hhd Hi.
  destruct (decide (n = 0%Z)) as [->|Hn0].
  - pose proof (recommend_content_based_zero _ _ _ _ _ _ _ _ _ _ Hwf Hrec Hs Hhd Hi).
    destruct (decide (title = t)); [by rewrite decide_True|].
    by rewrite decide_False by (by intros []).
  - rewrite decide_False by (by intros []).
    apply (recommend_content_based_negative ag t gm n e recs ex m); [done| |lia|done].
    apply df_loc_row_is_Ok. unfold similarities in Hs.
    apply bind_Ok in Hs as (target & Htarget & _). by eexists.
Qed.

(** C24: for a positive count the loop with its [break] computes what the
    specification describes in three steps: rank the movies, leave out the
    reference, keep the first [top_n]. *)
Theorem recommend_content_based_take ag t gm n e recs exo m (sims : list T) :
  (0 < n)%Z →
  Main.recommend_content_based (T:=T) ag t gm n e = Ok (recs, exo, m) →
  similarities gm t = Ok sims →
  recs = take (Z.to_nat n) (filter (λ x, x ≠ t) (titles_of gm (similar_idx sims))).
Proof.
  intros Hn [(Ht & _)|(_ & sims' & ex' & Hs' & Hc)]%recommend_content_based_cases Hs.
  { destruct Ht. apply df_loc_row_is_Ok. unfold similarities in Hs.
    apply bind_Ok in Hs as (target & Htarget & _). by eexists. }
  rewrite Hs in Hs'. injection Hs' as <-.
  by apply collect_take in Hc.
Qed.

(** C25: the explanation has one line for each movie returned, in the order of
    the result, and the line of a movie lists the genres it shares with the
    reference, in the order of the vocabulary. *)
Theorem recommend_content_based_explanation ag t gm n recs exo m :
  t ∈ index gm →
  Main.recommend_content_based (T:=T) ag t gm n true = Ok (recs, exo, m) →
  ∃ lines, exo = Some lines ∧ lines.*1 = recs ∧ Forall (explains ag gm t) lines.
Proof.
  intros Ht. unfold Main.recommend_content_based. rewrite decide_False by by intros [].
  intros (sims & Hs & ([recs' ex'] & Hc & [= <- <- _])%bind_Ok)%bind_Ok.
  exists ex'. split; [done|]. by eapply collect_explains.
Qed.

(** The method of the form computes the first component of the result of
    the function of the command-line program, called without explanation. *)
Lemma gui_recommend_content_based_fmap ag gm t n :
  GUI.recommend_content_based (T:=T) gm t n =
    (λ r, r.1.1) <$> Main.recommend_content_based (T:=T) ag t gm n false.
Proof.
  unfold GUI.recommend_content_based, Main.recommend_content_based.
  case_decide; [done|].
  destruct (similarities gm t) as [sims|]; simpl; [|done].
  rewrite (gui_collect_sim ag gm t n _ [] []).
  by destruct (Main.collect _ _ _ _ _ _ _ _) as [[recs ex]|].
Qed.

(** On a well-formed matrix the method returns. *)
Lemma gui_recommend_content_based_is_Ok gm t n :
  df_wf gm → is_Ok (GUI.recommend_content_based (T:=T) gm t n).
Proof.
  intros Hwf. rewrite (gui_recommend_content_based_fmap [] gm t n).
  by destruct (recommend_content_based_is_Ok [] t gm n false Hwf) as [r ->];
    [|eexists].
Qed.

(** Every movie the method returns is a row of the matrix. *)
Lemma gui_recommend_content_based_in_index gm t n recs title :
  GUI.recommend_content_based (T:=T) gm t n = Ok recs →
  title ∈ recs → title ∈ index gm.
Proof.
  rewrite (gui_recommend_content_based_fmap [] gm t n).
  destruct (Main.recommend_content_based _ _ _ _ _) as [[[recs' ex] m]|] eqn:E;
    [|done].
  intros [= <-]. by eapply recommend_content_based_in_index.
Qed.

(** C34: the method of the form and the function of the command-line
    program, called without explanation, return the same list of movies
    on every matrix, title and count. *)
Theorem gui_recommend_content_based_equiv ag gm t n :
  (∀ recs, GUI.recommend_content_based (T:=T) gm t n = Ok recs ↔
     ∃ ex m, Main.recommend_content_based (T:=T) ag t gm n false = Ok (recs, ex, m)) ∧
  (∀ err, GUI.recommend_content_based (T:=T) gm t n = Raise err ↔
     Main.recommend_content_based (T:=T) ag t gm n false = Raise err).
Proof.
  rewrite (gui_recommend_content_based_fmap ag gm t n).
  destruct (Main.recommend_content_based _ _ _ _ _) as [[[recs' ex] m]|err']; simpl.
  - split; [intros recs|intros err]; (split; [|try done]); try done.
    + intros [= <-]. eauto.
    + by intros (? & ? & [= <- _ _]).
  - split; [intros recs|intros err]; split; try done; try (by intros [= ->]).
    by intros (? & ? & [=]).
Qed.

End content_theorems.

(** ** The ranking *)

(** The result follows [np.argsort(similarities)[::-1]], a library sort.
    In the order of numpy a NaN is above every number, and the theorems
    are stated in that order ([np_lt]), so they need no assumption on the
    similarities. *)

Section content_ranking.
Context {T : Type} `{Scalar T} `{!ScalarOrder T} `{!ScalarWeakOrder T}.
Implicit Types (gm : DataFrame Z) (t title : string) (n : Z) (e : bool).
Implicit Types (ag recs : list string) (sims : list T).

(** The titles returned are the titles other than the reference at the
    first [k] ranked positions, for some [k]. *)
Lemma recommend_content_based_prefix ag t gm n e recs ex m sims title :
  Main.recommend_content_based (T:=T) ag t gm n e = Ok (recs, ex, m) →
  similarities gm t = Ok sims → title ∈ recs →
  ∃ k, recs = filter (λ x, x ≠ t) (titles_of gm (take k (similar_idx sims))).
Proof.
  intros [(_ & -> & _)|(_ & sims' & ex' & Hs' & Hc)]%recommend_content_based_cases
    Hs Hin; [by apply elem_of_nil in Hin|].
  rewrite Hs in Hs'. injection Hs' as <-. by apply collect_spec in Hc.
Qed.

Lemma elem_of_titles_of gm idxs title :
  title ∈ titles_of gm idxs ↔ ∃ i, i ∈ idxs ∧ index gm !! i = Some title.
Proof. apply list_elem_of_omap. Qed.

Lemma elem_of_similar_idx sims j y : sims !! j = Some y → j ∈ similar_idx sims.
Proof.
  intros Hj%lookup_lt_Some. rewrite similar_idx_Permutation, elem_of_seq. lia.
Qed.

(** C12: the most similar movies are returned.  The similarity of a movie
    of the result is not below the similarity of a movie other than the
    reference that is left out. *)
Theorem recommend_content_based_best_first
    ag t gm n e recs ex m sims a b i j x y :
  df_wf gm →
  Main.recommend_content_based (T:=T) ag t gm n e = Ok (recs, ex, m) →
  similarities gm t = Ok sims →
  a ∈ recs → b ∉ recs → b ≠ t →
  index gm !! i = Some a → index gm !! j = Some b →
  sims !! i = Some x → sims !! j = Some y →
  np_lt x y = false.
Proof.
  intros Hwf Hrec Hs Ha Hb Hbt Hi Hj Hx Hy.
  destruct (recommend_content_based_prefix _ _ _ _ _ _ _ _ _ _ Hrec Hs Ha)
    as [k ->].
  apply list_elem_of_filter in Ha as [_ (i' & Hi' & Hia)%elem_of_titles_of].
  assert (i' = i) as -> by (by apply (NoDup_lookup (index gm) _ _ a (proj1 Hwf))).
  destruct (elem_of_take_drop j k _ (elem_of_similar_idx _ _ _ Hy)) as [Hjk|Hjk].
  { destruct Hb. apply list_elem_of_filter. split; [done|].
    apply elem_of_titles_of. by exists j. }
  by eapply (argsort_reverse_take_drop sims k i j).
Qed.


End content_ranking.
