(* ===== verification/Rating.v ===== *)
(** * Rating: the rating dialog of the form

    The program changes its state in one way only: a cell of the ratings
    frame is set.  The form does it in the dialog [rate_new_movie] of
    [src/Movie_recommender_GUI.py], which lists the movies the selected
    user has not rated, and in its button handler [submit_rating], which
    parses the text, checks that the number is between 1 and 5 and sets the
    cell.  (The command-line program does it in the last step of [main],
    modelled in [Cli].)

    The text typed by the operator is parsed by Python's [float]; the
    handler is stated for any parser [parse_float], whose failure is
    [ValueError] ([Console] instantiates it with [py_float]).  It returns
    the frame after the call and what the operator is told ([outcome]). *)

From Stdlib Require Import ZArith.
From stdpp Require Import list strings sorting.
From S2P Require Import Prelude Scalar Frame Similarity Collaborative.

(** What the operator is told. *)
Inductive outcome (T : Type) : Type :=
| Success (rating : T)   (* "{user} rated '{movie}' with {rating}." *)
| InvalidRange           (* "Rating must be between 1 and 5." *)
| NotANumber.            (* "Please enter a number between 1 and 5." *)
Arguments Success {T} rating.
Arguments InvalidRange {T}.
Arguments NotANumber {T}.

(** Whether the rating was stored. *)
Definition stored {T} (o : outcome T) : bool :=
  match o with Success _ => true | _ => false end.

Module GUI.
Section gui.
Context {T : Type} `{Scalar T} (parse_float : string → result T).

(** [rate_new_movie], up to the dialog: the movies offered for rating, or
    [None] when the user has rated them all and only a message is shown. *)
Definition rate_new_movie (ratings_df : DataFrame T) (user : string)
  : result (option (list string)) :=
  unrated_movies ← isna_index ratings_df user;
  if decide (length unrated_movies = 0) then Ok None
  else Ok (Some unrated_movies).

(** [submit_rating]: the handler of the button of the dialog opened for
    [user], with [movie] selected and [text] typed. *)
Definition submit_rating (ratings_df : DataFrame T) (user movie text : string)
  : DataFrame T * outcome T :=
  match parse_float text with
  | Ok rating =>
      if (rating <? of_Z 1)%sc || (rating >? of_Z 5)%sc
      then (ratings_df, InvalidRange)
      else (df_loc_set nan ratings_df movie user rating, Success rating)
  | Raise _ => (ratings_df, NotANumber)
  end.

End gui.
End GUI.

(** ** The handler of the form *)

Section gui_rating.
Context {T : Type} `{Scalar T} (parse_float : string → result T).
Implicit Types (df : DataFrame T) (user movie text : string).

(** What a success means: the text is that number, which is neither below
    1 nor above 5, and the frame is the old one with the cell set. *)
Lemma submit_rating_Success df user movie text df' rating :
  GUI.submit_rating parse_float df user movie text = (df', Success rating) ↔
  parse_float text = Ok rating ∧
    (rating <? of_Z 1)%sc = false ∧ (rating >? of_Z 5)%sc = false ∧
    df' = df_loc_set nan df movie user rating.
Proof.
  unfold GUI.submit_rating. destruct (parse_float text) as [r|];
    [|split; [by intros [=]|by intros ([=] & _)]].
  split.
  - destruct (r <? of_Z 1)%sc eqn:H1, (r >? of_Z 5)%sc eqn:H5; simpl;
      by intros [= <- <-].
  - intros ([= <-] & -> & -> & ->). done.
Qed.

(** C4: a stored rating is read back.  After a successful submission the
    cell of the movie and the user holds the number that was typed, and
    that number passed the range check. *)
Theorem submit_rating_reads_back df user movie text df' rating :
  df_wf df →
  GUI.submit_rating parse_float df user movie text = (df', Success rating) →
  parse_float text = Ok rating ∧ df_loc df' movie user = Ok rating ∧
    (rating <? of_Z 1)%sc = false ∧ (rating >? of_Z 5)%sc = false.
Proof.
  intros Hwf (Hp & H1 & H5 & ->)%submit_rating_Success.
  split_and!; [done| |done..]. by apply df_loc_set_loc_eq.
Qed.

(** A number below 1 or above 5 is refused, and the frame is left as
    it was. *)
Theorem submit_rating_out_of_range df user movie text rating :
  parse_float text = Ok rating →
  (rating <? of_Z 1)%sc = true ∨ (rating >? of_Z 5)%sc = true →
  GUI.submit_rating parse_float df user movie text = (df, InvalidRange).
Proof.
  intros Hp Hr. unfold GUI.submit_rating. rewrite Hp.
  by destruct Hr as [-> | ->]; rewrite ?orb_true_r.
Qed.

(** Text that is not a number is refused, and the frame is left as it
    was. *)
Theorem submit_rating_not_a_number df user movie text err :
  parse_float text = Raise err →
  GUI.submit_rating parse_float df user movie text = (df, NotANumber).
Proof. intros Hp. unfold GUI.submit_rating. by rewrite Hp. Qed.

(** The two ways a submission ends: refused with the frame as it was, or
    stored. *)
Lemma submit_rating_cases df user movie text df' o :
  GUI.submit_rating parse_float df user movie text = (df', o) →
  (stored o = false ∧ df' = df) ∨
  (∃ rating, o = Success rating ∧ df' = df_loc_set nan df movie user rating).
Proof.
  unfold GUI.submit_rating. destruct (parse_float text) as [rating|];
    [case_if|]; intros [= <- <-]; [by left|right; eauto|by left].
Qed.

(** A submission that does not succeed changes nothing. *)
Theorem submit_rating_failure_unchanged df user movie text df' o :
  GUI.submit_rating parse_float df user movie text = (df', o) →
  stored o = false → df' = df.
Proof. by intros [[_ ->]|(rating & -> & _)]%submit_rating_cases. Qed.

(** The frame stays well formed through every submission. *)
Theorem submit_rating_wf df user movie text :
  df_wf df → df_wf (GUI.submit_rating parse_float df user movie text).1.
Proof.
  intros Hwf.
  destruct (GUI.submit_rating parse_float df user movie text) as [df' o] eqn:E.
  apply submit_rating_cases in E as [[_ ->]|(rating & _ & ->)]; [done|].
  by apply df_loc_set_wf.
Qed.

(** A submission for a movie and a user of the frame keeps the labels
    of the frame and every other cell. *)
Theorem submit_rating_frame df user movie text df' o :
  movie ∈ index df → user ∈ columns df →
  GUI.submit_rating parse_float df user movie text = (df', o) →
  index df' = index df ∧ columns df' = columns df ∧
  ∀ m u, (m, u) ≠ (movie, user) → df_loc df' m u = df_loc df m u.
Proof.
  intros Hm Hu [[_ ->]|(rating & _ & ->)]%submit_rating_cases; [done|].
  split_and!; [by apply df_loc_set_index|by apply df_loc_set_columns|].
  intros m u Hne. by apply df_loc_set_loc_ne.
Qed.

(** C5: a movie rated by a user is never recommended to that user
    afterwards.  After a successful submission of a number that is not
    NaN, no call of the recommender for that user returns the movie. *)
Theorem rated_movie_not_recommended df user movie text df' rating n e recs ex sim :
  df_wf df →
  GUI.submit_rating parse_float df user movie text = (df', Success rating) →
  isnan rating = false →
  Main.recommend_collaborative user df' n e = Ok (recs, ex, sim) →
  movie ∉ recs.
Proof.
  intros Hwf (_ & _ & _ & ->)%submit_rating_Success Hnan Hrec Hin.
  pose proof (df_loc_set_wf nan df movie user rating Hwf) as Hwf'.
  destruct (recommend_collaborative_Ok _ _ _ _ _ _ _ Hwf' Hrec)
    as (s & unrated & scores & _ & Hun & _).
  pose proof (recommended_unrated _ _ _ _ _ _ _ _ _ Hwf' Hrec Hun Hin) as Hm.
  apply (isna_index_elem_of _ _ _ _ Hwf' Hun) in Hm as (x & Hx & Hxnan).
  rewrite df_loc_set_loc_eq in Hx by done. congruence.
Qed.

End gui_rating.

(** ** The dialog *)

Section gui_dialog.
Context {T : Type} `{Scalar T}.

(** The dialog offers exactly the movies whose cell is NaN, and is not
    opened when there is none. *)
Lemma rate_new_movie_Some (df : DataFrame T) (user : string) movies :
  GUI.rate_new_movie df user = Ok (Some movies) ↔
  isna_index df user = Ok movies ∧ movies ≠ [].
Proof.
  unfold GUI.rate_new_movie. destruct (isna_index df user) as [l|]; simpl;
    [|naive_solver].
  case_decide as Hl; [apply nil_length_inv in Hl|]; [naive_solver|].
  split; [intros [= <-]|intros [[= <-] _]]; [|done]. split; [done|].
  by intros ->.
Qed.

End gui_dialog.
