(* ===== verification/Store.v ===== *)
(** * Store: the ratings as an abstract machine

    Both programs change their state in one way only: the cell of a user
    and a movie of the ratings frame is set to a number.  This file states
    that as an abstract machine with one operation, [rate], and proves of
    the machine what a client may rely on: the frame stays well formed, its
    labels never change, and a cell holds what it held at the start or a
    rating the machine accepted.

    The machine has two parameters: [guard], what it asks of the value the
    cell holds, and [accept], what it asks of the rating.  The form is the
    machine that overwrites any cell with a rating that passes its range
    check ([form_store]); the command-line program is the machine that
    fills a missing rating with any number ([cli_store]).  [Gui] and [Cli]
    prove that the programs refine their machine: every step of the
    program is a step of the machine or leaves the ratings as they
    were. *)

From Stdlib Require Import ZArith.
From stdpp Require Import list strings relations.
From S2P Require Import Prelude Scalar Frame.

Section store.
Context {T : Type} `{Scalar T}.
Implicit Types (df : DataFrame T) (guard accept : T → Prop).

(** One step of the machine: a cell of the frame whose value passes
    [guard] is set to a rating that passes [accept]. *)
Inductive rate guard accept df : DataFrame T → Prop :=
| rate_cell user movie old rating :
    df_loc df movie user = Ok old → guard old → accept rating →
    rate guard accept df (df_loc_set nan df movie user rating).

(** The range check of the form, [rating < 1 or rating > 5], when it lets
    the rating through.  Both comparisons are false of NaN. *)
Definition in_range (rating : T) : Prop :=
  (rating <? of_Z 1)%sc = false ∧ (rating >? of_Z 5)%sc = false.

#[export] Instance in_range_dec rating : Decision (in_range rating).
Proof. unfold in_range. apply _. Defined.

(** The machine of the form: any cell, a rating in range. *)
Definition form_store : relation (DataFrame T) := rate (λ _, True) in_range.

(** The machine of the command line: a missing rating, any number. *)
Definition cli_store : relation (DataFrame T) :=
  rate (λ old, isnan old = true) (λ _, True).

(** A program step as the machine sees it: a step of the machine, or
    nothing. *)
Definition stutter_or (R : relation (DataFrame T)) df df' : Prop :=
  df' = df ∨ R df df'.

(** ** What the machine guarantees *)

Section laws.
Context (guard accept : T → Prop).

Lemma rate_labels df df' :
  rate guard accept df df' → index df' = index df ∧ columns df' = columns df.
Proof.
  intros [user movie old rating [Hm Hu]%df_loc_Ok_inv _ _].
  split; [by apply df_loc_set_index|by apply df_loc_set_columns].
Qed.

Lemma rate_wf df df' : rate guard accept df df' → df_wf df → df_wf df'.
Proof. intros [user movie old rating _ _ _]. apply df_loc_set_wf. Qed.

(** A cell after a step holds what it held before, or it is the cell that
    was set: it passed [guard] and holds a rating that passed [accept]. *)
Lemma rate_cell_cases df df' m u x :
  df_wf df → rate guard accept df df' → df_loc df' m u = Ok x →
  df_loc df m u = Ok x ∨
  (accept x ∧ ∃ old, df_loc df m u = Ok old ∧ guard old).
Proof.
  intros Hwf [user movie old rating Hold Hg Ha] Hx.
  destruct (df_loc_Ok_inv _ _ _ _ Hold) as [Hm Hu].
  destruct (decide ((m, u) = (movie, user))) as [[= -> ->]|Hne].
  - rewrite df_loc_set_loc_eq in Hx by done. injection Hx as <-.
    right. split; [done|by exists old].
  - rewrite df_loc_set_loc_ne in Hx by done. by left.
Qed.

(** The same of a run of the machine. *)
Lemma rtc_rate_labels df df' :
  rtc (rate guard accept) df df' →
  index df' = index df ∧ columns df' = columns df.
Proof.
  induction 1 as [|df1 df2 df3 [Hi Hc]%rate_labels _ [IHi IHc]]; [done|].
  split; congruence.
Qed.

Lemma rtc_rate_wf df df' :
  rtc (rate guard accept) df df' → df_wf df → df_wf df'.
Proof. induction 1; eauto using rate_wf. Qed.

Lemma rtc_rate_cell df df' m u x :
  df_wf df → rtc (rate guard accept) df df' → df_loc df' m u = Ok x →
  df_loc df m u = Ok x ∨ accept x.
Proof.
  intros Hwf Hrun. revert Hwf.
  induction Hrun as [|df1 df2 df3 Hstep _ IH]; intros Hwf Hx; [by left|].
  destruct (IH (rate_wf _ _ Hstep Hwf) Hx) as [Hx2|Ha]; [|by right].
  destruct (rate_cell_cases _ _ _ _ _ Hwf Hstep Hx2) as [?|[? _]]; auto.
Qed.

(** A program that refines the machine step by step refines it run by
    run. *)
Lemma stutter_or_rtc df df' :
  rtc (stutter_or (rate guard accept)) df df' → rtc (rate guard accept) df df'.
Proof.
  induction 1 as [|df1 df2 df3 [->|Hstep] _ IH]; [done..|].
  by eapply rtc_l.
Qed.

End laws.

(** The machine of the command line never replaces a rating: a cell that
    is not NaN is never touched. *)
Lemma cli_store_keeps df df' m u x :
  df_wf df → rtc cli_store df df' →
  df_loc df m u = Ok x → isnan x = false → df_loc df' m u = Ok x.
Proof.
  intros Hwf Hrun. revert Hwf.
  induction Hrun as [|df1 df2 df3 Hstep _ IH]; intros Hwf Hx Hnan; [done|].
  apply IH; [by eapply rate_wf|..|done].
  destruct Hstep as [user movie old rating Hold Hg _].
  destruct (df_loc_Ok_inv _ _ _ _ Hold) as [Hm Hu].
  rewrite df_loc_set_loc_ne; [done..|]. intros [= -> ->]. congruence.
Qed.

End store.
