(* ===== verification/Io.v ===== *)
(** * Io: a monad for programs with state and exceptions

    The command-line program and the handlers of the form are sequences of
    reads, writes, calls that may raise and assignments.  They are modelled
    in a monad [io S] over a state [S]: a step returns the state it reached
    together with its result or the exception it raised, so that what was
    done before an exception is kept, as in Python.

    For the command-line program the state is a [world]: the lines still
    to be read, the events written so far and the ratings frame.

    The second part is a weakest-precondition calculus for [io]: [wp m Q s]
    says that [m], run in [s], ends in a result and a state that satisfy
    [Q].  There is one rule per operation; the tactic [wp_step] applies the
    rule of the operation at the head of the program.  [wp_result] reads a
    postcondition that fixes the result and the state as the equation of
    the run, and [wp_for_each_emit] is the rule of a loop whose body only
    writes one event.

    The third part relates two runs: [io_rel R P m m'] says that [m] and
    [m'], run from states related by [R], end in states related by [R] with
    results related by [P].  There is one rule per operation, and the
    tactic [rel_go] relates a program with itself by following its
    structure; [Display] uses it to show that what was written or shown
    never influences what the programs do. *)

From Stdlib Require Import ZArith.
From stdpp Require Import list strings relations.
From S2P Require Import Prelude Frame.

Definition io (S A : Type) : Type := S → S * result A.

#[export] Instance io_ret {S} : MRet (io S) := λ A a s, (s, Ok a).
#[export] Instance io_bind {S} : MBind (io S) := λ A B f m s,
  match m s with
  | (s', Ok a) => f a s'
  | (s', Raise e) => (s', Raise e)
  end.
#[export] Instance io_fmap {S} : FMap (io S) := λ A B f m s,
  match m s with
  | (s', Ok a) => (s', Ok (f a))
  | (s', Raise e) => (s', Raise e)
  end.

Section control.
Context {S : Type}.

(** A computation without effects, which may raise. *)
Definition lift {A} (r : result A) : io S A := λ s, (s, r).

(** The state, read and changed. *)
Definition get : io S S := λ s, (s, Ok s).
Definition modify (f : S → S) : io S unit := λ s, (f s, Ok tt).

(** [try: m except ...: h], for the exceptions [handles] accepts.  The
    handler runs in the state the exception left. *)
Definition try_except {A} (m : io S A) (handles : exn → bool) (h : io S A)
  : io S A := λ s,
  match m s with
  | (s', Raise e) => if handles e then h s' else (s', Raise e)
  | r => r
  end.

(** [for x in l: body] *)
Fixpoint for_each {A} (l : list A) (body : A → io S unit) : io S unit :=
  match l with
  | [] => mret tt
  | x :: l' => body x;; for_each l' body
  end.

(** [if c: m] *)
Definition when (c : bool) (m : io S unit) : io S unit :=
  if c then m else mret tt.

End control.

(** ** The world of a program of the terminal *)

Record world (E T : Type) : Type := mkWorld {
  stdin : list string;          (* the lines still to be read *)
  stdout : list E;              (* what was written, oldest first *)
  ratings : DataFrame T         (* the global [ratings_df] *)
}.
Arguments mkWorld {E T} stdin stdout ratings.
Arguments stdin {E T} _.
Arguments stdout {E T} _.
Arguments ratings {E T} _.

Section primitives.
Context {E T : Type}.

(** One event is written. *)
Definition emit (e : E) : io (world E T) unit := λ w,
  (mkWorld (stdin w) (stdout w ++ [e]) (ratings w), Ok tt).

(** One line is read; [EOFError] when there is none. *)
Definition read_line : io (world E T) string := λ w,
  match stdin w with
  | [] => (w, Raise EOFError)
  | line :: rest => (mkWorld rest (stdout w) (ratings w), Ok line)
  end.

Definition get_ratings : io (world E T) (DataFrame T) := λ w, (w, Ok (ratings w)).

Definition set_ratings (df : DataFrame T) : io (world E T) unit := λ w,
  (mkWorld (stdin w) (stdout w) df, Ok tt).

End primitives.

(** ** Weakest preconditions *)

Section wp.
Context {S : Type}.

(** [wp m Q s]: run in [s], [m] ends with a result [r] in a state [s'] with
    [Q r s']. *)
Definition wp {A} (m : io S A) (Q : result A → S → Prop) (s : S) : Prop :=
  Q (m s).2 (m s).1.

(** What a postcondition asks of the rest of the program [f], after a
    first part that ended with [r]. *)
Definition after {A B} (f : A → io S B) (Q : result B → S → Prop)
  : result A → S → Prop := λ r s,
  match r with
  | Ok a => wp (f a) Q s
  | Raise e => Q (Raise e) s
  end.

End wp.

Section wp_rules.
Context {S : Type}.
Implicit Types (s : S).

Lemma wp_run {A} (m : io S A) (Q : result A → S → Prop) s :
  wp m Q s ↔ Q (m s).2 (m s).1.
Proof. done. Qed.

(** The result of a run, computed with the rules below. *)
Lemma wp_result {A} (m : io S A) s p : wp m (λ r s', (s', r) = p) s → m s = p.
Proof. unfold wp. by destruct (m s). Qed.

Lemma wp_mono {A} (m : io S A) (Q Q' : result A → S → Prop) s :
  wp m Q s → (∀ r s', Q r s' → Q' r s') → wp m Q' s.
Proof. unfold wp. auto. Qed.

Lemma wp_ret {A} (a : A) Q s : Q (Ok a) s → wp (mret a : io S A) Q s.
Proof. done. Qed.

Lemma wp_bind {A B} (m : io S A) (f : A → io S B) Q s :
  wp m (after f Q) s → wp (m ≫= f) Q s.
Proof.
  unfold wp, after, mbind, io_bind. by destruct (m s) as [s' [a|e]].
Qed.

Lemma wp_fmap {A B} (g : A → B) (m : io S A) Q s :
  wp m (λ r s', match r with
                | Ok a => Q (Ok (g a)) s'
                | Raise e => Q (Raise e) s'
                end) s →
  wp (g <$> m) Q s.
Proof. unfold wp, fmap, io_fmap. by destruct (m s) as [s' [a|e]]. Qed.

Lemma wp_lift {A} (r : result A) Q s : Q r s → wp (lift r) Q s.
Proof. done. Qed.

Lemma wp_get Q s : Q (Ok s) s → wp get Q s.
Proof. done. Qed.

Lemma wp_modify (f : S → S) Q s : Q (Ok tt) (f s) → wp (modify f) Q s.
Proof. done. Qed.

Lemma wp_try_except {A} (m h : io S A) (handles : exn → bool) Q s :
  wp m (λ r s', match r with
                | Raise e => if handles e then wp h Q s' else Q (Raise e) s'
                | Ok a => Q (Ok a) s'
                end) s →
  wp (try_except m handles h) Q s.
Proof.
  unfold wp, try_except. destruct (m s) as [s' [a|e]]; simpl; [done|].
  by destruct (handles e).
Qed.

Lemma wp_when (c : bool) (m : io S unit) Q s :
  (if c then wp m Q s else Q (Ok tt) s) → wp (when c m) Q s.
Proof. by destruct c. Qed.

(** The rule of the loop: an invariant that holds before the loop and
    that every turn keeps holds after it; a turn that raises ends the
    loop. *)
Lemma wp_for_each {A} (I : S → Prop) (l : list A) (body : A → io S unit) Q s :
  I s →
  (∀ x s', x ∈ l → I s' →
     wp (body x) (λ r s'', match r with
                           | Ok _ => I s''
                           | Raise e => Q (Raise e) s''
                           end) s') →
  (∀ s', I s' → Q (Ok tt) s') →
  wp (for_each l body) Q s.
Proof.
  intros Hs Hbody Hend. revert s Hs.
  induction l as [|x l IH]; intros s Hs; simpl; [by apply wp_ret, Hend|].
  apply wp_bind.
  eapply wp_mono; [apply (Hbody x s); [by left|done]|].
  intros [[]|e] s' Hr; simpl; [|done].
  apply IH; [|done]. intros y s'' Hy. apply Hbody. by right.
Qed.

End wp_rules.

Section world_rules.
Context {E T : Type}.
Implicit Types (w : world E T).

Lemma wp_emit (e : E) Q w :
  Q (Ok tt) (mkWorld (stdin w) (stdout w ++ [e]) (ratings w)) → wp (emit e) Q w.
Proof. done. Qed.

Lemma wp_read_line Q w :
  (stdin w = [] → Q (Raise EOFError) w) →
  (∀ line rest, stdin w = line :: rest →
     Q (Ok line) (mkWorld rest (stdout w) (ratings w))) →
  wp read_line Q w.
Proof.
  unfold wp, read_line. intros Hnil Hcons.
  destruct (stdin w) as [|line rest]; [by apply Hnil|by apply Hcons].
Qed.

Lemma wp_get_ratings Q w : Q (Ok (ratings w)) w → wp get_ratings Q w.
Proof. done. Qed.

Lemma wp_set_ratings (df : DataFrame T) Q w :
  Q (Ok tt) (mkWorld (stdin w) (stdout w) df) → wp (set_ratings df) Q w.
Proof. done. Qed.

(** A loop that writes one event per item writes them in order. *)
Lemma wp_for_each_emit {A} (l : list A) (body : A → io (world E T) unit)
    (f : A → E) Q w :
  (∀ x, x ∈ l → body x = emit (f x)) →
  Q (Ok tt) (mkWorld (stdin w) (stdout w ++ (f <$> l)) (ratings w)) →
  wp (for_each l body) Q w.
Proof.
  revert w. induction l as [|x l IH]; intros [i o r] Hbody; simpl.
  - rewrite app_nil_r. apply wp_ret.
  - intros HQ. apply wp_bind. rewrite Hbody by left. apply wp_emit. simpl.
    apply IH; [intros y Hy; apply Hbody; by right|]. simpl.
    by rewrite <- app_assoc.
Qed.

(** *** Programs that only write *)

(** [writes_only m]: [m] returns, reads nothing and leaves the ratings as
    they are; all it does is to append to the output. *)
Definition writes_only (m : io (world E T) unit) : Prop :=
  ∀ w, ∃ out, m w = (mkWorld (stdin w) (stdout w ++ out) (ratings w), Ok tt).

Lemma writes_only_ret : writes_only (mret tt).
Proof. intros [i o r]. exists []. simpl. by rewrite app_nil_r. Qed.

Lemma writes_only_emit (e : E) : writes_only (emit e).
Proof. intros w. by exists [e]. Qed.

Lemma writes_only_bind (m : io (world E T) unit) (f : unit → io (world E T) unit) :
  writes_only m → (∀ u, writes_only (f u)) → writes_only (m ≫= f).
Proof.
  intros Hm Hf w. destruct (Hm w) as [out1 Hout1].
  destruct (Hf tt (mkWorld (stdin w) (stdout w ++ out1) (ratings w)))
    as [out2 Hout2].
  exists (out1 ++ out2). unfold mbind, io_bind. rewrite Hout1, Hout2; simpl.
  by rewrite app_assoc.
Qed.

Lemma writes_only_when (c : bool) (m : io (world E T) unit) :
  writes_only m → writes_only (when c m).
Proof. destruct c; [done|]. intros _. apply writes_only_ret. Qed.

Lemma writes_only_for_each {A} (l : list A) (body : A → io (world E T) unit) :
  (∀ x, writes_only (body x)) → writes_only (for_each l body).
Proof.
  intros Hbody. induction l as [|x l IH]; simpl; [apply writes_only_ret|].
  by apply writes_only_bind.
Qed.

Lemma wp_writes_only (m : io (world E T) unit) Q w :
  writes_only m →
  (∀ out, Q (Ok tt) (mkWorld (stdin w) (stdout w ++ out) (ratings w))) →
  wp m Q w.
Proof. intros Hm HQ. unfold wp. destruct (Hm w) as [out ->]. apply HQ. Qed.

End world_rules.

#[export] Hint Resolve writes_only_ret writes_only_emit writes_only_bind
  writes_only_when writes_only_for_each : recsys.

Global Opaque wp.

(** One step of the calculus: the rule of the operation at the head of
    the program, or a case analysis on the test it branches on. *)
Ltac wp_step :=
  lazymatch goal with
  | |- after _ _ (Ok _) _ => unfold after at 1
  | |- after _ _ (Raise _) _ => unfold after at 1
  | |- wp (mbind _ _) _ _ => apply wp_bind
  | |- wp (fmap _ _) _ _ => apply wp_fmap
  | |- wp (mret _) _ _ => apply wp_ret
  | |- wp (emit _) _ _ => apply wp_emit
  | |- wp read_line _ _ => apply wp_read_line; [intros ?|intros ? ? ?]
  | |- wp (lift _) _ _ => apply wp_lift
  | |- wp get _ _ => apply wp_get
  | |- wp (modify _) _ _ => apply wp_modify
  | |- wp get_ratings _ _ => apply wp_get_ratings
  | |- wp (set_ratings _) _ _ => apply wp_set_ratings
  | |- wp (try_except _ _ _) _ _ => apply wp_try_except
  | |- wp (when _ _) _ _ =>
      first [apply wp_writes_only; [solve [auto 20 with recsys]|intros ?]
            |apply wp_when]
  | |- wp (for_each _ _) _ _ =>
      apply wp_writes_only; [solve [auto 20 with recsys]|intros ?]
  | |- wp (if ?c then _ else _) _ _ =>
      lazymatch type of c with
      | bool => destruct c eqn:?
      | _ => destruct c
      end
  end; cbn beta iota delta [ratings stdin stdout].

Ltac wp_steps := repeat wp_step.

(** ** Two runs from related states *)

Section relational.
Context {S : Type} (R : relation S).

(** Two results are related when both are values related by [P], or both
    are the same exception. *)
Definition result_rel {A} (P : relation A) : relation (result A) := λ r r',
  match r, r' with
  | Ok a, Ok a' => P a a'
  | Raise e, Raise e' => e = e'
  | _, _ => False
  end.

(** [io_rel P m m']: from states related by [R] the two programs reach
    states related by [R], with results related by [P]. *)
Definition io_rel {A} (P : relation A) : relation (io S A) :=
  (R ==> prod_relation R (result_rel P))%signature.

Lemma result_rel_eq {A} (r r' : result A) : result_rel eq r r' ↔ r = r'.
Proof. destruct r, r'; simpl; naive_solver. Qed.

Lemma io_rel_run {A} (m m' : io S A) s s' :
  io_rel eq m m' → R s s' → R (m s).1 (m' s').1 ∧ (m s).2 = (m' s').2.
Proof. intros Hm Hs. by destruct (Hm s s' Hs) as [? ?%result_rel_eq]. Qed.

Lemma io_rel_ret {A} (P : relation A) a a' : P a a' → io_rel P (mret a) (mret a').
Proof. by intros Ha s s' Hs. Qed.

Lemma io_rel_bind {A B} (P : relation A) (Q : relation B) m m' f f' :
  io_rel P m m' → (∀ a a', P a a' → io_rel Q (f a) (f' a')) →
  io_rel Q (m ≫= f) (m' ≫= f').
Proof.
  intros Hm Hf s s' Hs. unfold mbind, io_bind.
  destruct (Hm s s' Hs) as [Hs' Hr].
  destruct (m s) as [s1 [a|e]], (m' s') as [s1' [a'|e']]; simpl in *; try done.
  by apply Hf.
Qed.

Lemma io_rel_fmap {A B} (g : A → B) (m m' : io S A) :
  io_rel eq m m' → io_rel eq (g <$> m) (g <$> m').
Proof.
  intros Hm s s' Hs. unfold fmap, io_fmap.
  destruct (Hm s s' Hs) as [Hs' Hr].
  destruct (m s) as [s1 [a|e]], (m' s') as [s1' [a'|e']]; simpl in *; try done.
  by subst.
Qed.

Lemma io_rel_lift {A} (r : result A) : io_rel eq (lift r) (lift r).
Proof. intros s s' Hs. split; [done|]. by apply result_rel_eq. Qed.

Lemma io_rel_get : io_rel R get get.
Proof. by intros s s' Hs. Qed.

Lemma io_rel_modify (f f' : S → S) :
  (∀ s s', R s s' → R (f s) (f' s')) → io_rel eq (modify f) (modify f').
Proof. intros Hf s s' Hs. split; [by apply Hf|done]. Qed.

Lemma io_rel_try_except {A} (P : relation A) m m' handles h h' :
  io_rel P m m' → io_rel P h h' →
  io_rel P (try_except m handles h) (try_except m' handles h').
Proof.
  intros Hm Hh s s' Hs. unfold try_except.
  destruct (Hm s s' Hs) as [Hs' Hr].
  destruct (m s) as [s1 [a|e]], (m' s') as [s1' [a'|e']]; simpl in *; try done.
  subst e'. destruct (handles e); [by apply Hh|done].
Qed.

Lemma io_rel_when (c : bool) m m' :
  io_rel eq m m' → io_rel eq (when c m) (when c m').
Proof. intros Hm. destruct c; [done|by apply io_rel_ret]. Qed.

Lemma io_rel_for_each {A} (l : list A) body body' :
  (∀ x, x ∈ l → io_rel eq (body x) (body' x)) →
  io_rel eq (for_each l body) (for_each l body').
Proof.
  induction l as [|x l IH]; intros Hbody; simpl; [by apply io_rel_ret|].
  eapply io_rel_bind; [apply Hbody; by left|]. intros _ _ _.
  apply IH. intros y Hy. apply Hbody. by right.
Qed.

End relational.

(** Relates a program with itself by following its structure.  [prim]
    relates the primitives of the state; [related] uses the hypothesis on
    two values bound by related programs, so that the rest of the two
    programs reads the same. *)
Ltac rel_go prim related :=
  lazymatch goal with
  | |- io_rel _ _ (mbind _ _) (mbind _ _) =>
      eapply io_rel_bind;
        [rel_go prim related
        |let H := fresh "Hrel" in
         intros ? ? H; related H; rel_go prim related]
  | |- io_rel _ _ (fmap _ _) (fmap _ _) => apply io_rel_fmap; rel_go prim related
  | |- io_rel _ _ (mret _) (mret _) => by apply io_rel_ret
  | |- io_rel _ _ (lift _) (lift _) => apply io_rel_lift
  | |- io_rel _ _ get get => apply io_rel_get
  | |- io_rel _ _ (try_except _ _ _) (try_except _ _ _) =>
      apply io_rel_try_except; rel_go prim related
  | |- io_rel _ _ (when _ _) (when _ _) => apply io_rel_when; rel_go prim related
  | |- io_rel _ _ (for_each _ _) (for_each _ _) =>
      apply io_rel_for_each; intros ? ?; rel_go prim related
  | |- io_rel _ _ (if ?c then _ else _) (if ?c then _ else _) =>
      destruct c; rel_go prim related
  | |- io_rel _ _ (match ?x with _ => _ end) (match ?x with _ => _ end) =>
      destruct x; rel_go prim related
  | |- _ => prim
  end.
