(* ===== verification/Cli.v ===== *)
(** * Cli: the command-line program

    [main] of [src/main.py] asks for a kind of recommendation, a count and
    two flags, then either recommends movies to a user and offers to rate
    one, or lists the movies similar to a movie.  It reads from the
    terminal and writes to it; the only state it changes is one cell of the
    ratings frame.

    The program is modelled in the monad [io] of [Io]: the world is the
    lines still to be read, the events written so far and the ratings
    frame.  [input] at the end of the input raises [EOFError].

    Text without numbers is modelled as strings; a line that shows a float
    is an event that carries the value, since the program does not depend
    on how it is printed ([Console] gives its text).  [float()] is a
    parameter of the model, so that its theorems hold for every parser;
    [int()] is [py_int] of [Text].

    [main] refines the store [cli_store] of [Store]: a run fills one
    missing rating or leaves the ratings as they were.

    The session theorems give a whole run as an equation: the lines
    consumed, the ratings at the end and the exact list of events written.
    [main_collaborative_session] and [main_content_session] are the runs
    of the two branches ([questions] followed by [collaborative_output] or
    [content_output]); [main_rating_session] is the run that ends with a
    rating, stored whatever its value ([rating_output]); [main_refuses]
    gives the runs that end with "Invalid choice.", "User not found." or
    "Movie not found.", and [rate_step_refused] the two ways the rating
    step refuses. *)

From Stdlib Require Import ZArith Ascii.
From stdpp Require Import list strings sorting.
From S2P Require Import Prelude Text Scalar Frame Similarity Collaborative.
From S2P Require Import Content Io Store.

Local Open Scope string_scope.
Local Open Scope list_scope.

(** ** What the program writes *)

(** A line of text, the prompt of an [input], a line that shows floats
    (kept as data), or a plot. *)
Inductive event (T : Type) : Type :=
| Print (s : string)
| Prompt (s : string)
| PrintExplain (line : explain_line T)
| PrintRated (movie : string) (rating : T)
| PlotSimilarity (matrix : DataFrame T) (title : string) (labels : list string)
| PlotUserRatings (ratings : DataFrame T).
Arguments Print {T} s.
Arguments Prompt {T} s.
Arguments PrintExplain {T} line.
Arguments PrintRated {T} movie rating.
Arguments PlotSimilarity {T} matrix title labels.
Arguments PlotUserRatings {T} ratings.

(** The program runs in [io] over the [world] of these events. *)
Section terminal.
Context {T : Type}.

(** [print(s)] *)
Definition print (s : string) : io (world (event T) T) unit := emit (Print s).

(** [input(prompt)]: the prompt is written, then a line is read. *)
Definition input (prompt : string) : io (world (event T) T) string :=
  emit (Prompt prompt);; read_line.

End terminal.

(** [input(prompt).strip().lower() == 'y'] *)
Definition yes (s : string) : bool := bool_decide (lower (strip s) = "y").

(** The truth value of [explain_text]: a list that is not empty. *)
Definition truthy {A} (l : option (list A)) : bool :=
  match l with Some (_ :: _) => true | _ => false end.

(** [f"{title}: shares genres {', '.join(overlap)} with {movie_title}"] *)
Definition render_overlap (movie_title : string) (line : overlap_line) : string :=
  line.1 +:+ ": shares genres " +:+ join ", " line.2 +:+ " with " +:+ movie_title.

(** ** The program *)

Section program.
Context {T : Type} `{Scalar T}.
Context (parse_float : string → result T).
Context (movies_df : DataFrame string) (genre_matrix : DataFrame Z)
  (all_genres : list string).

(** The rating step at the end of the first branch: the body of
    [if rate_new:]. *)
Definition rate_step (user : string) : io (world (event T) T) unit :=
  ratings_df ← get_ratings;
  unrated ← lift (isna_index ratings_df user);
  print ("Unrated movies: " +:+ join ", " unrated);;
  movie ← strip <$> input "Choose a movie to rate: ";
  if decide (movie ∉ unrated) then print "Movie not in unrated list."
  else
    try_except
      (text ← input "Your rating (1-5): ";
       rating ← lift (parse_float (strip text));
       set_ratings (df_loc_set nan ratings_df movie user rating);;
       emit (PrintRated movie rating))
      (λ _, true)
      (print "Invalid rating.").

(** The branch [if choice == "1":]. *)
Definition collaborative_branch (top_n : Z) (visualize explain : bool) : io (world (event T) T) unit :=
  ratings_df ← get_ratings;
  print (nl +:+ "Available users: " +:+ join ", " (columns ratings_df));;
  user ← strip <$> input "Enter user name: ";
  if decide (user ∉ columns ratings_df) then print "User not found."
  else
    '(recs, explain_text, user_sim_matrix) ←
      lift (Collaborative.Main.recommend_collaborative user ratings_df top_n explain);
    print (nl +:+ "Recommendations for " +:+ user +:+ ":");;
    for_each recs (λ movie, print ("- " +:+ movie));;
    when (explain && truthy explain_text)
      (print (nl +:+ "Why these movies?");;
       for_each (default [] explain_text) (λ line, emit (PrintExplain line)));;
    when visualize
      (emit (PlotSimilarity user_sim_matrix "User-User Similarity" (columns ratings_df));;
       emit (PlotUserRatings ratings_df));;
    rate_new ← yes <$> input (nl +:+ "Would you like to rate a new movie? (y/n): ");
    when rate_new (rate_step user).

(** The branch [elif choice == "2":]. *)
Definition content_branch (top_n : Z) (visualize explain : bool) : io (world (event T) T) unit :=
  print (nl +:+ "Available movies: " +:+ join ", " (index movies_df));;
  movie ← strip <$> input "Type a movie you like: ";
  if decide (movie ∉ index movies_df) then print "Movie not found."
  else
    '(recs, explain_text, genre_sim_matrix) ←
      lift (Content.Main.recommend_content_based (T:=T) all_genres movie
              genre_matrix top_n explain);
    print (nl +:+ "Movies similar to '" +:+ movie +:+ "':");;
    for_each recs (λ m,
      genres ← lift (df_loc movies_df m "genre");
      print ("- " +:+ m +:+ " (" +:+ genres +:+ ")"));;
    when (explain && truthy explain_text)
      (print (nl +:+ "Why these movies?");;
       for_each (default [] explain_text) (λ line, print (render_overlap movie line)));;
    match genre_sim_matrix with
    | Some matrix =>
        when visualize
          (emit (PlotSimilarity matrix "Movie-Genre Similarity" (columns matrix)))
    | None => mret tt
    end.

(** [top_n]: the count typed, 3 for an empty answer or one that is not an
    integer. *)
Definition read_top_n : io (world (event T) T) Z :=
  try_except
    (s ← strip <$> input "How many recommendations would you like? [Default 3]: ";
     lift (py_int (if decide (s = "") then "3" else s)))
    (λ e, bool_decide (e = ValueError))
    (mret 3%Z).

(** The count [read_top_n] makes of a line. *)
Definition top_n_of (line : string) : Z :=
  match py_int (if decide (strip line = "") then "3" else strip line) with
  | Ok n => n
  | Raise _ => 3
  end.

(** [main()] *)
Definition main : io (world (event T) T) unit :=
  print "Welcome to the Advanced Movie Recommendation System!";;
  print "Choose recommendation type:";;
  print "1. Collaborative Filtering (by user)";;
  print "2. Content-Based Filtering (by movie genres)";;
  choice ← strip <$> input "Enter 1 or 2: ";
  top_n ← read_top_n;
  visualize ← yes <$> input "Visualize similarity matrix? (y/n): ";
  explain ← yes <$> input "Explain recommendations? (y/n): ";
  if decide (choice = "1") then collaborative_branch top_n visualize explain
  else if decide (choice = "2") then content_branch top_n visualize explain
  else print "Invalid choice.".

(** What [main] writes before it branches: the menu and the four
    questions. *)
Definition questions : list (event T) :=
  [Print "Welcome to the Advanced Movie Recommendation System!";
   Print "Choose recommendation type:";
   Print "1. Collaborative Filtering (by user)";
   Print "2. Content-Based Filtering (by movie genres)";
   Prompt "Enter 1 or 2: ";
   Prompt "How many recommendations would you like? [Default 3]: ";
   Prompt "Visualize similarity matrix? (y/n): ";
   Prompt "Explain recommendations? (y/n): "].

(** What the first branch writes for a user of the ratings, up to the
    question about a new rating. *)
Definition collaborative_output (ratings_df : DataFrame T) (user : string)
    (visualize explain : bool)
    (r : list string * option (list (explain_line T)) * DataFrame T)
  : list (event T) :=
  let '(recs, explain_text, user_sim_matrix) := r in
  [Print (nl +:+ "Available users: " +:+ join ", " (columns ratings_df));
   Prompt "Enter user name: ";
   Print (nl +:+ "Recommendations for " +:+ user +:+ ":")] ++
  ((λ movie, Print ("- " +:+ movie)) <$> recs) ++
  (if explain && truthy explain_text
   then Print (nl +:+ "Why these movies?") :: (PrintExplain <$> default [] explain_text)
   else []) ++
  (if visualize
   then [PlotSimilarity user_sim_matrix "User-User Similarity" (columns ratings_df);
         PlotUserRatings ratings_df]
   else []) ++
  [Prompt (nl +:+ "Would you like to rate a new movie? (y/n): ")].

(** What the rating step writes when it stores a rating. *)
Definition rating_output (unrated : list string) (movie : string) (rating : T)
  : list (event T) :=
  [Print ("Unrated movies: " +:+ join ", " unrated);
   Prompt "Choose a movie to rate: ";
   Prompt "Your rating (1-5): ";
   PrintRated movie rating].

(** The genres of a movie as the program prints them. *)
Definition genres_text (movie : string) : string :=
  match df_loc movies_df movie "genre" with
  | Ok genres => genres
  | Raise _ => ""
  end.

(** What the second branch writes for a movie of the catalogue. *)
Definition content_output (movie : string) (visualize explain : bool)
    (r : list string * option (list overlap_line) * option (DataFrame T))
  : list (event T) :=
  let '(recs, explain_text, genre_sim_matrix) := r in
  [Print (nl +:+ "Available movies: " +:+ join ", " (index movies_df));
   Prompt "Type a movie you like: ";
   Print (nl +:+ "Movies similar to '" +:+ movie +:+ "':")] ++
  ((λ m, Print ("- " +:+ m +:+ " (" +:+ genres_text m +:+ ")")) <$> recs) ++
  (if explain && truthy explain_text
   then Print (nl +:+ "Why these movies?") ::
        ((λ line, Print (render_overlap movie line)) <$> default [] explain_text)
   else []) ++
  match genre_sim_matrix with
  | Some matrix =>
      if visualize
      then [PlotSimilarity matrix "Movie-Genre Similarity" (columns matrix)]
      else []
  | None => []
  end.

End program.

(** ** What a run guarantees *)

Section guarantees.
Context {T : Type} `{Scalar T}.
Implicit Types (w : world (event T) T) (df : DataFrame T).

(** [filled df df']: [df'] is [df] with one missing rating filled in. *)
Definition filled df df' : Prop :=
  ∃ user movie rating unrated,
    isna_index df user = Ok unrated ∧ movie ∈ unrated ∧
    df' = df_loc_set nan df movie user rating.

(** What a part of the program that may read [k] lines guarantees, from
    the input [i] and the ratings [df]: the only exception is [EOFError],
    raised when fewer than [k] lines were left, and the ratings are as
    they were or have one missing rating filled in. *)
Definition cli_post (k : nat) (i : list string) df {A} (r : result A) w : Prop :=
  (∀ e, r = Raise e → e = EOFError ∧ length i < k) ∧
  (ratings w = df ∨ filled df (ratings w)).

End guarantees.

(** ** Rules for the terminal *)

Section terminal_rules.
Context {T : Type}.
Implicit Types (w : world (event T) T).

Lemma wp_print (s : string) (Q : result unit → world (event T) T → Prop) w :
  Q (Ok tt) (mkWorld (stdin w) (stdout w ++ [Print s]) (ratings w)) →
  wp (print s) Q w.
Proof. apply wp_emit. Qed.

Lemma wp_input (prompt : string) (Q : result string → world (event T) T → Prop) w :
  (stdin w = [] →
     Q (Raise EOFError) (mkWorld [] (stdout w ++ [Prompt prompt]) (ratings w))) →
  (∀ line rest, stdin w = line :: rest →
     Q (Ok line) (mkWorld rest (stdout w ++ [Prompt prompt]) (ratings w))) →
  wp (input prompt) Q w.
Proof.
  intros Hnil Hcons. unfold input. apply wp_bind, wp_emit. unfold after.
  apply wp_read_line; simpl; [intros Hw; rewrite Hw; by apply Hnil|done].
Qed.

Lemma writes_only_print (s : string) : writes_only (print (T:=T) s).
Proof. apply writes_only_emit. Qed.

End terminal_rules.

#[export] Hint Resolve writes_only_print : recsys.

(** One step of the calculus on a program of the terminal. *)
Ltac cli_step :=
  first
    [ apply wp_print; cbn beta iota delta [ratings stdin stdout]
    | apply wp_input; [intros ?|intros ? ? ?];
      cbn beta iota delta [ratings stdin stdout] in *
    | wp_step ].

Ltac cli_steps := repeat cli_step.

(** One step that keeps the output exact: a loop of prints writes one line
    per item, a conditional is decided. *)
Ltac run_step :=
  lazymatch goal with
  | |- wp (for_each ?l _) _ _ =>
      unfold print;
      lazymatch goal with
      | |- wp (for_each l (λ x, emit (@?f x))) _ _ =>
          apply (wp_for_each_emit l (λ x, emit (f x)) f _ _ (λ _ _, eq_refl))
      end; cbn beta iota delta [ratings stdin stdout]
  | |- wp (when ?c _) _ _ => apply wp_when; destruct c eqn:?
  | _ => cli_step
  end.

Ltac run_steps := repeat run_step.

(** Identifies the lines read with the lines of the input. *)
Ltac stdin_eq :=
  repeat match goal with
  | H1 : stdin ?w = _, H2 : stdin ?w = _ |- _ => rewrite H1 in H2
  end; simplify_eq/=.

(** Counts the lines read so far. *)
Ltac stdin_lia :=
  subst;
  repeat match goal with H : stdin _ = _ |- _ => rewrite H in *; clear H end;
  simplify_eq/=; lia.

(** ** The program raises nothing but [EOFError], and fills in at most one
    rating *)

Section cli_proofs.
Context {T : Type} `{Scalar T}.
Context (parse_float : string → result T).
Context (movies_df : DataFrame string) (genre_matrix : DataFrame Z)
  (all_genres : list string).
Implicit Types (w : world (event T) T) (df : DataFrame T).

Lemma cli_post_Ok k i df {A} (a : A) w : ratings w = df → cli_post k i df (Ok a) w.
Proof. intros Hw. split; [by intros e [=]|by left]. Qed.

Lemma cli_post_EOFError k i df {A} w :
  ratings w = df → length i < k → cli_post k i df (Raise EOFError : result A) w.
Proof. intros Hw Hi. split; [by intros e [= <-]|by left]. Qed.

Lemma cli_post_weaken k k' i i' df {A} (r : result A) w :
  cli_post k i df r w → (length i < k → length i' < k') → cli_post k' i' df r w.
Proof. intros [He Hr] Hk. split; [|done]. intros e [-> Hi]%He. auto. Qed.

(** Closes the goals of a run that ended without a change. *)
Ltac cli_done :=
  solve [ apply cli_post_Ok; done
        | apply cli_post_EOFError; [done|stdin_lia] ].

Lemma rate_step_spec user i df w :
  stdin w = i → ratings w = df → user ∈ columns df →
  wp (rate_step parse_float user) (cli_post 1 i df) w.
Proof.
  intros Hi <- [unrated Hun]%isna_index_is_Ok. unfold rate_step.
  cli_steps. rewrite Hun. cli_steps; try cli_done.
  match goal with |- context [parse_float ?s] =>
    destruct (parse_float s) as [rating|] end; cli_steps; [|cli_done].
  split; [by intros e [=]|]. right. eexists user, _, rating, unrated.
  split_and!; [done|by apply dec_stable|done].
Qed.

Lemma read_top_n_spec (Q : result Z → world (event T) T → Prop) w :
  (stdin w = [] → ∀ w', ratings w' = ratings w → Q (Raise EOFError) w') →
  (∀ line rest n w', stdin w = line :: rest → stdin w' = rest →
     ratings w' = ratings w → Q (Ok n) w') →
  wp read_top_n Q w.
Proof.
  intros Hnil Hcons. unfold read_top_n. cli_steps; [by apply Hnil|].
  match goal with |- context [py_int ?s] =>
    destruct (py_int s) as [n|e] eqn:E end; [|apply py_int_Raise in E as ->];
    cli_steps; rewrite ?bool_decide_eq_true_2 by done; cli_steps;
    by eapply Hcons.
Qed.

Lemma read_top_n_run line rest out df (Q : result Z → world (event T) T → Prop) :
  Q (Ok (top_n_of line))
    (mkWorld rest
       (out ++ [Prompt "How many recommendations would you like? [Default 3]: "]) df) →
  wp read_top_n Q (mkWorld (line :: rest) out df).
Proof.
  intros HQ. unfold read_top_n, top_n_of in *. cli_steps; stdin_eq.
  destruct (py_int _) as [n|e] eqn:E; [by cli_steps|].
  apply py_int_Raise in E as ->. by cli_steps.
Qed.

(** The first branch up to the question about a new rating: what is
    written, and that the rest of the run is the rating step, when the
    answer is yes. *)
Lemma main_collaborative_run c n v e u a rest out df r
    (Q : result unit → world (event T) T → Prop) :
  strip c = "1" → strip u ∈ columns df →
  Main.recommend_collaborative (strip u) df (top_n_of n) (yes e) = Ok r →
  wp (when (yes a) (rate_step parse_float (strip u))) Q
     (mkWorld rest
        (out ++ questions ++ collaborative_output df (strip u) (yes v) (yes e) r) df) →
  wp (main parse_float movies_df genre_matrix all_genres) Q
     (mkWorld (c :: n :: v :: e :: u :: a :: rest) out df).
Proof.
  intros Hc Hu Hrec HQ. unfold main.
  cli_steps; stdin_eq. apply read_top_n_run. cli_steps; stdin_eq.
  unfold collaborative_branch. run_steps; stdin_eq; [done|].
  rewrite Hrec. destruct r as [[recs ex] sim]. run_steps; stdin_eq; try congruence.
  all: revert HQ; unfold questions, collaborative_output;
    repeat match goal with
           | Hb : _ = true |- _ => rewrite Hb
           | Hb : _ = false |- _ => rewrite Hb
           end;
    simpl; by rewrite <- ?app_assoc.
Qed.

(** The rating step for a movie of the list and a text that parses: the
    number is stored, whatever its value. *)
Lemma rate_step_run user movie text rest out df unrated rating :
  isna_index df user = Ok unrated → strip movie ∈ unrated →
  parse_float (strip text) = Ok rating →
  rate_step parse_float user (mkWorld (movie :: text :: rest) out df) =
    (mkWorld rest (out ++ rating_output unrated (strip movie) rating)
       (df_loc_set nan df (strip movie) user rating), Ok tt).
Proof.
  intros Hun Hm Hp. apply wp_result. unfold rate_step.
  cli_steps. rewrite Hun. cli_steps; stdin_eq; [done|].
  rewrite Hp. cli_steps. unfold rating_output. simpl. by rewrite <- !app_assoc.
Qed.

(** The rating step refuses a movie that is not in the list, before it
    asks for the rating, and a text [float()] does not read: the ratings
    stay as they were. *)
Lemma rate_step_refused user movie text rest out df unrated :
  isna_index df user = Ok unrated →
  (strip movie ∉ unrated →
   rate_step parse_float user (mkWorld (movie :: rest) out df) =
     (mkWorld rest
        (out ++ [Print ("Unrated movies: " +:+ join ", " unrated);
                 Prompt "Choose a movie to rate: ";
                 Print "Movie not in unrated list."]) df, Ok tt)) ∧
  (strip movie ∈ unrated → ¬ is_Ok (parse_float (strip text)) →
   rate_step parse_float user (mkWorld (movie :: text :: rest) out df) =
     (mkWorld rest
        (out ++ [Print ("Unrated movies: " +:+ join ", " unrated);
                 Prompt "Choose a movie to rate: ";
                 Prompt "Your rating (1-5): ";
                 Print "Invalid rating."]) df, Ok tt)).
Proof.
  intros Hun. split; [intros Hm|intros Hm Hp]; apply wp_result; unfold rate_step;
    cli_steps; rewrite Hun; cli_steps; stdin_eq; try done.
  - simpl. by rewrite <- !app_assoc.
  - destruct (parse_float _) as [x|err]; [by destruct Hp; eexists|].
    cli_steps. simpl. by rewrite <- !app_assoc.
Qed.

(** C21: a session of the first branch, written out.  The operator chooses 1,
    answers the three questions, names a user of the ratings and declines
    to rate: the program writes the menu, the questions, the movies
    [recommend_collaborative] returns for that user, in its order, the
    explanation and the plots when asked for, and ends with the ratings as
    they were. *)
Theorem main_collaborative_session c n v e u a rest out df r :
  strip c = "1" → strip u ∈ columns df →
  Main.recommend_collaborative (strip u) df (top_n_of n) (yes e) = Ok r →
  yes a = false →
  main parse_float movies_df genre_matrix all_genres
       (mkWorld (c :: n :: v :: e :: u :: a :: rest) out df) =
    (mkWorld rest
       (out ++ questions ++ collaborative_output df (strip u) (yes v) (yes e) r) df,
     Ok tt).
Proof.
  intros Hc Hu Hrec Ha. apply wp_result. eapply main_collaborative_run; [done..|].
  rewrite Ha. by apply wp_when.
Qed.

(** C23: a session that ends with a rating, written out.  After the
    recommendations the operator answers yes, names a movie the user has
    not rated and types a text [float()] reads: the number is stored in
    the cell of the movie and the user whatever its value, no test of the
    range 1 to 5 is made, and the program reports it. *)
Theorem main_rating_session c n v e u a m t rest out df r unrated rating :
  strip c = "1" → strip u ∈ columns df →
  Main.recommend_collaborative (strip u) df (top_n_of n) (yes e) = Ok r →
  yes a = true →
  isna_index df (strip u) = Ok unrated → strip m ∈ unrated →
  parse_float (strip t) = Ok rating →
  main parse_float movies_df genre_matrix all_genres
       (mkWorld (c :: n :: v :: e :: u :: a :: m :: t :: rest) out df) =
    (mkWorld rest
       (out ++ questions ++ collaborative_output df (strip u) (yes v) (yes e) r ++
        rating_output unrated (strip m) rating)
       (df_loc_set nan df (strip m) (strip u) rating),
     Ok tt).
Proof.
  intros Hc Hu Hrec Ha Hun Hm Hp.
  apply wp_result. eapply main_collaborative_run; [done..|].
  rewrite Ha. apply wp_when, wp_run.
  rewrite (rate_step_run _ _ _ _ _ _ _ _ Hun Hm Hp). simpl. by rewrite <- !app_assoc.
Qed.

(** The three ways a run ends before any recommendation: a choice other
    than 1 and 2, a user that is not a column of the ratings, a movie that
    is not in the catalogue.  One line says so and the ratings stay as they
    were. *)
Theorem main_refuses c n v e x rest out df :
  let run := main parse_float movies_df genre_matrix all_genres in
  (strip c ≠ "1" → strip c ≠ "2" →
   run (mkWorld (c :: n :: v :: e :: rest) out df) =
     (mkWorld rest (out ++ questions ++ [Print "Invalid choice."]) df, Ok tt)) ∧
  (strip c = "1" → strip x ∉ columns df →
   run (mkWorld (c :: n :: v :: e :: x :: rest) out df) =
     (mkWorld rest
        (out ++ questions ++
         [Print (nl +:+ "Available users: " +:+ join ", " (columns df));
          Prompt "Enter user name: "; Print "User not found."]) df, Ok tt)) ∧
  (strip c = "2" → strip x ∉ index movies_df →
   run (mkWorld (c :: n :: v :: e :: x :: rest) out df) =
     (mkWorld rest
        (out ++ questions ++
         [Print (nl +:+ "Available movies: " +:+ join ", " (index movies_df));
          Prompt "Type a movie you like: "; Print "Movie not found."]) df, Ok tt)).
Proof.
  intros run. split_and!; intros Hc Hx; apply wp_result; unfold run, main;
    cli_steps; stdin_eq; apply read_top_n_run; cli_steps; stdin_eq;
    try congruence; unfold collaborative_branch, content_branch;
    cli_steps; stdin_eq; try done;
    unfold questions; simpl; by rewrite <- ?app_assoc.
Qed.

Section consistent.
Hypothesis Hmovies : df_wf movies_df.
Hypothesis Hgenre : "genre" ∈ columns movies_df.
Hypothesis Hmatrix : df_wf genre_matrix.
Hypothesis Hindex : index genre_matrix = index movies_df.
Hypothesis Hgenres : all_genres ⊆ columns genre_matrix.

Lemma collaborative_branch_spec top_n visualize explain i df w :
  stdin w = i → ratings w = df → df_wf df →
  wp (collaborative_branch parse_float top_n visualize explain) (cli_post 3 i df) w.
Proof.
  intros Hi <- Hwf. unfold collaborative_branch. cli_steps; try cli_done.
  match goal with Hu : ¬ (?u ∉ _) |- _ => apply dec_stable in Hu;
    destruct (recommend_collaborative_is_Ok u (ratings w) top_n explain Hwf Hu)
      as [[[recs ex] sim] ->] end.
  cli_steps; try cli_done. destruct (yes _); [|cli_done].
  eapply wp_mono; [by apply rate_step_spec|]. intros r w' Hr.
  eapply cli_post_weaken; [done|cbn; stdin_lia].
Qed.

Lemma content_branch_spec top_n visualize explain i df w :
  stdin w = i → ratings w = df →
  wp (content_branch (T:=T) movies_df genre_matrix all_genres top_n visualize explain)
     (cli_post 1 i df) w.
Proof.
  intros Hi <-. unfold content_branch. cli_steps; try cli_done.
  match goal with Hm : ¬ (?m ∉ _) |- _ => apply dec_stable in Hm;
    destruct (recommend_content_based_is_Ok (T:=T) all_genres m genre_matrix top_n
                explain Hmatrix (λ _, Hgenres)) as [[[recs ex] sim] Hrec] end.
  rewrite Hrec. cli_steps.
  apply (wp_for_each (λ w', ratings w' = ratings w)); [done| |intros w1 Hw1].
  - intros x w1 Hx Hw1. cli_steps.
    destruct (df_loc_is_Ok movies_df x "genre") as [g ->]; [done| |done|by cli_steps].
    rewrite <- Hindex. by eapply recommend_content_based_in_index.
  - cli_steps. destruct sim; cli_steps; cli_done.
Qed.

Lemma main_spec i df w :
  stdin w = i → ratings w = df → df_wf df →
  wp (main parse_float movies_df genre_matrix all_genres) (cli_post 7 i df) w.
Proof.
  intros Hi <- Hwf. unfold main. cli_steps; try cli_done.
  apply read_top_n_spec; [intros; cli_done|]. intros line1 rest1 top_n w1 ? ? Hw1.
  cli_steps; try cli_done.
  - eapply wp_mono; [by apply collaborative_branch_spec|]. intros r w' Hr.
    eapply cli_post_weaken; [done|cbn; stdin_lia].
  - eapply wp_mono; [by apply content_branch_spec|]. intros r w' Hr.
    eapply cli_post_weaken; [done|cbn; stdin_lia].
Qed.

(** C22: a session of the second branch, written out.  The operator chooses 2,
    answers the three questions and names a movie of the catalogue: the
    program writes the menu, the questions, the movies
    [recommend_content_based] returns, in its order, each with its genres,
    the explanation and the plot when asked for, and ends with the ratings
    as they were. *)
Theorem main_content_session c n v e m rest out df r :
  strip c = "2" → strip m ∈ index movies_df →
  Main.recommend_content_based (T:=T) all_genres (strip m) genre_matrix
    (top_n_of n) (yes e) = Ok r →
  main parse_float movies_df genre_matrix all_genres
       (mkWorld (c :: n :: v :: e :: m :: rest) out df) =
    (mkWorld rest
       (out ++ questions ++
        content_output movies_df (strip m) (yes v) (yes e) r) df,
     Ok tt).
Proof.
  intros Hc Hm Hrec.
  apply wp_result. unfold main.
  cli_steps; stdin_eq. apply read_top_n_run. cli_steps; stdin_eq; [congruence|].
  unfold content_branch. run_steps; stdin_eq.
  rewrite Hrec. destruct r as [[recs ex] sim]. run_steps.
  apply (wp_for_each_emit recs _
           (λ m, Print ("- " +:+ m +:+ " (" +:+ genres_text movies_df m +:+ ")"))).
  { intros x Hx. unfold genres_text.
    destruct (df_loc_is_Ok movies_df x "genre") as [g ->]; [done| |done..].
    rewrite <- Hindex. by eapply recommend_content_based_in_index. }
  run_steps; destruct sim; run_steps.
  all: unfold questions, content_output;
    repeat match goal with
           | Hb : _ = true |- _ => rewrite Hb
           | Hb : _ = false |- _ => rewrite Hb
           end;
    simpl; by rewrite <- ?app_assoc, ?app_nil_r.
Qed.

(** C6: the program raises nothing but [EOFError].  On well-formed data
    that describe the same movies, whatever is typed, no lookup of a user,
    a movie or a genre fails: the tests of [main] protect every call. *)
Theorem main_only_raises_EOFError w e :
  df_wf (ratings w) →
  (main parse_float movies_df genre_matrix all_genres w).2 = Raise e →
  e = EOFError.
Proof.
  intros Hwf Hr.
  destruct (proj1 (wp_run _ _ _) (main_spec _ _ w eq_refl eq_refl Hwf)) as [He _].
  by destruct (He e Hr).
Qed.

(** C20: with seven lines of input the program ends normally.  It reads
    at most eight lines, and the end of the input while it reads the
    eighth, the rating, is caught. *)
Theorem main_returns w :
  df_wf (ratings w) → (7 ≤ length (stdin w))%nat →
  (main parse_float movies_df genre_matrix all_genres w).2 = Ok tt.
Proof.
  intros Hwf Hlen.
  destruct (proj1 (wp_run _ _ _) (main_spec _ _ w eq_refl eq_refl Hwf)) as [He _].
  destruct (_.2) as [[]|e]; [done|]. destruct (He e eq_refl). lia.
Qed.

(** C15: the command-line program refines the store that only fills in
    missing ratings.  A run leaves the ratings as they were or is one step
    of [cli_store]: a cell that held NaN is set, and no rating is ever
    replaced. *)
Theorem main_fills_one_missing_rating w :
  df_wf (ratings w) →
  stutter_or cli_store (ratings w)
    (ratings (main parse_float movies_df genre_matrix all_genres w).1).
Proof.
  intros Hwf.
  destruct (proj1 (wp_run _ _ _) (main_spec _ _ w eq_refl eq_refl Hwf))
    as [_ [Heq|(user & movie & rating & unrated & Hun & Hm & Hdf)]]; [by left|].
  right. apply (isna_index_elem_of _ _ _ _ Hwf Hun) in Hm as (x & Hx & Hnan).
  rewrite Hdf. by eapply rate_cell.
Qed.

End consistent.

(** An empty answer, or one that is not an integer, gives the count
    3. *)
Theorem read_top_n_default line rest w :
  stdin w = line :: rest →
  strip line = "" ∨ py_int (strip line) = Raise ValueError →
  (read_top_n w).2 = Ok 3%Z.
Proof.
  intros Hin Hline. apply (wp_run read_top_n (λ r _, r = Ok 3%Z)).
  unfold read_top_n. cli_steps; stdin_eq.
  destruct (decide _) as [_|Hne]; [done|].
  destruct Hline as [?| ->]; [done|].
  rewrite bool_decide_eq_true_2 by done. by cli_steps.
Qed.

End cli_proofs.
