(* ===== verification/Gui.v ===== *)
(** * Gui: the form

    [MovieRecommenderGUI] of [src/Movie_recommender_GUI.py] is a window with
    two radio buttons, two read-only lists (the users and the movies), an
    entry for the number of recommendations, a text box for the result and
    five buttons.  The button "Rate a New Movie" opens a dialog with a
    read-only list of the movies the selected user has not rated, an entry
    and a button; several dialogs can be open at once.

    The state [gui] is the fields of the object, the text of the widgets,
    the open dialogs and what has been shown to the operator (message
    boxes and plots).  Each callback is a program in the monad [io] of
    [Io] over that state; an exception raised by a callback ends the
    callback and leaves the state as it was at that point, as Tk does.
    What the operator does is an [action]; [enabled] says which actions the
    widgets allow (a read-only list only offers its values), and [step] is
    the transition relation of the form.

    [IntVar.get] and [float] are parameters of the model.

    The form refines the store [form_store] of [Store] with stuttering,
    and from every state of the invariant a missing rating can be stored
    ([rate_actions]).  A dialog that stays open keeps its user and its list
    of movies: [dialog_submit_replaces] shows that its button then sets the
    cell whatever was stored in it meanwhile.

    The dialog and the recommender are composed through the event loop:
    with the collaborative filter a click on "Get Recommendations" never
    fails once the count is read and lists only movies the selected user
    has not rated ([recommend_click_only_unrated]); after the operator
    rated a movie, the next click does not list it
    ([rated_movie_not_listed]).  The click changes nothing but the result
    box ([recommend_click_box_only]), and a text the dialog refuses leaves
    everything but the message shown as it was
    ([submit_rating_refused]). *)

From Stdlib Require Import ZArith.
From stdpp Require Import list strings pretty relations.
From S2P Require Import Prelude Scalar Frame Similarity Collaborative.
From S2P Require Import Content Rating Store Io.

Local Open Scope string_scope.
Local Open Scope list_scope.

(** The dialog of [rate_new_movie]: the user it was opened for, the movies
    it offers, the movie selected and the text of the entry. *)
Record dialog : Type := mkDialog {
  dlg_user : string;
  dlg_movies : list string;
  dlg_movie_var : string;
  dlg_rating_var : string
}.

(** What the form shows besides its own widgets. *)
Inductive display (T : Type) : Type :=
| ShowInfo (title message : string)
| ShowError (title message : string)
| ShowRated (user movie : string) (rating : T)
| Heatmap (matrix : DataFrame T) (title : string) (labels : list string)
| BarChart (ratings : DataFrame T).
Arguments ShowInfo {T} title message.
Arguments ShowError {T} title message.
Arguments ShowRated {T} user movie rating.
Arguments Heatmap {T} matrix title labels.
Arguments BarChart {T} ratings.

Record gui (T : Type) : Type := mkGui {
  movies_df : DataFrame string;
  ratings_df : DataFrame T;
  genre_matrix : DataFrame Z;
  filter_type : string;
  user_values : list string;   (* the values of the list of users *)
  user_var : string;
  movie_values : list string;   (* the values of the list of movies *)
  movie_var : string;
  top_n_var : string;   (* the text of the entry bound to the IntVar *)
  result_box : string;
  dialogs : list dialog;   (* the open dialogs *)
  displayed : list (display T)   (* message boxes and plots, oldest first *)
}.
Arguments mkGui {T} _ _ _ _ _ _ _ _ _ _ _ _.
Arguments movies_df {T} _.
Arguments ratings_df {T} _.
Arguments genre_matrix {T} _.
Arguments filter_type {T} _.
Arguments user_values {T} _.
Arguments user_var {T} _.
Arguments movie_values {T} _.
Arguments movie_var {T} _.
Arguments top_n_var {T} _.
Arguments result_box {T} _.
Arguments dialogs {T} _.
Arguments displayed {T} _.

(** What the operator does. *)
Inductive action : Type :=
| SelectFilter (value : string)
| SelectUser (user : string)
| SelectMovie (movie : string)
| TypeTopN (text : string)
| RecommendClick
| UserUserMatrixClick
| GenreMatrixClick
| UserRatingDistClick
| RateNewMovieClick
| DialogSelectMovie (d : nat) (movie : string)
| DialogTypeRating (d : nat) (text : string)
| DialogSubmit (d : nat).

Section setters.
Context {T : Type}.
Implicit Types (g : gui T).

Definition set_ratings_df (v : DataFrame T) g : gui T :=
  mkGui (movies_df g) v (genre_matrix g) (filter_type g) (user_values g)
    (user_var g) (movie_values g) (movie_var g) (top_n_var g) (result_box g)
    (dialogs g) (displayed g).

Definition set_filter_type (v : string) g : gui T :=
  mkGui (movies_df g) (ratings_df g) (genre_matrix g) v (user_values g)
    (user_var g) (movie_values g) (movie_var g) (top_n_var g) (result_box g)
    (dialogs g) (displayed g).

Definition set_user_var (v : string) g : gui T :=
  mkGui (movies_df g) (ratings_df g) (genre_matrix g) (filter_type g)
    (user_values g) v (movie_values g) (movie_var g) (top_n_var g)
    (result_box g) (dialogs g) (displayed g).

Definition set_movie_var (v : string) g : gui T :=
  mkGui (movies_df g) (ratings_df g) (genre_matrix g) (filter_type g)
    (user_values g) (user_var g) (movie_values g) v (top_n_var g)
    (result_box g) (dialogs g) (displayed g).

Definition set_top_n_var (v : string) g : gui T :=
  mkGui (movies_df g) (ratings_df g) (genre_matrix g) (filter_type g)
    (user_values g) (user_var g) (movie_values g) (movie_var g) v
    (result_box g) (dialogs g) (displayed g).

Definition set_result_box (v : string) g : gui T :=
  mkGui (movies_df g) (ratings_df g) (genre_matrix g) (filter_type g)
    (user_values g) (user_var g) (movie_values g) (movie_var g) (top_n_var
    g) v (dialogs g) (displayed g).

Definition set_dialogs (v : list dialog) g : gui T :=
  mkGui (movies_df g) (ratings_df g) (genre_matrix g) (filter_type g)
    (user_values g) (user_var g) (movie_values g) (movie_var g) (top_n_var
    g) (result_box g) v (displayed g).

Definition set_displayed (v : list (display T)) g : gui T :=
  mkGui (movies_df g) (ratings_df g) (genre_matrix g) (filter_type g)
    (user_values g) (user_var g) (movie_values g) (movie_var g) (top_n_var
    g) (result_box g) (dialogs g) v.

(** [self.result_box.insert(tk.END, s)] *)
Definition insert (s : string) : io (gui T) unit :=
  modify (λ g, set_result_box (result_box g +:+ s) g).

(** A message box or a plot is shown. *)
Definition show (d : display T) : io (gui T) unit :=
  modify (λ g, set_displayed (displayed g ++ [d]) g).

(** [enumerate(l, 1)] *)
Definition enumerate {A} (l : list A) : list (nat * A) :=
  zip (seq 1 (length l)) l.

End setters.

(** ** The callbacks *)

Module Form.
Section callbacks.
Context {T : Type} `{Scalar T}.
Context (getint : string → result Z) (parse_float : string → result T).
Implicit Types (g : gui T).

(** [__init__]: the state of the form when it opens.  The first user and the
    first movie are selected. *)
Definition init (movies_df : DataFrame string) (ratings_df : DataFrame T)
    (genre_matrix : DataFrame Z) : result (gui T) :=
  user ← match columns ratings_df with u :: _ => Ok u | [] => Raise IndexError end;
  movie ← match index movies_df with m :: _ => Ok m | [] => Raise IndexError end;
  Ok (mkGui movies_df ratings_df genre_matrix "Collaborative"
        (columns ratings_df) user (index movies_df) movie "3"
        "Recommendations will appear here." [] []).

(** [recommend_click] *)
Definition recommend_click : io (gui T) unit :=
  modify (set_result_box "");;
  g ← get;
  top_n ← lift (getint (top_n_var g));
  if decide (filter_type g = "Collaborative") then
    let user := user_var g in
    recs ← lift (Collaborative.GUI.recommend_collaborative (ratings_df g) user top_n);
    insert ("Top recommendations for " +:+ user +:+ ":" +:+ nl);;
    for_each (enumerate recs) (λ '(i, movie),
      insert (pretty i +:+ ". " +:+ movie +:+ nl))
  else
    let movie := movie_var g in
    recs ← lift (Content.GUI.recommend_content_based (T:=T) (genre_matrix g) movie top_n);
    insert ("Movies similar to '" +:+ movie +:+ "':" +:+ nl);;
    for_each (enumerate recs) (λ '(i, m),
      genres ← lift (df_loc (movies_df g) m "genre");
      insert (pretty i +:+ ". " +:+ m +:+ " (" +:+ genres +:+ ")" +:+ nl)).

(** [user_user_matrix_click] *)
Definition user_user_matrix_click : io (gui T) unit :=
  g ← get;
  let user_sim_matrix := Collaborative.Main.user_sim_matrix (ratings_df g) in
  show (Heatmap user_sim_matrix "User-User Similarity Matrix"
          (columns user_sim_matrix)).

(** [genre_matrix_click] *)
Definition genre_matrix_click : io (gui T) unit :=
  g ← get;
  let genre_sim_matrix :=
    mkDataFrame (index (genre_matrix g)) (index (genre_matrix g))
      (cosine_similarity (to_float_rows (values (genre_matrix g)))) in
  show (Heatmap genre_sim_matrix "Movie-Genre Similarity Matrix"
          (columns genre_sim_matrix)).

(** [user_rating_dist_click] *)
Definition user_rating_dist_click : io (gui T) unit :=
  g ← get;
  show (BarChart (df_T (ratings_df g))).

(** [rate_new_movie]: a message when the user has rated every movie, else
    a new dialog with the first unrated movie selected. *)
Definition rate_new_movie : io (gui T) unit :=
  g ← get;
  let user := user_var g in
  unrated_movies ← lift (Rating.GUI.rate_new_movie (ratings_df g) user);
  match unrated_movies with
  | None => show (ShowInfo "Rate Movie" "All movies have been rated by this user.")
  | Some movies =>
      modify (λ g, set_dialogs
                     (dialogs g ++ [mkDialog user movies (default "" (head movies)) ""]) g)
  end.

(** [submit_rating], the callback of the button of the dialog at position
    [d]: on success the dialog is closed. *)
Definition submit_rating (d : nat) : io (gui T) unit :=
  g ← get;
  dlg ← lift (match dialogs g !! d with Some dlg => Ok dlg | None => Raise IndexError end);
  let user := dlg_user dlg in
  let movie := dlg_movie_var dlg in
  let '(df, o) :=
    Rating.GUI.submit_rating parse_float (ratings_df g) user movie (dlg_rating_var dlg) in
  match o with
  | Success rating =>
      modify (set_ratings_df df);;
      show (ShowRated user movie rating);;
      modify (λ g, set_dialogs (delete d (dialogs g)) g)
  | InvalidRange => show (ShowError "Invalid Rating" "Rating must be between 1 and 5.")
  | NotANumber =>
      show (ShowError "Invalid Rating" "Please enter a number between 1 and 5.")
  end.

(** What an action does to the dialog at position [d]. *)
Definition update_dialog (d : nat) (f : dialog → dialog) : io (gui T) unit :=
  modify (λ g, set_dialogs (alter f d (dialogs g)) g).

(** The callback or the widget update of an action. *)
Definition handle (a : action) : io (gui T) unit :=
  match a with
  | SelectFilter v => modify (set_filter_type v)
  | SelectUser u => modify (set_user_var u)
  | SelectMovie m => modify (set_movie_var m)
  | TypeTopN text => modify (set_top_n_var text)
  | RecommendClick => recommend_click
  | UserUserMatrixClick => user_user_matrix_click
  | GenreMatrixClick => genre_matrix_click
  | UserRatingDistClick => user_rating_dist_click
  | RateNewMovieClick => rate_new_movie
  | DialogSelectMovie d m =>
      update_dialog d (λ dlg, mkDialog (dlg_user dlg) (dlg_movies dlg) m (dlg_rating_var dlg))
  | DialogTypeRating d text =>
      update_dialog d (λ dlg, mkDialog (dlg_user dlg) (dlg_movies dlg) (dlg_movie_var dlg) text)
  | DialogSubmit d => submit_rating d
  end.

(** What the widgets allow: a radio button sets one of the two values, a
    read-only list one of its values, and the widgets of a dialog exist
    while it is open. *)
Definition enabled g (a : action) : Prop :=
  match a with
  | SelectFilter v => v = "Collaborative" ∨ v = "Content"
  | SelectUser u => u ∈ user_values g
  | SelectMovie m => m ∈ movie_values g
  | DialogSelectMovie d m =>
      match dialogs g !! d with
      | Some dlg => m ∈ dlg_movies dlg
      | None => False
      end
  | DialogTypeRating d _ | DialogSubmit d => d < length (dialogs g)
  | _ => True
  end.

#[export] Instance enabled_dec g a : Decision (enabled g a).
Proof. destruct a; simpl; try apply _. destruct (dialogs g !! d); apply _. Defined.

(** One transition of the form: an action the widgets allow, and the state
    its callback leaves. *)
Definition step g (a : action) g' : Prop :=
  enabled g a ∧ (handle a g).1 = g'.

(** The states the form reaches from [g]. *)
Inductive reachable g : gui T → Prop :=
| reachable_refl : reachable g g
| reachable_step g1 a g2 : reachable g g1 → step g1 a g2 → reachable g g2.

(** The state after a sequence of actions; an action the widgets do not
    allow is skipped. *)
Definition run (actions : list action) g : gui T :=
  foldl (λ g a, if decide (enabled g a) then (handle a g).1 else g) g actions.

(** ** The invariant of the form *)

(** A dialog is for a user of the frame, offers movies of the frame and
    has one of them selected. *)
Definition dialog_ok (df : DataFrame T) (dlg : dialog) : Prop :=
  dlg_user dlg ∈ columns df ∧ dlg_movies dlg ⊆ index df ∧
  dlg_movie_var dlg ∈ dlg_movies dlg.

(** The data are well formed and describe the same movies, the lists offer
    the users and the movies of the data, and what is selected is one of
    them. *)
Definition gui_inv g : Prop :=
  df_wf (ratings_df g) ∧ df_wf (movies_df g) ∧ df_wf (genre_matrix g) ∧
  "genre" ∈ columns (movies_df g) ∧
  index (genre_matrix g) = index (movies_df g) ∧
  user_values g = columns (ratings_df g) ∧
  movie_values g = index (movies_df g) ∧
  user_var g ∈ columns (ratings_df g) ∧
  movie_var g ∈ index (movies_df g) ∧
  Forall (dialog_ok (ratings_df g)) (dialogs g).

(** [ui_only g g']: from [g] to [g'] only the result box and what is
    displayed have changed. *)
Definition ui_only g g' : Prop :=
  g' = set_displayed (displayed g') (set_result_box (result_box g') g).

(** [same_data g g']: the movies, the genres, the values of the lists and
    the labels of the ratings are the same in [g'] as in [g]. *)
Definition same_data g g' : Prop :=
  movies_df g' = movies_df g ∧ genre_matrix g' = genre_matrix g ∧
  user_values g' = user_values g ∧ movie_values g' = movie_values g ∧
  index (ratings_df g') = index (ratings_df g) ∧
  columns (ratings_df g') = columns (ratings_df g).

(** The invariant holds and the data are the same. *)
Definition kept g g' : Prop := gui_inv g' ∧ same_data g g'.

(** What a callback that only writes guarantees: nothing but the result
    box and the display has changed, and the only exception is the one of
    [IntVar.get]. *)
Definition gui_post g (r : result unit) g' : Prop :=
  ui_only g g' ∧ ∀ e, r = Raise e → getint (top_n_var g) = Raise e.

(** What every callback guarantees. *)
Definition handle_post g (r : result unit) g' : Prop :=
  kept g g' ∧ ∀ e, r = Raise e → getint (top_n_var g) = Raise e.

(** What a callback does to the ratings, as the machine of [Store] sees
    it: a rating in range is stored in a cell of the frame, or nothing. *)
Definition store_post g (r : result unit) g' : Prop :=
  stutter_or form_store (ratings_df g) (ratings_df g').

(** What the operator does to rate [movie] for [user] with the text
    [text] when [d] dialogs are open: select the user, open a dialog,
    select the movie in it, type the text and press the button. *)
Definition rate_actions (d : nat) (user movie text : string) : list action :=
  [SelectUser user; RateNewMovieClick; DialogSelectMovie d movie;
   DialogTypeRating d text; DialogSubmit d].

End callbacks.
End Form.
Export Form.

(** ** The callbacks keep the invariant *)

Section gui_proofs.
Context {T : Type} `{Scalar T}.
Context (getint : string → result Z) (parse_float : string → result T).
Implicit Types (g : gui T) (a : action) (df : DataFrame T) (dlg : dialog).

Lemma ui_only_refl g : ui_only g g.
Proof. by destruct g. Qed.

Lemma ui_only_set_result_box g g' v : ui_only g g' → ui_only g (set_result_box v g').
Proof. unfold ui_only. intros ->. by destruct g. Qed.

Lemma ui_only_set_displayed g g' v : ui_only g g' → ui_only g (set_displayed v g').
Proof. unfold ui_only. intros ->. by destruct g. Qed.

Lemma ui_only_inv g g' : ui_only g g' → gui_inv g → gui_inv g'.
Proof. unfold ui_only. intros ->. by destruct g. Qed.

Lemma wp_insert (s : string) (Q : result unit → gui T → Prop) g :
  Q (Ok tt) (set_result_box (result_box g +:+ s) g) → wp (insert s) Q g.
Proof. intros HQ. unfold insert. by apply wp_modify. Qed.

Lemma wp_show (d : display T) (Q : result unit → gui T → Prop) g :
  Q (Ok tt) (set_displayed (displayed g ++ [d]) g) → wp (show d) Q g.
Proof. intros HQ. unfold show. by apply wp_modify. Qed.

Ltac gui_simpl :=
  cbn beta iota delta
    [set_ratings_df set_filter_type set_user_var set_movie_var set_top_n_var
     set_result_box set_dialogs set_displayed
     movies_df ratings_df genre_matrix filter_type user_values user_var
     movie_values movie_var top_n_var result_box dialogs displayed] in *.

Ltac gui_step := first [apply wp_insert | apply wp_show | wp_step]; gui_simpl.
Ltac gui_steps := repeat gui_step.

#[local] Hint Resolve ui_only_refl ui_only_set_result_box ui_only_set_displayed : recsys.

Lemma elem_of_enumerate {A} (l : list A) i x : (i, x) ∈ enumerate l → x ∈ l.
Proof. apply elem_of_zip_r. Qed.

Lemma gui_post_Ok g g' : ui_only g g' → gui_post getint g (Ok tt) g'.
Proof. by split. Qed.

Lemma recommend_click_spec g :
  gui_inv g → wp (recommend_click getint) (gui_post getint g) g.
Proof.
  intros (Hr & Hm & Hgm & Hgenre & Hidx & _ & _ & Hu & _). unfold recommend_click.
  gui_steps. destruct (getint _) as [top_n|e] eqn:Htop; gui_steps;
    [| |split; [auto with recsys|by intros ? [= <-]]].
  - destruct (gui_recommend_collaborative_is_Ok (ratings_df g) (user_var g) top_n)
      as [recs ->]; [done..|]. gui_steps.
    apply (wp_for_each (ui_only g)); [auto with recsys| |apply gui_post_Ok].
    intros [i movie] g' _ Hg'. gui_steps. auto with recsys.
  - destruct (gui_recommend_content_based_is_Ok (T:=T) (genre_matrix g) (movie_var g)
                top_n Hgm) as [recs Hrecs]. rewrite Hrecs. gui_steps.
    apply (wp_for_each (ui_only g)); [auto with recsys| |apply gui_post_Ok].
    intros [i m] g' Him%elem_of_enumerate Hg'. gui_steps.
    destruct (df_loc_is_Ok (movies_df g) m "genre") as [genres ->];
      [done| |done|gui_steps; auto with recsys].
    rewrite <- Hidx. by eapply gui_recommend_content_based_in_index.
Qed.

(** In every state, whatever it raises, [recommend_click] changes nothing
    but the text of the result box. *)
Lemma recommend_click_box_only g :
  ∃ box, (recommend_click getint g).1 = set_result_box box g.
Proof.
  apply (wp_run _ (λ _ g', ∃ box, g' = set_result_box box g)).
  unfold recommend_click.
  repeat first
    [ gui_step
    | match goal with |- after _ _ ?r _ => destruct r end
    | apply (wp_for_each (λ g', ∃ box, g' = set_result_box box g));
        [by eexists|intros [i m] g' _ [box ->]|done] ].
  all: by eexists.
Qed.

Lemma show_spec (d : display T) g : wp (show d) (gui_post getint g) g.
Proof. gui_steps. apply gui_post_Ok. auto with recsys. Qed.

(** *** The invariant under the assignments *)

Lemma gui_inv_set_dialogs g v :
  gui_inv g → Forall (dialog_ok (ratings_df g)) v → gui_inv (set_dialogs v g).
Proof. unfold gui_inv. simpl. naive_solver. Qed.

Lemma dialog_ok_labels df (df' : DataFrame T) dlg :
  index df' = index df → columns df' = columns df →
  dialog_ok df dlg → dialog_ok df' dlg.
Proof. unfold dialog_ok. by intros -> ->. Qed.

Lemma gui_inv_set_ratings_df g df :
  gui_inv g → df_wf df → index df = index (ratings_df g) →
  columns df = columns (ratings_df g) → gui_inv (set_ratings_df df g).
Proof.
  unfold gui_inv. simpl. intros (?&?&?&?&?&?&?&?&?&Hd) ? Hi Hc.
  split_and!; try done; try congruence.
  eapply Forall_impl; [done|]. intros dlg. by apply dialog_ok_labels.
Qed.

Lemma gui_inv_set_user_var g u :
  gui_inv g → u ∈ user_values g → gui_inv (set_user_var u g).
Proof.
  unfold gui_inv. simpl. intros (?&?&?&?&?&Hu&?&?&?&?) Hin. rewrite Hu in Hin.
  by split_and!.
Qed.

Lemma gui_inv_set_movie_var g m :
  gui_inv g → m ∈ movie_values g → gui_inv (set_movie_var m g).
Proof.
  unfold gui_inv. simpl. intros (?&?&?&?&?&?&Hm&?&?&?) Hin. rewrite Hm in Hin.
  by split_and!.
Qed.

Lemma same_data_refl g : same_data g g.
Proof. done. Qed.

Lemma same_data_trans g1 g2 g3 : same_data g1 g2 → same_data g2 g3 → same_data g1 g3.
Proof. unfold same_data. intros (?&?&?&?&?&?) (?&?&?&?&?&?). split_and!; congruence. Qed.

Lemma ui_only_same_data g g' : ui_only g g' → same_data g g'.
Proof. unfold ui_only. by intros ->. Qed.

Lemma ui_only_kept g g' : gui_inv g → ui_only g g' → kept g g'.
Proof. intros Hinv Hui. split; [by eapply ui_only_inv|by apply ui_only_same_data]. Qed.

Lemma rate_new_movie_spec g :
  gui_inv g → wp rate_new_movie (λ r g', r = Ok tt ∧ kept g g') g.
Proof.
  intros Hinv. pose proof Hinv as (Hr & _ & _ & _ & _ & _ & _ & Hu & _ & Hd).
  unfold rate_new_movie. gui_steps.
  destruct (GUI.rate_new_movie _ _) as [[movies|]|e] eqn:E; gui_steps.
  - apply rate_new_movie_Some in E as [Hun Hne].
    split; [done|]. split; [|done]. apply gui_inv_set_dialogs; [done|].
    apply Forall_app. split; [done|]. apply Forall_singleton. split_and!; simpl.
    + done.
    + intros m Hm. eapply elem_of_sublist; [done|by eapply isna_index_sublist].
    + destruct movies; [done|]. by left.
  - split; [done|]. apply ui_only_kept; auto with recsys.
  - unfold GUI.rate_new_movie in E.
    destruct (proj2 (isna_index_is_Ok _ _) Hu) as [l Hl]. rewrite Hl in E.
    simpl in E. by case_decide.
Qed.

Lemma submit_rating_spec d g :
  gui_inv g → d < length (dialogs g) →
  wp (submit_rating parse_float d) (λ r g', r = Ok tt ∧ kept g g') g.
Proof.
  intros Hinv Hd. pose proof Hinv as (Hr & _ & _ & _ & _ & _ & _ & Hu & _ & Hdl).
  unfold submit_rating. gui_steps.
  destruct (lookup_lt_is_Some_2 _ _ Hd) as [dlg Hdlg]. rewrite Hdlg. gui_steps.
  pose proof (Forall_lookup_1 _ _ _ _ Hdl Hdlg) as (Hdu & Hdm & Hdv).
  destruct (GUI.submit_rating _ _ _ _ _) as [df o] eqn:E.
  apply submit_rating_cases in E as [[Ho ->]|(rating & -> & ->)].
  - destruct o; [done|..]; gui_steps; (split; [done|]);
      apply ui_only_kept; auto with recsys.
  - gui_steps. split; [done|].
    assert (dlg_movie_var dlg ∈ index (ratings_df g)) as Hm by auto.
    pose proof (df_loc_set_index nan _ _ _ rating Hm Hdu) as Hi.
    pose proof (df_loc_set_columns nan _ _ _ rating Hm Hdu) as Hc.
    split; [|done]. apply gui_inv_set_dialogs; gui_simpl.
    + eapply ui_only_inv; [apply ui_only_set_displayed, ui_only_refl|].
      apply gui_inv_set_ratings_df; [done|by apply df_loc_set_wf|done..].
    + apply Forall_delete. eapply Forall_impl; [done|].
      intros dlg'. by apply dialog_ok_labels.
Qed.

Lemma gui_post_handle_post g r g' :
  gui_inv g → gui_post getint g r g' → handle_post getint g r g'.
Proof. intros Hinv [Hui He]. split; [by apply ui_only_kept|done]. Qed.

Lemma Ok_handle_post g r g' : r = Ok tt ∧ kept g g' → handle_post getint g r g'.
Proof. intros [-> Hinv]. by split. Qed.

Lemma modify_handle_post (f : gui T → gui T) g :
  gui_inv (f g) → same_data g (f g) → wp (modify f) (handle_post getint g) g.
Proof. intros Hinv Hsame. by apply wp_modify, Ok_handle_post. Qed.

Lemma handle_wp a g :
  gui_inv g → enabled g a → wp (handle getint parse_float a) (handle_post getint g) g.
Proof.
  intros Hinv Ha. destruct a; simpl in *.
  - by apply modify_handle_post.
  - apply modify_handle_post; [by apply gui_inv_set_user_var|done].
  - apply modify_handle_post; [by apply gui_inv_set_movie_var|done].
  - by apply modify_handle_post.
  - eapply wp_mono; [by apply recommend_click_spec|].
    intros r g'. by apply gui_post_handle_post.
  - unfold user_user_matrix_click. gui_steps.
    apply gui_post_handle_post; [done|]. apply gui_post_Ok. auto with recsys.
  - unfold genre_matrix_click. gui_steps.
    apply gui_post_handle_post; [done|]. apply gui_post_Ok. auto with recsys.
  - unfold user_rating_dist_click. gui_steps.
    apply gui_post_handle_post; [done|]. apply gui_post_Ok. auto with recsys.
  - eapply wp_mono; [by apply rate_new_movie_spec|]. intros r g'. apply Ok_handle_post.
  - apply modify_handle_post; [|done]. apply gui_inv_set_dialogs; [done|].
    apply Forall_alter; [apply Hinv|]. intros dlg Hdlg (? & ? & ?).
    rewrite Hdlg in Ha. by split_and!.
  - apply modify_handle_post; [|done]. apply gui_inv_set_dialogs; [done|].
    apply Forall_alter; [apply Hinv|]. by intros dlg Hdlg (? & ? & ?).
  - eapply wp_mono; [by apply submit_rating_spec|]. intros r g'. apply Ok_handle_post.
Qed.

(** C8: no callback raises, except [recommend_click] when the entry of
    the count does not hold an integer.  From a state of the invariant
    and for an action the widgets allow, an exception of a callback is
    the exception of [IntVar.get]: no lookup of a user, a movie or a
    dialog fails. *)
Theorem handle_raises_only_getint a g e :
  gui_inv g → enabled g a →
  (handle getint parse_float a g).2 = Raise e → getint (top_n_var g) = Raise e.
Proof.
  intros Hinv Ha.
  destruct (proj1 (wp_run _ (handle_post getint g) _) (handle_wp a g Hinv Ha))
    as [_ He].
  apply He.
Qed.

(** The form opens in a state of the invariant, when the data are
    well formed and describe the same movies. *)
Theorem init_inv movies ratings genres g :
  df_wf movies → df_wf ratings → df_wf genres →
  "genre" ∈ columns movies → index genres = index movies →
  init movies ratings genres = Ok g → gui_inv g.
Proof.
  intros Hm Hr Hg Hgenre Hidx. unfold init.
  destruct (columns ratings) as [|u us] eqn:Hc; [done|].
  destruct (index movies) as [|m ms] eqn:Hi; [done|]. simpl. intros [= <-].
  unfold gui_inv; simpl. rewrite Hc, Hi.
  split_and!; try done; by left.
Qed.

(** The invariant and the data are kept along every run. *)
Lemma reachable_kept g0 g :
  gui_inv g0 → reachable getint parse_float g0 g → kept g0 g.
Proof.
  intros Hinv. induction 1 as [|g1 a g2 _ [IH Hsame] [Ha <-]]; [done|].
  destruct (proj1 (wp_run _ (handle_post getint g1) _) (handle_wp a g1 IH Ha))
    as [[Hinv' Hsame'] _].
  split; [done|by eapply same_data_trans].
Qed.

(** C7: every state the form reaches satisfies the invariant, and has the
    data it started with: the same movies and genres, the same values in
    the lists, and the same labels in the ratings. *)
Theorem reachable_inv g0 g :
  gui_inv g0 → reachable getint parse_float g0 g → gui_inv g ∧ same_data g0 g.
Proof. apply reachable_kept. Qed.

Lemma for_each_insert {A} (l : list A) (body : A → io (gui T) unit) (f : A → string) g :
  (∀ x, x ∈ l → body x = insert (f x)) →
  for_each l body g =
    (set_result_box (foldl (λ box x, box +:+ f x) (result_box g) l) g, Ok tt).
Proof.
  revert g. induction l as [|x l IH]; intros g Hbody; simpl;
    [by destruct g|].
  unfold mbind, io_bind. rewrite Hbody by left. unfold insert at 1, modify.
  rewrite IH by (intros y Hy; apply Hbody; by right). by destruct g.
Qed.

(** The text of the result box after [recommend_click] with the
    collaborative filter: a heading and the movies, numbered from one. *)
Definition collaborative_listing (user : string) (recs : list string) : string :=
  foldl (λ box p, box +:+ pretty p.1 +:+ ". " +:+ p.2 +:+ nl)
    ("Top recommendations for " +:+ user +:+ ":" +:+ nl) (enumerate recs).

(** With the collaborative filter selected, [recommend_click]
    replaces the text of the result box by a heading and the recommended
    movies, numbered from one, and changes nothing else. *)
Theorem recommend_click_collaborative g n recs :
  filter_type g = "Collaborative" → getint (top_n_var g) = Ok n →
  GUI.recommend_collaborative (ratings_df g) (user_var g) n = Ok recs →
  recommend_click getint g =
    (set_result_box
       (foldl (λ box p, box +:+ pretty p.1 +:+ ". " +:+ p.2 +:+ nl)
          ("Top recommendations for " +:+ user_var g +:+ ":" +:+ nl)
          (enumerate recs)) g, Ok tt).
Proof.
  intros Hf Hn Hrecs. unfold recommend_click, mbind, io_bind, modify, get, lift.
  gui_simpl. rewrite Hn, decide_True by done. rewrite Hrecs.
  unfold insert at 1, modify.
  rewrite (for_each_insert _ _ (λ p, pretty p.1 +:+ ". " +:+ p.2 +:+ nl));
    [by destruct g|by intros [i movie]].
Qed.

(** In a state of the invariant the click with the collaborative filter
    never fails once the count is read, and lists only movies the selected
    user has not rated. *)
Lemma recommend_click_only_unrated g n :
  gui_inv g → filter_type g = "Collaborative" → getint (top_n_var g) = Ok n →
  ∃ recs,
    GUI.recommend_collaborative (ratings_df g) (user_var g) n = Ok recs ∧
    recommend_click getint g =
      (set_result_box (collaborative_listing (user_var g) recs) g, Ok tt) ∧
    Forall (λ m, ∃ x, df_loc (ratings_df g) m (user_var g) = Ok x ∧ isnan x = true)
      recs.
Proof.
  intros Hinv Hf Hn. pose proof Hinv as (Hwf & _ & _ & _ & _ & _ & _ & Hu & _).
  destruct (gui_recommend_collaborative_is_Ok _ _ n Hwf Hu) as [recs Hrecs].
  exists recs. split_and!; [done|by apply (recommend_click_collaborative g n)|].
  apply Forall_forall. intros m Hm. by eapply gui_recommend_collaborative_unrated.
Qed.

(** The genres of a movie as the form shows them: the cell of the column
    [genre] of the movies. *)
Definition genres_of g (movie : string) : string :=
  match df_loc (movies_df g) movie "genre" with
  | Ok genres => genres
  | Raise _ => ""
  end.

(** With the content filter selected, [recommend_click] replaces the text
    of the result box by a heading and the movies similar to the selected
    movie, numbered from one, each with its genres, and changes nothing
    else. *)
Theorem recommend_click_content g n recs :
  gui_inv g → filter_type g ≠ "Collaborative" → getint (top_n_var g) = Ok n →
  GUI.recommend_content_based (T:=T) (genre_matrix g) (movie_var g) n = Ok recs →
  recommend_click getint g =
    (set_result_box
       (foldl (λ box p, box +:+ pretty p.1 +:+ ". " +:+ p.2 +:+
                          " (" +:+ genres_of g p.2 +:+ ")" +:+ nl)
          ("Movies similar to '" +:+ movie_var g +:+ "':" +:+ nl)
          (enumerate recs)) g, Ok tt).
Proof.
  intros Hinv Hf Hn Hrecs.
  pose proof Hinv as (_ & Hwf & _ & Hgenre & Hidx & _).
  unfold recommend_click, mbind, io_bind, modify, get, lift.
  gui_simpl. rewrite Hn, decide_False by done. rewrite Hrecs.
  unfold insert at 1, modify.
  rewrite (for_each_insert _ _
             (λ p, pretty p.1 +:+ ". " +:+ p.2 +:+ " (" +:+ genres_of g p.2 +:+ ")" +:+ nl));
    [by destruct g|].
  intros [i m] Hm%elem_of_enumerate. unfold genres_of. simpl.
  destruct (df_loc_is_Ok (movies_df g) m "genre" Hwf) as [genres ->]; [|done..].
  rewrite <- Hidx. by eapply gui_recommend_content_based_in_index.
Qed.

(** The invariant holds after any sequence of actions. *)
Lemma run_inv actions g :
  gui_inv g → gui_inv (run getint parse_float actions g).
Proof.
  revert g. induction actions as [|a actions IH]; intros g Hinv; simpl; [done|].
  apply IH. case_decide as Ha; [|done].
  by destruct (proj1 (wp_run _ (handle_post getint g) _) (handle_wp a g Hinv Ha))
    as [[? _] _].
Qed.

(** A run is a sequence of steps. *)
Lemma run_reachable actions g : reachable getint parse_float g (run getint parse_float actions g).
Proof.
  revert g. induction actions as [|a actions IH] using rev_ind; intros g.
  { constructor. }
  unfold run. rewrite foldl_snoc. fold (run getint parse_float actions g).
  case_decide as Ha; [|done]. by eapply reachable_step.
Qed.

(** ** The form refines the store of ratings *)

Lemma ui_only_ratings g g' : ui_only g g' → ratings_df g' = ratings_df g.
Proof. unfold ui_only. by intros ->. Qed.

Lemma rate_new_movie_store g : wp rate_new_movie (store_post g) g.
Proof.
  unfold rate_new_movie. gui_steps.
  destruct (GUI.rate_new_movie _ _) as [[movies|]|e]; gui_steps; by left.
Qed.

(** The button of a dialog stores a rating in range in a cell of the
    frame, or shows an error and stores nothing. *)
Lemma submit_rating_store d g :
  gui_inv g → d < length (dialogs g) →
  wp (submit_rating parse_float d) (store_post g) g.
Proof.
  intros Hinv Hd. pose proof Hinv as (Hr & _ & _ & _ & _ & _ & _ & Hu & _ & Hdl).
  unfold submit_rating. gui_steps.
  destruct (lookup_lt_is_Some_2 _ _ Hd) as [dlg Hdlg]. rewrite Hdlg. gui_steps.
  pose proof (Forall_lookup_1 _ _ _ _ Hdl Hdlg) as (Hdu & Hdm & Hdv).
  destruct (GUI.submit_rating _ _ _ _ _) as [df [rating| |]] eqn:E; gui_steps;
    [|by left..].
  apply submit_rating_Success in E as (_ & Hlo & Hhi & ->). right.
  destruct (df_loc_is_Ok (ratings_df g) (dlg_movie_var dlg) (dlg_user dlg))
    as [old Hold]; [done|auto|done|].
  by eapply rate_cell.
Qed.

(** The simulation: a step of the form is a step of the store or leaves
    the ratings as they were. *)
Lemma handle_store a g :
  gui_inv g → enabled g a → wp (handle getint parse_float a) (store_post g) g.
Proof.
  intros Hinv Ha. destruct a; cbn [handle enabled] in *;
    first
      [ apply wp_modify; by left
      | unfold update_dialog; apply wp_modify; by left
      | apply rate_new_movie_store
      | by apply submit_rating_store
      | eapply wp_mono; [by apply recommend_click_spec|];
        intros r g' [Hui _]; left; by apply ui_only_ratings
      | unfold user_user_matrix_click, genre_matrix_click, user_rating_dist_click;
        gui_steps; by left ].
Qed.

Lemma step_store g a g' :
  gui_inv g → step getint parse_float g a g' →
  stutter_or form_store (ratings_df g) (ratings_df g').
Proof.
  intros Hinv [Ha <-].
  apply (proj1 (wp_run _ (store_post g) _) (handle_store a g Hinv Ha)).
Qed.

Lemma reachable_store g0 g :
  gui_inv g0 → reachable getint parse_float g0 g →
  rtc form_store (ratings_df g0) (ratings_df g).
Proof.
  intros Hinv Hreach. apply stutter_or_rtc.
  induction Hreach as [|g1 a g2 Hreach IH Hstep]; [done|].
  eapply rtc_r; [done|]. eapply step_store; [|done].
  by apply (reachable_kept g0 g1).
Qed.

(** C13: the form refines the store of ratings.  From a state of the
    invariant, the ratings of every state the form reaches are the ratings
    of a run of the store from the ratings at the start, and every further
    step of the form is a step of the store or leaves the ratings as they
    are: the form changes the ratings only by storing a rating that passed
    the range check in a cell of the frame. *)
Theorem form_refines_store g0 g :
  gui_inv g0 → reachable getint parse_float g0 g →
  rtc form_store (ratings_df g0) (ratings_df g) ∧
  ∀ a g', step getint parse_float g a g' →
    stutter_or form_store (ratings_df g) (ratings_df g').
Proof.
  intros Hinv Hreach. split; [by apply reachable_store|].
  intros a g'. apply step_store. by apply (reachable_kept g0 g).
Qed.

(** C18: the ratings stay in range.  In every state the form reaches a
    cell of the ratings holds what it held at the start or a rating that
    passed the range check. *)
Theorem reachable_ratings_in_range g0 g m u x :
  gui_inv g0 → reachable getint parse_float g0 g →
  df_loc (ratings_df g) m u = Ok x →
  df_loc (ratings_df g0) m u = Ok x ∨ in_range x.
Proof.
  intros Hinv Hreach.
  apply (rtc_rate_cell (λ _, True) in_range); [apply Hinv|].
  by apply reachable_store.
Qed.

(** ** A rating can always be stored *)

(** What "Rate a New Movie" does when the user has movies left to rate. *)
Lemma rate_new_movie_run g unrated :
  isna_index (ratings_df g) (user_var g) = Ok unrated → unrated ≠ [] →
  (rate_new_movie g).1 =
    set_dialogs
      (dialogs g ++ [mkDialog (user_var g) unrated (default "" (head unrated)) ""]) g.
Proof.
  intros Hun Hne. unfold rate_new_movie, GUI.rate_new_movie, mbind, io_bind, get, lift.
  rewrite Hun; simpl. by destruct unrated.
Qed.

(** What the button of a dialog does with a text that is a rating in
    range. *)
Lemma submit_rating_run d g dlg rating :
  dialogs g !! d = Some dlg → parse_float (dlg_rating_var dlg) = Ok rating →
  in_range rating →
  (submit_rating parse_float d g).1 =
    set_dialogs (delete d (dialogs g))
      (set_displayed
         (displayed g ++ [ShowRated (dlg_user dlg) (dlg_movie_var dlg) rating])
         (set_ratings_df
            (df_loc_set nan (ratings_df g) (dlg_movie_var dlg) (dlg_user dlg) rating)
            g)).
Proof.
  intros Hdlg Hparse [Hlo Hhi].
  unfold submit_rating, mbind, io_bind, get, lift. rewrite Hdlg.
  by rewrite (proj2 (submit_rating_Success parse_float (ratings_df g) _ _ _ _ rating)
                (conj Hparse (conj Hlo (conj Hhi eq_refl)))).
Qed.

(** What the button does with a text that is refused, a text [float()]
    does not read or a number out of range: an error box is shown, the
    dialog stays open and the ratings are as they were. *)
Lemma submit_rating_refused d g dlg :
  dialogs g !! d = Some dlg →
  let refused msg :=
    submit_rating parse_float d g =
      (set_displayed (displayed g ++ [ShowError "Invalid Rating" msg]) g, Ok tt) in
  (∀ err, parse_float (dlg_rating_var dlg) = Raise err →
     refused "Please enter a number between 1 and 5.") ∧
  (∀ rating, parse_float (dlg_rating_var dlg) = Ok rating →
     (rating <? of_Z 1)%sc = true ∨ (rating >? of_Z 5)%sc = true →
     refused "Rating must be between 1 and 5.").
Proof.
  intros Hdlg refused. subst refused.
  split; [intros err Hp|intros rating Hp Hr];
    unfold submit_rating, mbind, io_bind, get, lift; rewrite Hdlg.
  - by rewrite (submit_rating_not_a_number parse_float _ _ _ _ err Hp).
  - by rewrite (submit_rating_out_of_range parse_float _ _ _ _ rating Hp Hr).
Qed.

Lemma alter_snoc {A} (f : A → A) (l : list A) x :
  alter f (length l) (l ++ [x]) = l ++ [f x].
Proof. rewrite alter_app_r_alt by done. by rewrite Nat.sub_diag. Qed.

Lemma run_step a actions g :
  enabled g a →
  run getint parse_float (a :: actions) g =
    run getint parse_float actions (handle getint parse_float a g).1.
Proof. intros Ha. unfold run; simpl. by rewrite decide_True. Qed.

(** What the five actions of [rate_actions] do: the user is selected, the
    rating is stored and shown, and the dialog that was opened is closed
    again. *)
Lemma rate_actions_run g u m text rating unrated :
  u ∈ user_values g → isna_index (ratings_df g) u = Ok unrated → m ∈ unrated →
  parse_float text = Ok rating → in_range rating →
  run getint parse_float (rate_actions (length (dialogs g)) u m text) g =
    set_displayed (displayed g ++ [ShowRated u m rating])
      (set_ratings_df (df_loc_set nan (ratings_df g) m u rating)
         (set_user_var u g)).
Proof.
  intros Hu Hun Hm Hparse Hrange. unfold rate_actions.
  rewrite run_step by done. cbn [handle]. unfold modify at 1. cbn [fst].
  rewrite run_step by done. cbn [handle].
  rewrite (rate_new_movie_run _ unrated);
    [|done|by intros ->; apply elem_of_nil in Hm]. gui_simpl.
  rewrite run_step by (cbn [enabled]; gui_simpl; by rewrite list_lookup_middle).
  cbn [handle]. unfold update_dialog, modify at 1. cbn [fst]. gui_simpl.
  rewrite alter_snoc. gui_simpl.
  rewrite run_step
    by (cbn [enabled]; gui_simpl; rewrite length_app; simpl; lia).
  cbn [handle]. unfold update_dialog, modify at 1. cbn [fst]. gui_simpl.
  rewrite alter_snoc. gui_simpl.
  rewrite run_step
    by (cbn [enabled]; gui_simpl; rewrite length_app; simpl; lia).
  cbn [handle run foldl].
  erewrite submit_rating_run;
    [|by gui_simpl; apply list_lookup_middle|done..].
  gui_simpl. by rewrite delete_middle, app_nil_r.
Qed.

(** The state the five actions lead to from a state of the invariant, for
    a movie the user has not rated. *)
Lemma rate_actions_stored g u m text rating old :
  gui_inv g → df_loc (ratings_df g) m u = Ok old → isnan old = true →
  parse_float text = Ok rating → in_range rating →
  run getint parse_float (rate_actions (length (dialogs g)) u m text) g =
    set_displayed (displayed g ++ [ShowRated u m rating])
      (set_ratings_df (df_loc_set nan (ratings_df g) m u rating)
         (set_user_var u g)).
Proof.
  intros Hinv Hold Hnan Hparse Hrange.
  pose proof Hinv as (Hwf & _ & _ & _ & _ & Huv & _).
  destruct (df_loc_Ok_inv _ _ _ _ Hold) as [Hm Hu].
  destruct (proj2 (isna_index_is_Ok (ratings_df g) u) Hu) as [unrated Hun].
  apply (rate_actions_run g u m text rating unrated); [by rewrite Huv|done| |done..].
  apply (isna_index_elem_of _ _ _ _ Hwf Hun); eauto.
Qed.

(** C16: a missing rating can always be stored.  In a state of the
    invariant, for a movie the user has not rated and a text that is a
    rating in range, the five actions of [rate_actions] are all allowed,
    and lead to a state where the cell holds the rating and the dialog
    they opened is closed. *)
Theorem rating_can_be_stored g u m text rating old :
  gui_inv g → df_loc (ratings_df g) m u = Ok old → isnan old = true →
  parse_float text = Ok rating → in_range rating →
  let g' := run getint parse_float
              (rate_actions (length (dialogs g)) u m text) g in
  reachable getint parse_float g g' ∧
  df_loc (ratings_df g') m u = Ok rating ∧ dialogs g' = dialogs g.
Proof.
  intros Hinv Hold Hnan Hparse Hrange g'. split; [apply run_reachable|].
  destruct (df_loc_Ok_inv _ _ _ _ Hold) as [Hm Hu]. pose proof Hinv as [Hwf _].
  subst g'. rewrite (rate_actions_stored g u m text rating old) by done.
  gui_simpl. split; [|done]. by apply df_loc_set_loc_eq.
Qed.

Lemma run_app actions actions' g :
  run getint parse_float (actions ++ actions') g =
    run getint parse_float actions' (run getint parse_float actions g).
Proof. apply foldl_app. Qed.

(** C17: a movie rated through the form is not listed afterwards.  From a state
    of the invariant with the collaborative filter, the operator rates a
    movie the user had not rated, with a number in range, and presses
    Recommend: the click succeeds, the result box shows the listing of the
    movies the recommender returns for that user on the new ratings, and
    the movie is not one of them. *)
Theorem rated_movie_not_listed g u m text rating old n :
  gui_inv g → filter_type g = "Collaborative" → getint (top_n_var g) = Ok n →
  df_loc (ratings_df g) m u = Ok old → isnan old = true →
  parse_float text = Ok rating → in_range rating → isnan rating = false →
  let g' := run getint parse_float
              (rate_actions (length (dialogs g)) u m text ++ [RecommendClick]) g in
  ∃ recs,
    GUI.recommend_collaborative (ratings_df g') u n = Ok recs ∧
    result_box g' = collaborative_listing u recs ∧ (m ∉ recs) ∧
    df_loc (ratings_df g') m u = Ok rating.
Proof.
  intros Hinv Hf Hn Hold Hnan Hparse Hrange Hnum g'. subst g'.
  pose proof (run_inv (rate_actions (length (dialogs g)) u m text) g Hinv) as Hinv'.
  destruct (df_loc_Ok_inv _ _ _ _ Hold) as [Hm Hu]. pose proof Hinv as [Hwf _].
  rewrite run_app, run_step by done. cbn [run foldl handle].
  revert Hinv'. rewrite (rate_actions_stored g u m text rating old) by done.
  intros Hinv'.
  destruct (recommend_click_only_unrated _ n Hinv') as (recs & Hrecs & -> & Hall);
    [done..|].
  revert Hrecs Hall. gui_simpl. intros Hrecs Hall. exists recs.
  assert (df_loc (df_loc_set nan (ratings_df g) m u rating) m u = Ok rating) as Hcell
    by by apply df_loc_set_loc_eq.
  split_and!; [done..| |done].
  intros (x & Hx & Hxnan)%(proj1 (Forall_forall _ _) Hall). congruence.
Qed.

(** ** A dialog that is out of date *)

(** C38: the list of movies of a dialog is computed when the dialog opens, and
    its button does not look at the cell again.  In a state of the
    invariant the button of any open dialog is allowed, and with a text
    that is a rating in range it sets the cell of the dialog's movie and
    user, whatever the cell holds by then, a rating stored through another
    dialog included, and closes the dialog. *)
Theorem dialog_submit_replaces g d dlg rating :
  gui_inv g → dialogs g !! d = Some dlg →
  parse_float (dlg_rating_var dlg) = Ok rating → in_range rating →
  let g' := (handle getint parse_float (DialogSubmit d) g).1 in
  step getint parse_float g (DialogSubmit d) g' ∧
  is_Ok (df_loc (ratings_df g) (dlg_movie_var dlg) (dlg_user dlg)) ∧
  df_loc (ratings_df g') (dlg_movie_var dlg) (dlg_user dlg) = Ok rating ∧
  dialogs g' = delete d (dialogs g).
Proof.
  intros Hinv Hdlg Hparse Hrange g'.
  pose proof Hinv as (Hwf & _ & _ & _ & _ & _ & _ & _ & _ & Hdlgs).
  destruct (Forall_lookup_1 _ _ _ _ Hdlgs Hdlg) as (Hu & Hms & Hm).
  split; [split; [by eapply lookup_lt_Some|done]|].
  split; [apply df_loc_is_Ok; [done|by apply Hms|done]|].
  subst g'. cbn [handle]. rewrite (submit_rating_run d g dlg rating) by done.
  gui_simpl. split; [|done]. by apply df_loc_set_loc_eq.
Qed.

End gui_proofs.
