(* ===== verification/Display.v ===== *)
(** * Display: what was written never influences what the programs do

    The command-line program only appends to its output, and the form only
    appends to what it has shown and rewrites its result box; neither reads
    them back.  This file proves it with the relational rules of [Io]: a
    program is run from two states that differ in what was written, and the
    two runs stay related.

    For [main] of [src/main.py] the relation is [framed out]: the same
    lines to read, the same ratings, and an output that has [out] in
    front.  [main_output_frame] is the resulting equation: a run that
    starts after [out] was written is the run that starts with nothing
    written, with [out] put in front of its output.

    For the form of [src/Movie_recommender_GUI.py] the relation is
    [shown d]: the same data, selections and dialogs, and [d] in front of
    what was shown; the text of the result box is not compared.  Every
    callback keeps it ([handle_shown]), the widgets allow the same actions
    in related states, and so does a whole run ([run_shown]).
    [same_form], the case where nothing is in front, is an equivalence:
    [run] and the fields of the state are [Proper] for it, and
    [recommend_click_transparent] rewrites with it to remove a click on
    "Get Recommendations" from any sequence of actions. *)

From Stdlib Require Import ZArith.
From stdpp Require Import list strings pretty relations.
From S2P Require Import Prelude Scalar Frame Similarity Collaborative.
From S2P Require Import Content Rating Store Io Cli Gui.

Local Open Scope string_scope.
Local Open Scope list_scope.

(** ** The command-line program *)

Section terminal.
Context {T : Type}.
Implicit Types (w : world (event T) T).

(** [framed out w w']: the two worlds have the same lines to read and the
    same ratings, and [w] has written [out] before what [w'] has. *)
Definition framed (out : list (event T)) w w' : Prop :=
  stdin w = stdin w' ∧ ratings w = ratings w' ∧ stdout w = out ++ stdout w'.

Context (out : list (event T)).

Lemma emit_framed (e : event T) : io_rel (framed out) eq (emit e) (emit e).
Proof.
  intros w w' (Hi & Hr & Ho). split; [|done]. split_and!; simpl; [done..|].
  by rewrite Ho, app_assoc.
Qed.

Lemma read_line_framed : io_rel (framed out) eq (read_line (E:=event T)) read_line.
Proof.
  intros w w' Hw. pose proof Hw as (Hi & Hr & Ho). unfold read_line.
  rewrite <- Hi. destruct (stdin w); [done|]. split; [|done]. by split_and!.
Qed.

Lemma get_ratings_framed :
  io_rel (framed out) eq (get_ratings (E:=event T)) get_ratings.
Proof. intros w w' Hw. unfold get_ratings. by rewrite (proj1 (proj2 Hw)). Qed.

Lemma set_ratings_framed df :
  io_rel (framed out) eq (set_ratings (E:=event T) df) (set_ratings df).
Proof. intros w w' (Hi & Hr & Ho). split; [|done]. by split_and!. Qed.

End terminal.

(** Relates a program of the terminal with itself. *)
Ltac cli_rel :=
  rel_go
    ltac:(first [ apply emit_framed | apply read_line_framed
                | apply get_ratings_framed | apply set_ratings_framed ])
    ltac:(fun H => simplify_eq/=).

Section cli.
Context {T : Type} `{Scalar T}.
Context (parse_float : string → result T).
Context (movies_df : DataFrame string) (genre_matrix : DataFrame Z)
  (all_genres : list string).

Lemma main_framed out :
  io_rel (framed out) eq
    (main parse_float movies_df genre_matrix all_genres)
    (main parse_float movies_df genre_matrix all_genres).
Proof.
  unfold main, collaborative_branch, content_branch, rate_step, read_top_n,
    print, input.
  cli_rel.
Qed.

(** The program only appends to its output.  A run that starts after
    [out] was written reads the same lines, ends with the same result and
    the same ratings, and writes the same events as the run that starts
    with nothing written: its output is [out] followed by the output of
    that run. *)
Theorem main_output_frame inputs out df :
  main parse_float movies_df genre_matrix all_genres (mkWorld inputs out df) =
    let '(w, r) :=
      main parse_float movies_df genre_matrix all_genres (mkWorld inputs [] df) in
    (mkWorld (stdin w) (out ++ stdout w) (ratings w), r).
Proof.
  destruct (io_rel_run (framed out) _ _ (mkWorld inputs out df) (mkWorld inputs [] df)
              (main_framed out))
    as [(Hi & Hr & Ho) Hres]; [by unfold framed; simpl; rewrite app_nil_r|].
  destruct (main _ _ _ _ (mkWorld inputs [] df)) as [w r],
    (main _ _ _ _ (mkWorld inputs out df)) as [[i o d] r'].
  simpl in *. by subst.
Qed.

End cli.

(** ** The form *)

Section form.
Context {T : Type}.
Implicit Types (g : gui T).

(** [shown d g g']: the two states of the form have the same data, the
    same selections and the same dialogs, and [g] has shown [d] before
    what [g'] has; the text of the result box is not compared. *)
Definition shown (d : list (display T)) g g' : Prop :=
  movies_df g = movies_df g' ∧ ratings_df g = ratings_df g' ∧
  genre_matrix g = genre_matrix g' ∧ filter_type g = filter_type g' ∧
  user_values g = user_values g' ∧ user_var g = user_var g' ∧
  movie_values g = movie_values g' ∧ movie_var g = movie_var g' ∧
  top_n_var g = top_n_var g' ∧ dialogs g = dialogs g' ∧
  displayed g = d ++ displayed g'.

(** The same form, up to the text of the result box. *)
Definition same_form : relation (gui T) := shown [].

#[export] Instance same_form_equivalence : Equivalence same_form.
Proof.
  split; [intros g|intros g g'|intros g1 g2 g3]; unfold same_form, shown; simpl;
    [done|naive_solver|]. intros ? ?. destruct_and?. split_and!; congruence.
Qed.

#[export] Instance ratings_df_proper : Proper (same_form ==> eq) ratings_df.
Proof. by intros g g' (_ & ? & _). Qed.

#[export] Instance dialogs_proper : Proper (same_form ==> eq) dialogs.
Proof. by intros g g' (_ & _ & _ & _ & _ & _ & _ & _ & _ & ? & _). Qed.

#[export] Instance displayed_proper : Proper (same_form ==> eq) displayed.
Proof. by intros g g' (_ & _ & _ & _ & _ & _ & _ & _ & _ & _ & ?). Qed.

End form.

(** Closes the goals on [shown] after an assignment to a field. *)
Ltac shown_solve :=
  let Hg := fresh in
  intros [] [] Hg; unfold shown in *; simpl in *;
  destruct_and?; simplify_eq/=; split_and?; by rewrite <- ?app_assoc.

(** Relates a callback of the form with itself. *)
Ltac gui_rel :=
  rel_go
    ltac:(apply io_rel_modify; shown_solve)
    ltac:(fun H =>
            lazymatch type of H with
            | shown _ ?g ?g' =>
                destruct g, g'; unfold shown in H; simpl in H;
                destruct_and?; simplify_eq/=
            | _ => simplify_eq/=
            end).

Section form_proofs.
Context {T : Type} `{Scalar T}.
Context (getint : string → result Z) (parse_float : string → result T).
Implicit Types (g : gui T) (d : list (display T)).

Lemma handle_shown d a :
  io_rel (shown d) eq (handle getint parse_float a) (handle getint parse_float a).
Proof.
  destruct a; cbn [handle];
    unfold recommend_click, user_user_matrix_click, genre_matrix_click,
      user_rating_dist_click, rate_new_movie, submit_rating, update_dialog,
      insert, show; gui_rel.
Qed.

Lemma enabled_shown d g g' a : shown d g g' → enabled g a ↔ enabled g' a.
Proof.
  intros (_ & _ & _ & _ & Hu & _ & Hm & _ & _ & Hd & _).
  destruct a; simpl; by rewrite ?Hu, ?Hm, ?Hd.
Qed.

(** A whole run keeps the relation: the same actions are allowed, the same
    ratings are stored, the same dialogs are open, and the same message
    boxes and plots are shown after [d]. *)
Lemma run_shown d actions g g' :
  shown d g g' →
  shown d (run getint parse_float actions g) (run getint parse_float actions g').
Proof.
  revert g g'. induction actions as [|a actions IH]; intros g g' Hg; [done|].
  simpl. apply IH.
  destruct (decide (enabled g a)) as [Ha|Ha];
    [rewrite decide_True by (by apply (enabled_shown d g g'))
    |rewrite decide_False by (by rewrite <- (enabled_shown d g g'))]; [|done].
  by apply (io_rel_run (shown d) _ _ g g' (handle_shown d a)).
Qed.

#[export] Instance run_proper actions :
  Proper (same_form ==> same_form) (run getint parse_float actions).
Proof. intros g g'. apply run_shown. Qed.

(** A click on "Get Recommendations" leaves the same form. *)
Lemma recommend_click_same_form g :
  same_form (recommend_click getint g).1 g.
Proof.
  destruct (recommend_click_box_only getint g) as [box ->].
  destruct g; unfold same_form, shown; simpl. by split_and!.
Qed.

(** C39: asking for recommendations is transparent.  A click on "Get
    Recommendations" can be taken out of any sequence of actions: the
    ratings stored, the selections, the open dialogs and the message boxes
    and plots shown at the end are the same, whatever the entry of the
    count holds and whatever the click raises.  Only the text of the result
    box can differ. *)
Theorem recommend_click_transparent actions actions' g :
  same_form
    (run getint parse_float (actions ++ RecommendClick :: actions') g)
    (run getint parse_float (actions ++ actions') g).
Proof.
  rewrite !run_app, run_step by done. cbn [handle].
  by rewrite recommend_click_same_form.
Qed.

End form_proofs.
