(* ===== verification/Console.v ===== *)
(** * Console: what the operator types and reads

    The models of the programs take the conversion of text to a float as a
    parameter and keep the floats they show as data.  This file closes
    both ends with the conversions of [Pyfloat]: the text of every line
    the command-line program writes and of every message box of the form,
    and the rating handlers with [float()] in place of the parameter.

    With the parser fixed, the range check of the form can be read off the
    text: a rating the form stores lies between 1 and 5, unless the
    operator typed [nan]. *)

From Stdlib Require Import ZArith Floats.
From stdpp Require Import list strings.
From S2P Require Import Prelude Text Scalar Float64 Pyfloat Frame.
From S2P Require Import Collaborative Content Rating Store Io Cli Gui.

Local Open Scope string_scope.
Local Open Scope list_scope.

(** ** The text of a line *)

(** [f"{sim_user} (rated {rating}, sim {sim_scores[sim_user]:.2f})"] *)
Definition render_detail (d : user_detail float) : string :=
  let '(sim_user, rating, sim) := d in
  sim_user +:+ " (rated " +:+ float_str rating +:+ ", sim " +:+ format_2f sim +:+ ")".

(** [f"{movie}: recommendations influenced by {', '.join(user_details)}"] *)
Definition render_explain (line : explain_line float) : string :=
  line.1 +:+ ": recommendations influenced by " +:+ join ", " (render_detail <$> line.2).

(** The text an event puts on the terminal; a plot puts none. *)
Definition render_event (e : event float) : option string :=
  match e with
  | Print s | Prompt s => Some s
  | PrintExplain line => Some (render_explain line)
  | PrintRated movie rating =>
      Some ("Rated " +:+ movie +:+ " with " +:+ float_str rating +:+ ".")
  | PlotSimilarity _ _ _ | PlotUserRatings _ => None
  end.

(** What a run of the command-line program wrote, line by line. *)
Definition transcript (w : world (event float) float) : list string :=
  omap render_event (stdout w).

(** The title and the text of a message box of the form; a plot has
    none. *)
Definition render_display (d : display float) : option (string * string) :=
  match d with
  | ShowInfo title message | ShowError title message => Some (title, message)
  | ShowRated user movie rating =>
      Some ("Success",
            user +:+ " rated '" +:+ movie +:+ "' with " +:+ float_str rating +:+ ".")
  | Heatmap _ _ _ | BarChart _ => None
  end.

(** The message boxes a session of the form showed, in order. *)
Definition messages (g : gui float) : list (string * string) :=
  omap render_display (displayed g).

(** ** The range check, read off the text *)

(** A float passes the range check when it is NaN or lies between 1 and
    5. *)
Lemma in_range_float (r : float) :
  in_range r ↔ is_nan r = true ∨ ((1 <=? r)%float = true ∧ (r <=? 5)%float = true).
Proof.
  unfold in_range, gtb. simpl.
  change (float_of_Z 1) with 1%float. change (float_of_Z 5) with 5%float. split.
  - intros [H1 H5]. destruct (is_nan r) eqn:Hr; [by left|right].
    split; by apply float_ltb_false.
  - intros [Hr|[H1 H5]].
    + split; [exact (ltb_nan_l (T:=float) r 1%float Hr)|
              exact (ltb_nan_r (T:=float) 5%float r Hr)].
    + destruct (float_leb_not_nan _ _ H1) as [_ Hr].
      split; by apply float_ltb_false.
Qed.

Section handlers.
Implicit Types (df : DataFrame float) (user movie text : string) (r : float).

(** The text [nan], with or without a sign, in any case, between white
    space. *)
Definition nan_text text : Prop := lower (sign (strip text)).2 = "nan".

#[export] Instance nan_text_dec text : Decision (nan_text text).
Proof. unfold nan_text. apply _. Defined.

(** C19: what the form stores: the operator typed [nan] and NaN is stored, or
    the rating is a number from 1 to 5. *)
Theorem submit_rating_number_or_nan df user movie text df' r :
  GUI.submit_rating py_float df user movie text = (df', Success r) →
  (nan_text text ∧ is_nan r = true) ∨
  (¬ nan_text text ∧ (1 <=? r)%float = true ∧ (r <=? 5)%float = true).
Proof.
  intros (Hp & H1 & H5 & _)%submit_rating_Success.
  pose proof (py_float_nan text r Hp) as Hnan.
  destruct (proj1 (in_range_float r) (conj H1 H5)) as [Hr|[Hlo Hhi]].
  - left. by split; [apply Hnan|].
  - right. split; [|done]. intros Ht%Hnan.
    destruct (float_leb_not_nan _ _ Hlo). congruence.
Qed.

(** On text that is not a number the form stores nothing. *)
Lemma submit_rating_py_float_error df user movie text :
  py_float text = Raise ValueError →
  GUI.submit_rating py_float df user movie text = (df, NotANumber).
Proof. apply submit_rating_not_a_number. Qed.

End handlers.
