(* ===== verification/Dataset.v ===== *)
(** * Dataset: the sample data

    [src/main.py] (lines 17-42) and [src/movie_recommender.py] (lines 6-29)
    build the same data: ten movies with their genres, the ratings of five
    users (NaN where a user has not rated a movie), the sorted vocabulary
    of genres and the movie-by-genre matrix of zeros and ones.  This file
    builds them the way the sources do, for any [Scalar].  [Launcher] is
    [src/movie_recommender.py], which builds its own copy of the data and
    opens the form on it. *)

From Stdlib Require Import ZArith Ascii.
From stdpp Require Import list strings sorting.
From S2P Require Import Prelude Scalar Frame Gui.

Local Open Scope string_scope.

(** [s.split(sep)] for a separator of one character. *)
Fixpoint str_split (sep : ascii) (s : string) : list string :=
  match s with
  | EmptyString => [EmptyString]
  | String c s' =>
      if decide (c = sep) then EmptyString :: str_split sep s'
      else match str_split sep s' with
           | [] => [String c EmptyString]
           | w :: ws => String c w :: ws
           end
  end.

(** [pd.DataFrame(d, index=idx)] for a dictionary of columns. *)
Definition df_from_dict {A} (d : list (string * list A)) (idx : list string)
  : DataFrame A :=
  mkDataFrame idx d.*1 (transpose (length idx) d.*2).

(** ** The data of the command-line program *)

Module Main.

Definition titles : list string :=
  ["Inception"; "The Dark Knight"; "Interstellar"; "Pulp Fiction"; "Forrest Gump";
   "Fight Club"; "The Matrix"; "Memento"; "Parasite"; "Whiplash"].

Definition genres : list string :=
  ["Sci-Fi|Thriller"; "Action|Crime"; "Sci-Fi|Drama"; "Crime|Drama"; "Drama|Romance";
   "Drama|Thriller"; "Sci-Fi|Action"; "Thriller|Mystery"; "Thriller|Drama"; "Drama|Music"].

(** [movies_df]: the genre text of each movie, indexed by title. *)
Definition movies_df : DataFrame string :=
  mkDataFrame titles ["genre"] ((λ g, [g]) <$> genres).

Section data.
Context {T : Type} `{Scalar T}.

Definition ratings_dict : list (string * list T) :=
  let r := of_Z in
  [("User1", [r 5; r 4; nan; r 2; r 1; nan; nan; r 5; nan; r 4]);
   ("User2", [r 4; nan; r 3; r 2; nan; r 1; r 5; nan; r 4; nan]);
   ("User3", [nan; r 5; r 4; nan; r 2; r 3; nan; r 4; r 5; r 1]);
   ("User4", [r 3; nan; nan; r 4; r 5; r 2; r 1; nan; r 4; r 5]);
   ("User5", [nan; r 2; r 4; nan; r 3; r 4; r 5; r 1; nan; r 2])]%Z.

Definition ratings_df : DataFrame T := df_from_dict ratings_dict (index movies_df).

End data.

(** [sorted({g for sublist in movies_df['genre'].str.split('|') for g in sublist})] *)
Definition all_genres : list string :=
  insertion_sort String.ltb
    (remove_dups (genres ≫= str_split "|"%char)).

(** The movie-by-genre matrix: [int(g in genre_str.split('|'))]. *)
Definition genre_matrix : DataFrame Z :=
  mkDataFrame (index movies_df) all_genres
    ((λ genre_str,
       (λ g, if decide (g ∈ str_split "|"%char genre_str) then 1%Z else 0%Z)
         <$> all_genres) <$> genres).

End Main.
Export Main.

(** ** The launcher of the form *)

Module Launcher.

(** [movies_data]: the titles and the genre texts. *)
Definition movies_data : list string * list string :=
  (["Inception"; "The Dark Knight"; "Interstellar"; "Pulp Fiction"; "Forrest Gump";
    "Fight Club"; "The Matrix"; "Memento"; "Parasite"; "Whiplash"],
   ["Sci-Fi|Thriller"; "Action|Crime"; "Sci-Fi|Drama"; "Crime|Drama"; "Drama|Romance";
    "Drama|Thriller"; "Sci-Fi|Action"; "Thriller|Mystery"; "Thriller|Drama"; "Drama|Music"]).

(** [pd.DataFrame(movies_data).set_index("title")] *)
Definition movies_df : DataFrame string :=
  mkDataFrame movies_data.1 ["genre"] ((λ g, [g]) <$> movies_data.2).

Section data.
Context {T : Type} `{Scalar T}.

Definition ratings_dict : list (string * list T) :=
  let r := of_Z in
  [("User1", [r 5; r 4; nan; r 2; r 1; nan; nan; r 5; nan; r 4]);
   ("User2", [r 4; nan; r 3; r 2; nan; r 1; r 5; nan; r 4; nan]);
   ("User3", [nan; r 5; r 4; nan; r 2; r 3; nan; r 4; r 5; r 1]);
   ("User4", [r 3; nan; nan; r 4; r 5; r 2; r 1; nan; r 4; r 5]);
   ("User5", [nan; r 2; r 4; nan; r 3; r 4; r 5; r 1; nan; r 2])]%Z.

Definition ratings_df : DataFrame T := df_from_dict ratings_dict (index movies_df).

End data.

Definition all_genres : list string :=
  insertion_sort String.ltb
    (remove_dups (movies_data.2 ≫= str_split "|"%char)).

Definition genre_matrix : DataFrame Z :=
  mkDataFrame (index movies_df) all_genres
    ((λ genre_str,
       (λ g, if decide (g ∈ str_split "|"%char genre_str) then 1%Z else 0%Z)
         <$> all_genres) <$> movies_data.2).

(** [run_gui(movies_df, ratings_df, genre_matrix)]: the form as it opens. *)
Definition run_gui {T} `{Scalar T} : result (gui T) :=
  Form.init movies_df ratings_df genre_matrix.

End Launcher.

(** ** The data *)

Section data_facts.
Context {T : Type} `{Scalar T}.

Lemma ratings_df_wf : df_wf (ratings_df (T:=T)).
Proof. by_compute. Qed.

Lemma ratings_df_labels :
  index (ratings_df (T:=T)) = titles ∧
  columns (ratings_df (T:=T)) = ["User1"; "User2"; "User3"; "User4"; "User5"].
Proof. done. Qed.

(** The launcher of the form builds the data of the command-line program. *)
Lemma launcher_ratings_df : Launcher.ratings_df (T:=T) = ratings_df.
Proof. done. Qed.

End data_facts.

Lemma genre_matrix_wf : df_wf genre_matrix.
Proof. by_compute. Qed.

Lemma movies_df_wf : df_wf movies_df.
Proof. by_compute. Qed.

Lemma launcher_data :
  Launcher.movies_df = movies_df ∧ Launcher.genre_matrix = genre_matrix ∧
  Launcher.all_genres = all_genres.
Proof. done. Qed.

(** The vocabulary of genres is the eight genres of the data in
    alphabetical order, each once. *)
Lemma all_genres_sorted :
  all_genres =
    ["Action"; "Crime"; "Drama"; "Music"; "Mystery"; "Romance"; "Sci-Fi"; "Thriller"].
Proof. by vm_compute. Qed.

(** Every row of the genre matrix marks exactly the two genres of its
    movie. *)
Lemma genre_matrix_two_genres :
  Forall (λ row, foldr Z.add 0%Z row = 2%Z) (values genre_matrix).
Proof. vm_compute. by repeat constructor. Qed.
