(* ===== verification/Exact.v ===== *)
(** * Exact: the similarity table and the scores on exact arithmetic

    The recommenders are written once, for any [Scalar].  The program runs
    them on binary64, where every sum, product, quotient and square root is
    rounded; this file says what the same code computes when nothing is
    rounded, which is what the documentation of the program describes: a
    cosine, and an average weighted by cosines.

    [ScalarExact] is the interface: a scalar that is not NaN stands for a
    real number ([rep]), and the operations of [Scalar] compute on these
    reals exactly.  [ideal], the reals with one more value for NaN, is the
    instance; it also has the laws of [Scalar] the other components ask
    for, so every theorem of the development holds of it.  Binary64 is not
    an instance: [Scenarios.similarity_diagonal_not_one] shows a diagonal
    cell of the table that is not 1 there.

    On a [ScalarExact] the theorems show that
    - a cell of [cosine_similarity2] stands for the cosine of the two rows
      ([cosine]: the dot product over the product of the norms, a norm of
      zero replaced by one);
    - every cell of the table of users is a number between 0 and 1 when no
      rating is negative, and the similarity of a user with themself is 1
      as soon as they gave one rating that is not zero;
    - the score of a movie is zero or lies within the range of the
      ratings: with every rating between 1 and 5, between 1 and 5;
    - the scores are then numbers, so the sort of the recommender compares
      them with a strict weak order and the result is the one solution of
      the specification [recommends], with no condition on the scores;
    - the similarities that rank the movies for the content filter are
      numbers between 0 and 1, and that of the reference movie with itself
      is 1, so no movie is ranked for being more similar to the reference
      than the reference is.

    The mathematics is the Cauchy-Schwarz inequality on lists of reals,
    proved here by induction on the lists. *)

From Stdlib Require Import ZArith Reals Lra Psatz.
From stdpp Require Import list strings.
From S2P Require Import Prelude Scalar Frame Similarity Collaborative.
From S2P Require Import Content Dataset.

(** ** The interface *)

(** The real a scalar stands for when it is not NaN. *)
Class Val (T : Type) : Type := val : T → R.

Definition rep {T} `{Scalar T} `{Val T} (x : T) (r : R) : Prop :=
  isnan x = false ∧ val x = r.

Class ScalarExact (T : Type) `{Scalar T} `{Val T} : Prop := {
  exact_zero : rep (zero : T) 0%R;
  exact_one : rep (one : T) 1%R;
  exact_nan : isnan (nan : T) = true;
  exact_of_Z : ∀ z, rep (of_Z z : T) (IZR z);
  exact_add : ∀ (x y : T) r s, rep x r → rep y s → rep (x + y)%sc (r + s)%R;
  exact_mul : ∀ (x y : T) r s, rep x r → rep y s → rep (x * y)%sc (r * s)%R;
  exact_div : ∀ (x y : T) r s,
    rep x r → rep y s → s ≠ 0%R → rep (x / y)%sc (r / s)%R;
  exact_sqrt : ∀ (x : T) r, rep x r → (0 <= r)%R → rep (sqrt x) (R_sqrt.sqrt r);
  exact_ltb : ∀ (x y : T) r s, rep x r → rep y s → (x <? y)%sc = true ↔ (r < s)%R;
  exact_eqb : ∀ (x y : T) r s, rep x r → rep y s → (x =? y)%sc = true ↔ r = s;
}.

(** ** The instance: the reals and NaN *)

Definition ideal : Type := option R.

Definition lift2 (f : R → R → R) (x y : ideal) : ideal :=
  match x, y with Some r, Some s => Some (f r s) | _, _ => None end.

#[export] Instance ideal_scalar : Scalar ideal := {|
  zero := Some 0%R;
  one := Some 1%R;
  nan := None;
  add := lift2 Rplus;
  mul := lift2 Rmult;
  div x y :=
    match x, y with
    | Some r, Some s => if Req_dec_T s 0 then None else Some (r / s)%R
    | _, _ => None
    end;
  sqrt x :=
    match x with
    | Some r => if Rlt_dec r 0 then None else Some (R_sqrt.sqrt r)
    | None => None
    end;
  ltb x y :=
    match x, y with
    | Some r, Some s => if Rlt_dec r s then true else false
    | _, _ => false
    end;
  eqb x y :=
    match x, y with
    | Some r, Some s => if Req_dec_T r s then true else false
    | _, _ => false
    end;
  isnan x := match x with Some _ => false | None => true end;
  of_Z z := Some (IZR z);
|}.

#[export] Instance ideal_val : Val ideal := λ x, default 0%R x.

Lemma rep_ideal (x : ideal) r : rep x r ↔ x = Some r.
Proof.
  unfold rep, val, ideal_val. destruct x as [r'|]; simpl; [|by split; [intros []|]].
  split; [by intros [_ ->]|by intros [= ->]].
Qed.

#[export] Instance ideal_exact : ScalarExact ideal.
Proof.
  split; try done; intros *; rewrite !rep_ideal.
  - by intros -> ->.
  - by intros -> ->.
  - intros -> -> ?; simpl. by destruct (Req_dec_T s 0).
  - intros -> ?; simpl. destruct (Rlt_dec r 0); [lra|done].
  - intros -> ->; simpl. by destruct (Rlt_dec r s).
  - intros -> ->; simpl. by destruct (Req_dec_T r s).
Qed.

#[export] Instance ideal_comm : ScalarComm ideal.
Proof.
  split; intros [x|] [y|]; simpl; try done; f_equal;
    [apply Rplus_comm|apply Rmult_comm].
Qed.

#[export] Instance ideal_order : ScalarOrder ideal.
Proof.
  split; [intros [x|] [y|]; simpl; try done|by intros [x|] y|by intros [x|] [y|]].
  destruct (Rlt_dec x y), (Rlt_dec y x); try done. lra.
Qed.

#[export] Instance ideal_weak_order : ScalarWeakOrder ideal.
Proof.
  split. intros [x|] [y|] [z|]; simpl; try done.
  destruct (Rlt_dec x y), (Rlt_dec y z), (Rlt_dec x z); try done. lra.
Qed.

#[export] Instance ideal_nan : ScalarNaN ideal.
Proof. by split. Qed.

(** ** The cosine of two lists of reals *)

Local Open Scope R_scope.

Definition rsum (l : list R) : R := foldr Rplus 0 l.
Definition rdot (a b : list R) : R := rsum (zip_with Rmult a b).
Definition rnorm (a : list R) : R := R_sqrt.sqrt (rdot a a).
Definition nz (r : R) : R := if Req_dec_T r 0 then 1 else r.
Definition cosine (a b : list R) : R := rdot a b / (nz (rnorm a) * nz (rnorm b)).

Section reals.
Implicit Types a b : list R.

Lemma rdot_cons x y a b : rdot (x :: a) (y :: b) = x * y + rdot a b.
Proof. done. Qed.

Lemma rdot_self_nonneg a : 0 <= rdot a a.
Proof. induction a as [|x a IH]; [unfold rdot; simpl; lra|]. rewrite rdot_cons. nra. Qed.

Lemma rdot_nonneg a b : Forall (Rle 0) a → Forall (Rle 0) b → 0 <= rdot a b.
Proof.
  intros Ha. revert b. induction Ha as [|x a Hx Ha IH]; intros b Hb.
  - unfold rdot; simpl; lra.
  - destruct Hb as [|y b Hy Hb]; [unfold rdot; simpl; lra|].
    rewrite rdot_cons. specialize (IH b Hb). nra.
Qed.

Lemma rdot_self_zero a r : r ∈ a → rdot a a = 0 → r = 0.
Proof.
  induction a as [|x a IH]; [by intros ?%elem_of_nil|].
  rewrite rdot_cons. pose proof (rdot_self_nonneg a).
  intros [->|Hr]%elem_of_cons Hz; [nra|]. apply IH; [done|nra].
Qed.

(** One more coordinate keeps the inequality of Cauchy and Schwarz. *)
Lemma cauchy_schwarz_step A P Q x y :
  0 <= P → 0 <= Q → A * A <= P * Q →
  (x * y + A) * (x * y + A) <= (x * x + P) * (y * y + Q).
Proof.
  intros HP HQ HA.
  assert (2 * A * x * y <= P * y * y + Q * x * x) as Hm; [|nra].
  destruct (Req_dec_T P 0) as [->|HP0].
  - assert (A = 0) as -> by nra. nra.
  - apply (Rmult_le_reg_l P); [lra|].
    assert (0 <= (P * y - A * x) * (P * y - A * x) + (P * Q - A * A) * (x * x))
      by (apply Rplus_le_le_0_compat; [apply Rle_0_sqr|];
          apply Rmult_le_pos; [lra|apply Rle_0_sqr]).
    lra.
Qed.

Lemma cauchy_schwarz a b : rdot a b * rdot a b <= rdot a a * rdot b b.
Proof.
  assert (∀ a b, rdot a b = 0 → rdot a b * rdot a b <= rdot a a * rdot b b) as H0.
  { intros a' b' ->. rewrite Rmult_0_l.
    apply Rmult_le_pos; apply rdot_self_nonneg. }
  revert b. induction a as [|x a IH]; intros [|y b]; [by apply H0..|].
  rewrite !rdot_cons. apply cauchy_schwarz_step; auto using rdot_self_nonneg.
Qed.

Lemma rnorm_nonneg a : 0 <= rnorm a.
Proof. apply sqrt_pos. Qed.

Lemma rnorm_sqr a : rnorm a * rnorm a = rdot a a.
Proof. apply sqrt_sqrt, rdot_self_nonneg. Qed.

Lemma nz_pos r : 0 <= r → 0 < nz r.
Proof. unfold nz. destruct (Req_dec_T r 0); lra. Qed.

Lemma nz_norm_pos a : 0 < nz (rnorm a).
Proof. apply nz_pos, rnorm_nonneg. Qed.

Lemma rdot_abs_le a b : - (rnorm a * rnorm b) <= rdot a b <= rnorm a * rnorm b.
Proof.
  assert (Rabs (rdot a b) <= rnorm a * rnorm b) as Habs.
  { unfold rnorm. rewrite <- sqrt_mult by apply rdot_self_nonneg.
    rewrite <- sqrt_Rsqr_abs. apply sqrt_le_1_alt, cauchy_schwarz. }
  pose proof (Rle_abs (rdot a b)). pose proof (Rle_abs (- rdot a b)) as Hn.
  rewrite Rabs_Ropp in Hn. lra.
Qed.

Lemma nz_norm_mul_ge a b : rnorm a * rnorm b <= nz (rnorm a) * nz (rnorm b).
Proof.
  pose proof (rnorm_nonneg a). pose proof (rnorm_nonneg b).
  unfold nz. destruct (Req_dec_T (rnorm a) 0), (Req_dec_T (rnorm b) 0); nra.
Qed.

Lemma div_between lo hi q d : 0 < d → lo * d <= q <= hi * d → lo <= q / d <= hi.
Proof.
  intros Hd Hq.
  split; apply (Rmult_le_reg_r d); [done| |done|]; unfold Rdiv;
    rewrite Rmult_assoc, Rinv_l by lra; lra.
Qed.

(** The cosine of two vectors lies between -1 and 1. *)
Lemma cosine_bounds a b : -1 <= cosine a b <= 1.
Proof.
  pose proof (rdot_abs_le a b). pose proof (nz_norm_mul_ge a b).
  apply div_between; [|lra].
  apply Rmult_lt_0_compat; apply nz_norm_pos.
Qed.

(** The cosine of a vector that is not zero with itself is one. *)
Lemma cosine_self a : rdot a a ≠ 0 → cosine a a = 1.
Proof.
  intros Ha. pose proof (rnorm_sqr a) as Hs. unfold cosine, nz.
  destruct (Req_dec_T (rnorm a) 0) as [E|E]; [rewrite E in Hs; lra|].
  rewrite Hs. by apply Rdiv_diag.
Qed.

(** The cosine of two vectors without a negative coordinate is not
    negative. *)
Lemma cosine_nonneg a b : Forall (Rle 0) a → Forall (Rle 0) b → 0 <= cosine a b.
Proof.
  intros Ha Hb. apply Rmult_le_pos; [by apply rdot_nonneg|].
  apply Rlt_le, Rinv_0_lt_compat, Rmult_lt_0_compat; apply nz_norm_pos.
Qed.

Lemma rdot_scale a b c d :
  c ≠ 0 → d ≠ 0 →
  rdot ((λ x, x / c) <$> a) ((λ x, x / d) <$> b) = rdot a b / (c * d).
Proof.
  intros Hc Hd. revert b. induction a as [|x a IH]; intros [|y b]; simpl;
    try (unfold rdot; simpl; field; done).
  rewrite !rdot_cons, IH. by field.
Qed.

End reals.

(** ** The similarity table *)

Section exact.
Context {T : Type} `{Scalar T} `{Val T} `{!ScalarExact T}.
Implicit Types (a b : list T) (X Y : list (list T)).

(** A vector of numbers, and the reals it stands for. *)
Definition numbers a : Prop := Forall (λ x, isnan x = false) a.
Definition vals a : list R := val <$> a.

(** A number that is not negative; a number between 0 and 1. *)
Definition nonneg (x : T) : Prop := isnan x = false ∧ 0 <= val x.
Definition unit_interval (x : T) : Prop := isnan x = false ∧ 0 <= val x <= 1.

Lemma nonneg_numbers a : Forall nonneg a → numbers a ∧ Forall (Rle 0) (vals a).
Proof.
  intros Ha. split; [by eapply Forall_impl; [exact Ha|]; intros x []|].
  apply Forall_fmap. eapply Forall_impl; [exact Ha|]. by intros x [].
Qed.

Lemma rep_eq (x : T) r : rep x r → val x = r.
Proof. by intros [_ ?]. Qed.

Lemma foldl_dot_exact a b (acc : T) r :
  rep acc r → numbers a → numbers b →
  rep (foldl (λ acc p, (acc + p.1 * p.2)%sc) acc (zip a b))
      (r + rdot (vals a) (vals b)).
Proof.
  intros Hacc Ha. revert b acc r Hacc.
  induction Ha as [|x a Hx Ha IH]; intros b acc r Hacc Hb.
  { unfold rdot; simpl. by rewrite Rplus_0_r. }
  destruct Hb as [|y b Hy Hb]; [unfold rdot; simpl; by rewrite Rplus_0_r|].
  simpl. rewrite rdot_cons, <- Rplus_assoc. apply IH; [|done].
  by apply exact_add; [|apply exact_mul].
Qed.

Lemma dot_exact a b :
  numbers a → numbers b → rep (dot a b) (rdot (vals a) (vals b)).
Proof.
  intros Ha Hb. rewrite <- (Rplus_0_l (rdot _ _)).
  apply foldl_dot_exact; [apply exact_zero|done..].
Qed.

Lemma row_norm_exact a : numbers a → rep (row_norm a) (rnorm (vals a)).
Proof.
  intros Ha. apply exact_sqrt; [by apply dot_exact|apply rdot_self_nonneg].
Qed.

Lemma divisor_exact a :
  numbers a →
  rep (if (row_norm a =? zero)%sc then one else row_norm a) (nz (rnorm (vals a))).
Proof.
  intros Ha. pose proof (row_norm_exact a Ha) as Hn.
  pose proof (exact_eqb _ _ _ _ Hn exact_zero) as Heq. unfold nz.
  destruct (Req_dec_T (rnorm (vals a)) 0) as [E|E].
  - rewrite (proj2 Heq E). apply exact_one.
  - destruct (row_norm a =? zero)%sc; [by destruct E; apply Heq|done].
Qed.

Lemma normalize_row_exact a :
  numbers a →
  numbers (normalize_row a) ∧
  vals (normalize_row a) = (λ x, x / nz (rnorm (vals a))) <$> vals a.
Proof.
  intros Ha. pose proof (divisor_exact a Ha) as Hd.
  pose proof (nz_norm_pos (vals a)) as Hpos.
  assert (∀ x : T, isnan x = false →
    rep (x / (if (row_norm a =? zero)%sc then one else row_norm a))%sc
        (val x / nz (rnorm (vals a)))) as Hq.
  { intros x Hx. apply exact_div; [done..|lra]. }
  unfold normalize_row, numbers, vals. split.
  - apply Forall_fmap. eapply Forall_impl; [exact Ha|]. intros x Hx. by apply Hq.
  - rewrite <- !list_fmap_compose. apply Forall_fmap_ext.
    eapply Forall_impl; [exact Ha|]. intros x Hx. by apply Hq.
Qed.

(** The dot product of two normalised rows stands for the cosine of the
    rows. *)
Lemma cell_exact a b :
  numbers a → numbers b →
  rep (dot (normalize_row a) (normalize_row b)) (cosine (vals a) (vals b)).
Proof.
  intros [Ha Ea]%normalize_row_exact [Hb Eb]%normalize_row_exact.
  pose proof (nz_norm_pos (vals a)). pose proof (nz_norm_pos (vals b)).
  unfold cosine. rewrite <- rdot_scale, <- Ea, <- Eb by lra. by apply dot_exact.
Qed.

Lemma cosine_similarity2_cell_exact X Y i j c :
  Forall numbers X → Forall numbers Y →
  cosine_similarity2 X Y !! i ≫= (.!! j) = Some c →
  ∃ x y, X !! i = Some x ∧ Y !! j = Some y ∧ rep c (cosine (vals x) (vals y)).
Proof.
  intros HX HY. rewrite cosine_similarity2_cell.
  destruct (X !! i) as [x|] eqn:Ex; simpl; [|done].
  destruct (Y !! j) as [y|] eqn:Ey; simpl; [|done].
  intros [= <-]. exists x, y. split_and!; [done..|].
  apply cell_exact;
    [exact (Forall_lookup_1 _ _ _ _ HX Ex)|exact (Forall_lookup_1 _ _ _ _ HY Ey)].
Qed.

(** The table of two matrices without a negative cell holds numbers
    between 0 and 1. *)
Lemma cosine_similarity2_unit X Y :
  Forall (Forall nonneg) X → Forall (Forall nonneg) Y →
  Forall (Forall unit_interval) (cosine_similarity2 X Y).
Proof.
  intros HX HY. unfold cosine_similarity2, normalize.
  apply Forall_fmap, Forall_fmap. eapply Forall_impl; [exact HX|].
  intros a [Ha Ha0]%nonneg_numbers; simpl. apply Forall_fmap, Forall_fmap.
  eapply Forall_impl; [exact HY|]. intros b [Hb Hb0]%nonneg_numbers; simpl.
  destruct (cell_exact a b Ha Hb) as [Hn Hv]. split; [done|]. rewrite Hv.
  split; [by apply cosine_nonneg|apply cosine_bounds].
Qed.

(** The diagonal of the table of one matrix holds 1 at every row that is
    not zero. *)
Lemma cosine_similarity_diagonal X i a (x c : T) :
  Forall numbers X → X !! i = Some a → x ∈ a → val x ≠ 0 →
  cosine_similarity X !! i ≫= (.!! i) = Some c → rep c 1.
Proof.
  intros HX Ha Hx Hv (a1 & a2 & Ha1 & Ha2 & Hc)%cosine_similarity2_cell_exact;
    [|done..].
  rewrite Ha in Ha1, Ha2. injection Ha1 as <-. injection Ha2 as <-.
  rewrite <- (cosine_self (vals a)); [done|].
  intros Hz. apply Hv, (rdot_self_zero (vals a)); [|done].
  apply list_elem_of_fmap. by exists x.
Qed.

(** C31: on exact arithmetic the table of two matrices without NaN has, at
    row [i] and column [j], a number that stands for the cosine of row [i]
    of the first and row [j] of the second. *)
Theorem cosine_similarity2_exact X Y i j x y :
  Forall numbers X → Forall numbers Y → X !! i = Some x → Y !! j = Some y →
  ∃ c, cosine_similarity2 X Y !! i ≫= (.!! j) = Some c ∧
       rep c (cosine (vals x) (vals y)).
Proof.
  intros HX HY Hx Hy. exists (dot (normalize_row x) (normalize_row y)).
  rewrite cosine_similarity2_cell, Hx; simpl. rewrite Hy; simpl.
  split; [done|].
  apply cell_exact;
    [exact (Forall_lookup_1 _ _ _ _ HX Hx)|exact (Forall_lookup_1 _ _ _ _ HY Hy)].
Qed.

End exact.

(** ** The similarity of the users *)

Section tables.
Context {T : Type} `{Scalar T} `{Val T} `{!ScalarExact T}.
Implicit Types (ratings : DataFrame T) (a : list T) (u v m : string).

(** Every rating of the table is NaN or a number between [lo] and [hi]. *)
Definition ratings_within (lo hi : R) ratings : Prop :=
  Forall (Forall (λ x, isnan x = false → lo <= val x <= hi)) (values ratings).

Lemma filled_numbers ratings :
  Forall numbers (values (df_T (fillna zero ratings))).
Proof. apply Forall_transpose, fillna_no_nan, exact_zero. Qed.

Lemma filled_rows lo hi ratings :
  0 <= lo → ratings_within lo hi ratings →
  Forall (Forall nonneg) (values (df_T (fillna zero ratings))).
Proof.
  intros Hlo Hr. apply Forall_transpose, Forall_fmap.
  eapply Forall_impl; [exact Hr|]. intros row Hrow. apply Forall_fmap.
  eapply Forall_impl; [exact Hrow|]. intros x Hx; simpl.
  destruct (isnan x) eqn:E; [|split; [done|]; specialize (Hx E); lra].
  split; [apply exact_zero|]. rewrite (rep_eq _ _ exact_zero). lra.
Qed.

Lemma sim_matrix_unit lo hi ratings :
  0 <= lo → ratings_within lo hi ratings →
  Forall (Forall unit_interval) (values (Main.user_sim_matrix ratings)).
Proof.
  intros Hlo Hr. pose proof (filled_rows lo hi ratings Hlo Hr).
  by apply cosine_similarity2_unit.
Qed.

Lemma user_sim_matrix_loc_is_Ok ratings u v :
  df_wf ratings → u ∈ columns ratings → v ∈ columns ratings →
  is_Ok (df_loc (Main.user_sim_matrix ratings) u v).
Proof. intros Hwf Hu Hv. by apply df_loc_is_Ok; [apply user_sim_matrix_wf|..]. Qed.

(** On exact arithmetic, with every rating between [lo] and [hi] and [lo]
    not negative, the similarity of two users of the table is a number
    between 0 and 1. *)
Theorem user_sim_matrix_bounds lo hi ratings u v :
  df_wf ratings → 0 <= lo → ratings_within lo hi ratings →
  u ∈ columns ratings → v ∈ columns ratings →
  ∃ c, df_loc (Main.user_sim_matrix ratings) u v = Ok c ∧ unit_interval c.
Proof.
  intros Hwf Hlo Hr Hu Hv.
  destruct (user_sim_matrix_loc_is_Ok ratings u v Hwf Hu Hv) as [c Hc].
  exists c. split; [done|].
  apply df_loc_cell in Hc as (i & j & _ & _ & Hc).
  destruct (values (Main.user_sim_matrix ratings) !! i) as [row|] eqn:Ei; [|done].
  exact (Forall_lookup_1 _ _ _ _
           (Forall_lookup_1 _ _ _ _ (sim_matrix_unit lo hi ratings Hlo Hr) Ei) Hc).
Qed.

(** C32: on exact arithmetic the similarity of a user with themself is 1, as
    soon as one of their ratings is not zero. *)
Theorem user_sim_matrix_diagonal ratings u m (x : T) :
  df_wf ratings →
  df_loc ratings m u = Ok x → isnan x = false → val x ≠ 0 →
  ∃ c, df_loc (Main.user_sim_matrix ratings) u u = Ok c ∧ rep c 1.
Proof.
  intros Hwf Hx Hnan Hv. destruct (df_loc_Ok_inv _ _ _ _ Hx) as [Hm Hu].
  destruct (user_sim_matrix_loc_is_Ok ratings u u Hwf Hu Hu) as [c Hc].
  exists c. split; [done|].
  apply df_loc_cell in Hc as (i & j & Hi & Hj & Hc).
  simpl in Hi, Hj. rewrite Hi in Hj. injection Hj as <-.
  apply (fillna_loc_number zero) in Hx; [|done].
  rewrite <- df_T_loc in Hx by (done || by apply fillna_wf).
  apply df_loc_cell in Hx as (i' & j' & Hi' & _ & Hx). simpl in Hi'.
  rewrite Hi in Hi'. injection Hi' as <-.
  destruct (values (df_T (fillna zero ratings)) !! i) as [a|] eqn:Ha; [|done].
  apply (cosine_similarity_diagonal _ i a x c (filled_numbers ratings) Ha);
    [by eapply list_elem_of_lookup_2|done..].
Qed.

End tables.

(** ** The score of a movie *)

Section scores.
Context {T : Type} `{Scalar T} `{Val T} `{!ScalarExact T}.
Implicit Types (ratings : DataFrame T) (s : Series T) (users : list string).

(** The invariant of the inner loop: the two sums stand for reals [R] and
    [S], the second not negative, with [R] between [lo * S] and [hi * S]. *)
Definition sums_between (lo hi : R) (rating_sum sim_sum : T) : Prop :=
  ∃ R S, rep rating_sum R ∧ rep sim_sum S ∧ 0 <= S ∧ lo * S <= R <= hi * S.

(** What the theorems say of a score: zero, or a number between [lo] and
    [hi]. *)
Definition score_within (lo hi : R) (score : T) : Prop :=
  score = zero ∨ ∃ r, rep score r ∧ lo <= r <= hi.

Lemma sums_between_zero lo hi : sums_between lo hi zero zero.
Proof. exists 0, 0. split_and!; [apply exact_zero..|lra|lra|lra]. Qed.

Lemma sums_between_add lo hi (rs ss x c : T) :
  sums_between lo hi rs ss → isnan x = false → lo <= val x <= hi → nonneg c →
  sums_between lo hi (rs + x * c)%sc (ss + c)%sc.
Proof.
  intros (R & S & HR & HS & HS0 & Hb) Hx Hv [Hc Hc0].
  exists (R + val x * val c), (S + val c). split_and!.
  - by apply exact_add; [|apply exact_mul].
  - by apply exact_add.
  - lra.
  - nra.
  - nra.
Qed.

Lemma sums_between_div lo hi (rs ss : T) :
  sums_between lo hi rs ss →
  score_within lo hi (if (ss >? zero)%sc then (rs / ss)%sc else zero).
Proof.
  intros (R & S & HR & HS & HS0 & Hb). unfold gtb.
  pose proof (exact_ltb _ _ _ _ exact_zero HS) as Hlt.
  destruct (zero <? ss)%sc; [right|by left].
  assert (0 < S) as Hpos by by apply Hlt.
  exists (R / S). split; [apply exact_div; [done..|lra]|by apply div_between].
Qed.

(** The score of a movie is zero or lies between the least and the largest
    rating the neighbours gave it, when no weight is negative. *)
Lemma score_movie_between ratings s users (m : string) lo hi (score : T) d :
  (∀ u x, u ∈ users → df_loc ratings m u = Ok x → isnan x = false →
     lo <= val x <= hi) →
  (∀ u c, u ∈ users → series_get s u = Ok c → nonneg c) →
  Main.score_movie ratings s users m = Ok (score, d) →
  score_within lo hi score.
Proof.
  intros Hr Hs ([[rs ss] d'] & Hloop & [= <- _])%bind_Ok.
  apply (sums_between_div lo hi). revert Hloop.
  apply (foldlM_invariant (λ _ acc, sums_between lo hi acc.1.1 acc.1.2));
    [apply sums_between_zero|].
  intros pre u [[rs' ss'] d0] acc' Hu%prefix_snoc_elem_of Hacc.
  unfold Main.score_step. intros (x & Hx & Hstep)%bind_Ok.
  destruct (isnan x) eqn:Hnan; simpl in Hstep; [by injection Hstep as <-|].
  apply bind_Ok in Hstep as (c & Hc & [= <-]); simpl.
  apply sums_between_add; eauto.
Qed.

Lemma ratings_within_loc lo hi ratings (m u : string) x :
  ratings_within lo hi ratings → df_loc ratings m u = Ok x →
  isnan x = false → lo <= val x <= hi.
Proof.
  intros Hr (i & j & _ & _ & Hx)%df_loc_cell.
  destruct (values ratings !! i) as [row|] eqn:Ei; simpl in Hx; [|done].
  eapply (Forall_lookup_1 _ _ _ _ (Forall_lookup_1 _ _ _ _ Hr Ei) Hx).
Qed.

Lemma sim_scores_nonneg lo hi ratings (u : string) s :
  0 <= lo → ratings_within lo hi ratings →
  Main.sim_scores_for u ratings = Ok s → Forall (λ p, nonneg p.2) s.
Proof.
  intros Hlo Hr (row & Hrow & Hs)%bind_Ok.
  pose proof (sim_matrix_unit lo hi ratings Hlo Hr) as Hu.
  apply series_drop_Ok in Hs as [_ ->].
  revert Hu Hrow. generalize (Main.user_sim_matrix ratings). intros M Hu Hrow.
  unfold df_loc_row in Hrow. apply bind_Ok in Hrow as (i & _ & [= <-]).
  apply Forall_forall. intros [v c] [_ Hc%elem_of_zip_r]%list_elem_of_filter.
  destruct (values M !! i) as [a|] eqn:Ea; [|by apply elem_of_nil in Hc].
  destruct (proj1 (Forall_forall _ _) (Forall_lookup_1 _ _ _ _ Hu Ea) c Hc)
    as (? & ? & _).
  by split.
Qed.

(** With every rating between [lo] and [hi] and [lo] not negative, a score
    of the recommender is zero or between [lo] and [hi]. *)
Lemma score_movie_within lo hi ratings (u m : string) s (score : T) d :
  0 <= lo → ratings_within lo hi ratings →
  Main.sim_scores_for u ratings = Ok s →
  Main.score_movie ratings s (Main.similar_users s) m = Ok (score, d) →
  score_within lo hi score.
Proof.
  intros Hlo Hr Hs. apply score_movie_between.
  - intros v x _. by apply ratings_within_loc.
  - intros v c _ Hc%series_get_elem_of.
    by apply (proj1 (Forall_forall _ _) (sim_scores_nonneg lo hi _ _ _ Hlo Hr Hs) (v, c)).
Qed.

Lemma score_within_number lo hi (x : T) : score_within lo hi x → isnan x = false.
Proof. intros [->|(r & [Hn _] & _)]; [apply exact_zero|done]. Qed.

(** C30: on exact arithmetic, with every rating between [lo] and [hi] and [lo]
    not negative, the recommender gives every movie of the table a score,
    for every user of the table, and the score is zero or a number between
    [lo] and [hi]. *)
Theorem score_in_range ratings (u m : string) lo hi :
  df_wf ratings → u ∈ columns ratings → m ∈ index ratings →
  0 <= lo → ratings_within lo hi ratings →
  ∃ s score d,
    Main.sim_scores_for u ratings = Ok s ∧
    Main.score_movie ratings s (Main.similar_users s) m = Ok (score, d) ∧
    score_within lo hi score.
Proof.
  intros Hwf Hu Hm Hlo Hr.
  destruct (sim_scores_for_is_Ok u ratings Hwf Hu) as [s Hs].
  destruct (score_movie_is_Ok ratings s (Main.similar_users s) m Hwf Hm)
    as [[score d] Hscore].
  { intros v Hv. split; [by eapply similar_users_columns|].
    by apply similar_users_elem_of. }
  exists s, score, d. split_and!; [done..|]. by eapply score_movie_within.
Qed.

End scores.

(** ** The ranking *)

Section exact_ranking.
Context {T : Type} `{Scalar T} `{Val T} `{!ScalarExact T}.
Context `{!ScalarOrder T} `{!ScalarWeakOrder T}.
Implicit Types (ratings : DataFrame T) (s : Series T) (u : string).

(** With ratings in a range every score is a number, so the comparison of
    the sort is a strict weak order on the scores. *)
Lemma scores_are_numbers lo hi ratings u s unrated :
  df_wf ratings → 0 <= lo → ratings_within lo hi ratings →
  Main.sim_scores_for u ratings = Ok s → isna_index ratings u = Ok unrated →
  Forall (λ m, score_is_number ratings s m = true) unrated.
Proof.
  intros Hwf Hlo Hr Hs Hun. apply Forall_forall. intros m Hm.
  assert (m ∈ index ratings) as Hidx.
  { apply (isna_index_elem_of _ _ _ _ Hwf Hun) in Hm as (x & Hx & _).
    by destruct (df_loc_Ok_inv _ _ _ _ Hx). }
  destruct (score_movie_is_Ok ratings s (Main.similar_users s) m Hwf Hidx)
    as [[score d] Hscore].
  { intros v Hv. split; [by eapply similar_users_columns|].
    by apply similar_users_elem_of. }
  unfold score_is_number. rewrite Hscore. apply negb_true_iff.
  eapply score_within_number, score_movie_within; eauto.
Qed.

(** C29: on exact arithmetic, with ratings in a range that is not negative, the
    recommender returns for every user of the table, and what it returns is
    the one solution of its specification: the first [top_n] of the
    unrated movies in decreasing order of score, ties in the order of the
    rows. *)
Theorem recommend_collaborative_exact lo hi u ratings (n : Z) (e : bool) :
  df_wf ratings → u ∈ columns ratings → 0 <= lo → ratings_within lo hi ratings →
  ∃ recs expl sim,
    Main.recommend_collaborative u ratings n e = Ok (recs, expl, sim) ∧
    recommends u ratings n recs ∧
    ∀ recs', recommends u ratings n recs' → recs' = recs.
Proof.
  intros Hwf Hu Hlo Hr.
  destruct (recommend_collaborative_is_Ok u ratings n e Hwf Hu)
    as [[[recs expl] sim] Hrec].
  destruct (sim_scores_for_is_Ok u ratings Hwf Hu) as [s Hs].
  destruct (proj2 (isna_index_is_Ok ratings u) Hu) as [unrated Hun].
  pose proof (scores_are_numbers lo hi ratings u s unrated Hwf Hlo Hr Hs Hun) as Hnum.
  destruct (recommend_collaborative_ranked _ _ _ _ _ _ _ _ _ Hwf Hrec Hs Hun Hnum)
    as (scores & Hk & Hsc & Hst & ->).
  eexists _, expl, sim. split; [done|].
  split; [by exists s, unrated, scores, (sorted_reverse by_score scores)|].
  intros recs' Hrecs'. by eapply recommends_unique.
Qed.

End exact_ranking.

(** ** The similarities of the genres *)

Section genres.
Context {T : Type} `{Scalar T} `{Val T} `{!ScalarExact T}.
Implicit Types (gm : DataFrame Z) (t g : string).

Lemma of_Z_nonneg (z : Z) : (0 <= z)%Z → nonneg (of_Z z : T).
Proof.
  intros Hz. destruct (exact_of_Z z) as [Hn Hv]. split; [done|].
  rewrite Hv. by apply IZR_le.
Qed.

Lemma to_float_rows_nonneg (M : list (list Z)) :
  Forall (Forall (Z.le 0)) M → Forall (Forall nonneg) (to_float_rows (T:=T) M).
Proof.
  intros HM. apply Forall_fmap. eapply Forall_impl; [exact HM|].
  intros row Hrow; simpl. apply Forall_fmap.
  eapply Forall_impl; [exact Hrow|]. intros z Hz. by apply of_Z_nonneg.
Qed.

Lemma to_float_rows_numbers (M : list (list Z)) :
  Forall numbers (to_float_rows (T:=T) M).
Proof.
  apply Forall_fmap, Forall_true. intros row; simpl.
  apply Forall_fmap, Forall_true. intros z. apply exact_of_Z.
Qed.

(** On exact arithmetic the similarities that rank the movies are numbers
    between 0 and 1, and the similarity of the reference movie with itself
    is 1: no movie is more similar to the reference than the reference. *)
Theorem similarities_reference gm t g (z : Z) :
  df_wf gm → Forall (Forall (Z.le 0)) (values gm) →
  df_loc gm t g = Ok z → z ≠ 0%Z →
  ∃ (sims : list T) i c,
    similarities gm t = Ok sims ∧ index gm !! i = Some t ∧
    sims !! i = Some c ∧ rep c 1 ∧ Forall unit_interval sims.
Proof.
  intros Hwf Hpos (i & j & Hi & _ & Hz)%df_loc_cell Hz0.
  destruct (values gm !! i) as [row|] eqn:Hrow; [simpl in Hz|done].
  assert (is_Ok (similarities (T:=T) gm t)) as [sims Hs].
  { unfold similarities, df_loc_row, get_loc. rewrite Hi; simpl. by eexists. }
  destruct (similarities_table_row gm t sims Hwf Hs) as (i' & Hi' & Hsims).
  assert (i' = i) as ->.
  { exact (NoDup_lookup _ _ _ _ (proj1 Hwf) Hi' (index_of_Some _ _ _ Hi)). }
  pose proof (cosine_similarity2_cell (to_float_rows (T:=T) (values gm))
                (to_float_rows (values gm)) i i) as Hcell.
  unfold cosine_similarity in Hsims. rewrite Hsims in Hcell; simpl in Hcell.
  unfold to_float_rows in Hcell at 1 2. rewrite list_lookup_fmap, Hrow in Hcell.
  simpl in Hcell. eexists sims, i, _. split_and!; [done..| |].
  - apply (cosine_similarity_diagonal _ i (of_Z <$> row) (of_Z z) _
             (to_float_rows_numbers (values gm))).
    + unfold to_float_rows. by rewrite list_lookup_fmap, Hrow.
    + apply list_elem_of_fmap. exists z. split; [done|].
      by eapply list_elem_of_lookup_2.
    + rewrite (rep_eq _ _ (exact_of_Z z)). by apply not_0_IZR.
    + unfold cosine_similarity. by rewrite Hsims.
  - pose proof (to_float_rows_nonneg _ Hpos) as Hn.
    exact (Forall_lookup_1 _ _ _ _ (cosine_similarity2_unit _ _ Hn Hn) Hsims).
Qed.

End genres.

(** ** The sample data *)

Section data.
Context {T : Type} `{Scalar T} `{Val T} `{!ScalarExact T}.

Lemma rating_cell (z : Z) :
  (1 <= z <= 5)%Z → isnan (of_Z z : T) = false → 1 <= val (of_Z z : T) <= 5.
Proof.
  intros [H1 H5] _. rewrite (rep_eq _ _ (exact_of_Z z)).
  split; apply IZR_le; lia.
Qed.

Lemma nan_cell lo hi : isnan (nan : T) = false → lo <= val (nan : T) <= hi.
Proof. by rewrite exact_nan. Qed.

(** Every rating of the sample data is between 1 and 5. *)
Lemma ratings_df_within : ratings_within 1 5 (ratings_df (T:=T)).
Proof.
  unfold ratings_within.
  let v := eval vm_compute in (values (ratings_df (T:=T))) in
    change (values (ratings_df (T:=T))) with v.
  repeat first [apply Forall_nil_2 | apply Forall_cons_2];
    first [apply nan_cell | apply rating_cell; lia].
Qed.

End data.

(** ** The theorems at the sample data *)

Lemma cosine_similarity2_exact_witness :
  ∃ c : ideal,
    cosine_similarity2 [[Some 3; Some 4]] [[Some 4; Some 3]] !! 0%nat ≫= (.!! 0%nat)
      = Some c ∧
    rep c (cosine [3; 4] [4; 3]).
Proof.
  refine (cosine_similarity2_exact (T:=ideal)
            [[Some 3; Some 4]] [[Some 4; Some 3]] 0 0 [Some 3; Some 4] [Some 4; Some 3]
            _ _ eq_refl eq_refl);
    by repeat constructor.
Defined.

Lemma user_sim_matrix_bounds_witness :
  ∃ c : ideal,
    df_loc (Main.user_sim_matrix ratings_df) "User1" "User2" = Ok c ∧ unit_interval c.
Proof.
  apply (user_sim_matrix_bounds 1 5 (ratings_df (T:=ideal)) "User1" "User2");
    [apply ratings_df_wf|lra|apply ratings_df_within|by_compute|by_compute].
Defined.

Lemma user_sim_matrix_diagonal_witness :
  ∃ c : ideal,
    df_loc (Main.user_sim_matrix ratings_df) "User1" "User1" = Ok c ∧ rep c 1.
Proof.
  apply (user_sim_matrix_diagonal (T:=ideal) ratings_df "User1" "Inception" (Some 5));
    [apply ratings_df_wf|reflexivity|reflexivity|].
  intros E. change (5 = 0) in E. lra.
Defined.

Lemma score_in_range_witness :
  ∃ (s : Series ideal) score d,
    Main.sim_scores_for "User1" ratings_df = Ok s ∧
    Main.score_movie ratings_df s (Main.similar_users s) "Interstellar"
      = Ok (score, d) ∧
    score_within 1 5 score.
Proof.
  apply (score_in_range (T:=ideal) ratings_df "User1" "Interstellar" 1 5);
    [apply ratings_df_wf|by_compute|by_compute|lra|apply ratings_df_within].
Defined.

Lemma recommend_collaborative_exact_witness :
  ∃ recs expl (sim : DataFrame ideal),
    Main.recommend_collaborative "User1" ratings_df 3 true = Ok (recs, expl, sim) ∧
    recommends "User1" ratings_df 3 recs ∧
    ∀ recs', recommends "User1" ratings_df 3 recs' → recs' = recs.
Proof.
  apply (recommend_collaborative_exact (T:=ideal) 1 5 "User1" ratings_df 3 true);
    [apply ratings_df_wf|by_compute|lra|apply ratings_df_within].
Defined.

Lemma similarities_reference_Inception :
  ∃ (sims : list ideal) i c,
    similarities genre_matrix "Inception" = Ok sims ∧
    index genre_matrix !! i = Some "Inception" ∧
    sims !! i = Some c ∧ rep c 1 ∧ Forall unit_interval sims.
Proof.
  apply (similarities_reference (T:=ideal) genre_matrix "Inception" "Sci-Fi" 1);
    [apply genre_matrix_wf|by_compute|by_eval|done].
Qed.
