(* ===== verification/Scenarios.v ===== *)
(** * Scenarios: the programs on their sample data

    The first part evaluates the recommenders, the command-line program
    and the form on the sample data of [Dataset], on binary64.  The
    statements are closed and proved by evaluation: what the program
    returns on its own data, including the cases where that is not what the
    specification promises (a count of zero or below, ties, a rating that is
    NaN, a rating outside 1 to 5 at the command line, a dialog of the form
    that was opened before a rating was stored, the diagonal of the
    similarity table).

    The second part applies each general theorem of the other files to the
    sample data, with its hypotheses established by evaluation.  The last
    part shows the conversions of [Pyfloat] on the texts of the sessions.

    [float()] is [py_float] throughout, and what a run wrote is the
    [transcript] of [Console]: the text of each line. *)

From Stdlib Require Import ZArith Floats Ascii.
From stdpp Require Import list strings sorting relations.
From S2P Require Import Prelude Sorting Scalar Float64 Frame Similarity.
From S2P Require Import Collaborative Content.
From S2P Require Import Text Pyfloat Rating Store Io Cli Gui Console Dataset.

Local Open Scope string_scope.

(** The result of [recommend_collaborative] without the similarity table:
    the movies and the explanation lines, each with the names of the
    neighbours it cites. *)
Definition summary {T} (r : list string * option (list (explain_line T)) * DataFrame T)
  : list string * option (list (string * list string)) :=
  (r.1.1, (fmap (M:=list) (λ l : explain_line T, (l.1, l.2.*1.*1))) <$> r.1.2).

(** The ratings on binary64. *)
Definition ratings64 : DataFrame float := ratings_df.

Abbreviation rec_collab := (Collaborative.Main.recommend_collaborative (T:=float)).
Abbreviation rec_content := (Content.Main.recommend_content_based (T:=float)).
Abbreviation submit := (Rating.GUI.submit_rating (T:=float)).

(** The ratings after User1 has rated Interstellar 4. *)
Definition ratings64' : DataFrame float :=
  df_loc_set nan ratings64 "Interstellar" "User1" 4%float.

(** An instance of the parameter [getint] of the form for the scenarios:
    the text of the entry read as a decimal integer, [TclError] otherwise.
    Tcl reads more texts as integers (hexadecimal, octal and binary
    literals) and [IntVar.get] falls back to a float; the theorems of
    [Gui] hold for every [getint]. *)
Definition tk_getint (s : string) : result Z :=
  match py_int s with Ok n => Ok n | Raise _ => Raise TclError end.

(** The command-line program before it reads the lines [inputs]. *)
Definition terminal (inputs : list string) : world (event float) float :=
  mkWorld inputs [] ratings64.

(** [main()] on the sample data. *)
Definition main64 : io (world (event float) float) unit :=
  Cli.main py_float movies_df genre_matrix all_genres.

(** The movies similar to a movie, as the form computes them on the sample
    data. *)
Definition similar_to (movie : string) (top_n : Z) : result (list string) :=
  Content.GUI.recommend_content_based (T:=float) genre_matrix movie top_n.

(** The form as it opens on the sample data. *)
Definition form : gui float :=
  mkGui movies_df ratings64 genre_matrix "Collaborative"
    ["User1"; "User2"; "User3"; "User4"; "User5"] "User1" titles "Inception" "3"
    "Recommendations will appear here." [] [].

(** The form after a sequence of actions. *)
Definition form_after (actions : list action) : gui float :=
  run tk_getint py_float actions form.

(** ** Scenarios on binary64 *)

(** For User1 and a count of three the program recommends Parasite,
    Interstellar and Fight Club, in that order, from the ratings of the two
    nearest users, User4 and User3. *)
Theorem scenario_collaborative_User1 :
  summary <$> Main.recommend_collaborative "User1" ratings64 3 false =
    Ok (["Parasite"; "Interstellar"; "Fight Club"], None) ∧
  Main.similar_users <$> Main.sim_scores_for "User1" ratings64 =
    Ok ["User4"; "User3"].
Proof. by vm_compute. Qed.

(** Explanation lines are not limited to the movies returned.  With a
    count of three, User1 gets three movies and four explanation lines, in
    the order of the rows of the frame and not of the ranking; the line of
    The Matrix explains a movie that is not recommended. *)
Theorem explanation_not_limited_to_result :
  summary <$> Main.recommend_collaborative "User1" ratings64 3 true =
    Ok (["Parasite"; "Interstellar"; "Fight Club"],
        Some [("Interstellar", ["User3"]); ("Fight Club", ["User4"; "User3"]);
              ("The Matrix", ["User4"]); ("Parasite", ["User4"; "User3"])]).
Proof. by vm_compute. Qed.

(** A negative count does not give an empty result: the slice
    [[:top_n]] drops that many movies from the end of the ranking.  User3
    has three unrated movies and gets two of them for a count of -1. *)
Theorem collaborative_negative_count :
  Collaborative.GUI.recommend_collaborative ratings64 "User3" (-1) =
    Ok ["Inception"; "The Matrix"] ∧
  Collaborative.GUI.recommend_collaborative ratings64 "User3" 0 = Ok [].
Proof. by vm_compute. Qed.

(** Among movies of equal similarity the content-based recommender
    returns the later rows first.  Five movies share one genre with
    Inception; for a count of two the program returns the last two of
    them, Parasite and Memento, and not the first two, Interstellar and
    Fight Club. *)
Theorem content_ties_latest_first :
  similar_to "Inception" 2 = Ok ["Parasite"; "Memento"] ∧
  Content.Main.overlap all_genres genre_matrix "Inception" "Parasite" = Ok ["Thriller"].
Proof. by vm_compute. Qed.

(** A count of zero does not give an empty result for every movie.
    The test [len(recs) == top_n] holds before anything is collected only
    when the reference movie comes first in the ranking; for Fight Club it
    does not, and the nine other movies are returned. *)
Theorem content_zero_count :
  similar_to "Inception" 0 = Ok [] ∧
  length <$> similar_to "Fight Club" 0 = Ok 9.
Proof. by vm_compute. Qed.

(** The range check of the form lets NaN through.  Both comparisons
    are false on NaN, so the text "nan" is stored with a success message,
    and the movie is still unrated afterwards. *)
Theorem submit_rating_accepts_nan :
  let r := submit py_float ratings64 "User1" "Interstellar" "nan" in
  stored r.2 = true ∧ isna_index r.1 "User1" = isna_index ratings64 "User1".
Proof. by vm_compute. Qed.


(** The command-line program stores a rating outside 1 to 5.  User1
    asks for recommendations with the default count, then rates
    Interstellar 11: the run ends normally and the cell holds 11. *)
Theorem cli_session_stores_out_of_range :
  let r := main64 (terminal ["1"; ""; "n"; "n"; "User1"; "y"; " Interstellar "; "11"]) in
  r.2 = Ok tt ∧
  df_loc (ratings r.1) "Interstellar" "User1" = Ok 11%float ∧
  transcript r.1 =
    ["Welcome to the Advanced Movie Recommendation System!";
     "Choose recommendation type:";
     "1. Collaborative Filtering (by user)";
     "2. Content-Based Filtering (by movie genres)";
     "Enter 1 or 2: ";
     "How many recommendations would you like? [Default 3]: ";
     "Visualize similarity matrix? (y/n): ";
     "Explain recommendations? (y/n): ";
     nl +:+ "Available users: User1, User2, User3, User4, User5";
     "Enter user name: ";
     nl +:+ "Recommendations for User1:";
     "- Parasite"; "- Interstellar"; "- Fight Club";
     nl +:+ "Would you like to rate a new movie? (y/n): ";
     "Unrated movies: Interstellar, Fight Club, The Matrix, Parasite";
     "Choose a movie to rate: ";
     "Your rating (1-5): ";
     "Rated Interstellar with 11.0."].
Proof. by vm_compute. Qed.

(** A dialog of the form that was opened before a rating was stored
    replaces that rating.  Two dialogs are opened for User1; the first
    rates Interstellar 5, the second, which still offers Interstellar,
    rates it 1: both submissions succeed and the cell holds 1. *)
Theorem stale_dialog_overwrites :
  let g := form_after [RateNewMovieClick; RateNewMovieClick;
                       DialogTypeRating 0 "5"; DialogSubmit 0;
                       DialogTypeRating 0 "1"; DialogSubmit 0] in
  df_loc (Gui.ratings_df g) "Interstellar" "User1" = Ok 1%float ∧
  displayed g = [ShowRated "User1" "Interstellar" 5%float;
                 ShowRated "User1" "Interstellar" 1%float] ∧
  dialogs g = [].
Proof. by vm_compute. Qed.

Lemma run_gui_form : Launcher.run_gui = Ok form.
Proof. by vm_compute. Qed.

Lemma form_inv : gui_inv form.
Proof.
  apply (init_inv movies_df ratings64 genre_matrix);
    [apply movies_df_wf|apply ratings_df_wf|apply genre_matrix_wf|by_compute|done|done].
Qed.

(** ** The theorems of the recommenders on the sample data

    Each lemma below applies one theorem of the development to the sample
    data, with its hypotheses established by evaluation. *)


Lemma recommend_collaborative_only_unrated_witness :
  ∃ x, df_loc ratings64 "Parasite" "User1" = Ok x ∧ isnan x = true.
Proof.
  eapply (recommend_collaborative_only_unrated "User1" ratings64 3 false
            ["Parasite"; "Interstellar"; "Fight Club"]);
    [apply ratings_df_wf|by_eval|by_compute].
Defined.

Lemma recommend_collaborative_sorted_witness :
  ∃ s ranked,
    Main.sim_scores_for "User1" ratings64 = Ok s ∧
    ranked.*1 = ["Parasite"; "Interstellar"; "Fight Club"] ∧
    Forall (scored ratings64 s (Main.similar_users s)) ranked ∧
    Sorted (λ p q, (p.2 <? q.2)%sc = false) ranked.
Proof.
  eapply (recommend_collaborative_sorted "User1" ratings64 3 false);
    [apply ratings_df_wf|by_eval].
Defined.

Lemma recommend_collaborative_unknown_user_witness :
  rec_collab "User9" ratings64 3 false = Raise (KeyError "User9") ∧
  is_Ok (rec_collab "User1" ratings64 3 false).
Proof.
  split.
  - apply (proj1 (recommend_collaborative_unknown_user "User9" ratings64 3 false)).
    by_compute.
  - apply (proj2 (recommend_collaborative_unknown_user "User1" ratings64 3 false));
      [apply ratings_df_wf|by_compute].
Defined.

Lemma recommend_collaborative_NoDup_witness :
  NoDup ["Parasite"; "Interstellar"; "Fight Club"].
Proof.
  eapply (recommend_collaborative_NoDup "User1" ratings64 3 false);
    [apply ratings_df_wf|by_eval].
Defined.

Lemma recommend_collaborative_length_witness :
  length ["Inception"; "The Matrix"] =
    if (0 <=? -1)%Z then Z.to_nat (-1) `min` length ["Inception"; "Pulp Fiction"; "The Matrix"]
    else length ["Inception"; "Pulp Fiction"; "The Matrix"] - Z.to_nat (- -1).
Proof.
  eapply (recommend_collaborative_length "User3" ratings64 (-1) false);
    [apply ratings_df_wf|by_eval|by_eval].
Defined.

Lemma recommend_collaborative_all_witness :
  ["Inception"; "The Matrix"; "Pulp Fiction"] ≡ₚ
  ["Inception"; "Pulp Fiction"; "The Matrix"].
Proof.
  eapply (recommend_collaborative_all "User3" ratings64 10 false);
    [apply ratings_df_wf|by_eval|by_eval|simpl; lia].
Defined.

Lemma recommend_content_based_excludes_reference_witness :
  "Inception" ∈ index genre_matrix ∧ "Inception" ∉ ["Parasite"; "Memento"].
Proof.
  split; [by_compute|].
  eapply (recommend_content_based_excludes_reference (T:=float) all_genres
            "Inception" genre_matrix 2 true).
  by_eval.
Defined.

Lemma recommend_content_based_unknown_witness :
  rec_content all_genres "Nope" genre_matrix 3 true = Ok ([], None, None) ∧
  is_Ok (rec_content all_genres "Inception" genre_matrix 3 true).
Proof.
  split.
  - apply (proj1 (recommend_content_based_unknown (T:=float) all_genres "Nope"
                    genre_matrix 3 true)).
    by_compute.
  - apply (proj2 (recommend_content_based_unknown (T:=float) all_genres "Inception"
                    genre_matrix 3 true));
      [apply genre_matrix_wf|intros _; by_compute].
Defined.

Lemma recommend_content_based_length_witness :
  (Z.of_nat (length ["Parasite"; "Memento"]) ≤ 2)%Z.
Proof.
  eapply (recommend_content_based_length (T:=float) all_genres "Inception"
            genre_matrix 2 true);
    [lia|by_eval].
Defined.

Lemma recommend_content_based_negative_witness :
  ["Parasite"; "Memento"; "The Matrix"; "Fight Club"; "Interstellar"; "Whiplash";
   "Forrest Gump"; "Pulp Fiction"; "The Dark Knight"] ≡ₚ
  filter (λ x, x ≠ "Inception") (index genre_matrix).
Proof.
  eapply (recommend_content_based_negative (T:=float) all_genres "Inception"
            genre_matrix (-1) false);
    [apply genre_matrix_wf|by_compute|lia|by_eval].
Defined.

Lemma similarities_table_row_witness :
  ∃ i, index genre_matrix !! i = Some "Inception" ∧
       cosine_similarity (to_float_rows (values genre_matrix)) !! i =
         Some [0x1.ffffffffffffep-1; 0; 0x1.ffffffffffffep-2; 0; 0;
               0x1.ffffffffffffep-2; 0x1.ffffffffffffep-2; 0x1.ffffffffffffep-2;
               0x1.ffffffffffffep-2; 0]%float.
Proof.
  apply (similarities_table_row (T:=float) genre_matrix "Inception");
    [apply genre_matrix_wf|by_eval].
Defined.

Lemma submit_rating_reads_back_witness :
  py_float "4" = Ok 4%float ∧
  df_loc ratings64' "Interstellar" "User1" = Ok 4%float ∧
  (4%float <? of_Z 1)%sc = false ∧ (4%float >? of_Z 5)%sc = false.
Proof.
  apply (submit_rating_reads_back py_float ratings64 "User1" "Interstellar" "4");
    [apply ratings_df_wf|by_eval].
Defined.

Lemma submit_rating_out_of_range_witness :
  submit py_float ratings64 "User1" "Interstellar" "6" = (ratings64, InvalidRange).
Proof.
  apply (submit_rating_out_of_range py_float ratings64 "User1" "Interstellar" "6" 6%float);
    [done|right; by_eval].
Defined.

Lemma submit_rating_not_a_number_witness :
  submit py_float ratings64 "User1" "Interstellar" "four" = (ratings64, NotANumber).
Proof. by apply (submit_rating_not_a_number py_float _ _ _ _ ValueError). Defined.

Lemma submit_rating_failure_unchanged_witness : ratings64 = ratings64.
Proof.
  apply (submit_rating_failure_unchanged py_float ratings64 "User1" "Interstellar"
           "0" ratings64 InvalidRange);
    [by_eval|done].
Defined.

Lemma submit_rating_wf_witness :
  df_wf (submit py_float ratings64 "User1" "Interstellar" "4").1.
Proof. apply submit_rating_wf, ratings_df_wf. Defined.

Lemma submit_rating_frame_witness :
  index ratings64' = index ratings64 ∧ columns ratings64' = columns ratings64 ∧
  ∀ m u, (m, u) ≠ ("Interstellar", "User1") →
    df_loc ratings64' m u = df_loc ratings64 m u.
Proof.
  apply (submit_rating_frame py_float ratings64 "User1" "Interstellar" "4"
           ratings64' (Success 4%float));
    [by_compute|by_compute|by_eval].
Defined.

Lemma rated_movie_not_recommended_witness :
  submit py_float ratings64 "User1" "Interstellar" "4" = (ratings64', Success 4%float) ∧
  "Interstellar" ∉ ["Parasite"; "Fight Club"; "The Matrix"].
Proof.
  split; [by_eval|].
  eapply (rated_movie_not_recommended py_float ratings64 "User1" "Interstellar"
            "4" ratings64' 4%float 3 false);
    [apply ratings_df_wf|by_eval|by_eval|by_eval].
Defined.

Lemma df_T_involutive_witness : df_T (df_T ratings64) = ratings64.
Proof. apply df_T_involutive, ratings_df_wf. Defined.

Lemma df_T_loc_witness :
  df_loc (df_T ratings64) "User2" "Parasite" = df_loc ratings64 "Parasite" "User2".
Proof. apply df_T_loc; [apply ratings_df_wf|by_compute|by_compute]. Defined.

Lemma fillna_no_nan_witness :
  Forall (Forall (λ x : float, isnan x = false)) (values (fillna zero ratings64)).
Proof. apply fillna_no_nan. by_eval. Defined.

Lemma similarity_frame_symmetric_witness :
  df_loc (Main.user_sim_matrix ratings64) "User3" "User1" =
    Ok 0x1.01b5f44b77693p-1%float.
Proof.
  unfold Main.user_sim_matrix. apply similarity_frame_symmetric. by_eval.
Defined.

Lemma main_only_raises_EOFError_witness :
  (main64 (terminal ["3"; "x"])).2 = Raise EOFError ∧ EOFError = EOFError.
Proof.
  split; [by_eval|].
  apply (main_only_raises_EOFError py_float movies_df genre_matrix all_genres
           movies_df_wf ltac:(by_compute) genre_matrix_wf eq_refl ltac:(by_compute)
           (terminal ["3"; "x"]));
    [apply ratings_df_wf|by_eval].
Defined.

Lemma main_returns_witness :
  (main64 (terminal ["2"; "2"; "n"; "y"; "Inception"; ""; ""])).2 = Ok tt.
Proof.
  apply (main_returns py_float movies_df genre_matrix all_genres
           movies_df_wf ltac:(by_compute) genre_matrix_wf eq_refl ltac:(by_compute));
    [apply ratings_df_wf|simpl; lia].
Defined.

Lemma main_fills_one_missing_rating_witness :
  stutter_or cli_store ratings64
    (ratings (main64 (terminal ["1"; "3"; "n"; "n"; "User2"; "y"; "Memento"; "4"])).1).
Proof.
  apply (main_fills_one_missing_rating py_float movies_df genre_matrix all_genres
           movies_df_wf ltac:(by_compute) genre_matrix_wf eq_refl ltac:(by_compute)
           (terminal ["1"; "3"; "n"; "n"; "User2"; "y"; "Memento"; "4"])).
  apply ratings_df_wf.
Defined.

Lemma main_rating_session_witness :
  ∃ r, Main.recommend_collaborative "User1" ratings64 3 false = Ok r ∧
    main64 (terminal ["1"; ""; "n"; "n"; "User1"; "y"; " Parasite"; "-7 "]) =
      (mkWorld []
         ([] ++ questions ++ collaborative_output ratings64 "User1" false false r ++
          rating_output ["Interstellar"; "Fight Club"; "The Matrix"; "Parasite"]
            "Parasite" (-7)%float)
         (df_loc_set nan ratings64 "Parasite" "User1" (-7)%float), Ok tt).
Proof.
  eexists. split; [by_eval|].
  apply (main_rating_session py_float movies_df genre_matrix all_genres
           "1" "" "n" "n" "User1" "y" " Parasite" "-7 " [] [] ratings64);
    [by_eval|by_compute|by_eval|by_eval|by_eval|by_compute|by_eval].
Defined.

Lemma read_top_n_default_witness :
  (read_top_n (terminal ["three"])).2 = Ok 3%Z.
Proof.
  apply (read_top_n_default "three" []); [done|right; by_eval].
Defined.

Lemma reachable_inv_witness :
  gui_inv (form_after [SelectUser "User3"]) ∧
  same_data form (form_after [SelectUser "User3"]).
Proof.
  apply (reachable_inv tk_getint py_float form); [apply form_inv|].
  apply (reachable_step _ _ _ form (SelectUser "User3")); [apply reachable_refl|].
  split; [by_compute|by_eval].
Defined.

Lemma handle_raises_only_getint_witness :
  tk_getint (top_n_var (form_after [TypeTopN "abc"])) = Raise TclError.
Proof.
  apply (handle_raises_only_getint tk_getint py_float RecommendClick);
    [apply run_inv, form_inv|done|by_eval].
Defined.

Lemma init_inv_witness : gui_inv form.
Proof.
  apply (init_inv movies_df ratings64 genre_matrix);
    [apply movies_df_wf|apply ratings_df_wf|apply genre_matrix_wf|by_compute|done|done].
Defined.

Lemma recommend_click_collaborative_witness :
  (recommend_click tk_getint form).1 =
    set_result_box
      ("Top recommendations for User1:" +:+ nl +:+ "1. Parasite" +:+ nl +:+
       "2. Interstellar" +:+ nl +:+ "3. Fight Club" +:+ nl) form.
Proof.
  assert (Collaborative.GUI.recommend_collaborative (Gui.ratings_df form)
            (user_var form) 3 = Ok ["Parasite"; "Interstellar"; "Fight Club"])
    as Hrecs by by_eval.
  rewrite (recommend_click_collaborative tk_getint form 3 _ eq_refl eq_refl Hrecs).
  by_eval.
Defined.

(** *** The rankings *)

Lemma recommend_collaborative_refines_witness :
  recommends "User1" ratings64 3 ["Parasite"; "Interstellar"; "Fight Club"] ∧
  ∀ recs', recommends "User1" ratings64 3 recs' →
    recs' = ["Parasite"; "Interstellar"; "Fight Club"].
Proof.
  eapply (recommend_collaborative_refines "User1" ratings64 3 false);
    [apply ratings_df_wf|by_eval|by_eval|by_eval|by_compute].
Defined.

Lemma recommend_collaborative_best_first_witness : (4%float <? 1%float)%sc = false.
Proof.
  eapply (recommend_collaborative_best_first "User1" ratings64 3 false
            _ _ _ _ _ "Interstellar" "The Matrix");
    [apply ratings_df_wf|by_eval|by_eval|by_eval|by_compute|by_compute
    |by_compute|by_compute|by_eval|by_eval].
Defined.

Lemma recommend_collaborative_ties_witness :
  ["Inception"; "The Matrix"] `sublist_of` index ratings64.
Proof.
  eapply (recommend_collaborative_ties "User3" ratings64 3 false
            _ _ _ _ _ "Inception" "The Matrix" 5%float 5%float);
    [apply ratings_df_wf|by_eval|by_eval|by_eval|by_compute|by_compute
    |by_eval|by_eval|by_eval].
Defined.

Lemma similar_users_nearest_witness :
  (0x1.0cea6317186dcp-1%float <? 0x1.38b23072bcefep-2%float)%sc = false ∧
  (isnan 0x1.0cea6317186dcp-1%float = true →
   isnan 0x1.38b23072bcefep-2%float = true).
Proof.
  eapply (similar_users_nearest "User1" ratings64 _ "User4" "User2");
    [apply ratings_df_wf|by_eval|by_compute|by_compute|by_eval|by_eval].
Defined.

Lemma recommend_content_based_best_first_witness :
  np_lt 0x1.ffffffffffffep-2%float 0%float = false.
Proof.
  eapply (recommend_content_based_best_first (T:=float) all_genres "Inception"
            genre_matrix 2 false _ _ _ _ "Parasite" "Whiplash" 8 9);
    [apply genre_matrix_wf|by_eval|by_eval|by_compute|by_compute|done
    |by_eval|by_eval|by_eval|by_eval].
Defined.


(** *** The form and the store *)

Lemma form_refines_store_witness :
  let g := form_after (rate_actions 0 "User1" "Parasite" "4") in
  rtc form_store (Gui.ratings_df form) (Gui.ratings_df g) ∧
  ∀ a g', step tk_getint py_float g a g' →
    stutter_or form_store (Gui.ratings_df g) (Gui.ratings_df g').
Proof.
  apply (form_refines_store tk_getint py_float form);
    [apply form_inv|apply run_reachable].
Defined.

Lemma reachable_ratings_in_range_witness :
  df_loc (Gui.ratings_df form) "Parasite" "User1" = Ok 4%float ∨ in_range 4%float.
Proof.
  apply (reachable_ratings_in_range tk_getint py_float form
           (form_after (rate_actions 0 "User1" "Parasite" "4")));
    [apply form_inv|apply run_reachable|by_eval].
Defined.

Lemma rating_can_be_stored_witness :
  let g' := form_after (rate_actions 0 "User1" "Parasite" "4") in
  reachable tk_getint py_float form g' ∧
  df_loc (Gui.ratings_df g') "Parasite" "User1" = Ok 4%float ∧
  dialogs g' = dialogs form.
Proof.
  eapply (rating_can_be_stored tk_getint py_float form "User1" "Parasite" "4");
    [apply form_inv|by_eval|by_eval|by_eval|by_compute].
Defined.

Lemma rated_movie_not_listed_witness :
  let g' := form_after (rate_actions 0 "User1" "Parasite" "4" ++ [RecommendClick]) in
  ∃ recs,
    Collaborative.GUI.recommend_collaborative (Gui.ratings_df g') "User1" 3 = Ok recs ∧
    result_box g' = collaborative_listing "User1" recs ∧ ("Parasite" ∉ recs) ∧
    df_loc (Gui.ratings_df g') "Parasite" "User1" = Ok 4%float.
Proof.
  eapply (rated_movie_not_listed tk_getint py_float form "User1" "Parasite" "4");
    [apply form_inv|by_eval|by_eval|by_eval|by_eval|by_eval|by_compute|by_eval].
Defined.

(** ** The conversions on the texts of the sample sessions *)

(** The explanation lines of a result of [recommend_collaborative], as
    text. *)
Definition explanation
    (r : list string * option (list (explain_line float)) * DataFrame float)
  : option (list string) :=
  fmap (M:=list) render_explain <$> r.1.2.

(** The explanation of the recommendations for User1, as the program
    prints it: the ratings with [str], the similarities with two
    decimals. *)
Theorem explanation_text_User1 :
  explanation <$> Main.recommend_collaborative "User1" ratings64 3 true =
  Ok (Some
    ["Interstellar: recommendations influenced by User3 (rated 4.0, sim 0.50)";
     "Fight Club: recommendations influenced by User4 (rated 2.0, sim 0.53), " +:+
       "User3 (rated 3.0, sim 0.50)";
     "The Matrix: recommendations influenced by User4 (rated 1.0, sim 0.53)";
     "Parasite: recommendations influenced by User4 (rated 4.0, sim 0.53), " +:+
       "User3 (rated 5.0, sim 0.50)"]).
Proof. by vm_compute. Qed.

(** What [float()] makes of what an operator may type. *)
Theorem py_float_examples :
  py_float <$> [" 4.5 "; "1e0"; "1_0"; ".5"; "5."; "+inf"; "-0"; "1e400"; "4,5"; "four"; ""] =
    [Ok 4.5%float; Ok 1%float; Ok 10%float; Ok 0.5%float; Ok 5%float; Ok infinity;
     Ok (-0)%float; Ok infinity; Raise ValueError; Raise ValueError; Raise ValueError].
Proof. by vm_compute. Qed.

(** What [str] and [:.2f] show of a float. *)
Theorem float_text_examples :
  (λ x, (float_str x, format_2f x)) <$>
    [4; 4.5; 0x1.999999999999ap-4; 1e16; 0x1.4f8b588e368f1p-17; 0.125;
     0x1.5666666666666p+1; -0; 0x1.0cea6317186dcp-1; nan]%float =
    [("4.0", "4.00"); ("4.5", "4.50"); ("0.1", "0.10"); ("1e+16", "10000000000000000.00");
     ("1e-05", "0.00"); ("0.125", "0.12"); ("2.675", "2.67"); ("-0.0", "-0.00");
     ("0.5252257314388902", "0.53"); ("nan", "nan")].
Proof. by vm_compute. Qed.

(** The message boxes of a session of the form: two ratings of the same
    movie from two dialogs, then the text [nan], a rating out of range and
    a text that is not a number. *)
Theorem form_messages :
  messages (form_after
    [RateNewMovieClick; RateNewMovieClick;
     DialogTypeRating 0 "5"; DialogSubmit 0; DialogTypeRating 0 "1e0"; DialogSubmit 0;
     RateNewMovieClick; DialogTypeRating 0 "nan"; DialogSubmit 0;
     RateNewMovieClick; DialogTypeRating 0 "5.5"; DialogSubmit 0;
     DialogTypeRating 0 "five"; DialogSubmit 0]) =
  [("Success", "User1 rated 'Interstellar' with 5.0.");
   ("Success", "User1 rated 'Interstellar' with 1.0.");
   ("Success", "User1 rated 'Fight Club' with nan.");
   ("Invalid Rating", "Rating must be between 1 and 5.");
   ("Invalid Rating", "Please enter a number between 1 and 5.")].
Proof. by vm_compute. Qed.

Lemma submit_rating_number_or_nan_witness :
  (nan_text " NaN " ∧ is_nan nan = true) ∨
  (¬ nan_text " NaN " ∧ (1 <=? nan)%float = true ∧ (nan <=? 5)%float = true).
Proof.
  eapply (submit_rating_number_or_nan ratings64 "User1" "Interstellar" " NaN ").
  by_eval.
Defined.

Lemma format_2f_reads_back_witness :
  py_float (format_2f 0x1.0cea6317186dcp-1) = Ok (decimal false 53 (-2)).
Proof. exact (format_2f_reads_back 0x1.0cea6317186dcp-1 _ _ _ eq_refl). Defined.

Lemma recommend_collaborative_explanation_witness :
  ∃ s unrated expl,
    Main.sim_scores_for "User1" ratings64 = Ok s ∧
    isna_index ratings64 "User1" = Ok unrated ∧
    expl.*1 = ["Interstellar"; "Fight Club"; "The Matrix"; "Parasite"] ∧
    expl.*1 = filter (explainable ratings64 (Main.similar_users s)) unrated ∧
    Forall (λ line : explain_line float,
              line.2.*1.*1 =
                filter (λ v, is_rated ratings64 line.1 v = true) (Main.similar_users s))
           expl.
Proof.
  eexists _, _, _. split; [by_eval|]. split; [by_eval|]. split; [|
    eapply (recommend_collaborative_explanation "User1" ratings64 3); by_eval].
  by_eval.
Defined.

Lemma recommend_content_based_zero_witness :
  ["Parasite"; "Whiplash"; "Memento"; "Forrest Gump"; "Pulp Fiction"; "Interstellar";
   "Inception"; "The Matrix"; "The Dark Knight"] ≡ₚ
  filter (λ x, x ≠ "Fight Club") (index genre_matrix).
Proof.
  eapply (recommend_content_based_zero (T:=float) all_genres "Fight Club" genre_matrix
            false _ _ _ _ 8 "Parasite" genre_matrix_wf);
    by_eval.
Defined.

Lemma recommend_content_based_nonpositive_witness :
  if decide (0%Z = 0%Z ∧ "Parasite" = "Fight Club") then
    ["Parasite"; "Whiplash"; "Memento"; "Forrest Gump"; "Pulp Fiction"; "Interstellar";
     "Inception"; "The Matrix"; "The Dark Knight"] = []
  else
    ["Parasite"; "Whiplash"; "Memento"; "Forrest Gump"; "Pulp Fiction"; "Interstellar";
     "Inception"; "The Matrix"; "The Dark Knight"] ≡ₚ
    filter (λ x, x ≠ "Fight Club") (index genre_matrix).
Proof.
  eapply (recommend_content_based_nonpositive (T:=float) all_genres "Fight Club"
            genre_matrix 0 false _ _ _ _ 8 "Parasite" genre_matrix_wf);
    [lia|by_eval..].
Defined.

(** The form with two dialogs opened for User1, after the first has rated
    Interstellar 5 and the text 1 has been typed in the second. *)
Definition stale_form : gui float :=
  form_after [RateNewMovieClick; RateNewMovieClick;
              DialogTypeRating 0 "5"; DialogSubmit 0; DialogTypeRating 0 "1"].

Lemma dialog_submit_replaces_witness :
  let g' := (handle tk_getint py_float (DialogSubmit 0) stale_form).1 in
  step tk_getint py_float stale_form (DialogSubmit 0) g' ∧
  is_Ok (df_loc (Gui.ratings_df stale_form) "Interstellar" "User1") ∧
  df_loc (Gui.ratings_df g') "Interstellar" "User1" = Ok 1%float ∧
  dialogs g' = delete 0 (dialogs stale_form).
Proof.
  apply (dialog_submit_replaces tk_getint py_float stale_form 0
           (mkDialog "User1" ["Interstellar"; "Fight Club"; "The Matrix"; "Parasite"]
              "Interstellar" "1") 1%float);
    [apply run_inv, form_inv|by_eval|by_eval|by_compute].
Defined.

Lemma main_collaborative_session_witness :
  ∃ r, Main.recommend_collaborative "User1" ratings64 3 true = Ok r ∧
    main64 (terminal [" 1"; ""; "n"; "Y"; " User1 "; "n"]) =
      (mkWorld [] ([] ++ questions ++ collaborative_output ratings64 "User1" false true r)
         ratings64, Ok tt).
Proof.
  eexists. split; [by_eval|].
  apply (main_collaborative_session py_float movies_df genre_matrix all_genres
           " 1" "" "n" "Y" " User1 " "n" [] [] ratings64);
    [by_eval|by_compute|by_eval|by_eval].
Defined.

Lemma main_content_session_witness :
  ∃ r, rec_content all_genres "Inception" genre_matrix 2 true = Ok r ∧
    main64 (terminal ["2"; "2"; "n"; "y"; "Inception"]) =
      (mkWorld [] ([] ++ questions ++ content_output movies_df "Inception" false true r)
         ratings64, Ok tt).
Proof.
  eexists. split; [by_eval|].
  apply (main_content_session py_float movies_df genre_matrix all_genres
           movies_df_wf ltac:(by_compute) ltac:(by_eval)
           "2" "2" "n" "y" "Inception" [] [] ratings64);
    [by_eval|by_compute|by_eval].
Defined.

Lemma recommend_content_based_take_witness :
  ["Parasite"; "Memento"] =
  take (Z.to_nat 2)
    (filter (λ x, x ≠ "Inception")
       (titles_of genre_matrix
          (similar_idx
             [0x1.ffffffffffffep-1; 0; 0x1.ffffffffffffep-2; 0; 0;
              0x1.ffffffffffffep-2; 0x1.ffffffffffffep-2; 0x1.ffffffffffffep-2;
              0x1.ffffffffffffep-2; 0]%float))).
Proof.
  eapply (recommend_content_based_take (T:=float) all_genres "Inception" genre_matrix
            2 false);
    [lia|by_eval|by_eval].
Defined.

Lemma recommend_content_based_explanation_witness :
  ∃ lines,
    Some [("Parasite", ["Thriller"]); ("Memento", ["Thriller"])] = Some lines ∧
    lines.*1 = ["Parasite"; "Memento"] ∧
    Forall (explains all_genres genre_matrix "Inception") lines.
Proof.
  eapply (recommend_content_based_explanation (T:=float) all_genres "Inception"
            genre_matrix 2);
    [by_compute|by_eval].
Defined.
